(* ===== verification/_CoqProject ===== *)
-Q . S2P
Prelude.v
Status.v
Oid.v
Sampler.v
OldSampler.v
Topology.v
Config.v
OldBackend.v
Resolver.v
Snapshots.v
Timestamp.v
Geometry.v
Fanout.v
Canvas.v
Scale.v
Render.v
Frontend.v
Backend.v
Ui.v
Hud.v
Sidebar.v
Layout.v
Session.v
CopyButton.v
OldServer.v
OldFrontend.v
