(* ===== verification/Prelude.v ===== *)
(** * A verification development for ts-weathermap

    ts-weathermap polls SNMP interface counters on a set of routers, turns
    them into throughput, utilisation and health, and draws a topology map.
    This library models the telemetry engine and the link model of the
    repository and proves the properties that make them correct.

    ** The program and how its parts interact

    - Counter sampler ([src/unnamed/part_000], the current [snmp.ts]; the
      older [src/src/snmp.ts] has the same throughput arithmetic): for each
      router, [pollRouter] validates every OID ([sanitizeOid]), asks the
      SNMP agent for the counters of each interface, and converts the raw
      cumulative octet counters into rates with [computeThroughput] against
      a module-level cache [sampleCache] keyed by [cacheKey].  Utilisation
      and a status ([metricStatus]) follow per interface, and a router
      status by [combineStatuses].  [pollRouters] runs [pollRouter] for all
      routers concurrently.
    - Topology resolver ([src/src/backend.ts], second half:
      [toRouterMetrics], [toLinkMetrics]): turns a poll snapshot into the
      metrics message, filling routers and interfaces absent from the
      snapshot with explicit error entries, and gives every link its
      forward/reverse metrics and aggregate utilisation.
    - Configuration loader ([loadRuntimeConfig] in [backend.ts]): turns
      the YAML document into the topology the resolver reads and the poll
      configuration the sampler reads, rejecting ill-formed documents; the
      resolver trusts that every link it produces resolves.
    - Poll loop ([pollLoop], configuration reload by file watch): polls
      with the poll configuration, resolves with the topology, publishes
      one metrics payload per cycle to the WebSocket clients and the HTTP
      routes, and always reschedules.
    - Geometry ([src/src/shared/path-utils.ts] [splitPathAtHalf];
      [computeAutoPath] and [computeLinkPaths] in [src/src/map-renderer.ts]
      and [src/src/frontend/main.ts]).
    - Renderer: the offline renderer [src/src/map-renderer.ts] and the
      interactive one in [src/src/frontend/main.ts] share the colour scale
      [utilToColor], the stroke width [capacityToWidth] and the split link
      drawing [drawLink].

    ** Files, modules and what they model

    - [Prelude] (this file): the [wm_scope] notations for the JavaScript
      idioms the code uses ([??], truthiness of strings, [let*] of the
      error monad [Result] that models [throw]), boolean comparisons on
      [Q], decimal printing of indices, the hint database [wm], the tactics
      [case_qle], [case_qlt], [q_cases], [q_eval], [q_contra], [z_cases],
      [res_inv], [decide_by_compute],
      and the shared lemmas on loops over maps ([fold_insert_own],
      [fold_update_own], [fold_partial_alter_own], [fold_insert_in]) and on
      [res_mapi]; the stable sort [sort_desc] that models
      [Array.prototype.sort] with a decreasing numeric key, with its
      permutation, order and filtering lemmas.
    - [Status]: [MetricStatus], [STATUS_ORDER], [metricStatus],
      [combineStatuses] ([src/src/snmp.ts], identical in
      [src/unnamed/part_000]); [combineStatuses] refines the maximum of
      the severity order.
    - [Oid]: [sanitizeOid] with the JavaScript string operations it uses
      ([trim], [split], [filter(Boolean)], the digit test, [join]);
      validation is idempotent.
    - [Sampler]: the data of [part_000], [computeThroughput], and
      [pollRouter] as three loops over [sample.interfaces] and the
      explicit [sampleCache]; [pollRouters] as the sequence of the
      routers' atomic cache phases in the order their SNMP answers
      complete.  Theorems: the throughput on every branch, wrap handling,
      the reference semantics [pollRouter_ref] that [pollRouter] refines,
      failure isolation, query errors, two consecutive cycles, order
      independence of concurrent polls, and the [cacheKey] collision that
      breaks it.
    - [OldSampler]: the earlier [src/src/snmp.ts] [pollRouter], with one
      [session.get] per router and the map [oidMap] from OIDs back to
      interfaces.  Theorem: on an agent that answers every OID it is
      equivalent to the current sampler; examples of where it is not (a
      rejected request fails every interface, a shared OID leaves a
      counter unread).
    - [Topology]: the shared types of [shared/types.ts].
    - [Config]: the loader of [backend.ts] from the parsed YAML document:
      [normaliseRouters], [normalizePath], [normaliseLinks],
      [resolveDataPath], [loadRuntimeConfig], with their error messages.
      Theorems: loaded links resolve, poll configuration and topology
      agree, the background path is confined except for [".."], and
      duplicate link ids and interface names are accepted.
    - [OldBackend]: the loader of the first version of [backend.ts]
      (lines 99-223), whose poll configuration is [OldSampler]'s, with
      its [resolveDataPath] over [path.join] and [path.isAbsolute].
      Theorem: on documents with complete interfaces and positive
      capacities the current loader refines it (same errors, same
      topology, converted poll configuration); its background path can
      leave the data directory.
    - [Resolver]: [toRouterMetrics], [toLinkMetrics]; completeness over the
      topology, the aggregate as a maximum, resolved links have data.
    - [Geometry]: [splitPathAtHalf] ([path-utils.ts]) with its two loops
      ([segmentLengths]/[totalLength] and the walk [split_walk]) and
      [computeAutoPath] ([map-renderer.ts]; identical in
      [frontend/main.ts]).  Theorems: each half of a split path has half
      the length and they meet at the midpoint, the two-point and the
      degenerate cases, and the offsets of groups of one, two and three.
    - [Fanout]: [computeLinkPaths] ([map-renderer.ts]; [rebuildLinkPaths]
      of [frontend/main.ts] is the same code): manual paths, the group map
      keyed by the sorted endpoint pair, the sort of a group by id (the
      runtime's [localeCompare] is a parameter), one [computeAutoPath] per
      link.  The general lemma [link_path_auto] gives every link without
      waypoints the automatic path of its position in its sorted group;
      the theorems: parallel links fan out symmetrically, links declared in
      opposite directions coincide, and the ["::"] group key merges
      unrelated links.
    - [Snapshots]: the image directory and [collectSnapshotFiles],
      [pruneSnapshots] of [backend.ts], with the file
      [renderMapSnapshot] writes.  Theorems: pruning keeps exactly the
      fifty newest snapshots and nothing else is touched (the README
      says the app prunes nothing: a finding); a file with a
      later modification time stays the latest image after a save.
    - [Timestamp]: [formatFileTimestamp], [formatLabelTimestamp] and the
      name and label [renderMapSnapshot] uses, over the local-time getters
      of a [Date].  Theorems: the file name reads back to its date, so
      snapshots of different seconds are different files, and a second
      snapshot in the same second overwrites the first.
    - [Backend]: the server state (with the image directory) and
      [pollLoop] split at its [await]s, with reloads and WebSocket
      connections, as a step relation; reachable states by rule
      induction.  Theorems: the loop never stops and never runs twice,
      the published payload is the one a poll-done step resolved against
      the configuration then loaded, and is complete for it; the served
      snapshot changes only on publication; from any state with a cycle
      in flight, a reload followed by the end of that cycle publishes the
      old routers' snapshot resolved against the new topology; and at
      most fifty images are kept, the newest being served (the README
      says there is no pruning: a finding).
    - [OldServer]: the server of the first version of [backend.ts]
      (lines 326-417): its state, the events as an inductive type and
      their handlers, with [OldSampler]'s [pollRouters] and
      [OldBackend]'s loader.  Theorem: a star simulation into [Backend]'s
      step relation; every run of the earlier server on documents both
      loaders read alike and agents answering every OID is matched by a
      reachable state of the current server with the same WebSocket
      messages and API answers: the current server can show its clients
      everything the earlier one did.
    - [Canvas]: the part of the canvas 2D context both renderers use, as
      a command type [Cmd] and its interpreter [run] on a [Canvas] record
      (drawing state, [save] stack, current path, the marks painted).
      [balanced] command lists restore the state they start from.  This
      is a library model: none of its definitions is repository code.
    - [Scale]: the colour scale [UTILIZATION_BUCKETS]/[utilToColor] and
      the link capacities [computeLinkCapacities] of [map-renderer.ts].
      Theorem: bucket colours, the last colour above 1.01, monotonicity
      of the legend position.
    - [Render]: the drawing of [map-renderer.ts] as command lists:
      [drawPathStroke], [drawHalfStroke], [capacityToWidth], [drawLink],
      [drawRouter], [drawLegendOverlay], [drawBackground] and the frame of
      [renderMapSnapshot].  Theorems: a link is two strokes, one per
      direction, meeting at the midpoint; the width scale and its bounds;
      the legend shows the scale; every component restores the state.
    - [Frontend]: the pure functions of [frontend/main.ts] (its first
      912 lines): [escapeHtml], [roundedRect], the frontend's copies of
      the colour scale, [rebuildLinkCapacities] with the metrics' and the
      configuration's capacities, and the drawing functions.  Theorems:
      escaping is safe and loses nothing, the frontend draws a link and a
      router with exactly the offline renderer's commands, and the two
      back-ends size a link differently when the probed speed differs
      from the configured one.
    - [Ui]: the module-level state of [frontend/main.ts] as the record
      [Ui] and every event handler (fetch results, WebSocket messages,
      pointer, keyboard, buttons, background image, resize) as one
      deterministic step [ui_step]; the browser's window metrics, URL
      resolution, text widths and [localeCompare] are section variables.
      Theorem: every reachable state satisfies the invariant [ui_inv]
      (drags only in layout mode, derived maps coherent, canvas context
      pristine between frames).
    - [Hud]: the numbers the sidebar of [frontend/main.ts] prints:
      [formatPercent], [formatThroughput] with its unit loop
      [scale_down], [renderUtilBar], the top-five [linkRanking] and its
      list items, the values of an interface row; JavaScript's number
      printing is a section variable.  Theorems: the unit loop stops
      within its fuel at one of the five units, the printed value is the rate in its unit (below
      1000 unless Tbps, at least 1 unless bps), a bar's width is a
      percentage in [0, 100], the ranking shows the five most utilised
      links, most utilised first.
    - [Sidebar]: [renderHud] as the values its markup interpolates (title,
      last update, legend, top links, router cards with their interface
      rows, buttons, layout panel), [getLayoutSnippet] to the character
      (JavaScript object key order and [JSON.stringify]), the sidebar's
      DOM ([updateSidebarVisibility], the hide button's text) and the
      handlers that update it, step by step with [Ui.ui_step].  Theorem:
      a visible sidebar always shows what [renderHud] renders from the
      current state.
    - [Layout]: the composition of a drag in layout mode
      ([Ui.handlePointerMove], which moves the first router of the
      dragged id) with the snippet [Sidebar.getLayoutSnippet] prints.
      Theorem: after a move of the dragging pointer, the snippet's entries
      are those it had with the dragged router's replaced by the rounded
      position the drag stored, on distinct router ids.
    - [Session]: the frontend's start-up ([fetchInitialTopology],
      [fetchInitialMetrics], [startWebSocket]'s listener, the promise
      chain with its failure message) composed with [Backend] (its HTTP
      handlers and the messages its steps send each client) and [Ui].
      Theorems: in every reachable server state the messages sent to a
      connected client end with the current topology and the latest
      metrics; a browser that fetched, connected on a fresh socket and
      stays connected shows exactly the server's current topology and
      last published metrics.
    - [CopyButton]: [copyLayoutSnippet] and [flashButton] on the layout
      panel's copy button, with the awaited clipboard write and the
      restore timers as events.  Theorem: used one copy at a time the
      button always comes back to "Copy JSON"; two clicks during one
      pending write leave it reading "Copied!".
    - [OldFrontend]: the earlier version of [main.ts] kept after the
      current one (lines 913-1772), where it differs: capacities from the
      configuration only, a link drawn as one stroke of the aggregate
      colour with its label at the middle vertex, an unescaped sidebar
      panel.  Theorems: its capacities are exactly the offline renderer's;
      it draws one stroke and leaves its style on the canvas; on texts
      holding no character [escapeHtml] replaces its panel equals the
      current [renderHud]'s.

    ** Numbers and bounds

    JavaScript numbers are modelled as exact rationals [Q] where the code
    only adds, subtracts, multiplies, divides and compares them (rates,
    utilisations, capacities), as [Z] where they are SNMP counters or
    millisecond timestamps, which are integers, and as real numbers [R]
    in the geometry and the drawing, where [Math.hypot] takes a square
    root and [capacityToWidth] a logarithm; a configured position enters
    the geometry through [pt_of].  Rounding of binary64 is
    not modelled: the theorems state the arithmetic the code means.  One
    definition needs fuel, the [while] loop [scale_down] of
    [formatThroughput]: it runs at most four times (one per unit above
    bps), is given five iterations, and [formatThroughput_loop_terminates]
    shows that is enough and that more change nothing.  Every other loop
    of the code is a [fold_left] or a structural recursion over a list
    the code iterates; the event loop of the frontend is a [fold_left] of
    [ui_step] over the events.

    ** Not modelled

    File and network I/O (YAML reading, [fs] calls, [net-snmp] sessions,
    express and ws, [fetch], the PNG encoder); of the earlier version of
    the backend kept in [backend.ts] (lines 1-417), its resolver, which is
    the current one but for [maxBandwidth ?? 0] (a difference that never
    shows on a topology its loader builds), [/healthz] and its static
    route; the pixels a
    canvas paints and the widths of text (a parameter [measureText]);
    the DOM of the sidebar beyond what [Sidebar], [Session] and
    [CopyButton] model (the fixed text of [renderHud]'s markup); how a
    [Date] obtains its local-time fields (a [LocalDate] is given); of the
    earlier frontend in [main.ts] (lines
    913-1772), the parts that are the current code to the character
    (modelled once, by [Frontend], [Ui] and [Sidebar]); its compiled JavaScript (lines 1773-2491), generated code. *)

From Stdlib Require Import QArith Qminmax ZArith Ascii String List Lia Lqa Sorting.Sorted Permutation.
From stdpp Require Import base option gmap.

Declare Scope wm_scope.
Delimit Scope wm_scope with wm.
Open Scope wm_scope.

(** ** JavaScript idioms *)

(** [o ?? d]: the nullish-coalescing operator. *)
Notation "o ?? d" := (default d o) (at level 45, right associativity) : wm_scope.

(** [Boolean(s)] for an optional string: [undefined], [null] and the empty
    string are falsy. *)
Definition truthy_str (o : option string) : bool :=
  match o with
  | Some s => negb (String.eqb s EmptyString)
  | None => false
  end.

(** [l.length === 0]. *)
Definition is_nil {A} (l : list A) : bool :=
  match l with [] => true | _ => false end.

(** [o !== undefined] for an optional value. *)
Definition is_Some_b {A} (o : option A) : bool :=
  match o with Some _ => true | None => false end.

(** [a < b] on numbers, as a boolean ([a <= b] is [Qle_bool a b]). *)
Definition Qltb (a b : Q) : bool := negb (Qle_bool b a).

(** [Math.max(a, b)] on numbers. *)
Definition jsmax (a b : Q) : Q := if Qle_bool b a then a else b.

(** [Array.prototype.indexOf]: the position of the first element equal to
    [x], or [-1]. *)
Fixpoint index_of {A} `{EqDecision A} (x : A) (l : list A) : Z :=
  match l with
  | [] => (-1)%Z
  | y :: l' => if decide (x = y) then 0%Z
               else let i := index_of x l' in if (i <? 0)%Z then (-1)%Z else (i + 1)%Z
  end.

(** A loop body that updates the entry of its own key in a map. *)
Definition update_own {K V A} `{Countable K} (key : A -> K) (upd : A -> V -> V)
    (m : gmap K V) (a : A) : gmap K V :=
  match m !! key a with
  | Some v => <[key a := upd a v]> m
  | None => m
  end.

(** ** Exceptions

    Code that throws is modelled in an error monad: [inl msg] is
    [throw new Error(msg)], [inr v] a normal return. *)
Definition Result (A : Type) : Type := (string + A)%type.

Definition res_bind {A B} (m : Result A) (k : A -> Result B) : Result B :=
  match m with inl e => inl e | inr a => k a end.

Notation "'let*' x ':=' m 'in' k" := (res_bind m (fun x => k))
  (at level 10, x name, m at level 100, k at level 200) : wm_scope.

(** [xs.map((x, index) => f(x, index))] with a callback that may throw:
    the first exception, in index order, escapes. *)
Fixpoint res_mapi {A B} (f : nat -> A -> Result B) (start : nat) (l : list A) : Result (list B) :=
  match l with
  | [] => inr []
  | x :: l' =>
      let* y := f start x in
      let* ys := res_mapi f (S start) l' in
      inr (y :: ys)
  end.

(** [String(n)] for a natural number: its decimal digits. *)
Fixpoint string_of_uint (d : Decimal.uint) : string :=
  match d with
  | Decimal.Nil => EmptyString
  | Decimal.D0 d => String "0"%char (string_of_uint d)
  | Decimal.D1 d => String "1"%char (string_of_uint d)
  | Decimal.D2 d => String "2"%char (string_of_uint d)
  | Decimal.D3 d => String "3"%char (string_of_uint d)
  | Decimal.D4 d => String "4"%char (string_of_uint d)
  | Decimal.D5 d => String "5"%char (string_of_uint d)
  | Decimal.D6 d => String "6"%char (string_of_uint d)
  | Decimal.D7 d => String "7"%char (string_of_uint d)
  | Decimal.D8 d => String "8"%char (string_of_uint d)
  | Decimal.D9 d => String "9"%char (string_of_uint d)
  end.

Definition string_of_nat (n : nat) : string := string_of_uint (Nat.to_uint n).

(** [String(n)] and [n.toString()] of an integer. *)
Definition string_of_Z (z : Z) : string :=
  if (z <? 0)%Z then ("-" ++ string_of_nat (Z.to_nat (- z)))%string else string_of_nat (Z.to_nat z).

Create HintDb wm.

(** ** Shared lemmas *)

Lemma Qltb_iff (a b : Q) : Qltb a b = true <-> (a < b)%Q.
Proof.
  unfold Qltb. rewrite negb_true_iff. split.
  - intros H. apply Qnot_le_lt. intros H'. apply Qle_bool_iff in H'. congruence.
  - intros H. destruct (Qle_bool b a) eqn:E; [|reflexivity].
    apply Qle_bool_iff in E. exfalso. apply (Qlt_not_le a b); assumption.
Qed.

Lemma Qltb_false (a b : Q) : Qltb a b = false <-> (b <= a)%Q.
Proof.
  unfold Qltb. rewrite negb_false_iff. apply Qle_bool_iff.
Qed.

Lemma Qle_bool_false (a b : Q) : Qle_bool a b = false <-> (b < a)%Q.
Proof.
  split.
  - intros H. apply Qnot_le_lt. intros H'. apply Qle_bool_iff in H'. congruence.
  - intros H. destruct (Qle_bool a b) eqn:E; [|reflexivity].
    apply Qle_bool_iff in E. exfalso. apply (Qlt_not_le b a); assumption.
Qed.

(** Case analysis on a boolean comparison of the code, leaving the
    proposition it decides in the context. *)
Ltac case_qle a b :=
  let E := fresh "Hcmp" in
  destruct (Qle_bool a b) eqn:E;
  [apply Qle_bool_iff in E | apply Qle_bool_false in E].

(** Close a decidable proposition on concrete data by computation. *)
Ltac decide_by_compute := apply (bool_decide_unpack _); vm_compute; exact I.

(** Split every integer comparison [if] of the goal, turning each boolean
    test into the arithmetic fact it decides. *)
Ltac z_cases :=
  repeat match goal with
  | |- context [if ?b then _ else _] =>
      let E := fresh "Ez" in destruct b eqn:E;
      rewrite ?Z.ltb_lt, ?Z.ltb_ge, ?Z.leb_le, ?Z.leb_gt in E
  end.

Ltac case_qlt a b :=
  let E := fresh "Hcmp" in
  destruct (Qltb a b) eqn:E;
  [apply Qltb_iff in E | apply Qltb_false in E].

(** Split every comparison of numbers in the goal, turning each boolean
    test into the order fact it decides. *)
Ltac q_cases :=
  repeat match goal with
  | |- context [Qle_bool ?a ?b] => case_qle a b
  | |- context [Qltb ?a ?b] => case_qlt a b
  end.

(** Evaluate every comparison of numbers in the goal whose outcome the
    hypotheses determine. *)
Ltac q_eval :=
  repeat match goal with
  | |- context [Qle_bool ?a ?b] =>
      first [rewrite (proj2 (Qle_bool_iff a b)) by lra | rewrite (proj2 (Qle_bool_false a b)) by lra]
  | |- context [Qltb ?a ?b] =>
      first [rewrite (proj2 (Qltb_iff a b)) by lra | rewrite (proj2 (Qltb_false a b)) by lra]
  end.

(** Close a goal whose hypotheses contradict each other on [<] and [<=]
    of numbers. *)
Ltac q_contra :=
  match goal with
  | H1 : (?a < ?b)%Q, H2 : (?b <= ?a)%Q |- _ => exfalso; exact (Qlt_not_le a b H1 H2)
  end.

Lemma jsmax_spec (a b : Q) :
  ((b <= a)%Q /\ jsmax a b = a) \/ ((a < b)%Q /\ jsmax a b = b).
Proof. unfold jsmax. case_qle b a; [left | right]; auto. Qed.

Lemma jsmax_ge_l (a b : Q) : (a <= jsmax a b)%Q.
Proof. destruct (jsmax_spec a b) as [[H ->]|[H ->]]; lra. Qed.

Lemma jsmax_ge_r (a b : Q) : (b <= jsmax a b)%Q.
Proof. destruct (jsmax_spec a b) as [[H ->]|[H ->]]; lra. Qed.

Lemma jsmax_lub (a b c : Q) : (a <= c)%Q -> (b <= c)%Q -> (jsmax a b <= c)%Q.
Proof. intros. destruct (jsmax_spec a b) as [[_ ->]|[_ ->]]; assumption. Qed.

Lemma truthy_str_Some (s : string) :
  truthy_str (Some s) = true <-> s <> EmptyString.
Proof.
  simpl. rewrite negb_true_iff. split.
  - intros H ->. discriminate.
  - intros H. apply String.eqb_neq. assumption.
Qed.

Lemma in_le_list_max (n : nat) (l : list nat) : In n l -> n <= list_max l.
Proof.
  induction l as [|m l IH]; simpl; [tauto|].
  intros [->|H]; [lia|]. specialize (IH H). lia.
Qed.

#[export] Hint Resolve in_le_list_max : wm.
#[export] Hint Resolve jsmax_ge_l jsmax_ge_r jsmax_lub : wm.

(** A loop over elements with distinct keys, each updating its own entry,
    leaves every entry updated once and the other entries alone. *)
Lemma fold_update_own {K V A} `{Countable K} (key : A -> K) (upd : A -> V -> V)
    (l : list A) (m : gmap K V) :
  NoDup (map key l) ->
  (forall a, In a l -> fold_left (update_own key upd) l m !! key a = upd a <$> m !! key a) /\
  (forall k, ~ In k (map key l) -> fold_left (update_own key upd) l m !! k = m !! k).
Proof.
  revert m. induction l as [|a l IH]; intros m Hnd; simpl; [split; [tauto | auto]|].
  inversion Hnd as [|? ? Hnotin Hnd']; subst.
  rewrite list_elem_of_In in Hnotin.
  assert (Hstep : forall k, k <> key a -> update_own key upd m a !! k = m !! k).
  { intros k Hk. unfold update_own. destruct (m !! key a); [|reflexivity].
    apply lookup_insert_ne. congruence. }
  destruct (IH (update_own key upd m a) Hnd') as [IHin IHout]. split.
  - intros b [<-|Hb].
    + rewrite IHout by exact Hnotin. unfold update_own.
      destruct (m !! key a) eqn:E; rewrite ?E; [|reflexivity]. rewrite lookup_insert_eq. reflexivity.
    + rewrite IHin by exact Hb. rewrite Hstep; [reflexivity|].
      intros E. apply Hnotin. rewrite <- E. apply in_map, Hb.
  - intros k Hk. rewrite IHout by tauto. apply Hstep. intros ->. apply Hk. left; reflexivity.
Qed.

Lemma fold_left_ext {A B} (f g : A -> B -> A) (l : list B) (x : A) :
  (forall a b, f a b = g a b) -> fold_left f l x = fold_left g l x.
Proof. intros Hfg. revert x. induction l as [|b l IH]; intros x; simpl; [reflexivity|]. rewrite Hfg. apply IH. Qed.

Lemma nil_or_cons {A} (l : list A) : l = [] \/ l <> [].
Proof. destruct l; [left | right]; congruence. Qed.

(** A loop that assigns each element's value at its own key, keys distinct. *)
Lemma fold_insert_own {K V A} `{Countable K} (key : A -> K) (val : A -> V)
    (l : list A) (m : gmap K V) :
  NoDup (map key l) ->
  (forall a, In a l -> fold_left (fun m a => <[key a := val a]> m) l m !! key a = Some (val a)) /\
  (forall k, ~ In k (map key l) -> fold_left (fun m a => <[key a := val a]> m) l m !! k = m !! k).
Proof.
  revert m. induction l as [|a l IH]; intros m Hnd; simpl; [split; [tauto | auto]|].
  inversion Hnd as [|? ? Hnotin Hnd']; subst. rewrite list_elem_of_In in Hnotin.
  destruct (IH (<[key a := val a]> m) Hnd') as [IHin IHout]. split.
  - intros b [Eab|Hb]; [subst b|].
    + rewrite IHout by exact Hnotin. apply lookup_insert_eq.
    + apply IHin, Hb.
  - intros k Hk. rewrite IHout by tauto. apply lookup_insert_ne. intros E. apply Hk. left; exact E.
Qed.

(** A loop that rewrites each element's own entry with [partial_alter],
    keys distinct. *)
Lemma fold_partial_alter_own {K V A} `{Countable K} (key : A -> K)
    (f : A -> option V -> option V) (l : list A) (m : gmap K V) :
  NoDup (map key l) ->
  (forall a, In a l -> fold_left (fun m a => partial_alter (f a) (key a) m) l m !! key a = f a (m !! key a)) /\
  (forall k, ~ In k (map key l) -> fold_left (fun m a => partial_alter (f a) (key a) m) l m !! k = m !! k).
Proof.
  revert m. induction l as [|a l IH]; intros m Hnd; simpl; [split; [tauto | auto]|].
  inversion Hnd as [|? ? Hnotin Hnd']; subst. rewrite list_elem_of_In in Hnotin.
  destruct (IH (partial_alter (f a) (key a) m) Hnd') as [IHin IHout]. split.
  - intros b [Eab|Hb]; [subst b|].
    + rewrite IHout by exact Hnotin. apply lookup_partial_alter_eq.
    + rewrite IHin by exact Hb. rewrite lookup_partial_alter_ne; [reflexivity|].
      intros E. apply Hnotin. rewrite E. apply in_map, Hb.
  - intros k Hk. rewrite IHout by tauto. apply lookup_partial_alter_ne. intros E. apply Hk. left; exact E.
Qed.

(** [list_to_map] of a list whose keys are the images of distinct names. *)
Lemma lookup_list_to_map_own {K V A} `{Countable K} (key : A -> K) (val : A -> V) (l : list A) :
  NoDup (map key l) ->
  (forall a, In a l -> (list_to_map (map (fun a => (key a, val a)) l) : gmap K V) !! key a = Some (val a)) /\
  (forall k, ~ In k (map key l) -> (list_to_map (map (fun a => (key a, val a)) l) : gmap K V) !! k = None).
Proof.
  induction l as [|a l IH]; intros Hnd; simpl; [split; [tauto | auto]|].
  inversion Hnd as [|? ? Hnotin Hnd']; subst. rewrite list_elem_of_In in Hnotin.
  destruct (IH Hnd') as [IHin IHout]. split.
  - intros b [Eab|Hb]; [subst b; apply lookup_insert_eq|].
    rewrite lookup_insert_ne; [apply IHin, Hb|]. intros E. apply Hnotin. rewrite E. apply in_map, Hb.
  - intros k Hk. rewrite lookup_insert_ne by (intros E; apply Hk; left; exact E). apply IHout. tauto.
Qed.

Lemma NoDup_map_inj {A B} (f : A -> B) (l : list A) :
  (forall x y, f x = f y -> x = y) -> NoDup l -> NoDup (map f l).
Proof.
  intros Hf Hnd. induction Hnd as [|x l Hx Hnd IH]; simpl; constructor; [|exact IH].
  rewrite list_elem_of_In, in_map_iff. intros (y & E & Hy). apply Hx.
  rewrite list_elem_of_In. rewrite (Hf _ _ E) in Hy. exact Hy.
Qed.

(** [NoDup] of a cons, with [In] rather than [∈]. *)
Lemma NoDup_cons_In {A} (x : A) (l : list A) : NoDup (x :: l) <-> ~ In x l /\ NoDup l.
Proof. rewrite NoDup_cons, list_elem_of_In. reflexivity. Qed.

(** The default of [last] does not matter on a non-empty list. *)
Lemma last_cons_indep {A} (a : A) (l : list A) (d d' : A) : List.last (a :: l) d = List.last (a :: l) d'.
Proof. revert a. induction l as [|b l IH]; intros a; [reflexivity|]. apply IH. Qed.

(** Distinct images single out an element. *)
Lemma NoDup_map_eq {A B} (f : A -> B) (l : list A) (a b : A) :
  NoDup (map f l) -> In a l -> In b l -> f a = f b -> a = b.
Proof.
  induction l as [|c l IH]; simpl; [tauto|]. intros Hnd Ha Hb E.
  apply NoDup_cons in Hnd as [Hc Hnd]. rewrite list_elem_of_In, in_map_iff in Hc.
  destruct Ha as [<-|Ha], Hb as [<-|Hb]; auto.
  - exfalso. apply Hc. exists b. auto.
  - exfalso. apply Hc. exists a. auto.
Qed.

Lemma NoDup_map_filter {A B} (f : A -> B) (p : A -> bool) (l : list A) :
  NoDup (map f l) -> NoDup (map f (List.filter p l)).
Proof.
  induction l as [|a l IH]; simpl; [auto|]. intros Hnd.
  apply NoDup_cons in Hnd as [Ha Hnd]. destruct (p a); simpl; [|auto].
  constructor; [|auto]. rewrite list_elem_of_In, in_map_iff in *. intros (b & E & Hb).
  apply Ha. exists b. split; [exact E|]. apply filter_In in Hb. tauto.
Qed.

(** The same loop, keys not necessarily distinct: a key outside the list
    keeps its entry, and a key of the list holds the value of one of the
    elements with that key (the last one). *)
Lemma fold_insert_notin {K V A} `{Countable K} (key : A -> K) (val : A -> V)
    (l : list A) (m : gmap K V) (k : K) :
  ~ In k (map key l) -> fold_left (fun m a => <[key a := val a]> m) l m !! k = m !! k.
Proof.
  revert m. induction l as [|a l IH]; intros m Hk; simpl in *; [reflexivity|].
  rewrite IH by tauto. apply lookup_insert_ne. intros E. apply Hk. left; exact E.
Qed.

Lemma fold_insert_in {K V A} `{Countable K} (key : A -> K) (val : A -> V)
    (l : list A) (m : gmap K V) (k : K) :
  In k (map key l) ->
  exists b, In b l /\ key b = k /\ fold_left (fun m a => <[key a := val a]> m) l m !! k = Some (val b).
Proof.
  revert m. induction l as [|a l IH]; intros m Hk; simpl in *; [tauto|].
  destruct (in_dec (fun x y => decide (x = y)) k (map key l)) as [Hin|Hnin].
  - destruct (IH (<[key a := val a]> m) Hin) as (b & Hb & Eb & Hl). exists b. auto.
  - destruct Hk as [Ek|Hk]; [|contradiction].
    exists a. split; [left; reflexivity|]. split; [exact Ek|].
    rewrite fold_insert_notin by exact Hnin. subst k. apply lookup_insert_eq.
Qed.

(** ** The error monad *)

Lemma res_bind_inr {A B} (m : Result A) (k : A -> Result B) (b : B) :
  res_bind m k = inr b <-> exists a, m = inr a /\ k a = inr b.
Proof.
  destruct m as [e|a]; simpl; split.
  - discriminate.
  - intros (? & ? & _); discriminate.
  - intros H. exists a. auto.
  - intros (a' & [= <-] & H). exact H.
Qed.

(** Take apart a successful chain of [let*] in a hypothesis. *)
Ltac res_inv H :=
  repeat match type of H with
  | res_bind _ _ = inr _ =>
      let a := fresh "r" in let Ha := fresh "Hr" in
      apply res_bind_inr in H as (a & Ha & H)
  end.

Lemma res_mapi_out {A B} (f : nat -> A -> Result B) (n : nat) (l : list A) (ys : list B) :
  res_mapi f n l = inr ys -> forall y, In y ys -> exists k x, In x l /\ f k x = inr y.
Proof.
  revert n ys. induction l as [|x l IH]; intros n ys H y Hy; simpl in H.
  - injection H as <-. destruct Hy.
  - res_inv H. injection H as <-. destruct Hy as [<-|Hy].
    + exists n, x. split; [left; reflexivity | exact Hr].
    + destruct (IH (S n) r0 Hr0 y Hy) as (k & x' & Hx' & E). exists k, x'. split; [right; exact Hx' | exact E].
Qed.

Lemma res_mapi_in {A B} (f : nat -> A -> Result B) (n : nat) (l : list A) (ys : list B) :
  res_mapi f n l = inr ys -> forall x, In x l -> exists k y, In y ys /\ f k x = inr y.
Proof.
  revert n ys. induction l as [|x l IH]; intros n ys H x' Hx; simpl in H; [destruct Hx|].
  res_inv H. injection H as <-. destruct Hx as [<-|Hx].
  - exists n, r. split; [left; reflexivity | exact Hr].
  - destruct (IH (S n) r0 Hr0 x' Hx) as (k & y & Hy & E). exists k, y. split; [right; exact Hy | exact E].
Qed.

Lemma res_mapi_map {A A' B} (f : nat -> A' -> Result B) (h : A -> A') (g : A -> B) (n : nat) (l : list A) :
  (forall k x, In x l -> f k (h x) = inr (g x)) -> res_mapi f n (map h l) = inr (map g l).
Proof.
  revert n. induction l as [|x l IH]; intros n Hf; [reflexivity|]. cbn [res_mapi map].
  rewrite (Hf n x (or_introl eq_refl)). cbn [res_bind].
  rewrite IH by (intros k y Hy; apply Hf; right; exact Hy). reflexivity.
Qed.

Lemma res_mapi_id {A} (f : nat -> A -> Result A) (n : nat) (l ys : list A) :
  (forall k x y, f k x = inr y -> y = x) -> res_mapi f n l = inr ys -> ys = l.
Proof.
  intros Hf. revert n ys. induction l as [|x l IH]; intros n ys H; simpl in H.
  - injection H as <-. reflexivity.
  - res_inv H. injection H as <-. rewrite (Hf _ _ _ Hr), (IH _ _ Hr0). reflexivity.
Qed.

Lemma Forall_last {A} (P : A -> Prop) (l : list A) (d : A) :
  Forall P l -> P d -> P (List.last l d).
Proof.
  intros Hl Hd. induction Hl as [|x l Hx Hl IH]; [exact Hd|].
  destruct l as [|y l]; [exact Hx | exact IH].
Qed.

(** ** A stable sort by a decreasing key *)

(** [array.sort((a, b) => key(b) - key(a))].  ECMAScript requires
    [Array.prototype.sort] to be stable, so its result is determined:
    the elements by decreasing key, those with equal keys in their
    original order.  Insertion from the right computes it: an element is
    put before the first later element whose key is not greater. *)
Fixpoint insert_desc {A} (key : A -> Q) (a : A) (l : list A) : list A :=
  match l with
  | [] => [a]
  | b :: l' => if Qle_bool (key b) (key a) then a :: b :: l' else b :: insert_desc key a l'
  end.

Definition sort_desc {A} (key : A -> Q) (l : list A) : list A := fold_right (insert_desc key) [] l.

Section SortDesc.
Context {A : Type} (key : A -> Q).

Definition desc (a b : A) : Prop := (key b <= key a)%Q.

Lemma insert_desc_perm (a : A) (l : list A) : Permutation (insert_desc key a l) (a :: l).
Proof.
  induction l as [|b l IH]; [reflexivity|]. simpl. destruct (Qle_bool _ _); [reflexivity|].
  rewrite IH. apply perm_swap.
Qed.

Lemma sort_desc_perm (l : list A) : Permutation (sort_desc key l) l.
Proof.
  induction l as [|a l IH]; [reflexivity|]. unfold sort_desc in *. simpl.
  rewrite insert_desc_perm, IH. reflexivity.
Qed.

Lemma insert_desc_sorted (a : A) (l : list A) : Sorted desc l -> Sorted desc (insert_desc key a l).
Proof.
  induction 1 as [|b l Hl IH Hhd]; simpl; [repeat constructor|].
  destruct (Qle_bool (key b) (key a)) eqn:E.
  - constructor; [constructor; assumption|]. constructor. apply Qle_bool_iff, E.
  - apply Qle_bool_false in E. constructor; [exact IH|].
    destruct l as [|c l]; simpl; [constructor; unfold desc; lra|].
    inversion Hhd; subst. destruct (Qle_bool (key c) (key a)); constructor; unfold desc in *; lra.
Qed.

Lemma sort_desc_sorted (l : list A) : StronglySorted desc (sort_desc key l).
Proof.
  apply Sorted_StronglySorted; [unfold desc; intros x y z H1 H2; lra|].
  induction l as [|a l IH]; [constructor|]. apply insert_desc_sorted, IH.
Qed.

(** Removing elements commutes with a stable sort. *)
Lemma insert_desc_filter (P : A -> bool) (a : A) (l : list A) :
  Sorted desc l ->
  List.filter P (insert_desc key a l) =
    if P a then insert_desc key a (List.filter P l) else List.filter P l.
Proof.
  intros Hs. induction Hs as [|b l Hl IH Hhd]; simpl; [destruct (P a); reflexivity|].
  destruct (Qle_bool (key b) (key a)) eqn:E; simpl.
  - destruct (P a), (P b); try reflexivity.
    + simpl. rewrite E. reflexivity.
    + apply Qle_bool_iff in E. apply Sorted_StronglySorted in Hl; [|unfold desc; intros x y z ? ?; lra].
      assert (Hall : Forall (desc b) l).
      { destruct l as [|c l]; [constructor|]. inversion Hhd; subst. inversion Hl; subst.
        constructor; [assumption|]. eapply List.Forall_impl; [|eassumption]. unfold desc in *. intros; lra. }
      clear Hhd IH. induction l as [|c l IHl]; [reflexivity|]. inversion Hall; inversion Hl; subst. simpl.
      destruct (P c) eqn:Pc; [|apply IHl; assumption]. simpl.
      replace (Qle_bool (key c) (key a)) with true; [reflexivity|]. symmetry. apply Qle_bool_iff.
      unfold desc in *. lra.
  - destruct (P a), (P b); simpl; rewrite ?E, IH; reflexivity.
Qed.

Lemma sort_desc_filter (P : A -> bool) (l : list A) :
  sort_desc key (List.filter P l) = List.filter P (sort_desc key l).
Proof.
  induction l as [|a l IH]; [reflexivity|]. unfold sort_desc in *. simpl.
  rewrite insert_desc_filter.
  - destruct (P a); simpl; rewrite IH; reflexivity.
  - apply StronglySorted_Sorted, sort_desc_sorted.
Qed.
End SortDesc.

Lemma StronglySorted_app_inv {A} (R : A -> A -> Prop) (l1 l2 : list A) :
  StronglySorted R (l1 ++ l2) -> forall a b, In a l1 -> In b l2 -> R a b.
Proof.
  induction l1 as [|c l1 IH]; intros H a b Ha Hb; [destruct Ha|].
  inversion H as [|? ? Hs Hall]; subst. destruct Ha as [<-|Ha].
  - rewrite List.Forall_forall in Hall. apply Hall, in_or_app. right. exact Hb.
  - exact (IH Hs a b Ha Hb).
Qed.

Lemma StronglySorted_app_l {A} (R : A -> A -> Prop) (l1 l2 : list A) :
  StronglySorted R (l1 ++ l2) -> StronglySorted R l1.
Proof.
  induction l1 as [|c l1 IH]; intros H; [constructor|].
  inversion H as [|? ? Hs Hall]; subst. constructor; [exact (IH Hs)|].
  apply List.Forall_app in Hall. exact (proj1 Hall).
Qed.

Lemma filter_all_false {A} (f : A -> bool) (l : list A) :
  (forall x, In x l -> f x = false) -> List.filter f l = [].
Proof.
  induction l as [|a l IH]; intros H; [reflexivity|]. simpl. rewrite (H a (or_introl eq_refl)).
  apply IH. intros x Hx. apply H. right. exact Hx.
Qed.

Lemma fold_left_ext_in {A B} (f g : A -> B -> A) (l : list B) (a : A) :
  (forall x b, In b l -> f x b = g x b) -> fold_left f l a = fold_left g l a.
Proof.
  revert a. induction l as [|b l IH]; intros a H; [reflexivity|]. simpl.
  rewrite (H a b (or_introl eq_refl)). apply IH. intros x c Hc. apply H. right. exact Hc.
Qed.

Lemma fold_left_map_in {A B C} (f : A -> B -> A) (g : C -> B) (l : list C) (a : A) :
  fold_left f (map g l) a = fold_left (fun x c => f x (g c)) l a.
Proof. revert a. induction l as [|c l IH]; intros a; [reflexivity|]. apply IH. Qed.

Lemma existsb_map_in {A B} (p : B -> bool) (g : A -> B) (l : list A) :
  existsb p (map g l) = existsb (fun a => p (g a)) l.
Proof. induction l as [|a l IH]; [reflexivity|]. simpl. rewrite IH. reflexivity. Qed.

Lemma list_ascii_of_string_app (a b : string) :
  list_ascii_of_string (a ++ b)%string = (list_ascii_of_string a ++ list_ascii_of_string b)%list.
Proof. induction a as [|c a IH]; [reflexivity|]. simpl. f_equal. exact IH. Qed.
