(* ===== verification/Status.v ===== *)
(** * Interface and router health

    [MetricStatus], [metricStatus] and [combineStatuses] of
    [src/unnamed/part_000] (the same code is in [src/src/snmp.ts]).  The
    severity order is the position in [STATUS_ORDER]; [combineStatuses]
    is shown to compute the maximum severity of its arguments. *)

From Stdlib Require Import QArith ZArith List Lia Lqa Permutation.
From stdpp Require Import base decidable.
From S2P Require Import Prelude.

Inductive MetricStatus := ok | warning | critical | error.

#[export] Instance MetricStatus_eq_dec : EqDecision MetricStatus.
Proof. solve_decision. Defined.

Definition STATUS_ORDER : list MetricStatus := [ok; warning; critical; error].

(** [metricStatus(utilization, hasError)]. *)
Definition metricStatus (utilization : Q) (hasError : bool) : MetricStatus :=
  if hasError then error
  else if Qle_bool (9 # 10) utilization then critical
  else if Qle_bool (3 # 4) utilization then warning
  else ok.

(** One step of the [reduce] in [combineStatuses]. *)
Definition combine_step (highest current : MetricStatus) : MetricStatus :=
  if (index_of highest STATUS_ORDER <? index_of current STATUS_ORDER)%Z
  then current else highest.

(** [combineStatuses(statuses)]: [statuses.reduce(step, "ok")]. *)
Definition combineStatuses (statuses : list MetricStatus) : MetricStatus :=
  fold_left combine_step statuses ok.

(** The severity of a status: its position in [STATUS_ORDER]. *)
Definition severity (s : MetricStatus) : nat :=
  match s with ok => 0 | warning => 1 | critical => 2 | error => 3 end.

(** ** Severity and the reduce step *)

Lemma index_of_STATUS_ORDER (s : MetricStatus) :
  index_of s STATUS_ORDER = Z.of_nat (severity s).
Proof. destruct s; reflexivity. Qed.

Lemma severity_inj (s t : MetricStatus) : severity s = severity t -> s = t.
Proof. destruct s, t; simpl; congruence. Qed.

Lemma severity_le_error (s : MetricStatus) : severity s <= severity error.
Proof. destruct s; simpl; lia. Qed.

(** The reduce step keeps the more severe of its two arguments. *)
Lemma combine_step_severity (h c : MetricStatus) :
  severity (combine_step h c) = Nat.max (severity h) (severity c).
Proof. destruct h, c; reflexivity. Qed.

Lemma combine_step_cases (h c : MetricStatus) :
  combine_step h c = h \/ combine_step h c = c.
Proof. destruct h, c; auto. Qed.

Lemma fold_combine_severity (l : list MetricStatus) (acc : MetricStatus) :
  severity (fold_left combine_step l acc) =
  Nat.max (severity acc) (list_max (map severity l)).
Proof.
  revert acc. induction l as [|s l IH]; intros acc; simpl.
  - lia.
  - rewrite IH, combine_step_severity. lia.
Qed.

Lemma fold_combine_cases (l : list MetricStatus) (acc : MetricStatus) :
  fold_left combine_step l acc = acc \/ In (fold_left combine_step l acc) l.
Proof.
  revert acc. induction l as [|s l IH]; intros acc; simpl; [auto|].
  destruct (IH (combine_step acc s)) as [E|Hin]; [|auto].
  rewrite E. destruct (combine_step_cases acc s) as [->| ->]; auto.
Qed.

#[export] Hint Resolve severity_le_error severity_inj : wm.

(** ** Properties *)

(** The severity of the combined status is the largest severity among
    its arguments (and that of [ok] for none). *)
Lemma combineStatuses_severity (l : list MetricStatus) :
  severity (combineStatuses l) = list_max (map severity l).
Proof. unfold combineStatuses. rewrite fold_combine_severity. reflexivity. Qed.

(** The combined status is one of the arguments, or [ok]. *)
Lemma combineStatuses_member (l : list MetricStatus) :
  combineStatuses l = ok \/ In (combineStatuses l) l.
Proof. apply fold_combine_cases. Qed.

(** C3: [combineStatuses] refines the abstract maximum of the severity
    order: every argument is at most as severe as the combined status, and
    the combined status is one of the arguments ([ok] for none). *)
Theorem combineStatuses_max (l : list MetricStatus) :
  (forall s, In s l -> severity s <= severity (combineStatuses l)) /\
  (combineStatuses l = ok \/ In (combineStatuses l) l).
Proof.
  split; [|apply combineStatuses_member].
  intros s Hs. rewrite combineStatuses_severity. apply in_le_list_max, in_map, Hs.
Qed.

Lemma combineStatuses_perm (l l' : list MetricStatus) :
  Permutation l l' -> combineStatuses l = combineStatuses l'.
Proof.
  intros Hp. apply severity_inj. rewrite !combineStatuses_severity.
  apply Permutation_list_max, Permutation_map, Hp.
Qed.

Lemma combineStatuses_error (l : list MetricStatus) :
  combineStatuses l = error <-> In error l.
Proof.
  split.
  - intros E. destruct (combineStatuses_member l) as [H|H]; [congruence|].
    rewrite E in H. exact H.
  - intros Hin. apply severity_inj. apply Nat.le_antisymm; [auto with wm|].
    rewrite combineStatuses_severity. apply in_le_list_max, in_map, Hin.
Qed.

(** C2: [metricStatus] on every branch: an error flag yields [error]
    whatever the utilisation; otherwise the status is [critical] from 90%,
    [warning] from 75% and [ok] below. *)
Theorem metricStatus_spec (u : Q) (hasError : bool) :
  (metricStatus u hasError = error <-> hasError = true) /\
  (hasError = false ->
     (metricStatus u hasError = critical <-> (9 # 10 <= u)%Q) /\
     (metricStatus u hasError = warning <-> (3 # 4 <= u)%Q /\ (u < 9 # 10)%Q) /\
     (metricStatus u hasError = ok <-> (u < 3 # 4)%Q)).
Proof.
  unfold metricStatus. destruct hasError.
  - split; [tauto | discriminate].
  - case_qle (9 # 10) u; [|case_qle (3 # 4) u];
      (split; [split; discriminate | intros _]);
      (split; [|split]); split; intros H;
      solve [reflexivity | discriminate | lra | destruct H; lra | split; lra].
Qed.

(** More traffic never makes an interface look healthier. *)
Lemma metricStatus_monotone (u u' : Q) (hasError : bool) :
  (u <= u')%Q -> severity (metricStatus u hasError) <= severity (metricStatus u' hasError).
Proof.
  intros Hle. unfold metricStatus. destruct hasError; [simpl; lia|].
  case_qle (9 # 10) u'; case_qle (3 # 4) u';
    case_qle (9 # 10) u; case_qle (3 # 4) u; simpl; lra || lia.
Qed.
