(* ===== verification/Oid.v ===== *)
(** * OID validation

    [sanitizeOid] of [src/unnamed/part_000] (the same function is in
    [src/src/snmp.ts]), together with the JavaScript string operations it
    uses: [String.prototype.trim], [split(".")], [filter(Boolean)], the
    regular expression [/^\d+$/] and [join(".")].  Strings are Rocq
    [string]s; [trim] removes the ASCII white space characters (space, tab,
    line feed, vertical tab, form feed, carriage return), which are the
    white space an OID in a YAML file can carry.

    The theorems: a sanitised OID is a non-empty dot-separated list of
    decimal segments, sanitising it again gives it back unchanged
    (round trip), and exactly one of [oid] and [error] is set. *)

From Stdlib Require Import Ascii String List Arith Lia Bool.
Import ListNotations.
From S2P Require Import Prelude.

Local Open Scope string_scope.

(** ** JavaScript string operations on lists of characters *)

(** The white space [String.prototype.trim] removes, among the
    characters of one byte (read as Latin-1): tab, line feed, vertical
    tab, form feed, carriage return, space and no-break space. *)
Definition is_js_space (c : ascii) : bool :=
  match nat_of_ascii c with
  | 32%nat | 9%nat | 10%nat | 11%nat | 12%nat | 13%nat | 160%nat => true
  | _ => false
  end.

Fixpoint drop_spaces (s : list ascii) : list ascii :=
  match s with
  | [] => []
  | c :: s' => if is_js_space c then drop_spaces s' else s
  end.

(** [s.trim()]. *)
Definition trim (s : string) : string :=
  string_of_list_ascii (rev (drop_spaces (rev (drop_spaces (list_ascii_of_string s))))).

(** [s.split(c)] for a one-character separator: the pieces between the
    separators, empty ones included ([""] splits into [[""]]). *)
Fixpoint split_on (c : ascii) (s : list ascii) : list (list ascii) :=
  match s with
  | [] => [[]]
  | x :: s' =>
      let r := split_on c s' in
      if Ascii.eqb x c then [] :: r
      else match r with
           | w :: ws => (x :: w) :: ws
           | [] => [[x]]
           end
  end.

(** [segments.join(c)]. *)
Fixpoint join_with (c : ascii) (ws : list (list ascii)) : list ascii :=
  match ws with
  | [] => []
  | [w] => w
  | w :: ws' => w ++ c :: join_with c ws'
  end.

(** [/^\d+$/.test(segment)]. *)
Definition is_digit (c : ascii) : bool :=
  Nat.leb 48%nat (nat_of_ascii c) && Nat.leb (nat_of_ascii c) 57%nat.

Definition is_digits (w : list ascii) : bool :=
  match w with
  | [] => false
  | _ => forallb is_digit w
  end.

Definition dot : ascii := "."%char.
Definition dquote : string := String "034"%char EmptyString.

(** ** [sanitizeOid] *)

Record SanitizedOid := { so_oid : option string; so_error : option string }.

Definition sanitizeOid (raw : string) : SanitizedOid :=
  let trimmed := trim raw in
  if String.eqb trimmed EmptyString then
    {| so_oid := None; so_error := Some "OID is required" |}
  else
    let segments := List.filter (fun w => negb (is_nil w))
                      (split_on dot (list_ascii_of_string trimmed)) in
    if is_nil segments then
      {| so_oid := None;
         so_error := Some ("OID " ++ dquote ++ raw ++ dquote ++
                           " is not a dotted numeric string") |}
    else
      match find (fun w => negb (is_digits w)) segments with
      | Some bad =>
          {| so_oid := None;
             so_error := Some ("OID " ++ dquote ++ raw ++ dquote ++
                               " contains invalid segment " ++ dquote ++
                               string_of_list_ascii bad ++ dquote) |}
      | None =>
          {| so_oid := Some (string_of_list_ascii (join_with dot segments));
             so_error := None |}
      end.

(** The shape of a valid OID: non-empty decimal segments joined by dots. *)
Definition oid_segments_ok (segs : list (list ascii)) : Prop :=
  segs <> [] /\ Forall (fun w => is_digits w = true) segs.

(** ** Lemmas on the string operations *)

Definition no_char (c : ascii) (w : list ascii) : Prop :=
  Forall (fun x => Ascii.eqb x c = false) w.

Lemma split_on_no_sep (c : ascii) (w : list ascii) :
  no_char c w -> split_on c w = [w].
Proof.
  induction 1 as [|x w Hx _ IH]; simpl; [reflexivity|].
  rewrite Hx, IH. reflexivity.
Qed.

Lemma split_on_app_sep (c : ascii) (w r : list ascii) :
  no_char c w -> split_on c (w ++ c :: r) = w :: split_on c r.
Proof.
  induction 1 as [|x w Hx _ IH]; simpl.
  - rewrite Ascii.eqb_refl. reflexivity.
  - rewrite Hx, IH. reflexivity.
Qed.

Lemma split_join (c : ascii) (segs : list (list ascii)) :
  segs <> [] -> Forall (no_char c) segs -> split_on c (join_with c segs) = segs.
Proof.
  intros Hne Hall. induction Hall as [|w segs Hw Hsegs IH]; [congruence|].
  destruct segs as [|w' segs'].
  - apply split_on_no_sep, Hw.
  - change (join_with c (w :: w' :: segs')) with (w ++ c :: join_with c (w' :: segs'))%list.
    rewrite split_on_app_sep by exact Hw. rewrite IH by discriminate. reflexivity.
Qed.

(** Every piece of a split is free of the separator. *)
Lemma split_on_pieces (c : ascii) (s : list ascii) : Forall (no_char c) (split_on c s).
Proof.
  induction s as [|x s IH]; simpl; [repeat constructor|].
  destruct (Ascii.eqb x c) eqn:E; [constructor; [constructor | exact IH]|].
  destruct (split_on c s) as [|w ws]; [repeat constructor; exact E|].
  inversion IH as [|? ? Hw Hws]; subst. constructor; [constructor; assumption | exact Hws].
Qed.

Lemma join_with_Forall (P : ascii -> Prop) (c : ascii) (segs : list (list ascii)) :
  P c -> Forall (Forall P) segs -> Forall P (join_with c segs).
Proof.
  intros Hc Hall. induction Hall as [|w segs Hw _ IH]; [constructor|].
  destruct segs as [|w' segs']; [exact Hw|].
  apply Forall_app. split; [exact Hw|]. constructor; assumption.
Qed.

Lemma drop_spaces_id (s : list ascii) :
  Forall (fun x => is_js_space x = false) s -> drop_spaces s = s.
Proof. intros [|x s' Hx _]; simpl; [reflexivity|]. rewrite Hx. reflexivity. Qed.

Lemma trim_id (s : string) :
  Forall (fun x => is_js_space x = false) (list_ascii_of_string s) -> trim s = s.
Proof.
  intros H. unfold trim. rewrite (drop_spaces_id _ H).
  rewrite (drop_spaces_id _ (Forall_rev H)).
  rewrite rev_involutive. apply string_of_list_ascii_of_string.
Qed.

(** A digit is neither white space nor a dot. *)
Lemma digit_not_space_dot (x : ascii) :
  is_digit x = true -> is_js_space x = false /\ Ascii.eqb x dot = false.
Proof.
  destruct x as [[] [] [] [] [] [] [] []]; vm_compute;
    solve [intros _; split; reflexivity | discriminate].
Qed.

Lemma digits_Forall (w : list ascii) :
  is_digits w = true -> w <> [] /\ Forall (fun x => is_digit x = true) w.
Proof.
  destruct w as [|x w]; [discriminate|]. intros H. split; [discriminate|].
  apply Forall_forall. exact (proj1 (forallb_forall is_digit (x :: w)) H).
Qed.

Lemma find_none_Forall {A} (f : A -> bool) (l : list A) :
  find f l = None -> Forall (fun x => f x = false) l.
Proof.
  induction l as [|x l IH]; simpl; [constructor|].
  destruct (f x) eqn:E; [discriminate|]. intros H. constructor; auto.
Qed.

Lemma filter_nonempty_id (segs : list (list ascii)) :
  Forall (fun w => w <> []) segs -> List.filter (fun w => negb (is_nil w)) segs = segs.
Proof.
  induction 1 as [|w segs Hw _ IH]; simpl; [reflexivity|].
  destruct w; [congruence|]. simpl. rewrite IH. reflexivity.
Qed.

Lemma Forall_find_none {A} (f : A -> bool) (l : list A) :
  Forall (fun x => f x = false) l -> find f l = None.
Proof. induction 1 as [|x l Hx _ IH]; simpl; [reflexivity|]. rewrite Hx. exact IH. Qed.

Lemma join_with_nonempty (c : ascii) (w : list ascii) (ws : list (list ascii)) :
  w <> [] -> join_with c (w :: ws) <> [].
Proof.
  intros Hw. destruct ws as [|w' ws]; [exact Hw|].
  simpl. destruct w; [congruence|]. discriminate.
Qed.

(** Sanitising a well-formed OID succeeds and returns it unchanged. *)
Lemma sanitizeOid_segments (segs : list (list ascii)) :
  oid_segments_ok segs ->
  sanitizeOid (string_of_list_ascii (join_with dot segs)) =
  {| so_oid := Some (string_of_list_ascii (join_with dot segs)); so_error := None |}.
Proof.
  intros [Hne Hdig].
  assert (Hchars : Forall (Forall (fun x => is_digit x = true)) segs).
  { eapply Forall_impl; [|exact Hdig]. intros w Hw. apply digits_Forall, Hw. }
  assert (Hne_w : Forall (fun w => w <> []) segs).
  { eapply Forall_impl; [|exact Hdig]. intros w Hw. apply digits_Forall, Hw. }
  unfold sanitizeOid.
  rewrite trim_id.
  2:{ rewrite list_ascii_of_string_of_list_ascii. apply join_with_Forall; [reflexivity|].
      eapply Forall_impl; [|exact Hchars]. intros w. apply Forall_impl.
      intros x Hx. apply digit_not_space_dot, Hx. }
  destruct (String.eqb _ EmptyString) eqn:Hemp.
  { apply String.eqb_eq in Hemp. destruct segs as [|w ws]; [congruence|].
    inversion Hne_w as [|? ? Hw _]; subst.
    exfalso. apply (join_with_nonempty dot w ws Hw).
    rewrite <- (list_ascii_of_string_of_list_ascii (join_with dot (w :: ws))), Hemp.
    reflexivity. }
  rewrite list_ascii_of_string_of_list_ascii, split_join.
  - rewrite filter_nonempty_id by exact Hne_w.
    destruct segs as [|w ws]; [congruence|]. simpl is_nil. cbv iota.
    rewrite Forall_find_none; [reflexivity|].
    eapply Forall_impl; [|exact Hdig]. intros v Hv. rewrite Hv. reflexivity.
  - exact Hne.
  - eapply Forall_impl; [|exact Hchars]. intros w. apply Forall_impl.
    intros x Hx. apply digit_not_space_dot, Hx.
Qed.

(** Every successful result has the shape of a valid OID. *)
Lemma sanitizeOid_shape (raw oid : string) :
  so_oid (sanitizeOid raw) = Some oid ->
  exists segs, oid_segments_ok segs /\ oid = string_of_list_ascii (join_with dot segs).
Proof.
  unfold sanitizeOid. destruct (String.eqb _ _); [discriminate|].
  set (segs := List.filter _ _). destruct (is_nil segs) eqn:Hnil; [discriminate|].
  destruct (find _ segs) eqn:Hfind; [discriminate|]. simpl. intros [= <-].
  exists segs. split; [|reflexivity]. split.
  - destruct segs; [discriminate|]. discriminate.
  - eapply Forall_impl; [|exact (find_none_Forall _ _ Hfind)].
    intros w Hw. apply negb_false_iff, Hw.
Qed.

(** ** Properties *)

(** C10: round trip: an OID produced by [sanitizeOid] is accepted by
    [sanitizeOid] again and comes back unchanged (validation is
    idempotent, so the OID sent to the agent is a fixed point). *)
Theorem sanitizeOid_roundtrip (raw oid : string) :
  so_oid (sanitizeOid raw) = Some oid ->
  sanitizeOid oid = {| so_oid := Some oid; so_error := None |}.
Proof.
  intros H. destruct (sanitizeOid_shape raw oid H) as (segs & Hok & ->).
  apply sanitizeOid_segments, Hok.
Qed.

Lemma sanitizeOid_roundtrip_witness :
  so_oid (sanitizeOid " .1.3.6..1 ") = Some "1.3.6.1" /\
  sanitizeOid "1.3.6.1" = {| so_oid := Some "1.3.6.1"; so_error := None |}.
Proof.
  split; [reflexivity|]. apply (sanitizeOid_roundtrip " .1.3.6..1 "). reflexivity.
Defined.

(** Validation either yields an OID and no error, or no OID and an error
    message; both strings are non-empty, so the code's truthiness tests
    [if (sanitized.oid)] and [Boolean(error)] see them. *)
Lemma sanitizeOid_result (raw : string) :
  (exists oid, sanitizeOid raw = {| so_oid := Some oid; so_error := None |} /\ oid <> EmptyString) \/
  (exists e, sanitizeOid raw = {| so_oid := None; so_error := Some e |} /\ e <> EmptyString).
Proof.
  destruct (so_oid (sanitizeOid raw)) as [oid|] eqn:Hoid.
  - left. exists oid. split.
    + unfold sanitizeOid in *. destruct (String.eqb _ _); [discriminate|].
      destruct (is_nil _); [discriminate|]. destruct (find _ _); [discriminate|].
      simpl in Hoid. congruence.
    + destruct (sanitizeOid_shape raw oid Hoid) as ([|w ws] & [Hne Hdig] & ->); [congruence|].
      inversion Hdig as [|? ? Hw _]; subst. apply digits_Forall in Hw as [Hw _].
      intros E. apply (join_with_nonempty dot w ws Hw).
      rewrite <- (list_ascii_of_string_of_list_ascii (join_with dot (w :: ws))), E.
      reflexivity.
  - right. unfold sanitizeOid in *. destruct (String.eqb _ _).
    { eexists. split; [reflexivity | discriminate]. }
    destruct (is_nil _).
    { eexists. split; [reflexivity | discriminate]. }
    destruct (find _ _); [|discriminate].
    eexists. split; [reflexivity | discriminate].
Qed.
