(* ===== verification/Sampler.v ===== *)
(** * The counter sampler

    [src/unnamed/part_000] (the current [snmp.ts]): the per-router poll
    [pollRouter], its helpers [computeThroughput], [makeInterfaceSample],
    [cacheKey], and [pollRouters].  The module-level [sampleCache] is
    explicit state: a [gmap string SampleCacheEntry] passed in and returned
    by every poll.  The SNMP agent is an argument [agent] mapping the OID
    list of one [session.get] to the varbinds it answers or to the message
    of the error it raises; [Date.now()] is an argument [now]. *)

From Stdlib Require Import QArith ZArith Ascii String List Lia Lqa Permutation.
From stdpp Require Import base option gmap strings.
From S2P Require Import Prelude Status Oid.

Local Open Scope Z_scope.

(** ** Data *)

Record InterfaceConfig := {
  ic_name : string;
  oid_in : string;
  oid_out : string;
  max_bandwidth : option Q;
  oid_speed : option string;
  oid_speed_scale : option Q;
  display_name : option string
}.

Record RouterConfig := {
  rc_ip : string;
  rc_community : string;
  rc_label : option string;
  rc_interfaces : list InterfaceConfig
}.

Record InterfaceSample := {
  is_name : string;
  inOctets : option Z;
  outOctets : option Z;
  inBps : Q;
  outBps : Q;
  inUtilization : Q;
  outUtilization : Q;
  is_status : MetricStatus;
  maxBandwidth : Q;
  fresh : bool;
  is_error : option string
}.

Record RouterSample := {
  rs_status : MetricStatus;
  rs_interfaces : gmap string InterfaceSample;
  rs_error : option string
}.

Inductive OidKind := KIn | KOut | KSpeed.

Record SampleCacheEntry := {
  ce_inOctets : Z;
  ce_outOctets : Z;
  ce_timestamp : Z
}.

Abbreviation SampleCache := (gmap string SampleCacheEntry).

(** A varbind of the [net-snmp] library: its OID, the error it carries
    ([isVarbindError], [varbindError]) and its value. *)
Inductive VarbindValue := VNumber (n : Z) | VOther.

Record Varbind := {
  vb_oid : string;
  vb_error : option string;
  vb_value : VarbindValue
}.

Definition isVarbindError (vb : Varbind) : bool :=
  match vb_error vb with Some _ => true | None => false end.
Definition varbindError (vb : Varbind) : string := vb_error vb ?? EmptyString.

(** The answer of one [session.get]: the varbinds, or the message of the
    error it rejects with. *)
Definition SnmpResponse := (string + list Varbind)%type.

(** ** Throughput *)

Inductive Direction := DIn | DOut.

Record Throughput := { bps : Q; tp_fresh : bool }.

Definition no_throughput : Throughput := {| bps := 0%Q; tp_fresh := false |}.

(** [direction === "in" ? previous.inOctets : previous.outOctets]. *)
Definition direction_value (prev : SampleCacheEntry) (direction : Direction) : Z :=
  match direction with DIn => ce_inOctets prev | DOut => ce_outOctets prev end.

Definition computeThroughput (current : option Z) (previous : option SampleCacheEntry)
    (deltaMs : Z) (direction : Direction) : Throughput :=
  match current, previous with
  | Some cur, Some prev =>
      if deltaMs <=? 0 then no_throughput
      else
        let previousValue := direction_value prev direction in
        if cur <? previousValue then no_throughput
        else
          let octetDelta := cur - previousValue in
          let bits := octetDelta * 8 in
          let seconds := (inject_Z deltaMs / inject_Z 1000)%Q in
          if Qeq_bool seconds 0 then no_throughput
          else {| bps := (inject_Z bits / seconds)%Q; tp_fresh := true |}
  | _, _ => no_throughput
  end.

(** ** Samples *)

Definition makeInterfaceSample (iface : InterfaceConfig) : InterfaceSample :=
  {| is_name := ic_name iface;
     inOctets := None; outOctets := None;
     inBps := 0; outBps := 0; inUtilization := 0; outUtilization := 0;
     is_status := ok;
     maxBandwidth :=
       match max_bandwidth iface with
       | Some b => if Qltb 0 b then b else 0
       | None => 0
       end;
     fresh := false;
     is_error := None |}.

Definition cacheKey (routerId ifaceName : string) : string :=
  (routerId ++ ":" ++ ifaceName)%string.

(** [ifaceSample.error = msg; ifaceSample.status = "error"]. *)
Definition set_error (msg : string) (s : InterfaceSample) : InterfaceSample :=
  {| is_name := is_name s; inOctets := inOctets s; outOctets := outOctets s;
     inBps := inBps s; outBps := outBps s;
     inUtilization := inUtilization s; outUtilization := outUtilization s;
     is_status := error; maxBandwidth := maxBandwidth s; fresh := fresh s;
     is_error := Some msg |}.

Definition set_octets (kind : OidKind) (n : Z) (s : InterfaceSample) : InterfaceSample :=
  {| is_name := is_name s;
     inOctets := if kind is KIn then Some n else inOctets s;
     outOctets := if kind is KOut then Some n else outOctets s;
     inBps := inBps s; outBps := outBps s;
     inUtilization := inUtilization s; outUtilization := outUtilization s;
     is_status := is_status s; maxBandwidth := maxBandwidth s; fresh := fresh s;
     is_error := is_error s |}.

Definition set_maxBandwidth (b : Q) (s : InterfaceSample) : InterfaceSample :=
  {| is_name := is_name s; inOctets := inOctets s; outOctets := outOctets s;
     inBps := inBps s; outBps := outBps s;
     inUtilization := inUtilization s; outUtilization := outUtilization s;
     is_status := is_status s; maxBandwidth := b; fresh := fresh s;
     is_error := is_error s |}.

(** ** [pollRouter], first loop: validate the OIDs of every interface *)

(** [if (sanitized.oid)]: the OID, when it is a non-empty string. *)
Definition truthy_oid (san : SanitizedOid) : option string :=
  match so_oid san with
  | Some o => if truthy_str (Some o) then Some o else None
  | None => None
  end.

Record Target := {
  tg_iface : InterfaceConfig;
  tg_entries : list (string * OidKind);
  tg_hasCounters : bool
}.

(** One OID of the first loop: a valid OID is queued (an [in] or [out]
    OID also sets [hasCounters]); an invalid one records its error. *)
Definition register_oid (kind : OidKind) (san : SanitizedOid)
    (tg : Target) (s : InterfaceSample) : Target * InterfaceSample :=
  match truthy_oid san with
  | Some o =>
      ({| tg_iface := tg_iface tg;
          tg_entries := tg_entries tg ++ [(o, kind)];
          tg_hasCounters := if kind is KSpeed then tg_hasCounters tg else true |}, s)
  | None =>
      if truthy_str (so_error san) then (tg, set_error (so_error san ?? EmptyString) s)
      else (tg, s)
  end.

Definition prepareInterface (iface : InterfaceConfig) : Target * InterfaceSample :=
  let s0 := makeInterfaceSample iface in
  let tg0 := {| tg_iface := iface; tg_entries := []; tg_hasCounters := false |} in
  let '(tg1, s1) := register_oid KIn (sanitizeOid (oid_in iface)) tg0 s0 in
  let '(tg2, s2) := register_oid KOut (sanitizeOid (oid_out iface)) tg1 s1 in
  if truthy_str (oid_speed iface)
  then register_oid KSpeed (sanitizeOid (oid_speed iface ?? EmptyString)) tg2 s2
  else (tg2, s2).

(** The state of the first loop: [sample.interfaces], [interfaceTargets]
    and [hasValidCounterOid]. *)
Definition prepare_step (st : gmap string InterfaceSample * list Target * bool)
    (iface : InterfaceConfig) : gmap string InterfaceSample * list Target * bool :=
  let '(ifs, tgs, has) := st in
  let '(tg, s) := prepareInterface iface in
  (<[ic_name iface := s]> ifs, tgs ++ [tg], has || tg_hasCounters tg).

Definition prepare (ifaces : list InterfaceConfig) : gmap string InterfaceSample * list Target * bool :=
  fold_left prepare_step ifaces (∅, [], false).

(** ** Second loop: one [session.get] per interface with counters *)

Definition oid_label (kind : OidKind) : string :=
  match kind with KSpeed => "speed" | KIn => "input" | KOut => "output" end.

Definition speed_scale (iface : InterfaceConfig) : Q :=
  match oid_speed_scale iface with
  | Some sc => if Qltb 0 sc then sc else 1
  | None => 1
  end.

(** The body of [varbinds.forEach((varbind, index) => ...)]. *)
Definition apply_varbind (entries : list (string * OidKind)) (scale : Q)
    (s : InterfaceSample) (vb : Varbind) (index : nat) : InterfaceSample :=
  match nth_error entries index with
  | None => s
  | Some (_, kind) =>
      if isVarbindError vb then set_error (varbindError vb) s
      else match vb_value vb with
           | VOther =>
               set_error ("Unexpected value type for " ++ oid_label kind ++ " OID")%string s
           | VNumber n =>
               match kind with
               | KSpeed => if Qltb 0 (inject_Z n) then set_maxBandwidth (inject_Z n * scale)%Q s else s
               | _ => set_octets kind n s
               end
           end
  end.

Fixpoint apply_varbinds (entries : list (string * OidKind)) (scale : Q)
    (s : InterfaceSample) (vbs : list Varbind) (index : nat) : InterfaceSample :=
  match vbs with
  | [] => s
  | vb :: vbs' => apply_varbinds entries scale (apply_varbind entries scale s vb index) vbs' (S index)
  end.

(** The work of the second loop on one interface sample. *)
Definition query_one (agent : list string -> SnmpResponse) (tg : Target)
    (s : InterfaceSample) : InterfaceSample :=
  let oidList := map fst (tg_entries tg) in
  match agent oidList with
  | inl message => set_error message s
  | inr varbinds => apply_varbinds (tg_entries tg) (speed_scale (tg_iface tg)) s varbinds 0
  end.

Definition query_target (agent : list string -> SnmpResponse)
    (ifs : gmap string InterfaceSample) (tg : Target) : gmap string InterfaceSample :=
  if negb (tg_hasCounters tg) then ifs
  else
    let name := ic_name (tg_iface tg) in
    match ifs !! name with
    | None => ifs
    | Some s =>
        if is_nil (map fst (tg_entries tg)) then ifs
        else <[name := query_one agent tg s]> ifs
    end.

(** ** Third loop: rates, utilisation, status and the cache *)

Definition finalizeSample (s : InterfaceSample) (inR outR : Throughput) : InterfaceSample :=
  let mb := if Qltb 0 (maxBandwidth s) then maxBandwidth s else 1%Q in
  let inU := (bps inR / mb)%Q in
  let outU := (bps outR / mb)%Q in
  {| is_name := is_name s; inOctets := inOctets s; outOctets := outOctets s;
     inBps := bps inR; outBps := bps outR;
     inUtilization := inU; outUtilization := outU;
     is_status := metricStatus (jsmax inU outU) (truthy_str (is_error s));
     maxBandwidth := maxBandwidth s;
     fresh := tp_fresh inR && tp_fresh outR;
     is_error := is_error s |}.

(** The rates, utilisation and status of one interface, against the
    cached reading of its key. *)
Definition finalize_one (routerId : string) (now : Z) (cache : SampleCache)
    (name : string) (s : InterfaceSample) : InterfaceSample :=
  let previous := cache !! cacheKey routerId name in
  let deltaMs := match previous with Some p => now - ce_timestamp p | None => 0 end in
  let inR := computeThroughput (inOctets s) previous deltaMs DIn in
  let outR := computeThroughput (outOctets s) previous deltaMs DOut in
  finalizeSample s inR outR.

(** The cache entry written for an interface whose two counters were read. *)
Definition cache_update (now : Z) (s : InterfaceSample) : option SampleCacheEntry :=
  match inOctets s, outOctets s with
  | Some i, Some o => Some {| ce_inOctets := i; ce_outOctets := o; ce_timestamp := now |}
  | _, _ => None
  end.

Definition finalizeInterface (routerId : string) (now : Z)
    (st : gmap string InterfaceSample * SampleCache) (iface : InterfaceConfig)
    : gmap string InterfaceSample * SampleCache :=
  let '(ifs, cache) := st in
  let name := ic_name iface in
  match ifs !! name with
  | None => st
  | Some s =>
      (<[name := finalize_one routerId now cache name s]> ifs,
       match cache_update now s with
       | Some e => <[cacheKey routerId name := e]> cache
       | None => cache
       end)
  end.

(** [Object.values(sample.interfaces).map(i => i.status)]. *)
Definition interface_statuses (ifs : gmap string InterfaceSample) : list MetricStatus :=
  map (fun kv => is_status kv.2) (map_to_list ifs).

Definition pollRouter (routerId : string) (router : RouterConfig)
    (agent : list string -> SnmpResponse) (now : Z) (cache : SampleCache)
    : RouterSample * SampleCache :=
  if is_nil (rc_interfaces router) then
    ({| rs_status := error; rs_interfaces := ∅;
        rs_error := Some "No interfaces configured"%string |}, cache)
  else
    let '(ifs, targets, hasValidCounterOid) := prepare (rc_interfaces router) in
    if negb hasValidCounterOid then
      ({| rs_status := combineStatuses (interface_statuses ifs);
          rs_interfaces := ifs; rs_error := None |}, cache)
    else
      let ifs1 := fold_left (query_target agent) targets ifs in
      let '(ifs2, cache') :=
        fold_left (finalizeInterface routerId now) (rc_interfaces router) (ifs1, cache) in
      ({| rs_status := combineStatuses (interface_statuses ifs2);
          rs_interfaces := ifs2; rs_error := None |}, cache').

(** ** [pollRouters] *)

(** One router of [pollRouters]: its poll, and its entry in the
    snapshot.  The cache reads and writes of a poll happen in its third
    loop, which has no [await]: each router's cache phase is atomic, and
    the routers' phases run in the order their SNMP answers complete. *)
Definition poll_one (agents : string -> list string -> SnmpResponse) (clock : string -> Z)
    (st : gmap string RouterSample * SampleCache) (entry : string * RouterConfig)
    : gmap string RouterSample * SampleCache :=
  let '(snapshot, cache) := st in
  let '(routerId, router) := entry in
  let '(rs, cache') := pollRouter routerId router (agents routerId) (clock routerId) cache in
  (<[routerId := rs]> snapshot, cache').

(** [pollRouters] with the cache phases run in the order [schedule], a
    permutation of [Object.entries(routers)]; the snapshot is
    [Object.fromEntries] of the results. *)
Definition pollRouters (agents : string -> list string -> SnmpResponse) (clock : string -> Z)
    (schedule : list (string * RouterConfig)) (cache : SampleCache)
    : gmap string RouterSample * SampleCache :=
  fold_left (poll_one agents clock) schedule (∅, cache).

(** A router id without the [":"] that [cacheKey] uses as separator. *)
Fixpoint colon_free (s : string) : bool :=
  match s with
  | EmptyString => true
  | String ch s' => negb (Ascii.eqb ch ":"%char) && colon_free s'
  end.

(** Whether [k] is the cache key of one of the interfaces [l] of router
    [routerId]. *)
Definition own_key (routerId : string) (l : list InterfaceConfig) (k : string) : bool :=
  existsb (fun i => String.eqb (cacheKey routerId (ic_name i)) k) l.

(** ** The per-interface reading of [pollRouter] *)

(** [hasValidCounterOid]: some interface has a valid [in] or [out] OID. *)
Definition has_counter_oid (ifaces : list InterfaceConfig) : bool :=
  existsb (fun i => tg_hasCounters (prepareInterface i).1) ifaces.

(** The sample of one interface after the second loop. *)
Definition queried_interface (agent : list string -> SnmpResponse)
    (iface : InterfaceConfig) : InterfaceSample :=
  let '(tg, s) := prepareInterface iface in
  if tg_hasCounters tg && negb (is_nil (map fst (tg_entries tg)))
  then query_one agent tg s else s.

(** The sample of one interface after the third loop. *)
Definition sample_interface (routerId : string) (agent : list string -> SnmpResponse)
    (now : Z) (cache : SampleCache) (iface : InterfaceConfig) : InterfaceSample :=
  finalize_one routerId now cache (ic_name iface) (queried_interface agent iface).

(** The cache entry of a key after the third loop. *)
Definition cache_after (now : Z) (s : InterfaceSample) (old : option SampleCacheEntry)
    : option SampleCacheEntry :=
  match cache_update now s with Some e => Some e | None => old end.

(** The reference semantics of [pollRouter]: each configured interface
    is sampled on its own and the cache entry of each is rewritten on its
    own, with no loop state shared between interfaces. *)
Definition pollRouter_ref (routerId : string) (router : RouterConfig)
    (agent : list string -> SnmpResponse) (now : Z) (c : SampleCache)
    : RouterSample * SampleCache :=
  let l := rc_interfaces router in
  let has := has_counter_oid l in
  let ifs : gmap string InterfaceSample :=
    list_to_map (map (fun i => (ic_name i,
      if has then sample_interface routerId agent now c i else (prepareInterface i).2)) l) in
  let c' := if has
            then fold_left (fun m i => partial_alter (cache_after now (queried_interface agent i))
                                         (cacheKey routerId (ic_name i)) m) l c
            else c in
  ({| rs_status := combineStatuses (interface_statuses ifs); rs_interfaces := ifs; rs_error := None |}, c').

(** ** Throughput: properties *)

Lemma computeThroughput_stale (current : option Z) (previous : option SampleCacheEntry)
    (deltaMs : Z) (direction : Direction) :
  current = None \/ previous = None \/ deltaMs <= 0 ->
  computeThroughput current previous deltaMs direction = no_throughput.
Proof.
  intros H. destruct current as [c|], previous as [p|]; try reflexivity.
  destruct H as [H|[H|H]]; try discriminate.
  simpl. replace (deltaMs <=? 0) with true by lia. reflexivity.
Qed.

(** Counter wrap or device reset: when the new reading is below the
    cached one the rate is zero and the sample is not fresh, whatever the
    elapsed time; the code waits for the next cycle. *)
Theorem computeThroughput_wrap (cur : Z) (prev : SampleCacheEntry) (deltaMs : Z)
    (direction : Direction) :
  cur < direction_value prev direction ->
  computeThroughput (Some cur) (Some prev) deltaMs direction = no_throughput.
Proof.
  intros Hlt. simpl. z_cases; solve [reflexivity | lia].
Qed.

Lemma inject_Z_pos_neq (d : Z) : 0 < d -> ~ (inject_Z d == 0)%Q.
Proof.
  intros Hd E. unfold Qeq in E. simpl in E. lia.
Qed.

(** A valid delta: the rate is
    [(current - previous) * 8 / (elapsed_ms / 1000)], that is
    [(current - previous) * 8000 / elapsed_ms], and the sample is fresh. *)
Lemma computeThroughput_valid (cur : Z) (prev : SampleCacheEntry) (deltaMs : Z)
    (direction : Direction) :
  0 < deltaMs -> direction_value prev direction <= cur ->
  let r := computeThroughput (Some cur) (Some prev) deltaMs direction in
  tp_fresh r = true /\
  (bps r == inject_Z ((cur - direction_value prev direction) * 8000) / inject_Z deltaMs)%Q.
Proof.
  intros Hd Hle. simpl.
  replace (deltaMs <=? 0) with false by lia.
  replace (cur <? direction_value prev direction) with false by lia.
  pose proof (inject_Z_pos_neq deltaMs Hd) as Hd'.
  destruct (Qeq_bool _ 0) eqn:E.
  { apply Qeq_bool_iff in E. exfalso. apply Hd'.
    setoid_replace (inject_Z deltaMs)
      with (inject_Z deltaMs / inject_Z 1000 * inject_Z 1000)%Q using relation Qeq
      by (field; apply inject_Z_pos_neq; lia).
    rewrite E. reflexivity. }
  split; [reflexivity|]. simpl.
  rewrite !inject_Z_mult. field.
  repeat split; solve [exact Hd' | apply inject_Z_pos_neq; lia].
Qed.

(** C1: [computeThroughput] on every branch: the sample is fresh exactly
    when both readings exist, time has passed and the counter has not gone
    backwards; a sample that is not fresh is [{ bps: 0, fresh: false }];
    a fresh one carries exactly [(current - previous) * 8000 / elapsed_ms]
    bits per second. *)
Theorem computeThroughput_spec (current : option Z) (previous : option SampleCacheEntry)
    (deltaMs : Z) (direction : Direction) :
  let r := computeThroughput current previous deltaMs direction in
  (tp_fresh r = true <-> exists cur prev, current = Some cur /\ previous = Some prev /\
                           0 < deltaMs /\ direction_value prev direction <= cur) /\
  (tp_fresh r = false -> r = no_throughput) /\
  (forall cur prev, current = Some cur -> previous = Some prev -> tp_fresh r = true ->
     (bps r == inject_Z ((cur - direction_value prev direction) * 8000) / inject_Z deltaMs)%Q).
Proof.
  cbv zeta.
  destruct current as [cur|], previous as [prev|];
    [|rewrite computeThroughput_stale by auto; split; [split; [discriminate | intros (? & ? & ? & ? & _); congruence] | split; [reflexivity | discriminate]]..].
  destruct (Z_lt_le_dec 0 deltaMs) as [Hd|Hd];
    [destruct (Z_lt_le_dec cur (direction_value prev direction)) as [Hw|Hw]|].
  - rewrite computeThroughput_wrap by exact Hw.
    split; [split; [discriminate | intros (? & ? & [= <-] & [= <-] & _ & H); lia] | split; [reflexivity | discriminate]].
  - destruct (computeThroughput_valid cur prev deltaMs direction Hd Hw) as [F R].
    split; [split; [intros _; eauto 7 | intros _; exact F] | split; [congruence |]].
    intros ? ? [= <-] [= <-] _. exact R.
  - rewrite computeThroughput_stale by auto.
    split; [split; [discriminate | intros (? & ? & _ & _ & H & _); lia] | split; [reflexivity | discriminate]].
Qed.

(** Unknown capacity: when an interface has no positive capacity
    (neither a probed speed nor a configured [max_bandwidth]), its
    utilisation is its rate divided by the fallback denominator 1, that
    is the rate in bits per second itself; the sample keeps [maxBandwidth]
    at its non-positive value and carries no other mark of the unknown
    capacity. *)
Theorem finalizeSample_unknown_capacity (s : InterfaceSample) (inR outR : Throughput) :
  (maxBandwidth s <= 0)%Q ->
  let f := finalizeSample s inR outR in
  (inUtilization f == bps inR)%Q /\ (outUtilization f == bps outR)%Q /\
  maxBandwidth f = maxBandwidth s.
Proof.
  intros Hmb. cbv zeta. unfold finalizeSample.
  replace (Qltb 0 (maxBandwidth s)) with false by (symmetry; apply Qltb_false; exact Hmb).
  simpl. split; [|split]; [field | field | reflexivity].
Qed.

(** ** [pollRouter]: the loops compute every interface on its own *)

Lemma append_inv_head (r a b : string) : (r ++ a = r ++ b)%string -> a = b.
Proof. induction r as [|c r IH]; simpl; [auto|]. intros [= E]. auto. Qed.

Lemma cacheKey_inj_r (routerId n1 n2 : string) :
  cacheKey routerId n1 = cacheKey routerId n2 -> n1 = n2.
Proof.
  unfold cacheKey. intros E. apply append_inv_head in E. injection E. auto.
Qed.

Lemma finalize_one_local (routerId : string) (now : Z) (c1 c2 : SampleCache)
    (name : string) (s : InterfaceSample) :
  c1 !! cacheKey routerId name = c2 !! cacheKey routerId name ->
  finalize_one routerId now c1 name s = finalize_one routerId now c2 name s.
Proof. intros E. unfold finalize_one. rewrite E. reflexivity. Qed.

Lemma register_oid_iface (kind : OidKind) (san : SanitizedOid) (tg : Target) (s : InterfaceSample) :
  tg_iface (register_oid kind san tg s).1 = tg_iface tg.
Proof.
  unfold register_oid. destruct (truthy_oid san); [reflexivity|].
  destruct (truthy_str _); reflexivity.
Qed.

Lemma prepareInterface_iface (iface : InterfaceConfig) :
  tg_iface (prepareInterface iface).1 = iface.
Proof.
  unfold prepareInterface.
  destruct (register_oid KIn _ _ _) as [tg1 s1] eqn:E1.
  destruct (register_oid KOut _ tg1 s1) as [tg2 s2] eqn:E2.
  assert (H2 : tg_iface tg2 = iface).
  { change tg2 with (tg2, s2).1. rewrite <- E2, register_oid_iface.
    change tg1 with (tg1, s1).1. rewrite <- E1, register_oid_iface. reflexivity. }
  destruct (truthy_str (oid_speed iface)); [|exact H2].
  rewrite register_oid_iface. exact H2.
Qed.

(** The first loop: every configured interface gets its prepared sample. *)
Lemma prepare_fold (l : list InterfaceConfig) (ifs : gmap string InterfaceSample)
    (tgs : list Target) (has : bool) :
  fold_left prepare_step l (ifs, tgs, has) =
  (fold_left (fun m i => <[ic_name i := (prepareInterface i).2]> m) l ifs,
   tgs ++ map (fun i => (prepareInterface i).1) l,
   has || has_counter_oid l).
Proof.
  revert ifs tgs has. induction l as [|i l IH]; intros ifs tgs has; simpl.
  - rewrite app_nil_r, orb_false_r. reflexivity.
  - destruct (prepareInterface i) as [tg s] eqn:E. simpl. rewrite IH.
    rewrite <- app_assoc, orb_assoc. simpl. reflexivity.
Qed.

(** The second loop updates each interface in place. *)
Lemma query_target_update (agent : list string -> SnmpResponse)
    (ifs : gmap string InterfaceSample) (tg : Target) :
  query_target agent ifs tg =
  update_own (fun tg => ic_name (tg_iface tg))
    (fun tg s => if tg_hasCounters tg && negb (is_nil (map fst (tg_entries tg)))
                 then query_one agent tg s else s) ifs tg.
Proof.
  unfold query_target, update_own.
  destruct (ifs !! ic_name (tg_iface tg)) as [s|] eqn:E;
    destruct (tg_hasCounters tg), (is_nil (map fst (tg_entries tg))); simpl;
    try reflexivity; symmetry; apply insert_id, E.
Qed.

(** The third loop: each interface is finalised against the cache as it
    was before the loop, and writes only its own key. *)
Lemma finalize_fold (routerId : string) (now : Z) (l : list InterfaceConfig)
    (ifs : gmap string InterfaceSample) (c : SampleCache) :
  NoDup (map ic_name l) ->
  let '(ifs', c') := fold_left (finalizeInterface routerId now) l (ifs, c) in
  (forall i s, In i l -> ifs !! ic_name i = Some s ->
     ifs' !! ic_name i = Some (finalize_one routerId now c (ic_name i) s) /\
     c' !! cacheKey routerId (ic_name i) =
       cache_after now s (c !! cacheKey routerId (ic_name i))) /\
  (forall k, ~ In k (map ic_name l) -> ifs' !! k = ifs !! k) /\
  (forall k, (forall i, In i l -> k <> cacheKey routerId (ic_name i)) -> c' !! k = c !! k).
Proof.
  revert ifs c. induction l as [|a l IH]; intros ifs c Hnd; simpl.
  { split; [tauto | split; auto]. }
  inversion Hnd as [|? ? Hnotin Hnd']; subst. rewrite list_elem_of_In in Hnotin.
  assert (Hkey : forall i, In i l -> cacheKey routerId (ic_name i) <> cacheKey routerId (ic_name a)).
  { intros i Hi E. apply cacheKey_inj_r in E. apply Hnotin. rewrite <- E. apply in_map, Hi. }
  destruct (ifs !! ic_name a) as [sa|] eqn:Ea.
  - set (c1 := match cache_update now sa with
               | Some e => <[cacheKey routerId (ic_name a) := e]> c | None => c end).
    assert (Hc1 : forall k, k <> cacheKey routerId (ic_name a) -> c1 !! k = c !! k).
    { intros k Hk. unfold c1. destruct (cache_update now sa); [|reflexivity].
      apply lookup_insert_ne. congruence. }
    specialize (IH (<[ic_name a := finalize_one routerId now c (ic_name a) sa]> ifs) c1 Hnd').
    destruct (fold_left _ l _) as [ifs' c'].
    destruct IH as (IHin & IHifs & IHc). split; [|split].
    + intros i s [Eai|Hi] Hs.
      * subst i. rewrite Ea in Hs. injection Hs as <-. split.
        -- rewrite IHifs by exact Hnotin. apply lookup_insert_eq.
        -- rewrite IHc by (intros i Hi; apply not_eq_sym, Hkey, Hi).
           unfold c1, cache_after. destruct (cache_update now sa); [apply lookup_insert_eq | reflexivity].
      * assert (Hne : ic_name a <> ic_name i) by (intros E; apply Hnotin; rewrite E; apply in_map, Hi).
        assert (Hs' : <[ic_name a := finalize_one routerId now c (ic_name a) sa]> ifs !! ic_name i = Some s)
          by (rewrite lookup_insert_ne by exact Hne; exact Hs).
        destruct (IHin i s Hi Hs') as [H1 H2].
        rewrite Hc1 in H2 by (apply Hkey, Hi). split; [|exact H2].
        rewrite H1. f_equal. apply finalize_one_local. apply Hc1, Hkey, Hi.
    + intros k Hk. rewrite IHifs by tauto. apply lookup_insert_ne. intros E. apply Hk. left; exact E.
    + intros k Hk. rewrite IHc by auto. apply Hc1. apply Hk. left; reflexivity.
  - specialize (IH ifs c Hnd'). destruct (fold_left _ l _) as [ifs' c'].
    destruct IH as (IHin & IHifs & IHc). split; [|split].
    + intros i s [Eai|Hi] Hs; [subst i; congruence|]. apply IHin; assumption.
    + intros k Hk. apply IHifs. tauto.
    + intros k Hk. apply IHc. auto.
Qed.

Lemma queried_interface_eq (agent : list string -> SnmpResponse) (iface : InterfaceConfig) :
  queried_interface agent iface =
  (fun tg s => if tg_hasCounters tg && negb (is_nil (map fst (tg_entries tg)))
               then query_one agent tg s else s)
    (prepareInterface iface).1 (prepareInterface iface).2.
Proof. unfold queried_interface. destruct (prepareInterface iface). reflexivity. Qed.

Lemma targets_names (l : list InterfaceConfig) :
  map (fun tg => ic_name (tg_iface tg)) (map (fun i => (prepareInterface i).1) l) = map ic_name l.
Proof. rewrite map_map. apply map_ext. intros i. rewrite prepareInterface_iface. reflexivity. Qed.

(** [pollRouter] on a router with interfaces whose names are distinct:
    every configured interface is sampled on its own ([sample_interface],
    or its validation result when no interface has a counter OID), no
    other name appears, the cache changes only at the router's own keys,
    and the router status combines the interface statuses. *)
Lemma pollRouter_spec (routerId : string) (router : RouterConfig)
    (agent : list string -> SnmpResponse) (now : Z) (c : SampleCache) :
  NoDup (map ic_name (rc_interfaces router)) -> rc_interfaces router <> [] ->
  let l := rc_interfaces router in
  let has := has_counter_oid l in
  let '(rs, c') := pollRouter routerId router agent now c in
  (forall i, In i l -> rs_interfaces rs !! ic_name i =
     Some (if has then sample_interface routerId agent now c i else (prepareInterface i).2)) /\
  (forall k, ~ In k (map ic_name l) -> rs_interfaces rs !! k = None) /\
  (forall i, In i l -> c' !! cacheKey routerId (ic_name i) =
     if has then cache_after now (queried_interface agent i) (c !! cacheKey routerId (ic_name i))
     else c !! cacheKey routerId (ic_name i)) /\
  (forall k, (forall i, In i l -> k <> cacheKey routerId (ic_name i)) -> c' !! k = c !! k) /\
  rs_status rs = combineStatuses (interface_statuses (rs_interfaces rs)) /\
  rs_error rs = None.
Proof.
  intros Hnd Hne. cbv zeta. unfold pollRouter, prepare.
  replace (is_nil (rc_interfaces router)) with false
    by (destruct (rc_interfaces router); [congruence | reflexivity]).
  rewrite prepare_fold, app_nil_l. simpl orb.
  set (l := rc_interfaces router) in *. set (has := has_counter_oid l).
  set (M0 := fold_left _ l ∅).
  destruct (fold_insert_own ic_name (fun i => (prepareInterface i).2) l ∅ Hnd) as [HM0in HM0out].
  fold M0 in HM0in, HM0out.
  destruct has eqn:Ehas; simpl negb; cbv iota.
  - rewrite (fold_left_ext _ _ _ _ (query_target_update agent)).
    set (tgs := map (fun i => (prepareInterface i).1) l).
    assert (Hndt : NoDup (map (fun tg => ic_name (tg_iface tg)) tgs)) by (unfold tgs; rewrite targets_names; exact Hnd).
    destruct (fold_update_own (fun tg => ic_name (tg_iface tg))
      (fun tg s => if tg_hasCounters tg && negb (is_nil (map fst (tg_entries tg)))
                   then query_one agent tg s else s) tgs M0 Hndt) as [HQin HQout].
    set (ifs1 := fold_left _ tgs M0) in HQin, HQout |- *.
    pose proof (finalize_fold routerId now l ifs1 c Hnd) as HF.
    destruct (fold_left (finalizeInterface routerId now) l (ifs1, c)) as [ifs2 c'].
    destruct HF as (HFin & HFifs & HFc).
    assert (Hq : forall i, In i l -> ifs1 !! ic_name i = Some (queried_interface agent i)).
    { intros i Hi. assert (Ht : In (prepareInterface i).1 tgs)
      by (apply (in_map (fun i => (prepareInterface i).1)), Hi).
      specialize (HQin _ Ht). rewrite prepareInterface_iface in HQin.
      rewrite HQin, HM0in by exact Hi. simpl. rewrite queried_interface_eq. reflexivity. }
    cbn [rs_interfaces rs_status rs_error].
    split; [|split; [|split; [|split; [|split]]]].
    + intros i Hi. apply (HFin i _ Hi (Hq i Hi)).
    + intros k Hk. rewrite HFifs by exact Hk. unfold ifs1. rewrite HQout.
      * rewrite HM0out by exact Hk. apply lookup_empty.
      * unfold tgs. rewrite targets_names. exact Hk.
    + intros i Hi. apply (HFin i _ Hi (Hq i Hi)).
    + exact HFc.
    + reflexivity.
    + reflexivity.
  - cbn [rs_interfaces rs_status rs_error].
    split; [|split; [|split; [|split; [|split]]]].
    + intros i Hi. apply HM0in, Hi.
    + intros k Hk. rewrite HM0out by exact Hk. apply lookup_empty.
    + reflexivity.
    + reflexivity.
    + reflexivity.
    + reflexivity.
Qed.

Lemma own_key_spec (routerId : string) (l : list InterfaceConfig) (k : string) :
  own_key routerId l k = true <-> exists i, In i l /\ cacheKey routerId (ic_name i) = k.
Proof.
  unfold own_key. rewrite existsb_exists. split.
  - intros (i & Hi & E). apply String.eqb_eq in E. eauto.
  - intros (i & Hi & E). exists i. split; [exact Hi|]. apply String.eqb_eq, E.
Qed.

Lemma own_key_false (routerId : string) (l : list InterfaceConfig) (k : string) :
  own_key routerId l k = false -> forall i, In i l -> k <> cacheKey routerId (ic_name i).
Proof.
  intros H i Hi E. assert (own_key routerId l k = true) by (apply own_key_spec; eauto). congruence.
Qed.

Lemma pollRouter_empty (routerId : string) (router : RouterConfig)
    (agent : list string -> SnmpResponse) (now : Z) (c : SampleCache) :
  rc_interfaces router = [] ->
  pollRouter routerId router agent now c =
  ({| rs_status := error; rs_interfaces := ∅; rs_error := Some "No interfaces configured"%string |}, c).
Proof. intros E. unfold pollRouter. rewrite E. reflexivity. Qed.

(** The poll of a router writes the cache only at its own keys. *)
Lemma pollRouter_frame_gen (routerId : string) (router : RouterConfig)
    (agent : list string -> SnmpResponse) (now : Z) (c : SampleCache) (k : string) :
  NoDup (map ic_name (rc_interfaces router)) ->
  own_key routerId (rc_interfaces router) k = false ->
  (pollRouter routerId router agent now c).2 !! k = c !! k.
Proof.
  intros Hnd Hk. destruct (nil_or_cons (rc_interfaces router)) as [El|Hne].
  { rewrite pollRouter_empty by exact El. reflexivity. }
  pose proof (pollRouter_spec routerId router agent now c Hnd Hne) as H. cbv zeta in H.
  destruct (pollRouter _ _ _ _ _) as [rs c']. destruct H as (_ & _ & _ & Hframe & _).
  apply Hframe. apply own_key_false, Hk.
Qed.

(** The poll of a router reads the cache only at its own keys. *)
Lemma pollRouter_local (routerId : string) (router : RouterConfig)
    (agent : list string -> SnmpResponse) (now : Z) (c1 c2 : SampleCache) :
  NoDup (map ic_name (rc_interfaces router)) ->
  (forall k, own_key routerId (rc_interfaces router) k = true -> c1 !! k = c2 !! k) ->
  (pollRouter routerId router agent now c1).1 = (pollRouter routerId router agent now c2).1 /\
  (forall k, own_key routerId (rc_interfaces router) k = true ->
     (pollRouter routerId router agent now c1).2 !! k = (pollRouter routerId router agent now c2).2 !! k).
Proof.
  intros Hnd Hagree. destruct (nil_or_cons (rc_interfaces router)) as [El|Hne].
  { rewrite !pollRouter_empty by exact El. simpl. split; [reflexivity|].
    intros k Hk. rewrite El in Hk. discriminate. }
  pose proof (pollRouter_spec routerId router agent now c1 Hnd Hne) as H1.
  pose proof (pollRouter_spec routerId router agent now c2 Hnd Hne) as H2.
  cbv zeta in H1, H2.
  destruct (pollRouter routerId router agent now c1) as [rs1 c1'].
  destruct (pollRouter routerId router agent now c2) as [rs2 c2']. simpl.
  destruct H1 as (S1in & S1out & C1in & _ & St1 & Er1).
  destruct H2 as (S2in & S2out & C2in & _ & St2 & Er2).
  assert (Hkey : forall i, In i (rc_interfaces router) ->
            c1 !! cacheKey routerId (ic_name i) = c2 !! cacheKey routerId (ic_name i)).
  { intros i Hi. apply Hagree, own_key_spec. eauto. }
  assert (Eifs : rs_interfaces rs1 = rs_interfaces rs2).
  { apply map_eq. intros k.
    destruct (in_dec string_dec k (map ic_name (rc_interfaces router))) as [Hk|Hk].
    - apply in_map_iff in Hk as (i & <- & Hi). rewrite S1in, S2in by exact Hi.
      destruct (has_counter_oid _); [|reflexivity]. unfold sample_interface.
      f_equal. apply finalize_one_local, Hkey, Hi.
    - rewrite S1out, S2out by exact Hk. reflexivity. }
  split.
  - destruct rs1, rs2; simpl in *. subst. reflexivity.
  - intros k Hk. apply own_key_spec in Hk as (i & Hi & <-).
    rewrite C1in, C2in, Hkey by exact Hi. reflexivity.
Qed.

(** C6: refinement: on a router whose interface names are distinct,
    [pollRouter]'s three loops over shared maps compute exactly the
    reference semantics [pollRouter_ref], in which every interface is
    sampled, and its cache entry rewritten, independently. *)
Theorem pollRouter_refinement (routerId : string) (router : RouterConfig)
    (agent : list string -> SnmpResponse) (now : Z) (c : SampleCache) :
  NoDup (map ic_name (rc_interfaces router)) -> rc_interfaces router <> [] ->
  pollRouter routerId router agent now c = pollRouter_ref routerId router agent now c.
Proof.
  intros Hnd Hne. pose proof (pollRouter_spec routerId router agent now c Hnd Hne) as H.
  cbv zeta in H. unfold pollRouter_ref.
  destruct (pollRouter routerId router agent now c) as [[st ifs err] c'].
  destruct H as (Sin & Sout & Cin & Cout & Hst & Her); simpl in *. subst st err.
  set (l := rc_interfaces router) in *.
  assert (Hifs : ifs = list_to_map (map (fun i => (ic_name i,
      if has_counter_oid l then sample_interface routerId agent now c i else (prepareInterface i).2)) l)).
  { destruct (lookup_list_to_map_own ic_name (fun i =>
      if has_counter_oid l then sample_interface routerId agent now c i else (prepareInterface i).2) l Hnd)
      as [Lin Lout].
    apply map_eq. intros k. destruct (in_dec string_dec k (map ic_name l)) as [Hk|Hk].
    - apply in_map_iff in Hk as (i & <- & Hi). rewrite Sin, Lin by exact Hi. reflexivity.
    - rewrite Sout, Lout by exact Hk. reflexivity. }
  rewrite <- Hifs. f_equal.
  destruct (has_counter_oid l) eqn:Ehas.
  - assert (Hndk : NoDup (map (fun i => cacheKey routerId (ic_name i)) l)).
    { rewrite <- map_map. apply NoDup_map_inj; [|exact Hnd].
      intros x y. apply cacheKey_inj_r. }
    destruct (fold_partial_alter_own (fun i => cacheKey routerId (ic_name i))
      (fun i => cache_after now (queried_interface agent i)) l c Hndk) as [Fin Fout].
    apply map_eq. intros k. destruct (own_key routerId l k) eqn:Ek.
    + apply own_key_spec in Ek as (i & Hi & <-). rewrite Cin, Fin by exact Hi. reflexivity.
    + rewrite Cout, Fout; [reflexivity | | exact (own_key_false routerId l k Ek)].
      intros Hin. apply in_map_iff in Hin as (i & E & Hi). exact (own_key_false routerId l k Ek i Hi (eq_sym E)).
  - apply map_eq. intros k. destruct (own_key routerId l k) eqn:Ek.
    + apply own_key_spec in Ek as (i & Hi & <-). rewrite Cin by exact Hi. reflexivity.
    + rewrite Cout by exact (own_key_false routerId l k Ek). reflexivity.
Qed.

(** Keys of routers whose ids have no [":"] never collide. *)
Lemma cacheKey_colon_free_inj (r1 r2 n1 n2 : string) :
  colon_free r1 = true -> colon_free r2 = true ->
  cacheKey r1 n1 = cacheKey r2 n2 -> r1 = r2.
Proof.
  unfold cacheKey. revert r2.
  induction r1 as [|c1 r1 IH]; intros [|c2 r2] H1 H2 E; simpl in *.
  - reflexivity.
  - injection E as Ec _. subst c2. rewrite Ascii.eqb_refl in H2. discriminate.
  - injection E as Ec _. subst c1. rewrite Ascii.eqb_refl in H1. discriminate.
  - apply andb_prop in H1 as [_ H1]. apply andb_prop in H2 as [_ H2].
    injection E as -> E. f_equal. apply IH; assumption.
Qed.

Lemma own_key_disjoint (r1 r2 : string) (l1 l2 : list InterfaceConfig) (k : string) :
  colon_free r1 = true -> colon_free r2 = true -> r1 <> r2 ->
  own_key r1 l1 k = true -> own_key r2 l2 k = false.
Proof.
  intros H1 H2 Hne Hk1. destruct (own_key r2 l2 k) eqn:Hk2; [|reflexivity].
  apply own_key_spec in Hk1 as (i1 & _ & E1). apply own_key_spec in Hk2 as (i2 & _ & E2).
  exfalso. apply Hne. eapply cacheKey_colon_free_inj; [exact H1 | exact H2 |].
  rewrite E1, E2. reflexivity.
Qed.

(** A router entry the concurrent poll can reorder freely. *)
Definition entry_ok (e : string * RouterConfig) : Prop :=
  colon_free e.1 = true /\ NoDup (map ic_name (rc_interfaces e.2)).

(** The cache phases of two routers with different colon-free ids commute. *)
Lemma poll_one_comm (agents : string -> list string -> SnmpResponse) (clock : string -> Z)
    (st : gmap string RouterSample * SampleCache) (e1 e2 : string * RouterConfig) :
  entry_ok e1 -> entry_ok e2 -> e1.1 <> e2.1 ->
  poll_one agents clock (poll_one agents clock st e1) e2 =
  poll_one agents clock (poll_one agents clock st e2) e1.
Proof.
  destruct st as [snap c], e1 as [r1 R1], e2 as [r2 R2]. unfold entry_ok. simpl.
  intros [C1 N1] [C2 N2] Hne.
  (* each poll sees the other's writes only outside its own keys *)
  assert (F1 := fun c' k => pollRouter_frame_gen r1 R1 (agents r1) (clock r1) c' k N1).
  assert (F2 := fun c' k => pollRouter_frame_gen r2 R2 (agents r2) (clock r2) c' k N2).
  assert (D12 := fun k => own_key_disjoint r1 r2 (rc_interfaces R1) (rc_interfaces R2) k C1 C2 Hne).
  assert (D21 := fun k => own_key_disjoint r2 r1 (rc_interfaces R2) (rc_interfaces R1) k C2 C1 (not_eq_sym Hne)).
  destruct (pollRouter_local r2 R2 (agents r2) (clock r2) (pollRouter r1 R1 (agents r1) (clock r1) c).2 c N2)
    as [E2 E2c]; [intros k Hk; apply F1, D21, Hk|].
  destruct (pollRouter_local r1 R1 (agents r1) (clock r1) (pollRouter r2 R2 (agents r2) (clock r2) c).2 c N1)
    as [E1 E1c]; [intros k Hk; apply F2, D12, Hk|].
  unfold poll_one.
  destruct (pollRouter r1 R1 (agents r1) (clock r1) c) as [rs1 c1] eqn:P1.
  destruct (pollRouter r2 R2 (agents r2) (clock r2) c) as [rs2 c2] eqn:P2.
  cbn [fst snd] in E1, E2, E1c, E2c.
  destruct (pollRouter r2 R2 (agents r2) (clock r2) c1) as [rs2' c12] eqn:P12.
  destruct (pollRouter r1 R1 (agents r1) (clock r1) c2) as [rs1' c21] eqn:P21.
  simpl in E1, E2, E1c, E2c. subst rs1' rs2'.
  f_equal.
  - apply insert_insert_ne. exact (not_eq_sym Hne).
  - apply map_eq. intros k.
    destruct (own_key r1 (rc_interfaces R1) k) eqn:K1.
    + rewrite E1c by exact K1.
      pose proof (F2 c1 k (D12 k K1)) as G. rewrite P12 in G. exact G.
    + destruct (own_key r2 (rc_interfaces R2) k) eqn:K2.
      * rewrite E2c by exact K2.
        pose proof (F1 c2 k (D21 k K2)) as G. rewrite P21 in G. symmetry. exact G.
      * pose proof (F2 c1 k K2) as G1. rewrite P12 in G1.
        pose proof (F1 c2 k K1) as G2. rewrite P21 in G2.
        pose proof (F1 c k K1) as G3. rewrite P1 in G3.
        pose proof (F2 c k K2) as G4. rewrite P2 in G4.
        simpl in *. congruence.
Qed.

Lemma poll_fold_perm (agents : string -> list string -> SnmpResponse) (clock : string -> Z)
    (l l' : list (string * RouterConfig)) :
  Permutation l l' -> NoDup (map fst l) -> Forall entry_ok l ->
  forall st, fold_left (poll_one agents clock) l st = fold_left (poll_one agents clock) l' st.
Proof.
  induction 1 as [|x l l' Hp IH|x y l|l l' l'' Hp1 IH1 Hp2 IH2]; intros Hnd Hok st.
  - reflexivity.
  - simpl. inversion Hnd; inversion Hok; subst. apply IH; assumption.
  - simpl. inversion Hnd as [|? ? Hy Hnd']; inversion Hok as [|? ? Oky Hok']; subst.
    inversion Hok' as [|? ? Okx _]; subst.
    f_equal. apply poll_one_comm; [exact Oky | exact Okx |].
    intros E. apply Hy. rewrite E. constructor.
  - rewrite IH1 by assumption. apply IH2.
    + apply NoDup_ListNoDup. apply NoDup_ListNoDup in Hnd.
      exact (Permutation.Permutation_NoDup (Permutation_map fst Hp1) Hnd).
    + rewrite List.Forall_forall in Hok |- *. intros e He. apply Hok.
      eapply Permutation_in; [symmetry; exact Hp1 | exact He].
Qed.

(** C7: concurrent polls: when router ids are distinct and contain no
    [":"] (and interface names are distinct within a router), the snapshot
    and the cache after a cycle do not depend on the order in which the
    routers' SNMP answers complete. *)
Theorem pollRouters_order_independent (agents : string -> list string -> SnmpResponse)
    (clock : string -> Z) (routers schedule : list (string * RouterConfig)) (cache : SampleCache) :
  Permutation routers schedule -> NoDup (map fst routers) -> Forall entry_ok routers ->
  pollRouters agents clock schedule cache = pollRouters agents clock routers cache.
Proof.
  intros Hp Hnd Hok. unfold pollRouters. symmetry. apply poll_fold_perm; assumption.
Qed.

(** Without that hypothesis the cache keys of two routers can
    collide: router ["a"] with interface ["b:c"] and router ["a:b"] with
    interface ["c"] share the key ["a:b:c"].  Depending on which answer
    completes first, the interface [c] of ["a:b"] is reported fresh, with a
    rate computed from the other router's counters, or not fresh. *)
Theorem pollRouters_key_collision :
  exists (agents : string -> list string -> SnmpResponse) (clock : string -> Z)
         (routers schedule : list (string * RouterConfig)),
    Permutation routers schedule /\ NoDup (map fst routers) /\
    cacheKey "a" "b:c" = cacheKey "a:b" "c" /\
    option_map fresh ((pollRouters agents clock routers ∅).1 !! "a:b" ≫= fun rs => rs_interfaces rs !! "c")
      = Some true /\
    option_map fresh ((pollRouters agents clock schedule ∅).1 !! "a:b" ≫= fun rs => rs_interfaces rs !! "c")
      = Some false.
Proof.
  set (ifc := fun n : string =>
    {| ic_name := n; oid_in := "1.3.6.1.2.1.31.1.1.1.6.1"; oid_out := "1.3.6.1.2.1.31.1.1.1.10.1";
       max_bandwidth := Some (1000000 # 1)%Q; oid_speed := None; oid_speed_scale := None;
       display_name := None |}).
  set (rtr := fun n : string =>
    {| rc_ip := "10.0.0.1"; rc_community := "public"; rc_label := None; rc_interfaces := [ifc n] |}).
  set (vb := fun n : Z => {| vb_oid := "1"; vb_error := None; vb_value := VNumber n |}).
  exists (fun rid _ => if String.eqb rid "a" then inr [vb 1000; vb 1000] else inr [vb 5000; vb 5000]),
         (fun rid => if String.eqb rid "a" then 1000 else 2000),
         [("a", rtr "b:c"); ("a:b", rtr "c")], [("a:b", rtr "c"); ("a", rtr "b:c")].
  split; [apply perm_swap|].
  split; [apply NoDup_ListNoDup; simpl; repeat constructor; simpl; intuition discriminate|].
  split; [reflexivity|]. split; vm_compute; reflexivity.
Qed.

Lemma interface_statuses_in (ifs : gmap string InterfaceSample) (k : string) (s : InterfaceSample) :
  ifs !! k = Some s -> In (is_status s) (interface_statuses ifs).
Proof.
  intros H. unfold interface_statuses. apply in_map_iff. exists (k, s). split; [reflexivity|].
  apply list_elem_of_In, elem_of_map_to_list, H.
Qed.

Lemma register_oid_counters (kind : OidKind) (san : SanitizedOid) (tg : Target) (s : InterfaceSample) :
  (tg_hasCounters tg = true -> tg_entries tg <> []) ->
  let tg' := (register_oid kind san tg s).1 in
  tg_hasCounters tg' = true -> tg_entries tg' <> [].
Proof.
  intros H. unfold register_oid. destruct (truthy_oid san).
  - simpl. intros _. destruct (tg_entries tg); discriminate.
  - destruct (truthy_str _); exact H.
Qed.

(** An interface with a counter OID has a non-empty OID list to query. *)
Lemma prepareInterface_counters (iface : InterfaceConfig) :
  tg_hasCounters (prepareInterface iface).1 = true -> tg_entries (prepareInterface iface).1 <> [].
Proof.
  unfold prepareInterface.
  destruct (register_oid KIn _ _ _) as [tg1 s1] eqn:E1.
  destruct (register_oid KOut _ tg1 s1) as [tg2 s2] eqn:E2.
  assert (H1 : tg_hasCounters tg1 = true -> tg_entries tg1 <> []).
  { change tg1 with (tg1, s1).1. rewrite <- E1. apply register_oid_counters. discriminate. }
  assert (H2 : tg_hasCounters tg2 = true -> tg_entries tg2 <> []).
  { change tg2 with (tg2, s2).1. rewrite <- E2. apply register_oid_counters, H1. }
  destruct (truthy_str (oid_speed iface)); [apply register_oid_counters, H2 | exact H2].
Qed.

Lemma queried_interface_agent (agent1 agent2 : list string -> SnmpResponse) (iface : InterfaceConfig) :
  agent1 (map fst (tg_entries (prepareInterface iface).1)) =
  agent2 (map fst (tg_entries (prepareInterface iface).1)) ->
  queried_interface agent1 iface = queried_interface agent2 iface.
Proof.
  intros E. unfold queried_interface, query_one.
  destruct (prepareInterface iface) as [tg s]. simpl in E. rewrite E. reflexivity.
Qed.

(** C5: failure isolation: the sample of an interface, and its cache
    entry, depend on the SNMP agent only through the answer to that
    interface's own query; whatever another interface's query returns,
    errors included, does not change them. *)
Theorem pollRouter_isolation (routerId : string) (router : RouterConfig)
    (agent1 agent2 : list string -> SnmpResponse) (now : Z) (c : SampleCache) (j : InterfaceConfig) :
  NoDup (map ic_name (rc_interfaces router)) -> In j (rc_interfaces router) ->
  agent1 (map fst (tg_entries (prepareInterface j).1)) =
  agent2 (map fst (tg_entries (prepareInterface j).1)) ->
  rs_interfaces (pollRouter routerId router agent1 now c).1 !! ic_name j =
  rs_interfaces (pollRouter routerId router agent2 now c).1 !! ic_name j /\
  (pollRouter routerId router agent1 now c).2 !! cacheKey routerId (ic_name j) =
  (pollRouter routerId router agent2 now c).2 !! cacheKey routerId (ic_name j).
Proof.
  intros Hnd Hj Hag. assert (Hne : rc_interfaces router <> []) by (destruct (rc_interfaces router); [contradiction | discriminate]).
  pose proof (pollRouter_spec routerId router agent1 now c Hnd Hne) as H1.
  pose proof (pollRouter_spec routerId router agent2 now c Hnd Hne) as H2. cbv zeta in H1, H2.
  destruct (pollRouter routerId router agent1 now c) as [rs1 c1].
  destruct (pollRouter routerId router agent2 now c) as [rs2 c2]. simpl.
  destruct H1 as (S1 & _ & C1 & _), H2 as (S2 & _ & C2 & _).
  rewrite S1, S2, C1, C2 by exact Hj. unfold sample_interface.
  rewrite (queried_interface_agent agent1 agent2 j Hag). split; reflexivity.
Qed.

(** C4: an interface whose SNMP query fails is reported with status
    [error] and the failure's message, and the router is reported in
    [error]; the cycle goes on for the other interfaces (C6). *)
Theorem pollRouter_query_error (routerId : string) (router : RouterConfig)
    (agent : list string -> SnmpResponse) (now : Z) (c : SampleCache)
    (i : InterfaceConfig) (message : string) :
  NoDup (map ic_name (rc_interfaces router)) -> In i (rc_interfaces router) ->
  tg_hasCounters (prepareInterface i).1 = true ->
  agent (map fst (tg_entries (prepareInterface i).1)) = inl message ->
  message <> EmptyString ->
  exists s, rs_interfaces (pollRouter routerId router agent now c).1 !! ic_name i = Some s /\
    is_status s = error /\ is_error s = Some message /\
    rs_status (pollRouter routerId router agent now c).1 = error.
Proof.
  intros Hnd Hi Hc Hag Hmsg. assert (Hne : rc_interfaces router <> []) by (destruct (rc_interfaces router); [contradiction | discriminate]).
  assert (Hhas : has_counter_oid (rc_interfaces router) = true).
  { apply existsb_exists. eauto. }
  pose proof (pollRouter_spec routerId router agent now c Hnd Hne) as H. cbv zeta in H.
  rewrite Hhas in H.
  destruct (pollRouter routerId router agent now c) as [rs c']. simpl.
  destruct H as (S & _ & _ & _ & St & _).
  assert (Hq : queried_interface agent i = set_error message (prepareInterface i).2).
  { unfold queried_interface, query_one.
    pose proof (prepareInterface_counters i Hc) as Hent.
    destruct (prepareInterface i) as [tg s]. simpl in *. rewrite Hc, Hag.
    destruct (tg_entries tg); [congruence | reflexivity]. }
  apply String.eqb_neq in Hmsg.
  assert (Hst : is_status (sample_interface routerId agent now c i) = error /\
                is_error (sample_interface routerId agent now c i) = Some message).
  { unfold sample_interface, finalize_one, finalizeSample. rewrite Hq. simpl.
    rewrite Hmsg. split; reflexivity. }
  eexists. split; [exact (S i Hi)|]. split; [apply Hst|]. split; [apply Hst|].
  rewrite St. apply combineStatuses_error. rewrite <- (proj1 Hst).
  eapply interface_statuses_in, S, Hi.
Qed.

(** Two consecutive cycles: if an interface's counters [a], [b] are
    read at [t0] and [a'], [b'] at [t1 > t0] with no wrap, the second cycle
    reports it fresh with exactly [(a' - a) * 8000 / (t1 - t0)] bits per
    second in and [(b' - b) * 8000 / (t1 - t0)] out: the cache written by
    the first poll is the baseline the second one reads. *)
Theorem pollRouter_two_cycles (routerId : string) (router : RouterConfig)
    (agent1 agent2 : list string -> SnmpResponse) (t0 t1 : Z) (c : SampleCache)
    (i : InterfaceConfig) (a b a' b' : Z) :
  NoDup (map ic_name (rc_interfaces router)) -> In i (rc_interfaces router) ->
  has_counter_oid (rc_interfaces router) = true ->
  inOctets (queried_interface agent1 i) = Some a -> outOctets (queried_interface agent1 i) = Some b ->
  inOctets (queried_interface agent2 i) = Some a' -> outOctets (queried_interface agent2 i) = Some b' ->
  t0 < t1 -> a <= a' -> b <= b' ->
  exists s,
    rs_interfaces (pollRouter routerId router agent2 t1
                     (pollRouter routerId router agent1 t0 c).2).1 !! ic_name i = Some s /\
    fresh s = true /\
    (inBps s == inject_Z ((a' - a) * 8000) / inject_Z (t1 - t0))%Q /\
    (outBps s == inject_Z ((b' - b) * 8000) / inject_Z (t1 - t0))%Q.
Proof.
  intros Hnd Hi Hhas Ha Hb Ha' Hb' Ht Hla Hlb.
  assert (Hne : rc_interfaces router <> []) by (destruct (rc_interfaces router); [contradiction | discriminate]).
  pose proof (pollRouter_spec routerId router agent1 t0 c Hnd Hne) as H1. cbv zeta in H1.
  rewrite Hhas in H1. destruct (pollRouter routerId router agent1 t0 c) as [rs1 c1]. simpl.
  destruct H1 as (_ & _ & C1 & _).
  pose proof (pollRouter_spec routerId router agent2 t1 c1 Hnd Hne) as H2. cbv zeta in H2.
  rewrite Hhas in H2. destruct (pollRouter routerId router agent2 t1 c1) as [rs2 c2]. simpl.
  destruct H2 as (S2 & _).
  eexists. split; [exact (S2 i Hi)|].
  specialize (C1 i Hi). unfold cache_after, cache_update in C1. rewrite Ha, Hb in C1.
  unfold sample_interface, finalize_one, finalizeSample. rewrite C1, Ha', Hb'.
  cbn [fresh inBps outBps].
  set (e := {| ce_inOctets := a; ce_outOctets := b; ce_timestamp := t0 |}).
  change (ce_timestamp e) with t0.
  destruct (computeThroughput_valid a' e (t1 - t0) DIn ltac:(lia) ltac:(simpl; lia)) as [Fi Ri].
  destruct (computeThroughput_valid b' e (t1 - t0) DOut ltac:(lia) ltac:(simpl; lia)) as [Fo Ro].
  rewrite Fi, Fo. split; [reflexivity|]. split; [exact Ri | exact Ro].
Qed.

(** ** Witnesses on a concrete router *)

Definition ex_iface (name oin oout : string) : InterfaceConfig :=
  {| ic_name := name; oid_in := oin; oid_out := oout;
     max_bandwidth := Some (1000000000 # 1)%Q; oid_speed := None; oid_speed_scale := None;
     display_name := None |}.

Definition ex_eth0 : InterfaceConfig := ex_iface "eth0" "1.3.6.1.2.1.31.1.1.1.6.1" "1.3.6.1.2.1.31.1.1.1.10.1".
Definition ex_eth1 : InterfaceConfig := ex_iface "eth1" "1.3.6.1.2.1.31.1.1.1.6.2" "1.3.6.1.2.1.31.1.1.1.10.2".

Definition ex_router : RouterConfig :=
  {| rc_ip := "192.0.2.1"; rc_community := "public"; rc_label := None;
     rc_interfaces := [ex_eth0; ex_eth1] |}.

Definition ex_vb (n : Z) : Varbind := {| vb_oid := "1"; vb_error := None; vb_value := VNumber n |}.

(** An agent that answers [eth0] with counters [a], [b] and times out on
    [eth1] when [fail] is set. *)
Definition ex_agent (fail : bool) (a b : Z) (oids : list string) : SnmpResponse :=
  if bool_decide (oids = ["1.3.6.1.2.1.31.1.1.1.6.2"; "1.3.6.1.2.1.31.1.1.1.10.2"]%string)
  then (if fail then inl "Request timed out"%string else inr [ex_vb 7; ex_vb 9])
  else inr [ex_vb a; ex_vb b].

Lemma computeThroughput_wrap_witness :
  computeThroughput (Some 5) (Some {| ce_inOctets := 10; ce_outOctets := 0; ce_timestamp := 0 |}) 1000 DIn
  = no_throughput.
Proof. apply computeThroughput_wrap. simpl. lia. Defined.

Lemma computeThroughput_spec_witness :
  let r := computeThroughput (Some 2000) (Some {| ce_inOctets := 1000; ce_outOctets := 0; ce_timestamp := 0 |}) 1000 DIn in
  tp_fresh r = true /\ (bps r == inject_Z ((2000 - 1000) * 8000) / inject_Z 1000)%Q.
Proof.
  cbv zeta.
  destruct (computeThroughput_spec (Some 2000) (Some {| ce_inOctets := 1000; ce_outOctets := 0; ce_timestamp := 0 |}) 1000 DIn) as (F & _ & R).
  assert (Hf : tp_fresh (computeThroughput (Some 2000) (Some {| ce_inOctets := 1000; ce_outOctets := 0; ce_timestamp := 0 |}) 1000 DIn) = true)
    by (apply F; do 2 eexists; repeat split; simpl; lia).
  split; [exact Hf | exact (R 2000 _ eq_refl eq_refl Hf)].
Defined.

Lemma pollRouter_isolation_witness :
  rs_interfaces (pollRouter "r1" ex_router (ex_agent true 100 200) 5000 ∅).1 !! "eth0"%string =
  rs_interfaces (pollRouter "r1" ex_router (ex_agent false 100 200) 5000 ∅).1 !! "eth0"%string /\
  (pollRouter "r1" ex_router (ex_agent true 100 200) 5000 ∅).2 !! cacheKey "r1" "eth0" =
  (pollRouter "r1" ex_router (ex_agent false 100 200) 5000 ∅).2 !! cacheKey "r1" "eth0".
Proof.
  apply (pollRouter_isolation "r1" ex_router _ _ 5000 ∅ ex_eth0).
  - decide_by_compute.
  - left. reflexivity.
  - vm_compute. reflexivity.
Defined.

Lemma pollRouter_query_error_witness :
  exists s, rs_interfaces (pollRouter "r1" ex_router (ex_agent true 100 200) 5000 ∅).1 !! "eth1"%string = Some s /\
    is_status s = error /\ is_error s = Some "Request timed out"%string /\
    rs_status (pollRouter "r1" ex_router (ex_agent true 100 200) 5000 ∅).1 = error.
Proof.
  apply (pollRouter_query_error "r1" ex_router _ 5000 ∅ ex_eth1).
  - decide_by_compute.
  - right. left. reflexivity.
  - reflexivity.
  - vm_compute. reflexivity.
  - discriminate.
Defined.

Lemma pollRouter_two_cycles_witness :
  exists s,
    rs_interfaces (pollRouter "r1" ex_router (ex_agent false 3000 5000) 6000
                     (pollRouter "r1" ex_router (ex_agent false 1000 2000) 1000 ∅).2).1 !! "eth0"%string = Some s /\
    fresh s = true /\
    (inBps s == inject_Z ((3000 - 1000) * 8000) / inject_Z (6000 - 1000))%Q /\
    (outBps s == inject_Z ((5000 - 2000) * 8000) / inject_Z (6000 - 1000))%Q.
Proof.
  apply (pollRouter_two_cycles "r1" ex_router _ _ 1000 6000 ∅ ex_eth0);
    solve [decide_by_compute | left; reflexivity | vm_compute; reflexivity | lia].
Defined.

Lemma pollRouters_order_independent_witness :
  pollRouters (fun _ => ex_agent false 10 20) (fun _ => 1000)
    [("core", ex_router); ("edge", ex_router)] ∅ =
  pollRouters (fun _ => ex_agent false 10 20) (fun _ => 1000)
    [("edge", ex_router); ("core", ex_router)] ∅.
Proof.
  apply pollRouters_order_independent.
  - apply perm_swap.
  - decide_by_compute.
  - repeat constructor; decide_by_compute.
Defined.

Lemma pollRouter_refinement_witness :
  pollRouter "r1" ex_router (ex_agent true 100 200) 5000 ∅ =
  pollRouter_ref "r1" ex_router (ex_agent true 100 200) 5000 ∅.
Proof. apply pollRouter_refinement; [decide_by_compute | discriminate]. Defined.

Definition ex_nocap : InterfaceConfig :=
  {| ic_name := "eth9"; oid_in := "1.3.6.1.2.1.31.1.1.1.6.9"; oid_out := "1.3.6.1.2.1.31.1.1.1.10.9";
     max_bandwidth := None; oid_speed := None; oid_speed_scale := None; display_name := None |}.

Lemma finalizeSample_unknown_capacity_witness :
  let f := finalizeSample (makeInterfaceSample ex_nocap) {| bps := 800; tp_fresh := true |} no_throughput in
  (inUtilization f == 800)%Q /\ (outUtilization f == 0)%Q /\
  maxBandwidth f = maxBandwidth (makeInterfaceSample ex_nocap).
Proof. apply finalizeSample_unknown_capacity. vm_compute. discriminate. Defined.
