(* ===== verification/OldSampler.v ===== *)
(** * The earlier counter sampler

    [src/src/snmp.ts], the version of the sampler that [part_000]
    replaced.  It shares [sanitizeOid], [metricStatus],
    [combineStatuses], [computeThroughput] and [cacheKey] with the current
    one ([Oid], [Status], [Sampler]) but polls a router differently: one
    [session.get] for the OIDs of all its interfaces, whose varbinds are
    matched back to an interface and a direction through the map
    [oidMap] from the normalised OID, so a rejected request marks every
    interface of the router as failed.  The configuration has a
    mandatory [max_bandwidth] and no speed OID.

    The theorems: on an agent that answers every OID, the two samplers
    report the same samples and write the same cache; an agent that
    rejects a request naming an OID it does not know makes the earlier
    sampler report every interface of the router in error, where the
    current one isolates the failing interface; and two directions
    sharing one OID leave one counter unread in the earlier sampler. *)

From Stdlib Require Import QArith ZArith Ascii String List Lia Lqa.
From stdpp Require Import base option gmap strings.
From S2P Require Import Prelude Status Oid Sampler.

Local Open Scope Z_scope.

(** ** Data *)

Record OldInterfaceConfig := {
  oic_name : string;
  oic_oid_in : string;
  oic_oid_out : string;
  oic_max_bandwidth : Q;
  oic_display_name : option string
}.

Record OldRouterConfig := {
  orc_ip : string;
  orc_community : string;
  orc_label : option string;
  orc_interfaces : list OldInterfaceConfig
}.

(** The interface as the current configuration type has it (no speed
    OID): what [finalizeInterface] reads of it is its name. *)
Definition to_config (iface : OldInterfaceConfig) : InterfaceConfig :=
  {| ic_name := oic_name iface; oid_in := oic_oid_in iface; oid_out := oic_oid_out iface;
     max_bandwidth := Some (oic_max_bandwidth iface); oid_speed := None; oid_speed_scale := None;
     display_name := oic_display_name iface |}.

(** ** Helpers *)

Fixpoint drop_dots (s : list ascii) : list ascii :=
  match s with
  | c :: s' => if Ascii.eqb c dot then drop_dots s' else s
  | [] => []
  end.

(** [normalizeOid]: [oid.trim().replace(/^\.+/, "")]. *)
Definition normalizeOid (oid : string) : string :=
  string_of_list_ascii (drop_dots (list_ascii_of_string (trim oid))).

(** [parseOctets]: the value when it is a number. *)
Definition parseOctets (vb : Varbind) : option Z :=
  match vb_value vb with VNumber n => Some n | VOther => None end.

(** [makeInterfaceSample]: [max_bandwidth] is taken as configured. *)
Definition old_makeInterfaceSample (iface : OldInterfaceConfig) : InterfaceSample :=
  {| is_name := oic_name iface; inOctets := None; outOctets := None;
     inBps := 0; outBps := 0; inUtilization := 0; outUtilization := 0;
     is_status := ok; maxBandwidth := oic_max_bandwidth iface; fresh := false; is_error := None |}.

(** [${meta.direction}]. *)
Definition direction_label (d : Direction) : string :=
  match d with DIn => "in" | DOut => "out" end.

Definition kind_of (d : Direction) : OidKind := match d with DIn => KIn | DOut => KOut end.

(** ** First loop: the OID list and [oidMap] *)

Record OidState := {
  os_oids : list string;
  os_oidMap : gmap string (OldInterfaceConfig * Direction);
  os_hasValid : bool
}.

(** One OID of an interface: a valid OID is pushed on [oids] and
    [oidMap.set] maps it to the interface and direction (replacing an
    earlier entry for the same OID); an invalid one records its error. *)
Definition register_old (iface : OldInterfaceConfig) (d : Direction) (san : SanitizedOid)
    (st : OidState) (s : InterfaceSample) : OidState * InterfaceSample :=
  match truthy_oid san with
  | Some o =>
      ({| os_oids := os_oids st ++ [o]; os_oidMap := <[o := (iface, d)]> (os_oidMap st);
          os_hasValid := true |}, s)
  | None =>
      if truthy_str (so_error san) then (st, set_error (so_error san ?? EmptyString) s) else (st, s)
  end.

Definition old_prepare_step (st : gmap string InterfaceSample * OidState) (iface : OldInterfaceConfig)
    : gmap string InterfaceSample * OidState :=
  let '(ifs, os) := st in
  let s0 := old_makeInterfaceSample iface in
  let '(os1, s1) := register_old iface DIn (sanitizeOid (oic_oid_in iface)) os s0 in
  let '(os2, s2) := register_old iface DOut (sanitizeOid (oic_oid_out iface)) os1 s1 in
  (<[oic_name iface := s2]> ifs, os2).

Definition old_prepare (ifaces : list OldInterfaceConfig) : gmap string InterfaceSample * OidState :=
  fold_left old_prepare_step ifaces (∅, {| os_oids := []; os_oidMap := ∅; os_hasValid := false |}).

(** ** The answer of the single [session.get] *)

(** [err]: the router and every configured interface are in error. *)
Definition fail_all (message : string) (ifs : gmap string InterfaceSample)
    (ifaces : list OldInterfaceConfig) : gmap string InterfaceSample :=
  fold_left (fun ifs iface =>
               match ifs !! oic_name iface with
               | Some s => <[oic_name iface := set_error message s]> ifs
               | None => ifs
               end) ifaces ifs.

(** The body of [for (const varbind of varbinds)]. *)
Definition apply_old_varbind (oidMap : gmap string (OldInterfaceConfig * Direction))
    (ifs : gmap string InterfaceSample) (vb : Varbind) : gmap string InterfaceSample :=
  match oidMap !! normalizeOid (vb_oid vb) with
  | None => ifs
  | Some (iface, d) =>
      match ifs !! oic_name iface with
      | None => ifs
      | Some s =>
          <[oic_name iface :=
              if isVarbindError vb then set_error (varbindError vb) s
              else match parseOctets vb with
                   | None => set_error ("Unexpected value type for " ++ direction_label d ++ " OID") s
                   | Some n => set_octets (kind_of d) n s
                   end]> ifs
      end
  end.

(** ** [pollRouter] and [pollRouters] *)

Definition old_pollRouter (routerId : string) (router : OldRouterConfig)
    (agent : list string -> SnmpResponse) (now : Z) (cache : SampleCache)
    : RouterSample * SampleCache :=
  if is_nil (orc_interfaces router) then
    ({| rs_status := error; rs_interfaces := ∅;
        rs_error := Some "No interfaces configured"%string |}, cache)
  else
    let '(ifs, os) := old_prepare (orc_interfaces router) in
    if negb (os_hasValid os) then
      ({| rs_status := combineStatuses (interface_statuses ifs); rs_interfaces := ifs; rs_error := None |},
       cache)
    else
      match agent (os_oids os) with
      | inl message =>
          ({| rs_status := error; rs_interfaces := fail_all message ifs (orc_interfaces router);
              rs_error := Some message |}, cache)
      | inr varbinds =>
          let ifs1 := fold_left (apply_old_varbind (os_oidMap os)) varbinds ifs in
          let '(ifs2, cache') :=
            fold_left (fun st iface => finalizeInterface routerId now st (to_config iface))
                      (orc_interfaces router) (ifs1, cache) in
          ({| rs_status := combineStatuses (interface_statuses ifs2); rs_interfaces := ifs2;
              rs_error := None |}, cache')
      end.

(** [pollRouters], with the routers' cache phases in the order
    [schedule] as for the current sampler. *)
Definition old_pollRouters (agents : string -> list string -> SnmpResponse) (clock : string -> Z)
    (schedule : list (string * OldRouterConfig)) (cache : SampleCache)
    : gmap string RouterSample * SampleCache :=
  fold_left (fun '(snapshot, cache) '(routerId, router) =>
               let '(rs, cache') := old_pollRouter routerId router (agents routerId) (clock routerId) cache in
               (<[routerId := rs]> snapshot, cache')) schedule (∅, cache).

(** ** An agent that answers every OID *)

(** What the agent holds for an OID: an error, or the counter value. *)
Definition answer (reading : string -> string + Z) (o : string) : Varbind :=
  match reading o with
  | inl e => {| vb_oid := o; vb_error := Some e; vb_value := VOther |}
  | inr n => {| vb_oid := o; vb_error := None; vb_value := VNumber n |}
  end.

(** A [session.get] on this agent answers one varbind per OID, in order. *)
Definition answering (reading : string -> string + Z) : list string -> SnmpResponse :=
  fun oids => inr (map (answer reading) oids).

(** The effect of the answer for one OID on the sample it belongs to. *)
Definition take_reading (r : string + Z) (kind : OidKind) (s : InterfaceSample) : InterfaceSample :=
  match r with inl e => set_error e s | inr n => set_octets kind n s end.

(** The valid counter OIDs of an interface, in the order they are sent. *)
Definition valid_entries (i : OldInterfaceConfig) : list (string * Direction) :=
  match truthy_oid (sanitizeOid (oic_oid_in i)) with Some o => [(o, DIn)] | None => [] end ++
  match truthy_oid (sanitizeOid (oic_oid_out i)) with Some o => [(o, DOut)] | None => [] end.

Definition all_entries (l : list OldInterfaceConfig) : list (string * Direction) :=
  flat_map valid_entries l.

(** ** Lemmas *)

Lemma truthy_oid_some (san : SanitizedOid) (o : string) : truthy_oid san = Some o -> so_oid san = Some o.
Proof.
  unfold truthy_oid. destruct (so_oid san) as [o'|]; [|discriminate].
  destruct (truthy_str (Some o')); [intros [= ->]; reflexivity | discriminate].
Qed.

Lemma drop_dots_digit (c : ascii) (w : list ascii) : is_digit c = true -> drop_dots (c :: w) = c :: w.
Proof. intros H. simpl. rewrite (proj2 (digit_not_space_dot c H)). reflexivity. Qed.

(** A sanitised OID is already normalised. *)
Lemma normalizeOid_sanitized (raw o : string) : so_oid (sanitizeOid raw) = Some o -> normalizeOid o = o.
Proof.
  intros H. destruct (sanitizeOid_shape raw o H) as (segs & [Hne Hall] & ->).
  unfold normalizeOid.
  assert (Hd : Forall (Forall (fun x => is_digit x = true)) segs).
  { eapply List.Forall_impl; [|exact Hall]. intros w Hw. exact (proj2 (digits_Forall w Hw)). }
  rewrite trim_id.
  - rewrite list_ascii_of_string_of_list_ascii.
    destruct segs as [|w ws]; [congruence|]. inversion Hall as [|? ? Hw _]; subst.
    destruct (digits_Forall w Hw) as [Hw0 Hwd]. destruct w as [|c w]; [congruence|].
    inversion Hwd as [|? ? Hc _]; subst.
    destruct ws as [|w' ws]; cbn [join_with app]; rewrite drop_dots_digit by exact Hc; reflexivity.
  - rewrite list_ascii_of_string_of_list_ascii. apply join_with_Forall; [reflexivity|].
    eapply List.Forall_impl; [|exact Hd]. intros w Hw. eapply List.Forall_impl; [|exact Hw].
    intros x Hx. exact (proj1 (digit_not_space_dot x Hx)).
Qed.

(** What validating an OID does to the sample, in both samplers. *)
Definition reg_sample (san : SanitizedOid) (s : InterfaceSample) : InterfaceSample :=
  match truthy_oid san with
  | Some _ => s
  | None => if truthy_str (so_error san) then set_error (so_error san ?? EmptyString) s else s
  end.

(** The sample of an interface after the first loop. *)
Definition old_prep_sample (i : OldInterfaceConfig) : InterfaceSample :=
  reg_sample (sanitizeOid (oic_oid_out i)) (reg_sample (sanitizeOid (oic_oid_in i)) (old_makeInterfaceSample i)).

(** The entries of [oidMap], with the interface each OID belongs to. *)
Definition tagged (i : OldInterfaceConfig) : list (string * (OldInterfaceConfig * Direction)) :=
  map (fun e => (e.1, (i, e.2))) (valid_entries i).

Definition has_valid (i : OldInterfaceConfig) : bool := negb (is_nil (valid_entries i)).

Lemma register_old_eq (i : OldInterfaceConfig) (d : Direction) (san : SanitizedOid) (st : OidState)
    (s : InterfaceSample) :
  register_old i d san st s =
    (match truthy_oid san with
     | Some o => {| os_oids := os_oids st ++ [o]; os_oidMap := <[o := (i, d)]> (os_oidMap st);
                    os_hasValid := true |}
     | None => st
     end, reg_sample san s).
Proof.
  unfold register_old, reg_sample. destruct (truthy_oid san); [reflexivity|].
  destruct (truthy_str _); reflexivity.
Qed.

Lemma old_prepare_step_eq (ifs : gmap string InterfaceSample) (os : OidState) (i : OldInterfaceConfig) :
  old_prepare_step (ifs, os) i =
    (<[oic_name i := old_prep_sample i]> ifs,
     {| os_oids := os_oids os ++ map fst (valid_entries i);
        os_oidMap := fold_left (fun m e => <[e.1 := e.2]> m) (tagged i) (os_oidMap os);
        os_hasValid := os_hasValid os || has_valid i |}).
Proof.
  destruct os. unfold old_prepare_step. rewrite !register_old_eq.
  unfold old_prep_sample, tagged, has_valid, valid_entries.
  destruct (truthy_oid (sanitizeOid (oic_oid_in i))), (truthy_oid (sanitizeOid (oic_oid_out i)));
    cbn; rewrite ?app_nil_r, <- ?app_assoc, ?orb_true_r, ?orb_false_r; reflexivity.
Qed.

Lemma old_prepare_fold (l : list OldInterfaceConfig) (ifs : gmap string InterfaceSample) (os : OidState) :
  fold_left old_prepare_step l (ifs, os) =
    (fold_left (fun m i => <[oic_name i := old_prep_sample i]> m) l ifs,
     {| os_oids := os_oids os ++ map fst (all_entries l);
        os_oidMap := fold_left (fun m e => <[e.1 := e.2]> m) (flat_map tagged l) (os_oidMap os);
        os_hasValid := os_hasValid os || existsb has_valid l |}).
Proof.
  revert ifs os. induction l as [|i l IH]; intros ifs os; cbn [fold_left].
  - destruct os. cbn. rewrite app_nil_r, orb_false_r. reflexivity.
  - rewrite old_prepare_step_eq, IH. cbn. unfold all_entries. cbn [flat_map].
    rewrite map_app, app_assoc, fold_left_app, orb_assoc. reflexivity.
Qed.

(** ** The single [session.get] on an answering agent *)

Section Answering.
Variable reading : string -> string + Z.

(** The readings of the valid OIDs of one interface, in order. *)
Definition seg_fold (i : OldInterfaceConfig) (s : InterfaceSample) : InterfaceSample :=
  fold_left (fun s e => take_reading (reading e.1) (kind_of e.2) s) (valid_entries i) s.

Lemma apply_old_answer (M : gmap string (OldInterfaceConfig * Direction)) (ifs : gmap string InterfaceSample)
    (o : string) (i : OldInterfaceConfig) (d : Direction) :
  M !! o = Some (i, d) -> normalizeOid o = o ->
  apply_old_varbind M ifs (answer reading o) =
    match ifs !! oic_name i with
    | Some s => <[oic_name i := take_reading (reading o) (kind_of d) s]> ifs
    | None => ifs
    end.
Proof.
  intros HM Hn. unfold apply_old_varbind, answer, take_reading.
  destruct (reading o); cbn [vb_oid]; rewrite Hn, HM; reflexivity.
Qed.

Lemma apply_old_segment (M : gmap string (OldInterfaceConfig * Direction)) (i : OldInterfaceConfig)
    (es : list (string * Direction)) (ifs : gmap string InterfaceSample) (s : InterfaceSample) :
  (forall e, In e es -> M !! e.1 = Some (i, e.2) /\ normalizeOid e.1 = e.1) ->
  ifs !! oic_name i = Some s ->
  fold_left (apply_old_varbind M) (map (answer reading) (map fst es)) ifs =
    <[oic_name i := fold_left (fun s e => take_reading (reading e.1) (kind_of e.2) s) es s]> ifs.
Proof.
  revert ifs s. induction es as [|e es IH]; intros ifs s He Hs; cbn [map fold_left].
  - symmetry. apply insert_id, Hs.
  - destruct (He e (or_introl eq_refl)) as [HM Hn].
    rewrite (apply_old_answer M ifs e.1 i e.2 HM Hn), Hs.
    rewrite (IH _ (take_reading (reading e.1) (kind_of e.2) s)); [apply insert_insert_eq | intros e' He'; apply He; right; exact He' | apply lookup_insert_eq].
Qed.

Lemma valid_entries_normal (i : OldInterfaceConfig) (e : string * Direction) :
  In e (valid_entries i) -> normalizeOid e.1 = e.1.
Proof.
  unfold valid_entries. intros He. apply in_app_or in He.
  destruct (truthy_oid (sanitizeOid (oic_oid_in i))) as [o1|] eqn:E1,
           (truthy_oid (sanitizeOid (oic_oid_out i))) as [o2|] eqn:E2;
    cbn in He; repeat destruct He as [He|He]; try contradiction; subst e; cbn;
    eapply normalizeOid_sanitized, truthy_oid_some; eassumption.
Qed.

(** The varbinds of the single request, applied in order, update each
    interface with the readings of its own OIDs. *)
Lemma apply_old_all (M : gmap string (OldInterfaceConfig * Direction)) (l : list OldInterfaceConfig)
    (ifs : gmap string InterfaceSample) :
  (forall i e, In i l -> In e (valid_entries i) -> M !! e.1 = Some (i, e.2)) ->
  (forall i, In i l -> ifs !! oic_name i <> None) ->
  fold_left (apply_old_varbind M) (map (answer reading) (map fst (all_entries l))) ifs =
    fold_left (update_own oic_name seg_fold) l ifs.
Proof.
  revert ifs. induction l as [|i l IH]; intros ifs HM Hifs; [reflexivity|].
  unfold all_entries. cbn [flat_map fold_left]. rewrite !map_app, fold_left_app.
  destruct (ifs !! oic_name i) as [s|] eqn:Es; [|exfalso; exact (Hifs i (or_introl eq_refl) Es)].
  rewrite (apply_old_segment M i (valid_entries i) ifs s).
  - unfold update_own at 2. rewrite Es. apply IH.
    + intros j e Hj He. apply HM; [right|]; assumption.
    + intros j Hj. destruct (String.eq_dec (oic_name i) (oic_name j)) as [E|E].
      * rewrite <- E, lookup_insert_eq. discriminate.
      * rewrite lookup_insert_ne by exact E. apply Hifs. right. exact Hj.
  - intros e He. split; [apply HM; [left; reflexivity | exact He] | apply (valid_entries_normal i e He)].
  - exact Es.
Qed.

(** The current sampler's varbind loop on the answers to one request. *)
Lemma apply_varbinds_answer (sc : Q) (es : list (string * Direction)) (pre : list (string * OidKind))
    (s : InterfaceSample) :
  apply_varbinds (pre ++ map (fun e => (e.1, kind_of e.2)) es) sc s
    (map (answer reading) (map fst (map (fun e => (e.1, kind_of e.2)) es))) (length pre) =
  fold_left (fun s e => take_reading (reading e.1) (kind_of e.2) s) es s.
Proof.
  revert pre s. induction es as [|e es IH]; intros pre s; [reflexivity|].
  cbn [map apply_varbinds fold_left].
  replace (apply_varbind _ sc s _ _) with (take_reading (reading e.1) (kind_of e.2) s).
  - replace (S (length pre)) with (length (pre ++ [(e.1, kind_of e.2)]))
      by (rewrite length_app; simpl; lia).
    rewrite <- (IH (pre ++ [(e.1, kind_of e.2)])), <- app_assoc. reflexivity.
  - unfold apply_varbind. rewrite nth_error_app2, Nat.sub_diag by lia. cbn [nth_error].
    unfold answer, take_reading. destruct e as [o d]; cbn [fst snd]. destruct (reading o), d; reflexivity.
Qed.
End Answering.

(** ** The current sampler on the same configuration *)

(** The router as the current configuration type has it. *)
Definition to_router (router : OldRouterConfig) : RouterConfig :=
  {| rc_ip := orc_ip router; rc_community := orc_community router; rc_label := orc_label router;
     rc_interfaces := map to_config (orc_interfaces router) |}.

Lemma prepareInterface_to_config (i : OldInterfaceConfig) :
  prepareInterface (to_config i) =
    ({| tg_iface := to_config i; tg_entries := map (fun e => (e.1, kind_of e.2)) (valid_entries i);
        tg_hasCounters := has_valid i |},
     reg_sample (sanitizeOid (oic_oid_out i)) (reg_sample (sanitizeOid (oic_oid_in i))
       (makeInterfaceSample (to_config i)))).
Proof.
  unfold prepareInterface, register_oid, reg_sample, has_valid, valid_entries.
  cbn [to_config oid_in oid_out oid_speed truthy_str].
  destruct (truthy_oid (sanitizeOid (oic_oid_in i))), (truthy_oid (sanitizeOid (oic_oid_out i)));
    repeat match goal with |- context [if truthy_str ?e then _ else _] => destruct (truthy_str e) end;
    cbn; reflexivity.
Qed.

Lemma make_to_config (i : OldInterfaceConfig) :
  (0 < oic_max_bandwidth i)%Q -> makeInterfaceSample (to_config i) = old_makeInterfaceSample i.
Proof.
  intros H. unfold makeInterfaceSample, old_makeInterfaceSample. cbn [to_config max_bandwidth ic_name].
  rewrite (proj2 (Qltb_iff 0 (oic_max_bandwidth i)) H). reflexivity.
Qed.

Lemma is_nil_map {A B} (f : A -> B) (l : list A) : is_nil (map f l) = is_nil l.
Proof. destruct l; reflexivity. Qed.

Lemma seg_fold_empty (reading : string -> string + Z) (i : OldInterfaceConfig) (s : InterfaceSample) :
  has_valid i = false -> seg_fold reading i s = s.
Proof. unfold has_valid, seg_fold. destruct (valid_entries i); [reflexivity | discriminate]. Qed.

(** One step of the current sampler's second loop on a converted
    interface reads that interface's OIDs. *)
Lemma query_target_to_config (reading : string -> string + Z) (i : OldInterfaceConfig)
    (ifs : gmap string InterfaceSample) :
  query_target (answering reading) ifs (prepareInterface (to_config i)).1 =
    update_own oic_name (seg_fold reading) ifs i.
Proof.
  rewrite query_target_update, prepareInterface_to_config. unfold update_own. cbn [fst tg_iface to_config ic_name].
  destruct (ifs !! oic_name i) as [s|]; [|reflexivity]. cbn [tg_hasCounters tg_entries].
  rewrite !is_nil_map. f_equal. unfold has_valid.
  destruct (is_nil (valid_entries i)) eqn:En; cbn [negb andb].
  - rewrite seg_fold_empty by (unfold has_valid; rewrite En; reflexivity). reflexivity.
  - unfold query_one, answering. cbn [tg_entries].
    exact (apply_varbinds_answer reading _ (valid_entries i) [] s).
Qed.

Lemma oidMap_lookup (l : list OldInterfaceConfig) (i : OldInterfaceConfig) (e : string * Direction) :
  NoDup (map fst (all_entries l)) -> In i l -> In e (valid_entries i) ->
  fold_left (fun m e => <[e.1 := e.2]> m) (flat_map tagged l)
    (∅ : gmap string (OldInterfaceConfig * Direction)) !! e.1 = Some (i, e.2).
Proof.
  intros Hnd Hi He.
  assert (Hnd' : NoDup (map fst (flat_map tagged l))).
  { replace (map fst (flat_map tagged l)) with (map fst (all_entries l)); [exact Hnd|].
    unfold all_entries, tagged. rewrite !flat_map_concat_map, !concat_map, !map_map.
    f_equal. apply map_ext. intros j. rewrite map_map. reflexivity. }
  apply (proj1 (fold_insert_own fst snd _ ∅ Hnd') (e.1, (i, e.2))).
  apply in_flat_map. exists i. split; [exact Hi|]. apply (in_map (fun e => (e.1, (i, e.2)))), He.
Qed.

Lemma has_counter_to_config (l : list OldInterfaceConfig) :
  has_counter_oid (map to_config l) = existsb has_valid l.
Proof.
  induction l as [|i l IH]; [reflexivity|]. unfold has_counter_oid in *. cbn [map existsb].
  rewrite IH, prepareInterface_to_config. reflexivity.
Qed.

(** ** Properties *)

(** C8: equivalence of the two samplers: on a router whose interface
    names are distinct, whose valid OIDs are distinct and whose
    configured capacities are positive, polled through an agent that
    answers every OID it is asked for (a counter value or a varbind
    error), the earlier [pollRouter] with its single request and its
    [oidMap] reports exactly the samples, router status and cache of
    the current [pollRouter] with one request per interface. *)
Theorem old_pollRouter_equiv (routerId : string) (router : OldRouterConfig)
    (reading : string -> string + Z) (now : Z) (cache : SampleCache) :
  NoDup (map oic_name (orc_interfaces router)) ->
  NoDup (map fst (all_entries (orc_interfaces router))) ->
  Forall (fun i => 0 < oic_max_bandwidth i)%Q (orc_interfaces router) ->
  old_pollRouter routerId router (answering reading) now cache =
    pollRouter routerId (to_router router) (answering reading) now cache.
Proof.
  intros Hnd Hoids Hmb. unfold old_pollRouter, pollRouter, old_prepare, prepare.
  cbn [to_router rc_interfaces]. set (l := orc_interfaces router) in *.
  rewrite is_nil_map. destruct (is_nil l) eqn:El; [reflexivity|].
  rewrite old_prepare_fold, prepare_fold. cbn [os_oids os_oidMap os_hasValid app orb].
  assert (Hprep : fold_left (fun m i => <[ic_name i := (prepareInterface i).2]> m) (map to_config l)
                    (∅ : gmap string InterfaceSample) =
                  fold_left (fun m i => <[oic_name i := old_prep_sample i]> m) l ∅).
  { rewrite fold_left_map_in. apply fold_left_ext_in. intros m i Hi.
    rewrite prepareInterface_to_config, make_to_config by (rewrite List.Forall_forall in Hmb; apply Hmb, Hi).
    reflexivity. }
  rewrite Hprep, has_counter_to_config.
  destruct (existsb has_valid l) eqn:Eh; cbn [negb]; [|reflexivity].
  set (ifs0 := fold_left (fun m i => <[oic_name i := old_prep_sample i]> m) l ∅).
  cbn [answering]. rewrite apply_old_all.
  - rewrite map_map, !fold_left_map_in.
    rewrite (fold_left_ext_in (fun m i => query_target (answering reading) m (prepareInterface (to_config i)).1)
               (update_own oic_name (seg_fold reading)))
      by (intros m i _; apply query_target_to_config).
    reflexivity.
  - intros i e Hi He. exact (oidMap_lookup l i e Hoids Hi He).
  - intros i Hi. unfold ifs0. rewrite (proj1 (fold_insert_own oic_name old_prep_sample l ∅ Hnd) i Hi).
    discriminate.
Qed.

(** ** Examples *)

Definition ex_old_iface (name oin oout : string) : OldInterfaceConfig :=
  {| oic_name := name; oic_oid_in := oin; oic_oid_out := oout; oic_max_bandwidth := 1000000000%Q;
     oic_display_name := None |}.

(** A router with two interfaces and the 64-bit octet counters of each. *)
Definition ex_old_router : OldRouterConfig :=
  {| orc_ip := "192.0.2.1"; orc_community := "public"; orc_label := None;
     orc_interfaces := [ex_old_iface "eth0" "1.3.6.1.2.1.31.1.1.1.6.1" "1.3.6.1.2.1.31.1.1.1.10.1";
                        ex_old_iface "eth1" "1.3.6.1.2.1.31.1.1.1.6.2" "1.3.6.1.2.1.31.1.1.1.10.2"] |}.

Definition ex_reading (o : string) : string + Z := inr 1000.

Lemma old_pollRouter_equiv_witness :
  NoDup (map oic_name (orc_interfaces ex_old_router)) /\
  NoDup (map fst (all_entries (orc_interfaces ex_old_router))) /\
  Forall (fun i => 0 < oic_max_bandwidth i)%Q (orc_interfaces ex_old_router) /\
  old_pollRouter "r1" ex_old_router (answering ex_reading) 0 ∅ =
    pollRouter "r1" (to_router ex_old_router) (answering ex_reading) 0 ∅.
Proof.
  assert (H1 : NoDup (map oic_name (orc_interfaces ex_old_router))) by decide_by_compute.
  assert (H2 : NoDup (map fst (all_entries (orc_interfaces ex_old_router)))) by decide_by_compute.
  assert (H3 : Forall (fun i => 0 < oic_max_bandwidth i)%Q (orc_interfaces ex_old_router))
    by (repeat constructor).
  split; [exact H1|]. split; [exact H2|]. split; [exact H3|].
  exact (old_pollRouter_equiv "r1" ex_old_router ex_reading 0 ∅ H1 H2 H3).
Defined.

(** An agent that rejects a request naming an OID it does not serve, as
    an SNMPv1 agent answers [noSuchName] for the whole request. *)
Definition ex_strict_agent (served : list string) : list string -> SnmpResponse :=
  fun oids => if forallb (fun o => existsb (String.eqb o) served) oids
              then inr (map (answer ex_reading) oids) else inl "noSuchName"%string.

(** The earlier sampler does not isolate interfaces: when the agent does
    not serve the counters of [eth1], the single request fails and
    [eth0] is reported in error too; the current sampler, with one
    request per interface, reports [eth0] as [ok]. *)
Theorem old_sampler_no_isolation :
  let agent := ex_strict_agent ["1.3.6.1.2.1.31.1.1.1.6.1"; "1.3.6.1.2.1.31.1.1.1.10.1"] in
  (is_status <$> rs_interfaces (old_pollRouter "r1" ex_old_router agent 0 ∅).1 !! "eth0") = Some error /\
  (is_status <$> rs_interfaces (pollRouter "r1" (to_router ex_old_router) agent 0 ∅).1 !! "eth0") = Some ok.
Proof. split; vm_compute; reflexivity. Qed.

(** A router whose interface reads both directions from one OID. *)
Definition ex_shared_router : OldRouterConfig :=
  {| orc_ip := "192.0.2.1"; orc_community := "public"; orc_label := None;
     orc_interfaces := [ex_old_iface "eth0" "1.3.6.1.2.1.2.2.1.10.1" "1.3.6.1.2.1.2.2.1.10.1"] |}.

(** [oidMap.set] keeps one direction per OID: when both directions of an
    interface name the same OID, the earlier sampler reads only the
    [out] counter, leaving [inOctets] null, so the interface is never
    fresh; the current sampler reads both. *)
Theorem old_sampler_shared_oid :
  (inOctets <$> rs_interfaces (old_pollRouter "r1" ex_shared_router (answering ex_reading) 0 ∅).1 !! "eth0")
    = Some None /\
  (inOctets <$> rs_interfaces (pollRouter "r1" (to_router ex_shared_router) (answering ex_reading) 0 ∅).1
     !! "eth0") = Some (Some 1000).
Proof. split; vm_compute; reflexivity. Qed.
