(* ===== verification/Topology.v ===== *)
(** * The shared data model

    The types of [shared/types.ts] (its text is in
    [src/src/shared/path-utils.ts], lines 76-161): the topology the
    configuration loader produces and the metrics message the backend
    publishes.  Coordinates and bandwidths are numbers of the YAML file,
    modelled as [Q]; records keyed by name are [gmap string]. *)

From Stdlib Require Import QArith String List.
From stdpp Require Import base gmap strings.
From S2P Require Import Prelude Status.

Record Position := { px : Q; py : Q }.

Record InterfaceDefinition := {
  idef_name : string;
  idef_displayName : option string;
  idef_maxBandwidth : option Q;
  idef_speedOid : option string;
  idef_speedScale : option Q
}.

Record RouterDefinition := {
  rd_id : string;
  rd_label : string;
  rd_position : Position;
  rd_interfaces : list InterfaceDefinition
}.

Record LinkDefinition := {
  ld_id : string;
  ld_from : string;
  ld_to : string;
  ld_ifaceFrom : string;
  ld_ifaceTo : string;
  ld_label : option string;
  ld_path : option (list Position)
}.

Record MapSize := { ms_width : Q; ms_height : Q }.

Record TopologyDefinition := {
  td_title : option string;
  td_backgroundImage : string;
  td_mapSize : option MapSize;
  td_pollIntervalMs : Q;
  td_routers : list RouterDefinition;
  td_links : list LinkDefinition
}.

Record InterfaceMetrics := {
  im_name : string;
  im_inBps : Q;
  im_outBps : Q;
  im_inUtilization : Q;
  im_outUtilization : Q;
  im_status : MetricStatus;
  im_maxBandwidth : Q;
  im_fresh : bool;
  im_error : option string
}.

Record RouterMetrics := {
  rm_id : string;
  rm_label : string;
  rm_status : MetricStatus;
  rm_interfaces : gmap string InterfaceMetrics;
  rm_error : option string
}.

Record LinkMetrics := {
  lm_id : string;
  lm_label : option string;
  lm_from : string;
  lm_to : string;
  lm_forward : option InterfaceMetrics;
  lm_reverse : option InterfaceMetrics;
  lm_aggregateUtilization : option Q
}.

Record MetricsPayload := {
  mp_timestamp : string;
  mp_routers : gmap string RouterMetrics;
  mp_links : list LinkMetrics
}.

(** The topology is closed under its links: every link endpoint names a
    declared router and one of its interfaces.  The configuration loader
    establishes it; the resolver relies on it. *)
Definition link_resolves (routers : list RouterDefinition) (link : LinkDefinition) : Prop :=
  (exists r, In r routers /\ rd_id r = ld_from link /\
     exists i, In i (rd_interfaces r) /\ idef_name i = ld_ifaceFrom link) /\
  (exists r, In r routers /\ rd_id r = ld_to link /\
     exists i, In i (rd_interfaces r) /\ idef_name i = ld_ifaceTo link).
