(* ===== verification/Config.v ===== *)
(** * The configuration loader

    [normaliseRouters], [normalizePath], [normaliseLinks],
    [resolveDataPath] and the pure part of [loadRuntimeConfig] of
    [src/src/backend.ts] (the current version, lines 549-716).  The parsed
    YAML document is a [RawConfig]; a field the code tests with [typeof]
    is a [RawValue] (a number or not), the other fields have the types the
    code declares.  Every [throw] is an [inl] of the error monad of the
    prelude, with the message the code builds.  Reading the file, creating
    directories and logging are I/O and not modelled; the loader starts
    from the parsed document.

    The theorems: a loaded topology has distinct router ids and every link
    resolves to a declared router and interface (the contract the resolver
    relies on), the poll configuration and the topology describe the same
    interfaces, every interface has a capacity source, the background path
    stays in the data directory except for the name [".."], and what the
    loader does not check (duplicate link ids, duplicate interface
    names). *)

From Stdlib Require Import QArith Ascii String List Lia Lqa.
From stdpp Require Import base option gmap strings.
From S2P Require Import Prelude Oid Sampler Topology.

(** ** The parsed document *)

(** A YAML value whose type the code tests: a number, a string, or
    anything else. *)
Inductive RawValue := RNumber (q : Q) | RString (s : string) | ROther.

(** [typeof v === "number" ? v : ...]. *)
Definition js_number (v : option RawValue) : option Q :=
  match v with Some (RNumber q) => Some q | _ => None end.

Record RawInterfaceConfig := {
  ri_name : option string;
  ri_oid_in : option string;
  ri_oid_out : option string;
  ri_max_bandwidth : option RawValue;
  ri_oid_speed : option string;
  ri_oid_speed_scale : option RawValue;
  ri_display_name : option string
}.

Record RawRouterConfig := {
  rr_ip : option string;
  rr_community : option string;
  rr_label : option string;
  rr_position : option (option Q * option Q);
  rr_interfaces : option (list RawInterfaceConfig)
}.

Record RawPoint := { rp_x : option RawValue; rp_y : option RawValue }.

(** A link's [path]: an array of points (each possibly [null]), or a
    value that is not an array. *)
Inductive RawPath := PathArray (pts : list (option RawPoint)) | PathOther.

Record RawLinkConfig := {
  rl_id : option string;
  rl_from : string;
  rl_to : string;
  rl_iface_from : string;
  rl_iface_to : string;
  rl_label : option string;
  rl_path : option RawPath
}.

(** [raw.routers] is a JavaScript object: its entries in
    [Object.entries] order, keys distinct. *)
Record RawConfig := {
  meta_title : option string;
  meta_poll_interval_ms : option Q;
  map_background : option string;
  map_size : option (option RawValue * option RawValue);
  raw_routers : list (string * RawRouterConfig);
  raw_links : option (list RawLinkConfig)
}.

(** [routers[key]] on the parsed object. *)
Fixpoint assoc_lookup {A} (k : string) (l : list (string * A)) : option A :=
  match l with
  | [] => None
  | (k', v) :: l' => if String.eqb k k' then Some v else assoc_lookup k l'
  end.

Definition quote (s : string) : string := (dquote ++ s ++ dquote)%string.

(** ** [normaliseRouters] *)

(** [iface.oid_speed?.trim() || undefined]. *)
Definition trimmed_speed_oid (iface : RawInterfaceConfig) : option string :=
  match ri_oid_speed iface with
  | Some s => if String.eqb (trim s) EmptyString then None else Some (trim s)
  | None => None
  end.

(** [hasStaticBandwidth]. *)
Definition has_static_bandwidth (iface : RawInterfaceConfig) : bool :=
  match js_number (ri_max_bandwidth iface) with Some mb => Qltb 0 mb | None => false end.

(** [speedScale]. *)
Definition speed_scale_of (iface : RawInterfaceConfig) : Q :=
  match trimmed_speed_oid iface, js_number (ri_oid_speed_scale iface) with
  | Some _, Some sc => if Qltb 0 sc then sc else 1
  | _, _ => 1
  end.

(** The callback of [router.interfaces.map]: the poll entry and the
    topology entry of one interface. *)
Definition normaliseInterface (routerId : string) (iface : RawInterfaceConfig)
    : Result (InterfaceConfig * InterfaceDefinition) :=
  if negb (truthy_str (ri_name iface)) then
    inl ("Router " ++ quote routerId ++ " has an interface without a name")%string
  else
    let name := ri_name iface ?? EmptyString in
    if negb (truthy_str (ri_oid_in iface)) || negb (truthy_str (ri_oid_out iface)) then
      inl ("Interface " ++ quote name ++ " on router " ++ quote routerId ++
           " must define both oid_in and oid_out")%string
    else
      let trimmedSpeedOid := trimmed_speed_oid iface in
      let speedScale := speed_scale_of iface in
      let hasStaticBandwidth := has_static_bandwidth iface in
      if negb hasStaticBandwidth && negb (is_Some_b trimmedSpeedOid) then
        inl ("Interface " ++ quote name ++ " on router " ++ quote routerId ++
             " must define either max_bandwidth (> 0) or oid_speed")%string
      else
        let mb := js_number (ri_max_bandwidth iface) ?? 0%Q in
        let scale := if is_Some_b trimmedSpeedOid then Some speedScale else None in
        let displayName := ri_display_name iface ?? name in
        inr ({| ic_name := name; oid_in := ri_oid_in iface ?? EmptyString;
                oid_out := ri_oid_out iface ?? EmptyString;
                max_bandwidth := Some (if hasStaticBandwidth then mb else 0%Q);
                oid_speed := trimmedSpeedOid; oid_speed_scale := scale;
                display_name := Some displayName |},
             {| idef_name := name; idef_displayName := Some displayName;
                idef_maxBandwidth := if hasStaticBandwidth then Some mb else None;
                idef_speedOid := trimmedSpeedOid; idef_speedScale := scale |}).

(** The body of the loop over [Object.entries(routers)]. *)
Definition normaliseRouter (routerId : string) (router : RawRouterConfig)
    : Result (RouterConfig * RouterDefinition) :=
  if negb (truthy_str (rr_ip router)) || negb (truthy_str (rr_community router)) then
    inl ("Router " ++ quote routerId ++ " must define both ip and community")%string
  else
    match rr_interfaces router with
    | None | Some [] =>
        inl ("Router " ++ quote routerId ++ " must define at least one interface")%string
    | Some ifaces =>
        let* normalized := res_mapi (fun _ i => normaliseInterface routerId i) 0 ifaces in
        let label := rr_label router ?? routerId in
        let pos := rr_position router in
        inr ({| rc_ip := rr_ip router ?? EmptyString; rc_community := rr_community router ?? EmptyString;
                rc_label := Some label; rc_interfaces := map fst normalized |},
             {| rd_id := routerId; rd_label := label;
                rd_position := {| px := (pos ≫= fst) ?? 0%Q; py := (pos ≫= snd) ?? 0%Q |};
                rd_interfaces := map snd normalized |})
    end.

Fixpoint normaliseRouters_loop (entries : list (string * RawRouterConfig))
    (routerPollConfig : gmap string RouterConfig) (routerDefinitions : list RouterDefinition)
    : Result (gmap string RouterConfig * list RouterDefinition) :=
  match entries with
  | [] => inr (routerPollConfig, routerDefinitions)
  | (routerId, router) :: rest =>
      let* r := normaliseRouter routerId router in
      normaliseRouters_loop rest (<[routerId := r.1]> routerPollConfig) (routerDefinitions ++ [r.2])
  end.

Definition normaliseRouters (routers : list (string * RawRouterConfig))
    : Result (gmap string RouterConfig * list RouterDefinition) :=
  normaliseRouters_loop routers ∅ [].

(** ** [normalizePath] and [normaliseLinks] *)

Definition normalizePoint (index : nat) (point : option RawPoint) : Result Position :=
  match point with
  | Some {| rp_x := Some (RNumber x); rp_y := Some (RNumber y) |} => inr {| px := x; py := y |}
  | _ => inl ("Link path point #" ++ string_of_nat index ++
              " must declare numeric x/y coordinates")%string
  end.

Definition normalizePath (path : option RawPath) : Result (option (list Position)) :=
  match path with
  | None | Some PathOther | Some (PathArray []) => inr None
  | Some (PathArray pts) => let* ps := res_mapi normalizePoint 0 pts in inr (Some ps)
  end.

(** The callback of the first [links.map]. *)
Definition link_of_raw (index : nat) (link : RawLinkConfig) : Result LinkDefinition :=
  let* path := normalizePath (rl_path link) in
  inr {| ld_id := rl_id link ?? (rl_from link ++ "-" ++ rl_to link ++ "-" ++ string_of_nat index)%string;
         ld_from := rl_from link; ld_to := rl_to link;
         ld_ifaceFrom := rl_iface_from link; ld_ifaceTo := rl_iface_to link;
         ld_label := rl_label link; ld_path := path |}.

(** [interfaces.find(iface => iface.name === name)]. *)
Definition find_iface (ifaces : list RawInterfaceConfig) (name : string) : option RawInterfaceConfig :=
  find (fun i => match ri_name i with Some n => String.eqb n name | None => false end) ifaces.

(** [router.interfaces.find(...)] on a router whose [interfaces] is
    missing: the [TypeError] the engine throws. *)
Definition find_on (router : RawRouterConfig) (name : string) : Result (option RawInterfaceConfig) :=
  match rr_interfaces router with
  | Some ifaces => inr (find_iface ifaces name)
  | None => inl "Cannot read properties of undefined (reading 'find')"%string
  end.

(** The callback of the second [.map]: the reference checks. *)
Definition check_link (routers : list (string * RawRouterConfig)) (link : LinkDefinition)
    : Result LinkDefinition :=
  match assoc_lookup (ld_from link) routers, assoc_lookup (ld_to link) routers with
  | None, _ =>
      inl ("Link " ++ quote (ld_id link) ++ " references unknown router " ++ quote (ld_from link))%string
  | _, None =>
      inl ("Link " ++ quote (ld_id link) ++ " references unknown router " ++ quote (ld_to link))%string
  | Some fromRouter, Some toRouter =>
      let* fromIface := find_on fromRouter (ld_ifaceFrom link) in
      let* toIface := find_on toRouter (ld_ifaceTo link) in
      match fromIface, toIface with
      | None, _ =>
          inl ("Link " ++ quote (ld_id link) ++ " references unknown interface " ++
               quote (ld_ifaceFrom link) ++ " on router " ++ quote (ld_from link))%string
      | _, None =>
          inl ("Link " ++ quote (ld_id link) ++ " references unknown interface " ++
               quote (ld_ifaceTo link) ++ " on router " ++ quote (ld_to link))%string
      | Some _, Some _ => inr link
      end
  end.

Definition normaliseLinks (links : option (list RawLinkConfig)) (routers : list (string * RawRouterConfig))
    : Result (list LinkDefinition) :=
  match links with
  | None => inr []
  | Some ls =>
      let* defs := res_mapi link_of_raw 0 ls in
      res_mapi (fun _ l => check_link routers l) 0 defs
  end.

(** ** [resolveDataPath] *)

Definition slash : ascii := "/"%char.

Fixpoint drop_char (c : ascii) (l : list ascii) : list ascii :=
  match l with
  | x :: l' => if Ascii.eqb x c then drop_char c l' else l
  | [] => []
  end.

(** [path.basename(p)] (POSIX): trailing separators are ignored and the
    last segment is returned. *)
Definition basename (p : string) : string :=
  string_of_list_ascii
    (List.last (split_on slash (rev (drop_char slash (rev (list_ascii_of_string p))))) []).

(** [DATA_DIR] of the current backend. *)
Definition DATA_DIR : string := "/app/data".

(** [path.join(DATA_DIR, filename)] for a [filename] without separator:
    the empty segment and ["."] leave the directory, [".."] goes to its
    parent, any other name is appended. *)
Definition join_data_dir (filename : string) : string :=
  if String.eqb filename "" || String.eqb filename "." then DATA_DIR
  else if String.eqb filename ".." then "/app"
  else (DATA_DIR ++ "/" ++ filename)%string.

Definition resolveDataPath (maybeRelative : option string) : string :=
  let fallback := "background.png"%string in
  let filename := match option_map trim maybeRelative with
                  | Some t => if String.eqb t "" then fallback else basename t
                  | None => fallback
                  end in
  join_data_dir filename.

(** ** [loadRuntimeConfig] *)

Record RuntimeConfig := {
  rt_topology : TopologyDefinition;
  rt_routerPollConfig : gmap string RouterConfig;
  rt_pollIntervalMs : Q;
  rt_backgroundPath : string
}.

(** The check of [readConfigFile] on the parsed document. *)
Definition checkParsed (raw : RawConfig) : Result RawConfig :=
  if is_nil (raw_routers raw) then inl "Configuration must define at least one router"%string
  else inr raw.

Definition BACKGROUND_ROUTE : string := "/background.png".

Definition loadRuntimeConfig (parsed : RawConfig) : Result RuntimeConfig :=
  let* raw := checkParsed parsed in
  let* rs := normaliseRouters (raw_routers raw) in
  let* links := normaliseLinks (raw_links raw) (raw_routers raw) in
  let pollIntervalMs := meta_poll_interval_ms raw ?? (5000 # 1)%Q in
  let backgroundPath := resolveDataPath (map_background raw) in
  let mapSize := match map_size raw with
                 | Some (Some (RNumber w), Some (RNumber h)) => Some {| ms_width := w; ms_height := h |}
                 | _ => None
                 end in
  inr {| rt_topology := {| td_title := Some (meta_title raw ?? "TS Weathermap"%string);
                           td_backgroundImage := BACKGROUND_ROUTE; td_mapSize := mapSize;
                           td_pollIntervalMs := pollIntervalMs;
                           td_routers := rs.2; td_links := links |};
         rt_routerPollConfig := rs.1; rt_pollIntervalMs := pollIntervalMs;
         rt_backgroundPath := backgroundPath |}.

(** ** Properties of the loaded configuration *)

(** A capacity source: a positive configured capacity or a speed OID. *)
Definition capacity_source (ic : InterfaceConfig) : Prop :=
  (exists mb, max_bandwidth ic = Some mb /\ (0 < mb)%Q) \/
  (exists s, oid_speed ic = Some s /\ s <> EmptyString).

(** An endpoint the raw document declares: router [id] has an interface
    named [n]. *)
Definition raw_endpoint (routers : list (string * RawRouterConfig)) (id n : string) : Prop :=
  exists r ifaces x, assoc_lookup id routers = Some r /\ rr_interfaces r = Some ifaces /\
    In x ifaces /\ ri_name x = Some n.

Lemma assoc_lookup_In {A} (k : string) (l : list (string * A)) (v : A) :
  assoc_lookup k l = Some v -> In (k, v) l.
Proof.
  induction l as [|[k' v'] l IH]; simpl; [discriminate|].
  destruct (String.eqb_spec k k') as [<-|_]; [intros [= <-]; left; reflexivity|].
  intros H. right. apply IH, H.
Qed.

Lemma find_iface_Some (ifaces : list RawInterfaceConfig) (n : string) (x : RawInterfaceConfig) :
  find_iface ifaces n = Some x -> In x ifaces /\ ri_name x = Some n.
Proof.
  unfold find_iface. intros H. split; [eapply find_some, H|].
  apply find_some in H as [_ H]. destruct (ri_name x) as [m|]; [|discriminate].
  apply String.eqb_eq in H. congruence.
Qed.

Lemma normaliseInterface_ok (routerId : string) (x : RawInterfaceConfig)
    (ic : InterfaceConfig) (d : InterfaceDefinition) :
  normaliseInterface routerId x = inr (ic, d) ->
  ri_name x = Some (idef_name d) /\ ic_name ic = idef_name d /\ capacity_source ic.
Proof.
  unfold normaliseInterface.
  destruct (truthy_str (ri_name x)) eqn:Hn; simpl; [|discriminate].
  destruct (negb _ || negb _); [discriminate|].
  destruct (has_static_bandwidth x) eqn:Hs, (trimmed_speed_oid x) as [s|] eqn:Ht;
    simpl; try discriminate; intros [= <- <-]; simpl;
    (split; [destruct (ri_name x); [reflexivity | discriminate] | split; [reflexivity|]]).
  1,2: left; eexists; split; [reflexivity|].
  1,2: unfold has_static_bandwidth in Hs; destruct (js_number (ri_max_bandwidth x)); [|discriminate];
       apply Qltb_iff, Hs.
  right. exists s. split; [reflexivity|]. unfold trimmed_speed_oid in Ht.
  destruct (ri_oid_speed x); [|discriminate].
  destruct (String.eqb_spec (trim s0) EmptyString); congruence.
Qed.

Lemma normaliseRouter_ok (routerId : string) (router : RawRouterConfig)
    (pc : RouterConfig) (d : RouterDefinition) :
  normaliseRouter routerId router = inr (pc, d) ->
  rd_id d = routerId /\
  map ic_name (rc_interfaces pc) = map idef_name (rd_interfaces d) /\
  Forall capacity_source (rc_interfaces pc) /\
  (forall ifaces x n, rr_interfaces router = Some ifaces -> In x ifaces -> ri_name x = Some n ->
     exists i, In i (rd_interfaces d) /\ idef_name i = n).
Proof.
  unfold normaliseRouter. destruct (negb _ || negb _); [discriminate|].
  destruct (rr_interfaces router) as [[|i0 ifs]|]; try discriminate.
  intros H. res_inv H. injection H as <- <-. simpl.
  pose proof (res_mapi_out _ _ _ _ Hr) as Hout. pose proof (res_mapi_in _ _ _ _ Hr) as Hin.
  split; [reflexivity|]. split; [|split].
  - rewrite !map_map. apply map_ext_in. intros [ic d'] Hy.
    destruct (Hout _ Hy) as (k & x & _ & E). apply (normaliseInterface_ok _ _ _ _ E).
  - apply List.Forall_forall. intros ic Hic. apply in_map_iff in Hic as ([ic' d'] & <- & Hy).
    destruct (Hout _ Hy) as (k & x & _ & E). apply (normaliseInterface_ok _ _ _ _ E).
  - intros ifaces x n [= <-] Hx Hn. destruct (Hin x Hx) as (k & [ic d'] & Hy & E).
    exists d'. split; [apply (in_map snd _ _ Hy)|].
    destruct (normaliseInterface_ok _ _ _ _ E) as [E' _]. congruence.
Qed.

(** The loop over the routers: what it returns for the routers it has
    seen and for those it has not. *)
Lemma routers_loop_ids (entries : list (string * RawRouterConfig)) (m m' : gmap string RouterConfig) (defs defs' : list RouterDefinition) :
  normaliseRouters_loop entries m defs = inr (m', defs') ->
  map rd_id defs' = map rd_id defs ++ map fst entries.
Proof.
  revert m defs. induction entries as [|[id r] rest IH]; intros m defs H; simpl in H.
  - injection H as <- <-. rewrite app_nil_r. reflexivity.
  - res_inv H. destruct r0 as [pc d]. rewrite (IH _ _ H), map_app. simpl.
    rewrite (proj1 (normaliseRouter_ok _ _ _ _ Hr)), <- app_assoc. reflexivity.
Qed.

Lemma routers_loop_prefix (entries : list (string * RawRouterConfig)) (m m' : gmap string RouterConfig) (defs defs' : list RouterDefinition) :
  normaliseRouters_loop entries m defs = inr (m', defs') -> exists more, defs' = defs ++ more.
Proof.
  revert m defs. induction entries as [|[id r] rest IH]; intros m defs H; simpl in H.
  - injection H as <- <-. exists []. rewrite app_nil_r. reflexivity.
  - res_inv H. destruct (IH _ _ H) as (more & ->). exists ([r0.2] ++ more). rewrite <- app_assoc. reflexivity.
Qed.

Lemma routers_loop_frame (entries : list (string * RawRouterConfig)) (m m' : gmap string RouterConfig) (defs defs' : list RouterDefinition) (k : string) :
  normaliseRouters_loop entries m defs = inr (m', defs') -> ~ In k (map fst entries) -> m' !! k = m !! k.
Proof.
  revert m defs. induction entries as [|[id r] rest IH]; intros m defs H Hk; simpl in H, Hk.
  - injection H as <- <-. reflexivity.
  - res_inv H. rewrite (IH _ _ H) by tauto. apply lookup_insert_ne. intros E. apply Hk. left; exact E.
Qed.

Lemma routers_loop_each (entries : list (string * RawRouterConfig)) (m m' : gmap string RouterConfig) (defs defs' : list RouterDefinition) :
  normaliseRouters_loop entries m defs = inr (m', defs') -> NoDup (map fst entries) ->
  forall id r, In (id, r) entries ->
    exists pc d, normaliseRouter id r = inr (pc, d) /\ In d defs' /\ m' !! id = Some pc.
Proof.
  revert m defs. induction entries as [|[id0 r0] rest IH]; intros m defs H Hnd id r Hin; [destruct Hin|].
  simpl in H. res_inv H. destruct r1 as [pc0 d0].
  inversion Hnd as [|? ? Hnotin Hnd']; subst. rewrite list_elem_of_In in Hnotin.
  destruct Hin as [[= <- <-]|Hin].
  - exists pc0, d0. split; [exact Hr|]. split.
    + destruct (routers_loop_prefix _ _ _ _ _ H) as (more & ->).
      apply in_or_app. left. apply in_or_app. right. left. reflexivity.
    + rewrite (routers_loop_frame _ _ _ _ _ _ H Hnotin). apply lookup_insert_eq.
  - exact (IH _ _ H Hnd' id r Hin).
Qed.

Lemma routers_loop_defs (entries : list (string * RawRouterConfig)) (m m' : gmap string RouterConfig)
    (defs defs' : list RouterDefinition) :
  normaliseRouters_loop entries m defs = inr (m', defs') ->
  forall d, In d defs' -> In d defs \/ exists id r pc, In (id, r) entries /\ normaliseRouter id r = inr (pc, d).
Proof.
  revert m defs. induction entries as [|[id0 r0] rest IH]; intros m defs H d Hd; simpl in H.
  - injection H as <- <-. left. exact Hd.
  - res_inv H. destruct r as [pc0 d0]. destruct (IH _ _ H d Hd) as [Hin|(id & r & pc & Hin & E)].
    + apply in_app_or in Hin as [Hin|[<-|[]]]; [left; exact Hin|].
      right. exists id0, r0, pc0. split; [left; reflexivity | exact Hr].
    + right. exists id, r, pc. split; [right; exact Hin | exact E].
Qed.

(** A link that passes the reference checks is returned unchanged, and
    both its endpoints are declared in the raw document. *)
Lemma check_link_ok (routers : list (string * RawRouterConfig)) (l l' : LinkDefinition) :
  check_link routers l = inr l' ->
  l' = l /\ raw_endpoint routers (ld_from l) (ld_ifaceFrom l) /\ raw_endpoint routers (ld_to l) (ld_ifaceTo l).
Proof.
  unfold check_link, find_on.
  destruct (assoc_lookup (ld_from l) routers) as [fr|] eqn:Ef; [|discriminate].
  destruct (assoc_lookup (ld_to l) routers) as [tr|] eqn:Et; [|discriminate].
  destruct (rr_interfaces fr) as [fifs|] eqn:Eff; [|discriminate].
  destruct (rr_interfaces tr) as [tifs|] eqn:Etf; [|discriminate]. simpl.
  destruct (find_iface fifs _) as [fx|] eqn:Hfx; [|discriminate].
  destruct (find_iface tifs _) as [tx|] eqn:Htx; [|discriminate].
  intros [= <-]. apply find_iface_Some in Hfx as [Hfx Nf]. apply find_iface_Some in Htx as [Htx Nt].
  split; [reflexivity|]. split; [exists fr, fifs, fx | exists tr, tifs, tx]; auto.
Qed.

(** [normaliseLinks] returns the links it was given, in order, each with
    both endpoints declared. *)
Lemma normaliseLinks_ok (links : option (list RawLinkConfig)) (routers : list (string * RawRouterConfig))
    (defs : list LinkDefinition) :
  normaliseLinks links routers = inr defs ->
  Forall (fun l => raw_endpoint routers (ld_from l) (ld_ifaceFrom l) /\
                   raw_endpoint routers (ld_to l) (ld_ifaceTo l)) defs.
Proof.
  unfold normaliseLinks. destruct links as [ls|]; [|intros [= <-]; constructor].
  intros H. res_inv H.
  assert (Hid : defs = r) by (eapply res_mapi_id; [|exact H]; intros k x y E; apply (check_link_ok _ _ _ E)).
  subst defs. apply List.Forall_forall. intros l Hl.
  destruct (res_mapi_in _ _ _ _ H l Hl) as (k & l' & _ & E). apply (check_link_ok _ _ _ E).
Qed.

(** [normaliseLinks] keeps each link's endpoints. *)
Lemma normaliseLinks_ends (links : option (list RawLinkConfig)) (routers : list (string * RawRouterConfig))
    (defs : list LinkDefinition) :
  normaliseLinks links routers = inr defs ->
  map ld_from defs = map rl_from (links ?? []) /\ map ld_to defs = map rl_to (links ?? []).
Proof.
  unfold normaliseLinks. destruct links as [ls|]; [|intros [= <-]; split; reflexivity].
  intros H. res_inv H.
  assert (Hid : defs = r) by (eapply res_mapi_id; [|exact H]; intros k x y E; apply (check_link_ok _ _ _ E)).
  subst defs. simpl. clear H. revert r Hr. generalize 0.
  induction ls as [|l ls IH]; intros n r Hr; simpl in Hr.
  - injection Hr as <-. split; reflexivity.
  - res_inv Hr. injection Hr as <-. unfold link_of_raw in Hr0. res_inv Hr0. injection Hr0 as <-.
    destruct (IH _ _ Hr1) as [E1 E2]. simpl. rewrite E1, E2. split; reflexivity.
Qed.

Lemma normaliseRouters_endpoint (routers : list (string * RawRouterConfig))
    (m : gmap string RouterConfig) (defs : list RouterDefinition) (id n : string) :
  normaliseRouters routers = inr (m, defs) -> NoDup (map fst routers) ->
  raw_endpoint routers id n ->
  exists d, In d defs /\ rd_id d = id /\ exists i, In i (rd_interfaces d) /\ idef_name i = n.
Proof.
  intros H Hnd (r & ifaces & x & Hr & Hifs & Hx & Hn).
  destruct (routers_loop_each _ _ _ _ _ H Hnd id r (assoc_lookup_In _ _ _ Hr)) as (pc & d & E & Hd & _).
  destruct (normaliseRouter_ok _ _ _ _ E) as (Hid & _ & _ & Hifaces).
  exists d. split; [exact Hd|]. split; [exact Hid|]. exact (Hifaces _ _ _ Hifs Hx Hn).
Qed.

Lemma loadRuntimeConfig_inv (parsed : RawConfig) (rt : RuntimeConfig) :
  loadRuntimeConfig parsed = inr rt ->
  exists m defs links,
    normaliseRouters (raw_routers parsed) = inr (m, defs) /\
    normaliseLinks (raw_links parsed) (raw_routers parsed) = inr links /\
    td_routers (rt_topology rt) = defs /\ td_links (rt_topology rt) = links /\
    rt_routerPollConfig rt = m.
Proof.
  unfold loadRuntimeConfig, checkParsed. destruct (is_nil _); [discriminate|]. simpl.
  intros H. res_inv H. destruct r as [m defs]. injection H as <-.
  exists m, defs, r0. auto.
Qed.

(** A loaded topology has distinct router ids and its links resolve. *)
Lemma loaded_topology_ok (parsed : RawConfig) (rt : RuntimeConfig) :
  NoDup (map fst (raw_routers parsed)) ->
  loadRuntimeConfig parsed = inr rt ->
  NoDup (map rd_id (td_routers (rt_topology rt))) /\
  Forall (link_resolves (td_routers (rt_topology rt))) (td_links (rt_topology rt)).
Proof.
  intros Hnd H. destruct (loadRuntimeConfig_inv _ _ H) as (m & defs & links & Hr & Hl & -> & -> & _).
  split; [unfold normaliseRouters in Hr; rewrite (routers_loop_ids _ _ _ _ _ Hr); exact Hnd|].
  eapply Forall_impl; [exact (normaliseLinks_ok _ _ _ Hl)|]. intros l [Hf Ht].
  split; eapply normaliseRouters_endpoint; eassumption.
Qed.

(** C12: the contract between the loader and the resolver: a topology
    loaded from a document (whose [routers] keys are distinct, as the keys
    of a YAML mapping are) has distinct router ids, every link's two
    endpoints name a declared router and one of its interfaces, and the
    links are those of the document, in its order and with its ids. *)
Theorem loadRuntimeConfig_links_resolve (parsed : RawConfig) (rt : RuntimeConfig) :
  NoDup (map fst (raw_routers parsed)) ->
  loadRuntimeConfig parsed = inr rt ->
  NoDup (map rd_id (td_routers (rt_topology rt))) /\
  Forall (link_resolves (td_routers (rt_topology rt))) (td_links (rt_topology rt)) /\
  map ld_from (td_links (rt_topology rt)) = map rl_from (raw_links parsed ?? []) /\
  map ld_to (td_links (rt_topology rt)) = map rl_to (raw_links parsed ?? []).
Proof.
  intros Hnd H. destruct (loaded_topology_ok _ _ Hnd H) as [H1 H2].
  split; [exact H1|]. split; [exact H2|].
  destruct (loadRuntimeConfig_inv _ _ H) as (m & defs & links & _ & Hl & _ & -> & _).
  apply normaliseLinks_ends in Hl as [-> ->]. split; reflexivity.
Qed.

(** C13: the poller and the resolver see the same routers and interfaces:
    for every router of a loaded topology the poll configuration has an
    entry under its id with the same interface names in the same order,
    and each of these interfaces has a capacity source (a positive
    [max_bandwidth] or a non-empty speed OID). *)
Theorem loadRuntimeConfig_poll_matches (parsed : RawConfig) (rt : RuntimeConfig) :
  NoDup (map fst (raw_routers parsed)) ->
  loadRuntimeConfig parsed = inr rt ->
  forall d, In d (td_routers (rt_topology rt)) ->
    exists rc, rt_routerPollConfig rt !! rd_id d = Some rc /\
      map ic_name (rc_interfaces rc) = map idef_name (rd_interfaces d) /\
      Forall capacity_source (rc_interfaces rc).
Proof.
  intros Hnd H d Hd. destruct (loadRuntimeConfig_inv _ _ H) as (m & defs & links & Hr & _ & Edefs & _ & ->).
  rewrite Edefs in Hd. unfold normaliseRouters in Hr.
  destruct (routers_loop_defs _ _ _ _ _ Hr d Hd) as [[]|(id & r & pc & Hin & E)].
  destruct (routers_loop_each _ _ _ _ _ Hr Hnd id r Hin) as (pc' & d' & E' & _ & Hm).
  rewrite E in E'. injection E' as <- <-.
  destruct (normaliseRouter_ok _ _ _ _ E) as (<- & Hnames & Hcap & _).
  exists pc. auto.
Qed.

(** ** The background image path *)

Lemma basename_no_slash (p : string) : no_char slash (list_ascii_of_string (basename p)).
Proof.
  unfold basename. rewrite list_ascii_of_string_of_list_ascii.
  apply Forall_last; [apply split_on_pieces | constructor].
Qed.

Lemma join_data_dir_cases (f : string) :
  join_data_dir f = DATA_DIR \/
  (f <> EmptyString /\ f <> "."%string /\ f <> ".."%string /\ join_data_dir f = (DATA_DIR ++ "/" ++ f)%string) \/
  (f = ".."%string /\ join_data_dir f = "/app"%string).
Proof.
  unfold join_data_dir.
  destruct (String.eqb_spec f "") as [->|H1]; [left; reflexivity|].
  destruct (String.eqb_spec f ".") as [->|H2]; [left; reflexivity|]. simpl.
  destruct (String.eqb_spec f "..") as [->|H3]; [right; right; split; reflexivity|].
  right. left. auto.
Qed.

(** C14: the background image stays in the data directory: the resolved
    path is [DATA_DIR] itself or [DATA_DIR/name] for a name without
    separator that is not [""], ["."] or [".."]; the one exception is a
    configured value whose last segment is [".."] (for instance ["../.."]),
    which [path.join] resolves to the parent directory ["/app"]. *)
Theorem resolveDataPath_confined (background : option string) :
  resolveDataPath background = DATA_DIR \/
  (exists name, resolveDataPath background = (DATA_DIR ++ "/" ++ name)%string /\
     name <> EmptyString /\ name <> "."%string /\ name <> ".."%string /\
     no_char slash (list_ascii_of_string name)) \/
  (resolveDataPath background = "/app"%string /\
     exists t, background = Some t /\ basename (trim t) = ".."%string).
Proof.
  unfold resolveDataPath.
  assert (Hfb : exists name, join_data_dir "background.png" = (DATA_DIR ++ "/" ++ name)%string /\
            name <> EmptyString /\ name <> "."%string /\ name <> ".."%string /\
            no_char slash (list_ascii_of_string name))
    by (exists "background.png"%string; repeat split; try discriminate; repeat constructor).
  destruct background as [t|]; simpl; [destruct (String.eqb_spec (trim t) "")|];
    [right; left; exact Hfb | | right; left; exact Hfb].
  destruct (join_data_dir_cases (basename (trim t))) as [E|[(H1 & H2 & H3 & E)|(H & E)]].
  - left. exact E.
  - right. left. exists (basename (trim t)). repeat split; try assumption. apply basename_no_slash.
  - right. right. split; [exact E|]. exists t. auto.
Qed.

(** ** A concrete document *)

Definition ex_raw_iface (name : string) : RawInterfaceConfig :=
  {| ri_name := Some name; ri_oid_in := Some "1.3.6.1.2.1.31.1.1.1.6.1"%string;
     ri_oid_out := Some "1.3.6.1.2.1.31.1.1.1.10.1"%string;
     ri_max_bandwidth := Some (RNumber (1000000000 # 1)); ri_oid_speed := None;
     ri_oid_speed_scale := None; ri_display_name := None |}.

Definition ex_raw_router (ifaces : list RawInterfaceConfig) : RawRouterConfig :=
  {| rr_ip := Some "192.0.2.1"%string; rr_community := Some "public"%string; rr_label := None;
     rr_position := Some (Some (100 # 1), Some (100 # 1)); rr_interfaces := Some ifaces |}.

Definition ex_raw_link (id : option string) : RawLinkConfig :=
  {| rl_id := id; rl_from := "core"; rl_to := "edge"; rl_iface_from := "eth0";
     rl_iface_to := "eth0"; rl_label := None; rl_path := None |}.

(** Router [core] declares [eth0] twice, and both links are called
    [uplink]. *)
Definition ex_parsed : RawConfig :=
  {| meta_title := None; meta_poll_interval_ms := None; map_background := Some "../.."%string;
     map_size := None;
     raw_routers := [("core"%string, ex_raw_router [ex_raw_iface "eth0"; ex_raw_iface "eth0"]);
                     ("edge"%string, ex_raw_router [ex_raw_iface "eth0"])];
     raw_links := Some [ex_raw_link (Some "uplink"%string); ex_raw_link (Some "uplink"%string)] |}.

(** The loader does not check what the resolver and the sampler
    assume of names: a document whose router declares the same interface
    name twice and whose two links share one id is accepted. *)
Theorem loadRuntimeConfig_accepts_duplicates :
  NoDup (map fst (raw_routers ex_parsed)) /\
  exists rt, loadRuntimeConfig ex_parsed = inr rt /\
    ~ NoDup (map ld_id (td_links (rt_topology rt))) /\
    Exists (fun d => ~ NoDup (map idef_name (rd_interfaces d))) (td_routers (rt_topology rt)).
Proof.
  split; [decide_by_compute|].
  eexists. split; [vm_compute; reflexivity|].
  split; [decide_by_compute|]. apply List.Exists_cons_hd. decide_by_compute.
Qed.

Lemma loadRuntimeConfig_links_resolve_witness :
  exists rt, loadRuntimeConfig ex_parsed = inr rt /\
    NoDup (map rd_id (td_routers (rt_topology rt))) /\
    Forall (link_resolves (td_routers (rt_topology rt))) (td_links (rt_topology rt)) /\
    map ld_from (td_links (rt_topology rt)) = map rl_from (raw_links ex_parsed ?? []) /\
    map ld_to (td_links (rt_topology rt)) = map rl_to (raw_links ex_parsed ?? []).
Proof.
  destruct (loadRuntimeConfig ex_parsed) as [e|rt] eqn:E; [vm_compute in E; discriminate|].
  exists rt. split; [reflexivity|].
  apply (loadRuntimeConfig_links_resolve ex_parsed rt); [decide_by_compute | exact E].
Defined.

Lemma loadRuntimeConfig_poll_matches_witness :
  exists rt, loadRuntimeConfig ex_parsed = inr rt /\
    forall d, In d (td_routers (rt_topology rt)) ->
      exists rc, rt_routerPollConfig rt !! rd_id d = Some rc /\
        map ic_name (rc_interfaces rc) = map idef_name (rd_interfaces d) /\
        Forall capacity_source (rc_interfaces rc).
Proof.
  destruct (loadRuntimeConfig ex_parsed) as [e|rt] eqn:E; [vm_compute in E; discriminate|].
  exists rt. split; [reflexivity|].
  apply (loadRuntimeConfig_poll_matches ex_parsed rt); [decide_by_compute | exact E].
Defined.
