(* ===== verification/OldBackend.v ===== *)
(** * The earlier configuration loader

    The first version of the backend, kept at the top of
    [src/src/backend.ts] (lines 1-417): its document types, its
    [resolveDataPath], [normaliseRouters], [normaliseLinks] and the pure
    part of [loadRuntimeConfig].  Its poll configuration is the earlier
    sampler's ([OldSampler]): [max_bandwidth] is mandatory and there is no
    speed OID.  Its [normalizePath] and [normaliseLinks] are the current
    code to the character, so they are the current definitions applied to
    the routers of the earlier document seen as a current one
    ([raw_router_view]); its [toRouterMetrics] and [toLinkMetrics] differ
    from the current ones only by [maxBandwidth ?? 0], which this loader
    always defines, and are not repeated.

    [DATA_DIR] is [path.resolve] of the environment there, an absolute
    normalised path, a parameter here; [path.join] and [path.isAbsolute]
    are modelled for absolute paths.

    The theorems: on a document whose interfaces are complete and have a
    positive [max_bandwidth], the current loader run on the same document
    succeeds and fails exactly when the earlier one does, with the same
    topology, the same message, and the poll configuration the earlier
    sampler's configuration converts to; the earlier loader also accepts
    a zero capacity the current one rejects; its background path can
    leave the data directory. *)

From Stdlib Require Import QArith Ascii String List Lia Lqa.
From stdpp Require Import base option gmap strings.
From S2P Require Import Prelude Oid Sampler OldSampler Topology Config.

(** ** The document, as the earlier code declares it *)

Record OldRawInterfaceConfig := {
  ori_name : string;
  ori_oid_in : string;
  ori_oid_out : string;
  ori_max_bandwidth : Q;
  ori_display_name : option string
}.

Record OldRawRouterConfig := {
  orr_ip : option string;
  orr_community : option string;
  orr_label : option string;
  orr_position : option (Q * Q);
  orr_interfaces : option (list OldRawInterfaceConfig)
}.

Record OldRawConfig := {
  ometa_title : option string;
  ometa_poll_interval_ms : option Q;
  omap_background : option string;
  omap_size : option (option RawValue * option RawValue);
  oraw_routers : list (string * OldRawRouterConfig);
  oraw_links : option (list RawLinkConfig)
}.

(** The same YAML document read with the current declarations: the
    fields the earlier code declares, none of the new ones. *)
Definition raw_iface_view (i : OldRawInterfaceConfig) : RawInterfaceConfig :=
  {| ri_name := Some (ori_name i); ri_oid_in := Some (ori_oid_in i); ri_oid_out := Some (ori_oid_out i);
     ri_max_bandwidth := Some (RNumber (ori_max_bandwidth i)); ri_oid_speed := None;
     ri_oid_speed_scale := None; ri_display_name := ori_display_name i |}.

Definition raw_router_view (r : OldRawRouterConfig) : RawRouterConfig :=
  {| rr_ip := orr_ip r; rr_community := orr_community r; rr_label := orr_label r;
     rr_position := option_map (fun p => (Some p.1, Some p.2)) (orr_position r);
     rr_interfaces := option_map (map raw_iface_view) (orr_interfaces r) |}.

Definition raw_config_view (doc : OldRawConfig) : RawConfig :=
  {| meta_title := ometa_title doc; meta_poll_interval_ms := ometa_poll_interval_ms doc;
     map_background := omap_background doc; map_size := omap_size doc;
     raw_routers := map (fun e => (e.1, raw_router_view e.2)) (oraw_routers doc);
     raw_links := oraw_links doc |}.

(** ** [resolveDataPath] *)

(** [path.isAbsolute] (POSIX). *)
Definition is_absolute (p : string) : bool :=
  match p with String c _ => Ascii.eqb c slash | EmptyString => false end.

(** The segment loop of [path.normalize] on an absolute path: empty and
    ["."] segments are skipped, [".."] drops the last kept segment (and
    nothing at the root), any other segment is kept. *)
Fixpoint norm_abs (kept : list (list ascii)) (segs : list (list ascii)) : list (list ascii) :=
  match segs with
  | [] => kept
  | s :: rest =>
      let seg := string_of_list_ascii s in
      if is_nil s || String.eqb seg "." then norm_abs kept rest
      else if String.eqb seg ".." then norm_abs (removelast kept) rest
      else norm_abs (kept ++ [s]) rest
  end.

(** [path.normalize] of an absolute path: the kept segments after the
    root, with the trailing separator of the input kept. *)
Definition normalize_abs (p : string) : string :=
  let l := list_ascii_of_string p in
  let kept := norm_abs [] (split_on slash l) in
  if is_nil kept then "/"
  else string_of_list_ascii
         (slash :: join_with slash kept ++ (if Ascii.eqb (List.last l "a"%char) slash then [slash] else [])).

(** [path.join(dir, p)] for an absolute [dir] and a non-empty [p]. *)
Definition path_join (dir p : string) : string := normalize_abs (dir ++ "/" ++ p).

Definition old_resolveDataPath (dataDir : string) (maybeRelative : option string) : string :=
  if negb (truthy_str maybeRelative) then path_join dataDir "background.png"
  else let p := maybeRelative ?? EmptyString in
       if is_absolute p then p else path_join dataDir p.

(** ** [normaliseRouters] *)

(** The callback of the first [router.interfaces.map]: the poll entry. *)
Definition old_pollInterface (iface : OldRawInterfaceConfig) : OldInterfaceConfig :=
  {| oic_name := ori_name iface; oic_oid_in := ori_oid_in iface; oic_oid_out := ori_oid_out iface;
     oic_max_bandwidth := ori_max_bandwidth iface;
     oic_display_name := Some (ori_display_name iface ?? ori_name iface) |}.

(** The callback of the second [router.interfaces.map]: the topology
    entry; the speed fields of the current type are left undefined. *)
Definition old_interfaceDefinition (iface : OldRawInterfaceConfig) : InterfaceDefinition :=
  {| idef_name := ori_name iface; idef_displayName := Some (ori_display_name iface ?? ori_name iface);
     idef_maxBandwidth := Some (ori_max_bandwidth iface); idef_speedOid := None; idef_speedScale := None |}.

(** The body of the loop over [Object.entries(routers)]: the two checks,
    then the poll entry and the topology entry of the router. *)
Definition old_normaliseRouter (routerId : string) (router : OldRawRouterConfig)
    : Result (OldRouterConfig * RouterDefinition) :=
  if negb (truthy_str (orr_ip router)) || negb (truthy_str (orr_community router)) then
    inl ("Router " ++ quote routerId ++ " must define both ip and community")%string
  else
    match orr_interfaces router with
    | None | Some [] =>
        inl ("Router " ++ quote routerId ++ " must define at least one interface")%string
    | Some ifaces =>
        let label := orr_label router ?? routerId in
        inr ({| orc_ip := orr_ip router ?? EmptyString; orc_community := orr_community router ?? EmptyString;
                orc_label := Some label; orc_interfaces := map old_pollInterface ifaces |},
             {| rd_id := routerId; rd_label := label;
                rd_position := {| px := (fst <$> orr_position router) ?? 0%Q;
                                  py := (snd <$> orr_position router) ?? 0%Q |};
                rd_interfaces := map old_interfaceDefinition ifaces |})
    end.

Fixpoint old_normaliseRouters_loop (entries : list (string * OldRawRouterConfig))
    (routerPollConfig : gmap string OldRouterConfig) (routerDefinitions : list RouterDefinition)
    : Result (gmap string OldRouterConfig * list RouterDefinition) :=
  match entries with
  | [] => inr (routerPollConfig, routerDefinitions)
  | (routerId, router) :: rest =>
      let* r := old_normaliseRouter routerId router in
      old_normaliseRouters_loop rest (<[routerId := r.1]> routerPollConfig) (routerDefinitions ++ [r.2])
  end.

Definition old_normaliseRouters (routers : list (string * OldRawRouterConfig))
    : Result (gmap string OldRouterConfig * list RouterDefinition) :=
  old_normaliseRouters_loop routers ∅ [].

(** [normaliseLinks] of the earlier version: the current code, on the
    earlier routers (it reads their [interfaces] and names only). *)
Definition old_normaliseLinks (links : option (list RawLinkConfig))
    (routers : list (string * OldRawRouterConfig)) : Result (list LinkDefinition) :=
  normaliseLinks links (map (fun e => (e.1, raw_router_view e.2)) routers).

(** ** [loadRuntimeConfig] *)

Record OldRuntimeConfig := {
  ort_topology : TopologyDefinition;
  ort_routerPollConfig : gmap string OldRouterConfig;
  ort_pollIntervalMs : Q;
  ort_backgroundPath : string
}.

Definition old_loadRuntimeConfig (dataDir : string) (parsed : OldRawConfig) : Result OldRuntimeConfig :=
  let* raw := (if is_nil (oraw_routers parsed)
               then inl "Configuration must define at least one router"%string else inr parsed) in
  let* rs := old_normaliseRouters (oraw_routers raw) in
  let* links := old_normaliseLinks (oraw_links raw) (oraw_routers raw) in
  let pollIntervalMs := ometa_poll_interval_ms raw ?? (5000 # 1)%Q in
  let backgroundPath := old_resolveDataPath dataDir (omap_background raw) in
  let mapSize := match omap_size raw with
                 | Some (Some (RNumber w), Some (RNumber h)) => Some {| ms_width := w; ms_height := h |}
                 | _ => None
                 end in
  inr {| ort_topology := {| td_title := Some (ometa_title raw ?? "TS Weathermap"%string);
                            td_backgroundImage := BACKGROUND_ROUTE; td_mapSize := mapSize;
                            td_pollIntervalMs := pollIntervalMs;
                            td_routers := rs.2; td_links := links |};
         ort_routerPollConfig := rs.1; ort_pollIntervalMs := pollIntervalMs;
         ort_backgroundPath := backgroundPath |}.

(** ** The documents both loaders read alike *)

(** An interface the current loader accepts as the earlier one reads it:
    a name, both OIDs, and a positive capacity. *)
Definition old_iface_okb (i : OldRawInterfaceConfig) : bool :=
  negb (String.eqb (ori_name i) "") && negb (String.eqb (ori_oid_in i) "") &&
  negb (String.eqb (ori_oid_out i) "") && Qltb 0 (ori_max_bandwidth i).

Definition old_doc_okb (doc : OldRawConfig) : bool :=
  forallb (fun e => match orr_interfaces e.2 with Some ifs => forallb old_iface_okb ifs | None => true end)
          (oraw_routers doc).

(** The earlier loader's result for a router, with its poll entry in the
    current configuration type. *)
Definition convert_router (r : Result (OldRouterConfig * RouterDefinition)) : Result (RouterConfig * RouterDefinition) :=
  match r with inl e => inl e | inr p => inr (to_router p.1, p.2) end.

Lemma normaliseInterface_view (routerId : string) (i : OldRawInterfaceConfig) :
  old_iface_okb i = true ->
  normaliseInterface routerId (raw_iface_view i) = inr (to_config (old_pollInterface i), old_interfaceDefinition i).
Proof.
  unfold old_iface_okb. intros H. apply andb_prop in H as [H H4]. apply andb_prop in H as [H H3].
  apply andb_prop in H as [H1 H2]. unfold normaliseInterface, has_static_bandwidth, speed_scale_of,
    trimmed_speed_oid, truthy_str. cbn [raw_iface_view ri_name ri_oid_in ri_oid_out ri_max_bandwidth
    ri_oid_speed ri_oid_speed_scale ri_display_name js_number default].
  rewrite H1, H2, H3, H4. reflexivity.
Qed.

Lemma normaliseRouter_view (routerId : string) (r : OldRawRouterConfig) :
  (forall ifs, orr_interfaces r = Some ifs -> forallb old_iface_okb ifs = true) ->
  normaliseRouter routerId (raw_router_view r) = convert_router (old_normaliseRouter routerId r).
Proof.
  intros Hok. unfold normaliseRouter, old_normaliseRouter. cbn [raw_router_view rr_ip rr_community rr_label
    rr_position rr_interfaces].
  destruct (negb (truthy_str (orr_ip r)) || negb (truthy_str (orr_community r))); [reflexivity|].
  destruct (orr_interfaces r) as [[|i ifs]|] eqn:E; try reflexivity.
  specialize (Hok _ eq_refl). rewrite forallb_forall in Hok. cbn [option_map].
  change (map raw_iface_view (i :: ifs)) with (raw_iface_view i :: map raw_iface_view ifs) at 1.
  cbn iota beta.
  rewrite (res_mapi_map _ raw_iface_view (fun i => (to_config (old_pollInterface i), old_interfaceDefinition i)))
    by (intros k x Hx; apply normaliseInterface_view, Hok, Hx).
  cbn [res_bind convert_router fst snd]. unfold to_router. cbn [orc_ip orc_community orc_label orc_interfaces].
  rewrite !map_map. destruct (orr_position r) as [[x y]|]; reflexivity.
Qed.

Lemma normaliseRouters_loop_view (entries : list (string * OldRawRouterConfig))
    (pc : gmap string OldRouterConfig) (defs : list RouterDefinition) :
  forallb (fun e => match orr_interfaces e.2 with Some ifs => forallb old_iface_okb ifs | None => true end)
          entries = true ->
  normaliseRouters_loop (map (fun e => (e.1, raw_router_view e.2)) entries) (to_router <$> pc) defs =
    match old_normaliseRouters_loop entries pc defs with
    | inl e => inl e
    | inr (pc', defs') => inr (to_router <$> pc', defs')
    end.
Proof.
  revert pc defs. induction entries as [|[rid r] entries IH]; intros pc defs Hok; [reflexivity|].
  cbn [forallb] in Hok. apply andb_prop in Hok as [Hr Hok].
  cbn [map fst snd normaliseRouters_loop old_normaliseRouters_loop].
  rewrite normaliseRouter_view by (intros ifs E; cbn in Hr; rewrite E in Hr; exact Hr).
  destruct (old_normaliseRouter rid r) as [e|[pcr def]]; [reflexivity|].
  cbn [convert_router res_bind fst snd]. rewrite <- fmap_insert. apply IH, Hok.
Qed.

(** C15: On a document whose interfaces all have a name, both OIDs and a
    positive [max_bandwidth], the current loader, reading the same
    document, fails exactly when the earlier loader fails and with the
    same message; when both succeed they build the same topology and poll
    interval, and the current poll configuration is the earlier one
    converted router by router ([to_router]), the configuration on which
    the two samplers agree ([old_pollRouter_equiv]). *)
Theorem old_loader_refines (dataDir : string) (doc : OldRawConfig) :
  old_doc_okb doc = true ->
  match old_loadRuntimeConfig dataDir doc, loadRuntimeConfig (raw_config_view doc) with
  | inr o, inr n =>
      rt_topology n = ort_topology o /\ rt_pollIntervalMs n = ort_pollIntervalMs o /\
      rt_routerPollConfig n = to_router <$> ort_routerPollConfig o
  | inl e, inl e' => e' = e
  | _, _ => False
  end.
Proof.
  intros Hok. unfold old_loadRuntimeConfig, loadRuntimeConfig, checkParsed, normaliseRouters,
    old_normaliseRouters, old_normaliseLinks.
  cbn [raw_config_view raw_routers raw_links meta_title meta_poll_interval_ms map_background map_size].
  rewrite is_nil_map. destruct (is_nil (oraw_routers doc)); [reflexivity|]. cbn [res_bind].
  rewrite <- (fmap_empty to_router), (normaliseRouters_loop_view _ _ _ Hok).
  destruct (old_normaliseRouters_loop (oraw_routers doc) ∅ []) as [e|[pc defs]]; [reflexivity|].
  cbn [res_bind]. destruct (normaliseLinks _ _) as [e|links]; [reflexivity|].
  cbn [res_bind rt_topology ort_topology rt_pollIntervalMs ort_pollIntervalMs
       rt_routerPollConfig ort_routerPollConfig fst snd].
  auto.
Qed.

(** ** Examples *)

Definition ex_old_iface (name : string) (mb : Q) : OldRawInterfaceConfig :=
  {| ori_name := name; ori_oid_in := "1.3.6.1.2.1.31.1.1.1.6.1"; ori_oid_out := "1.3.6.1.2.1.31.1.1.1.10.1";
     ori_max_bandwidth := mb; ori_display_name := None |}.

Definition ex_old_router (mb : Q) : OldRawRouterConfig :=
  {| orr_ip := Some "10.0.0.1"; orr_community := Some "public"; orr_label := None;
     orr_position := Some (100, 200)%Q; orr_interfaces := Some [ex_old_iface "eth0" mb] |}.

Definition ex_old_doc (mb : Q) : OldRawConfig :=
  {| ometa_title := None; ometa_poll_interval_ms := None; omap_background := Some "../../etc/passwd";
     omap_size := None; oraw_routers := [("r1", ex_old_router mb); ("r2", ex_old_router mb)];
     oraw_links := Some [{| rl_id := None; rl_from := "r1"; rl_to := "r2"; rl_iface_from := "eth0";
                            rl_iface_to := "eth0"; rl_label := None; rl_path := None |}] |}.

(** The two loaders on a two-router document with a link. *)
Lemma old_loader_refines_witness :
  old_doc_okb (ex_old_doc 1000) = true /\
  match old_loadRuntimeConfig "/app/data" (ex_old_doc 1000), loadRuntimeConfig (raw_config_view (ex_old_doc 1000)) with
  | inr o, inr n =>
      rt_topology n = ort_topology o /\ rt_pollIntervalMs n = ort_pollIntervalMs o /\
      rt_routerPollConfig n = to_router <$> ort_routerPollConfig o
  | inl e, inl e' => e' = e
  | _, _ => False
  end.
Proof. split; [vm_compute; reflexivity | apply old_loader_refines; vm_compute; reflexivity]. Defined.

(** The earlier loader takes a zero [max_bandwidth] as configured, where
    the current one requires a positive capacity or a speed OID. *)
Example old_loader_accepts_zero_capacity :
  (exists o, old_loadRuntimeConfig "/app/data" (ex_old_doc 0) = inr o) /\
  loadRuntimeConfig (raw_config_view (ex_old_doc 0)) =
    inl ("Interface " ++ quote "eth0" ++ " on router " ++ quote "r1" ++
         " must define either max_bandwidth (> 0) or oid_speed")%string.
Proof. split; [eexists; vm_compute; reflexivity | vm_compute; reflexivity]. Qed.

(** The earlier [resolveDataPath] keeps an absolute path and resolves
    [..] segments, so the background route can serve a file outside the
    data directory; the current one keeps the base name only. *)
Example old_resolveDataPath_escapes :
  old_resolveDataPath "/app/data" (Some "../../etc/passwd") = "/etc/passwd"%string /\
  old_resolveDataPath "/app/data" (Some "/etc/passwd") = "/etc/passwd"%string /\
  old_resolveDataPath "/app/data" None = "/app/data/background.png"%string /\
  resolveDataPath (Some "../../etc/passwd") = "/app/data/passwd"%string.
Proof. vm_compute. repeat split. Qed.
