(* ===== verification/Resolver.v ===== *)
(** * The topology resolver

    [toRouterMetrics], [utilisationForInterface] and [toLinkMetrics] of
    [src/src/backend.ts] (the current version, lines 718-817): the poll
    snapshot is turned into the metrics message.  Every router and
    interface of the topology is reported; one that is absent from the
    snapshot is reported in [error] with an explicit message.  Each link
    gets the metrics of its two endpoints and the larger of their
    utilisations.

    The theorems: the report is total over the topology, absent data is an
    explicit error, the aggregate is the maximum of the two directions (or
    null when neither is known), and on a topology whose links resolve
    every link has both directions and an aggregate. *)

From Stdlib Require Import QArith Qminmax String List Lia Lqa.
From stdpp Require Import base option gmap strings.
From S2P Require Import Prelude Status Sampler Topology.

(** ** [toRouterMetrics] *)

(** The entry of an interface that has no sample. *)
Definition missing_interface (iface : InterfaceDefinition) (message : string) : InterfaceMetrics :=
  {| im_name := idef_name iface; im_inBps := 0; im_outBps := 0;
     im_inUtilization := 0; im_outUtilization := 0; im_status := error;
     im_maxBandwidth := idef_maxBandwidth iface ?? 0%Q; im_fresh := false;
     im_error := Some message |}.

(** The entry of a sampled interface: its sample's fields. *)
Definition sample_metrics (s : InterfaceSample) : InterfaceMetrics :=
  {| im_name := is_name s; im_inBps := inBps s; im_outBps := outBps s;
     im_inUtilization := inUtilization s; im_outUtilization := outUtilization s;
     im_status := is_status s; im_maxBandwidth := maxBandwidth s; im_fresh := fresh s;
     im_error := is_error s |}.

(** The value the [reduce] over [router.interfaces] assigns to one
    interface. *)
Definition interface_entry (sample : option RouterSample) (iface : InterfaceDefinition) : InterfaceMetrics :=
  match sample with
  | None => missing_interface iface "No SNMP data"
  | Some rs =>
      match rs_interfaces rs !! idef_name iface with
      | None => missing_interface iface "Interface missing from SNMP poll"
      | Some s => sample_metrics s
      end
  end.

Definition interface_entries (sample : option RouterSample) (router : RouterDefinition)
    : gmap string InterfaceMetrics :=
  fold_left (fun acc iface => <[idef_name iface := interface_entry sample iface]> acc)
    (rd_interfaces router) ∅.

(** The value the loop over [topology.routers] assigns to one router. *)
Definition router_entry (snapshot : gmap string RouterSample) (router : RouterDefinition) : RouterMetrics :=
  match snapshot !! rd_id router with
  | None =>
      {| rm_id := rd_id router; rm_label := rd_label router; rm_status := error;
         rm_interfaces := interface_entries None router;
         rm_error := Some "No SNMP data" |}
  | Some sample =>
      {| rm_id := rd_id router; rm_label := rd_label router; rm_status := rs_status sample;
         rm_interfaces := interface_entries (Some sample) router;
         rm_error := if truthy_str (rs_error sample) then rs_error sample else None |}
  end.

Definition toRouterMetrics (snapshot : gmap string RouterSample) (topology : TopologyDefinition)
    : gmap string RouterMetrics :=
  fold_left (fun metrics router => <[rd_id router := router_entry snapshot router]> metrics)
    (td_routers topology) ∅.

(** ** [toLinkMetrics] *)

Definition utilisationForInterface (iface : option InterfaceMetrics) : option Q :=
  match iface with
  | None => None
  | Some i => Some (jsmax (im_inUtilization i) (im_outUtilization i))
  end.

(** [routers[id]?.interfaces[name] ?? null]. *)
Definition endpoint (routers : gmap string RouterMetrics) (routerId ifaceName : string)
    : option InterfaceMetrics :=
  routers !! routerId ≫= fun r => rm_interfaces r !! ifaceName.

Definition link_metrics (routers : gmap string RouterMetrics) (link : LinkDefinition) : LinkMetrics :=
  let forward := endpoint routers (ld_from link) (ld_ifaceFrom link) in
  let reverse := endpoint routers (ld_to link) (ld_ifaceTo link) in
  let forwardUtil := utilisationForInterface forward in
  let reverseUtil := utilisationForInterface reverse in
  let aggregateUtilization :=
    match forwardUtil, reverseUtil with
    | None, None => None
    | _, _ => Some (jsmax (forwardUtil ?? 0%Q) (reverseUtil ?? 0%Q))
    end in
  {| lm_id := ld_id link; lm_label := ld_label link; lm_from := ld_from link; lm_to := ld_to link;
     lm_forward := forward; lm_reverse := reverse;
     lm_aggregateUtilization := aggregateUtilization |}.

Definition toLinkMetrics (routers : gmap string RouterMetrics) (links : list LinkDefinition)
    : list LinkMetrics :=
  map (link_metrics routers) links.

(** ** Lemmas *)

Lemma toRouterMetrics_lookup (snapshot : gmap string RouterSample) (topology : TopologyDefinition) :
  NoDup (map rd_id (td_routers topology)) ->
  (forall r, In r (td_routers topology) ->
     toRouterMetrics snapshot topology !! rd_id r = Some (router_entry snapshot r)) /\
  (forall k, ~ In k (map rd_id (td_routers topology)) -> toRouterMetrics snapshot topology !! k = None).
Proof.
  intros Hnd. unfold toRouterMetrics.
  destruct (fold_insert_own rd_id (router_entry snapshot) (td_routers topology) ∅ Hnd)
    as [Hin Hout]. split; [exact Hin|]. intros k Hk. rewrite (Hout k Hk). apply lookup_empty.
Qed.

(** Every interface name of a router has an entry: that of one of its
    interfaces with that name (interface names need not be distinct). *)
Lemma interface_entries_some (sample : option RouterSample) (router : RouterDefinition) (n : string) :
  In n (map idef_name (rd_interfaces router)) ->
  exists b, In b (rd_interfaces router) /\ idef_name b = n /\
    interface_entries sample router !! n = Some (interface_entry sample b).
Proof. apply fold_insert_in. Qed.

Lemma router_entry_interfaces (snapshot : gmap string RouterSample) (router : RouterDefinition) :
  rm_interfaces (router_entry snapshot router) = interface_entries (snapshot !! rd_id router) router.
Proof. unfold router_entry. destruct (snapshot !! rd_id router); reflexivity. Qed.

(** C9: the report is total over the topology: when router ids are
    distinct (they are the keys of the configuration's [routers] map),
    every configured router and each of its interfaces has an entry,
    whether or not interface names repeat.  A router absent from the
    snapshot is reported in [error] with "No SNMP data", and so are its
    interfaces; an interface absent from its router's sample is reported in
    [error] with "Interface missing from SNMP poll". *)
Theorem toRouterMetrics_complete (snapshot : gmap string RouterSample)
    (topology : TopologyDefinition) (router : RouterDefinition) (iface : InterfaceDefinition) :
  NoDup (map rd_id (td_routers topology)) ->
  In router (td_routers topology) -> In iface (rd_interfaces router) ->
  exists rm im,
    toRouterMetrics snapshot topology !! rd_id router = Some rm /\
    rm_interfaces rm !! idef_name iface = Some im /\
    (snapshot !! rd_id router = None ->
       rm_status rm = error /\ rm_error rm = Some "No SNMP data"%string /\
       im_status im = error /\ im_error im = Some "No SNMP data"%string) /\
    (forall rs, snapshot !! rd_id router = Some rs -> rs_interfaces rs !! idef_name iface = None ->
       im_status im = error /\ im_error im = Some "Interface missing from SNMP poll"%string).
Proof.
  intros Hnd Hr Hi.
  destruct (interface_entries_some (snapshot !! rd_id router) router (idef_name iface) (in_map _ _ _ Hi))
    as (b & _ & Eb & Hb).
  exists (router_entry snapshot router), (interface_entry (snapshot !! rd_id router) b).
  split; [apply (proj1 (toRouterMetrics_lookup snapshot topology Hnd)), Hr|].
  split; [rewrite router_entry_interfaces; exact Hb|].
  split.
  - intros Hnone. unfold router_entry. rewrite Hnone. repeat split.
  - intros rs Hrs Hmiss. rewrite Hrs. simpl. rewrite Eb, Hmiss. split; reflexivity.
Qed.

(** The aggregate utilisation of a link is null exactly when neither
    endpoint has metrics; otherwise, when utilisations are non-negative, it
    is the larger of the utilisations that are present. *)
Theorem link_aggregate_max (routers : gmap string RouterMetrics) (link : LinkDefinition) :
  let lm := link_metrics routers link in
  let fu := utilisationForInterface (lm_forward lm) in
  let ru := utilisationForInterface (lm_reverse lm) in
  (lm_aggregateUtilization lm = None <-> lm_forward lm = None /\ lm_reverse lm = None) /\
  (forall a, lm_aggregateUtilization lm = Some a ->
     (forall f, fu = Some f -> (0 <= f)%Q) -> (forall r, ru = Some r -> (0 <= r)%Q) ->
     (forall f, fu = Some f -> (f <= a)%Q) /\ (forall r, ru = Some r -> (r <= a)%Q) /\
     ((exists f, fu = Some f /\ (f == a)%Q) \/ (exists r, ru = Some r /\ (r == a)%Q))).
Proof.
  cbv zeta. unfold link_metrics. simpl.
  destruct (endpoint routers (ld_from link) (ld_ifaceFrom link)) as [f|],
           (endpoint routers (ld_to link) (ld_ifaceTo link)) as [r|]; simpl;
    (split; [first [split; [discriminate | intros [H1 H2]; discriminate] | tauto]|]);
    intros a [= <-] Hf Hr; simpl.
  - set (uf := jsmax (im_inUtilization f) (im_outUtilization f)).
    set (ur := jsmax (im_inUtilization r) (im_outUtilization r)).
    split; [intros x [= <-]; auto with wm|]. split; [intros x [= <-]; auto with wm|].
    destruct (jsmax_spec uf ur) as [[_ ->]|[_ ->]]; [left | right]; eexists; split; reflexivity.
  - set (uf := jsmax (im_inUtilization f) (im_outUtilization f)).
    specialize (Hf uf eq_refl).
    split; [intros x [= <-]; auto with wm|]. split; [discriminate|].
    left. exists uf. split; [reflexivity|].
    destruct (jsmax_spec uf 0) as [[_ ->]|[H ->]]; [reflexivity | lra].
  - set (ur := jsmax (im_inUtilization r) (im_outUtilization r)).
    specialize (Hr ur eq_refl).
    split; [discriminate|]. split; [intros x [= <-]; auto with wm|].
    right. exists ur. split; [reflexivity|].
    destruct (jsmax_spec 0 ur) as [[H ->]|[_ ->]]; [lra | reflexivity].
Qed.

Lemma endpoint_resolves (snapshot : gmap string RouterSample) (topology : TopologyDefinition)
    (routerId ifaceName : string) :
  NoDup (map rd_id (td_routers topology)) ->
  (exists r, In r (td_routers topology) /\ rd_id r = routerId /\
     exists i, In i (rd_interfaces r) /\ idef_name i = ifaceName) ->
  endpoint (toRouterMetrics snapshot topology) routerId ifaceName <> None.
Proof.
  intros Hnd (r & Hr & <- & i & Hi & <-).
  destruct (interface_entries_some (snapshot !! rd_id r) r (idef_name i) (in_map _ _ _ Hi)) as (b & _ & _ & Hb).
  unfold endpoint. rewrite (proj1 (toRouterMetrics_lookup snapshot topology Hnd) r Hr). simpl.
  rewrite router_entry_interfaces, Hb. discriminate.
Qed.

(** A link whose endpoints resolve gets both directions and an aggregate. *)
Lemma link_metrics_resolved (snapshot : gmap string RouterSample) (topology : TopologyDefinition)
    (link : LinkDefinition) :
  NoDup (map rd_id (td_routers topology)) -> link_resolves (td_routers topology) link ->
  let lm := link_metrics (toRouterMetrics snapshot topology) link in
  lm_forward lm <> None /\ lm_reverse lm <> None /\ lm_aggregateUtilization lm <> None.
Proof.
  intros Hnd [Hf Hr].
  pose proof (endpoint_resolves snapshot topology _ _ Hnd Hf) as Ef.
  pose proof (endpoint_resolves snapshot topology _ _ Hnd Hr) as Er.
  unfold link_metrics. simpl. split; [exact Ef|]. split; [exact Er|].
  destruct (endpoint _ (ld_from link) _); [|congruence]. simpl.
  destruct (utilisationForInterface _); discriminate.
Qed.

(** C11: on a topology whose router ids are distinct and whose links
    resolve (what the configuration loader establishes), every link of the metrics
    message has forward and reverse metrics and a non-null aggregate
    utilisation, whatever the snapshot: links are never left without data. *)
Theorem toLinkMetrics_resolved (snapshot : gmap string RouterSample)
    (topology : TopologyDefinition) (lm : LinkMetrics) :
  NoDup (map rd_id (td_routers topology)) ->
  Forall (link_resolves (td_routers topology)) (td_links topology) ->
  In lm (toLinkMetrics (toRouterMetrics snapshot topology) (td_links topology)) ->
  lm_forward lm <> None /\ lm_reverse lm <> None /\ lm_aggregateUtilization lm <> None.
Proof.
  intros Hnd Hlinks Hlm. unfold toLinkMetrics in Hlm.
  apply in_map_iff in Hlm as (link & <- & Hl).
  rewrite List.Forall_forall in Hlinks. exact (link_metrics_resolved snapshot topology link Hnd (Hlinks link Hl)).
Qed.

(** ** Witnesses on a concrete topology *)

Definition ex_idef (name : string) : InterfaceDefinition :=
  {| idef_name := name; idef_displayName := None; idef_maxBandwidth := Some (1000000000 # 1)%Q;
     idef_speedOid := None; idef_speedScale := None |}.

Definition ex_topology : TopologyDefinition :=
  {| td_title := None; td_backgroundImage := "/background.png"; td_mapSize := None;
     td_pollIntervalMs := 5000;
     td_routers :=
       [ {| rd_id := "core"; rd_label := "Core"; rd_position := {| px := 100; py := 100 |};
            rd_interfaces := [ex_idef "eth0"; ex_idef "eth1"] |};
         {| rd_id := "edge"; rd_label := "Edge"; rd_position := {| px := 400; py := 100 |};
            rd_interfaces := [ex_idef "eth0"] |} ];
     td_links :=
       [ {| ld_id := "core-edge"; ld_from := "core"; ld_to := "edge"; ld_ifaceFrom := "eth1";
            ld_ifaceTo := "eth0"; ld_label := None; ld_path := None |} ] |}.

Lemma ex_topology_ids : NoDup (map rd_id (td_routers ex_topology)).
Proof. decide_by_compute. Qed.

Definition ex_edge : RouterDefinition := nth 1 (td_routers ex_topology) (nth 0 (td_routers ex_topology) {| rd_id := ""; rd_label := ""; rd_position := {| px := 0; py := 0 |}; rd_interfaces := [] |}).

Lemma toRouterMetrics_complete_witness :
  exists rm im,
    toRouterMetrics ∅ ex_topology !! rd_id ex_edge = Some rm /\
    rm_interfaces rm !! idef_name (ex_idef "eth0") = Some im /\
    ((∅ : gmap string RouterSample) !! rd_id ex_edge = None ->
       rm_status rm = error /\ rm_error rm = Some "No SNMP data"%string /\
       im_status im = error /\ im_error im = Some "No SNMP data"%string) /\
    (forall rs, (∅ : gmap string RouterSample) !! rd_id ex_edge = Some rs ->
       rs_interfaces rs !! idef_name (ex_idef "eth0") = None ->
       im_status im = error /\ im_error im = Some "Interface missing from SNMP poll"%string).
Proof.
  apply toRouterMetrics_complete.
  - exact ex_topology_ids.
  - right. left. reflexivity.
  - left. reflexivity.
Defined.

Lemma toLinkMetrics_resolved_witness :
  List.Forall (fun lm => lm_forward lm <> None /\ lm_reverse lm <> None /\ lm_aggregateUtilization lm <> None)
    (toLinkMetrics (toRouterMetrics ∅ ex_topology) (td_links ex_topology)).
Proof.
  apply List.Forall_forall. intros lm. apply toLinkMetrics_resolved.
  - exact ex_topology_ids.
  - constructor; [|constructor]. split.
    + eexists. split; [left; reflexivity|]. split; [reflexivity|].
      eexists. split; [right; left; reflexivity | reflexivity].
    + eexists. split; [right; left; reflexivity|]. split; [reflexivity|].
      eexists. split; [left; reflexivity | reflexivity].
Defined.
