(* ===== verification/Snapshots.v ===== *)
(** * Snapshot image retention

    [collectSnapshotFiles] and [pruneSnapshots] of [src/src/backend.ts]
    (current version, lines 513-548), and the file [renderMapSnapshot]
    writes ([src/src/map-renderer.ts], lines 422-426).  The image
    directory is the list of entries [readdirSync] returns, in its
    order, each with the [mtimeMs] [statSync] reports or nothing when
    [statSync] throws.  The [fs.unlink] calls are taken to have
    completed before the next event reads the directory.

    The theorems: pruning keeps exactly the fifty newest snapshots, in
    order, leaves every other entry alone, and reports the newest one as
    the latest image; a file with a later modification time than the
    snapshot just written stays the latest image.  The README
    ([src/unnamed/part_003], lines 64-66) says the app implements no
    pruning or cleanup of old images; the code prunes to fifty. *)

From Stdlib Require Import QArith Lqa List String Sorting.Sorted Permutation Lia.
From stdpp Require Import base list strings.
From S2P Require Import Prelude.
Import ListNotations.

Local Open Scope string_scope.

(** ** The image directory *)

(** An entry of [fs.readdirSync(IMAGE_DIR)] and what [fs.statSync]
    gives for it. *)
Record DirEntry := { de_name : string; de_mtime : option Q }.

(** [{ fullPath, mtime }]. *)
Record SnapshotFile := { sf_fullPath : string; sf_mtime : Q }.

(** [path.join(DATA_DIR, "image_data")]. *)
Definition IMAGE_DIR : string := "/app/data/image_data".

Definition MAX_SAVED_MAP_IMAGES : nat := 50.

(** [path.join(IMAGE_DIR, file)] for a name [readdirSync] returns, which
    holds no separator. *)
Definition image_path (file : string) : string := IMAGE_DIR ++ "/" ++ file.

(** [s.endsWith(suffix)]. *)
Definition ends_with (suffix s : string) : bool :=
  let n := String.length s in
  let k := String.length suffix in
  Nat.leb k n && String.eqb (substring (n - k) k s) suffix.

(** The [map] callback: [null] when [statSync] throws. *)
Definition stat_entry (e : DirEntry) : option SnapshotFile :=
  match de_mtime e with
  | Some m => Some {| sf_fullPath := image_path (de_name e); sf_mtime := m |}
  | None => None
  end.

Definition is_png (e : DirEntry) : bool := ends_with ".png" (de_name e).

(** [collectSnapshotFiles]: nothing without the directory, otherwise the
    [.png] entries that can be stated, newest first. *)
Definition collectSnapshotFiles (dir : option (list DirEntry)) : list SnapshotFile :=
  match dir with
  | None => []
  | Some entries => sort_desc sf_mtime (omap stat_entry (List.filter is_png entries))
  end.

(** [pruneSnapshots]: the new [latestImagePath] and the paths it
    unlinks. *)
Definition pruneSnapshots (dir : option (list DirEntry)) : option string * list string :=
  match collectSnapshotFiles dir with
  | [] => (None, [])
  | (f :: _) as files => (Some (sf_fullPath f), map sf_fullPath (skipn MAX_SAVED_MAP_IMAGES files))
  end.

(** The directory once the [fs.unlink] calls have completed. *)
Definition unlink_all (paths : list string) (entries : list DirEntry) : list DirEntry :=
  List.filter (fun e => negb (existsb (String.eqb (image_path (de_name e))) paths)) entries.

(** [pruneSnapshots] on the image directory, with its effect on it. *)
Definition prune_dir (entries : list DirEntry) : option string * list DirEntry :=
  let '(latest, doomed) := pruneSnapshots (Some entries) in (latest, unlink_all doomed entries).

(** [fs.promises.writeFile(outputPath, ...)]: a new entry at the end of
    the directory, or a new modification time for an existing one. *)
Definition write_file (name : string) (mtime : Q) (entries : list DirEntry) : list DirEntry :=
  if existsb (fun e => String.eqb (de_name e) name) entries
  then map (fun e => if String.eqb (de_name e) name then {| de_name := name; de_mtime := Some mtime |} else e)
           entries
  else entries ++ [{| de_name := name; de_mtime := Some mtime |}].

(** ** Lemmas *)

Lemma image_path_inj (a b : string) : image_path a = image_path b -> a = b.
Proof. unfold image_path. cbn. intros H. injection H as H. exact H. Qed.

Lemma in_omap_stat (f : SnapshotFile) (l : list DirEntry) :
  In f (omap stat_entry l) <-> exists e, In e l /\ stat_entry e = Some f.
Proof.
  induction l as [|e l IH]; simpl; [split; [tauto | intros (? & [] & _)]|].
  destruct (stat_entry e) as [g|] eqn:E; simpl; rewrite IH; split.
  - intros [<-|(e' & H1 & H2)]; eauto.
  - intros (e' & [<-|H1] & H2); [left; congruence | eauto].
  - intros (e' & H1 & H2); eauto.
  - intros (e' & [<-|H1] & H2); [congruence | eauto].
Qed.

Lemma omap_stat_cons (e : DirEntry) (l : list DirEntry) :
  omap stat_entry (e :: l) = match stat_entry e with Some f => f :: omap stat_entry l | None => omap stat_entry l end.
Proof. reflexivity. Qed.

Lemma stat_entry_path (e : DirEntry) (f : SnapshotFile) :
  stat_entry e = Some f -> sf_fullPath f = image_path (de_name e).
Proof. unfold stat_entry. destruct (de_mtime e); intros H; [injection H as <-; reflexivity | discriminate]. Qed.

Lemma NoDup_paths (l : list DirEntry) :
  NoDup (map de_name l) -> NoDup (map sf_fullPath (omap stat_entry l)).
Proof.
  induction l as [|e l IH]; simpl; [constructor|]. intros Hnd. inversion Hnd as [|? ? Hnotin Hnd']; subst.
  destruct (stat_entry e) as [f|] eqn:E; simpl; [|auto]. constructor; [|auto].
  rewrite (stat_entry_path e f E), list_elem_of_In. intros Hin. apply in_map_iff in Hin as (g & Hg & Hin).
  apply in_omap_stat in Hin as (e' & He' & Hs). rewrite (stat_entry_path e' g Hs) in Hg.
  apply Hnotin, list_elem_of_In, in_map_iff. exists e'. split; [apply image_path_inj; exact Hg | exact He'].
Qed.

(** What the unlinks leave of the collected files. *)
Definition kept (paths : list string) (f : SnapshotFile) : bool :=
  negb (existsb (String.eqb (sf_fullPath f)) paths).

Lemma kept_stat (paths : list string) (e : DirEntry) (f : SnapshotFile) :
  stat_entry e = Some f -> kept paths f = negb (existsb (String.eqb (image_path (de_name e))) paths).
Proof. intros E. unfold kept. rewrite (stat_entry_path e f E). reflexivity. Qed.

Lemma collect_unlink (paths : list string) (entries : list DirEntry) :
  collectSnapshotFiles (Some (unlink_all paths entries)) =
    List.filter (kept paths) (collectSnapshotFiles (Some entries)).
Proof.
  unfold collectSnapshotFiles, unlink_all. rewrite <- sort_desc_filter. f_equal.
  induction entries as [|e l IH]; [reflexivity|]. cbn [List.filter].
  destruct (existsb (String.eqb (image_path (de_name e))) paths) eqn:Ex; cbn [negb List.filter];
    destruct (is_png e); cbn [List.filter]; rewrite ?omap_stat_cons;
    destruct (stat_entry e) as [f|] eqn:E; cbn [List.filter]; rewrite ?IH; try reflexivity;
    match goal with E : stat_entry e = Some ?f |- _ => rewrite (kept_stat paths e f E), Ex; reflexivity end.
Qed.

(** Unlinking the paths of the files past the first [n] keeps the
    first [n], when the paths are distinct. *)
Lemma filter_kept_firstn (n : nat) (files : list SnapshotFile) :
  NoDup (map sf_fullPath files) ->
  List.filter (kept (map sf_fullPath (skipn n files))) files = firstn n files.
Proof.
  intros Hnd. rewrite <- (firstn_skipn n files) at 2. rewrite <- (firstn_skipn n files) in Hnd.
  rewrite map_app in Hnd. rewrite List.filter_app.
  rewrite (filter_all_false _ (skipn n files)), app_nil_r.
  - apply forallb_filter_id, forallb_forall. intros f Hf. unfold kept.
    apply negb_true_iff, Bool.not_true_iff_false. intros Hex.
    apply existsb_exists in Hex as (p & Hp & Ep). apply String.eqb_eq in Ep. subst p.
    apply NoDup_app in Hnd as (_ & Hdis & _).
    apply (Hdis (sf_fullPath f)); apply list_elem_of_In; [apply in_map, Hf | exact Hp].
  - intros f Hf. unfold kept. apply negb_false_iff, existsb_exists.
    exists (sf_fullPath f). split; [apply in_map, Hf | apply String.eqb_refl].
Qed.

Lemma prune_dir_eq (entries : list DirEntry) :
  prune_dir entries =
    (option_map sf_fullPath (hd_error (collectSnapshotFiles (Some entries))),
     unlink_all (map sf_fullPath (skipn MAX_SAVED_MAP_IMAGES (collectSnapshotFiles (Some entries)))) entries).
Proof.
  unfold prune_dir, pruneSnapshots. destruct (collectSnapshotFiles (Some entries)) as [|f files]; reflexivity.
Qed.

Lemma collect_from (entries : list DirEntry) (f : SnapshotFile) :
  In f (collectSnapshotFiles (Some entries)) ->
  exists e, In e entries /\ is_png e = true /\ stat_entry e = Some f.
Proof.
  unfold collectSnapshotFiles. intros Hf.
  apply (Permutation_in _ (sort_desc_perm sf_mtime _)), in_omap_stat in Hf as (e & He & Hs).
  apply filter_In in He as [He Hp]. eauto.
Qed.

Lemma collect_NoDup (entries : list DirEntry) :
  NoDup (map de_name entries) -> NoDup (map sf_fullPath (collectSnapshotFiles (Some entries))).
Proof.
  intros Hnd. unfold collectSnapshotFiles.
  rewrite (Permutation_map sf_fullPath (sort_desc_perm sf_mtime _)).
  apply NoDup_paths, NoDup_map_filter, Hnd.
Qed.

(** Unlinking paths of collected files leaves every other entry. *)
Lemma unlink_keeps_other (entries : list DirEntry) (files : list SnapshotFile) (e : DirEntry) :
  NoDup (map de_name entries) -> incl files (collectSnapshotFiles (Some entries)) ->
  In e entries -> is_png e = false \/ de_mtime e = None ->
  In e (unlink_all (map sf_fullPath files) entries).
Proof.
  intros Hnd Hincl He Hother. apply filter_In. split; [exact He|].
  apply negb_true_iff, Bool.not_true_iff_false. intros Hex.
  apply existsb_exists in Hex as (p & Hp & Ep). apply String.eqb_eq in Ep. subst p.
  apply in_map_iff in Hp as (f & Ef & Hf). apply Hincl, collect_from in Hf as (e' & He' & Hpng & Hs).
  rewrite (stat_entry_path e' f Hs) in Ef. apply image_path_inj in Ef.
  rewrite (NoDup_map_eq de_name entries e' e Hnd He' He Ef) in Hpng, Hs.
  unfold stat_entry in Hs. destruct Hother as [H|H]; rewrite H in *; discriminate.
Qed.

Lemma In_firstn_skipn {A} (n : nat) (l : list A) (x : A) :
  In x l -> ~ In x (firstn n l) -> In x (skipn n l).
Proof.
  intros H Hn. rewrite <- (firstn_skipn n l) in H. apply in_app_or in H as [H|H]; [contradiction | exact H].
Qed.

Lemma In_skipn {A} (n : nat) (l : list A) (x : A) : In x (skipn n l) -> In x l.
Proof. intros H. rewrite <- (firstn_skipn n l). apply in_or_app. right. exact H. Qed.

Lemma collect_in (entries : list DirEntry) (e : DirEntry) (f : SnapshotFile) :
  In e entries -> is_png e = true -> stat_entry e = Some f -> In f (collectSnapshotFiles (Some entries)).
Proof.
  intros He Hp Hs. unfold collectSnapshotFiles.
  apply (Permutation_in _ (Permutation_sym (sort_desc_perm sf_mtime _))), in_omap_stat.
  exists e. split; [apply filter_In; split|]; assumption.
Qed.

Lemma write_file_NoDup (name : string) (m : Q) (entries : list DirEntry) :
  NoDup (map de_name entries) -> NoDup (map de_name (write_file name m entries)).
Proof.
  intros Hnd. unfold write_file. destruct (existsb _ entries) eqn:Ex.
  - rewrite map_map. erewrite map_ext; [exact Hnd|]. intros e. cbn.
    destruct (String.eqb_spec (de_name e) name); [symmetry; assumption | reflexivity].
  - rewrite map_app. apply NoDup_app. split; [exact Hnd|]. split; [|apply NoDup_singleton].
    intros x Hx Hin. apply list_elem_of_singleton in Hin. subst x.
    apply list_elem_of_In, in_map_iff in Hx as (e & Ee & He).
    apply Bool.not_true_iff_false in Ex. apply Ex, existsb_exists. exists e.
    split; [exact He | apply String.eqb_eq, Ee].
Qed.

(** Writing a file leaves every other entry as it was. *)
Lemma write_file_other (name : string) (m : Q) (entries : list DirEntry) (e : DirEntry) :
  In e entries -> de_name e <> name -> In e (write_file name m entries).
Proof.
  intros He Hn. unfold write_file. destruct (existsb _ entries).
  - apply in_map_iff. exists e. split; [|exact He]. apply String.eqb_neq in Hn. rewrite Hn. reflexivity.
  - apply in_or_app. left. exact He.
Qed.

(** The entry of the written name has the new modification time. *)
Lemma write_file_new (name : string) (m : Q) (entries : list DirEntry) (e : DirEntry) :
  In e (write_file name m entries) -> de_name e = name -> de_mtime e = Some m.
Proof.
  unfold write_file. destruct (existsb _ entries) eqn:Ex; intros He Hn.
  - apply in_map_iff in He as (e0 & <- & _). destruct (String.eqb_spec (de_name e0) name); [reflexivity|].
    contradiction.
  - apply in_app_or in He as [He|[<-|[]]]; [|reflexivity].
    apply Bool.not_true_iff_false in Ex. exfalso. apply Ex, existsb_exists. exists e.
    split; [exact He | apply String.eqb_eq, Hn].
Qed.

Lemma collect_write_other (name : string) (m : Q) (entries : list DirEntry) (f : SnapshotFile) :
  In f (collectSnapshotFiles (Some entries)) -> sf_fullPath f <> image_path name ->
  In f (collectSnapshotFiles (Some (write_file name m entries))).
Proof.
  intros Hf Hp. apply collect_from in Hf as (e & He & Hpng & Hs). apply (collect_in _ e); try assumption.
  apply write_file_other; [exact He|]. intros En. apply Hp. rewrite (stat_entry_path e f Hs), En. reflexivity.
Qed.

Lemma collect_write_new (name : string) (m : Q) (entries : list DirEntry) (g : SnapshotFile) :
  In g (collectSnapshotFiles (Some (write_file name m entries))) -> sf_fullPath g = image_path name ->
  sf_mtime g = m.
Proof.
  intros Hg Hp. apply collect_from in Hg as (e & He & _ & Hs).
  rewrite (stat_entry_path e g Hs) in Hp. apply image_path_inj in Hp.
  pose proof (write_file_new name m entries e He Hp) as Em.
  unfold stat_entry in Hs. rewrite Em in Hs. injection Hs as <-. reflexivity.
Qed.

(** ** Properties *)

(** C24: [pruneSnapshots] keeps exactly the [MAX_SAVED_MAP_IMAGES] (50)
    newest snapshots: once its unlinks have completed, the snapshots left
    are the first fifty of the newest-first list, so no more than fifty,
    and none removed is newer than one kept; entries that are not
    [.png] files or cannot be stated are left alone; the latest image
    path it reports is the newest snapshot's. *)
Theorem prune_keeps_newest (entries : list DirEntry) :
  NoDup (map de_name entries) ->
  let files := collectSnapshotFiles (Some entries) in
  let '(latest, remaining) := prune_dir entries in
  collectSnapshotFiles (Some remaining) = firstn MAX_SAVED_MAP_IMAGES files /\
  (List.length (collectSnapshotFiles (Some remaining)) <= MAX_SAVED_MAP_IMAGES)%nat /\
  (forall f g, In f (collectSnapshotFiles (Some remaining)) -> In g files ->
     ~ In g (collectSnapshotFiles (Some remaining)) -> (sf_mtime g <= sf_mtime f)%Q) /\
  (forall e, In e entries -> is_png e = false \/ de_mtime e = None -> In e remaining) /\
  latest = option_map sf_fullPath (hd_error files) /\
  (forall f l, In f files -> hd_error files = Some l -> (sf_mtime f <= sf_mtime l)%Q).
Proof.
  intros Hnd. cbv zeta. rewrite prune_dir_eq.
  set (files := collectSnapshotFiles (Some entries)).
  assert (Hkeep : collectSnapshotFiles
                    (Some (unlink_all (map sf_fullPath (skipn MAX_SAVED_MAP_IMAGES files)) entries)) =
                  firstn MAX_SAVED_MAP_IMAGES files)
    by (rewrite collect_unlink; apply filter_kept_firstn, collect_NoDup, Hnd).
  pose proof (sort_desc_sorted sf_mtime (omap stat_entry (List.filter is_png entries))) as Hs.
  fold (collectSnapshotFiles (Some entries)) in Hs. fold files in Hs.
  rewrite Hkeep. split; [reflexivity|]. split; [apply firstn_le_length|]. split; [|split; [|split]].
  - intros f g Hf Hg Hng.
    apply (StronglySorted_app_inv (desc sf_mtime) (firstn MAX_SAVED_MAP_IMAGES files) (skipn MAX_SAVED_MAP_IMAGES files));
      [rewrite firstn_skipn; exact Hs | exact Hf | apply In_firstn_skipn; assumption].
  - intros e He Ho. apply (unlink_keeps_other entries); [exact Hnd | intros f Hf | exact He | exact Ho].
    apply (In_skipn MAX_SAVED_MAP_IMAGES), Hf.
  - reflexivity.
  - intros f l Hf Hl. destruct files as [|m rest]; [discriminate|]. injection Hl as <-.
    destruct Hf as [<-|Hf]; [unfold desc; lra|]. inversion Hs as [|? ? _ Hall]; subst.
    rewrite List.Forall_forall in Hall. exact (Hall f Hf).
Qed.

(** A directory with two snapshots and another file. *)
Definition ex_dir : list DirEntry :=
  [{| de_name := "2024-01-01-00-00-00.png"; de_mtime := Some 1%Q |};
   {| de_name := "notes.txt"; de_mtime := Some 5%Q |};
   {| de_name := "2024-01-01-00-01-00.png"; de_mtime := Some 2%Q |}].

Lemma prune_keeps_newest_witness :
  NoDup (map de_name ex_dir) /\
  In {| de_name := "notes.txt"; de_mtime := Some 5%Q |} (prune_dir ex_dir).2.
Proof.
  assert (H : NoDup (map de_name ex_dir)) by decide_by_compute.
  split; [exact H|].
  pose proof (prune_keeps_newest ex_dir H) as P. cbv zeta in P. rewrite prune_dir_eq in P.
  destruct P as (_ & _ & _ & K & _). rewrite prune_dir_eq. apply K; [simpl; tauto | left; reflexivity].
Defined.

(** What every prune leaves: distinct names, at most fifty snapshots,
    and the newest of them as the latest image. *)
Lemma prune_dir_ok (entries : list DirEntry) :
  NoDup (map de_name entries) ->
  NoDup (map de_name (prune_dir entries).2) /\
  (prune_dir entries).1 = option_map sf_fullPath (hd_error (collectSnapshotFiles (Some (prune_dir entries).2))) /\
  (List.length (collectSnapshotFiles (Some (prune_dir entries).2)) <= MAX_SAVED_MAP_IMAGES)%nat.
Proof.
  intros Hnd. pose proof (prune_keeps_newest entries Hnd) as P. cbv zeta in P.
  rewrite prune_dir_eq in *. destruct P as (Hk & Hlen & _). cbn [fst snd] in *.
  split; [apply NoDup_map_filter, Hnd|]. split; [|exact Hlen].
  rewrite Hk. destruct (collectSnapshotFiles (Some entries)); reflexivity.
Qed.

(** C25: the latest image after a save is the newest file by
    modification time, not the snapshot just written: when the directory
    holds another snapshot with a later modification time than the new
    file's (a clock set back, a copied file), [pruneSnapshots] reports
    that one as the latest image and the new snapshot is never served. *)
Theorem newer_file_stays_latest (entries : list DirEntry) (stamp : string) (mtime : Q) (f : SnapshotFile) :
  NoDup (map de_name entries) -> In f (collectSnapshotFiles (Some entries)) ->
  sf_fullPath f <> image_path (stamp ++ ".png") -> (mtime < sf_mtime f)%Q ->
  (prune_dir (write_file (stamp ++ ".png") mtime entries)).1 <> Some (image_path (stamp ++ ".png")).
Proof.
  intros Hnd Hf Hp Hlt.
  set (entries' := write_file (stamp ++ ".png") mtime entries).
  pose proof (prune_keeps_newest entries' (write_file_NoDup _ _ _ Hnd)) as P.
  cbv zeta in P. rewrite prune_dir_eq in P. destruct P as (_ & _ & _ & _ & _ & Hmax).
  rewrite prune_dir_eq. cbn [fst].
  assert (Hf' : In f (collectSnapshotFiles (Some entries'))) by (apply collect_write_other; assumption).
  destruct (collectSnapshotFiles (Some entries')) as [|l rest] eqn:E; [destruct Hf'|].
  cbn. intros Hl. injection Hl as Hl.
  assert (Hm : sf_mtime l = mtime) by (apply (collect_write_new (stamp ++ ".png") mtime entries);
                                       [fold entries'; rewrite E; left; reflexivity | exact Hl]).
  pose proof (Hmax f l Hf' eq_refl) as Hle. rewrite Hm in Hle. lra.
Qed.

(** A snapshot from a clock set to 2099 beside an older one. *)
Definition ex_future_dir : list DirEntry :=
  [{| de_name := "2099-01-01-00-00-00.png"; de_mtime := Some 4070908800000%Q |};
   {| de_name := "2024-01-01-00-00-00.png"; de_mtime := Some 1704067200000%Q |}].

Lemma newer_file_stays_latest_witness :
  NoDup (map de_name ex_future_dir) /\
  (prune_dir (write_file ("2024-01-01-00-01-00" ++ ".png") 1704067260000%Q ex_future_dir)).1 <>
    Some (image_path ("2024-01-01-00-01-00" ++ ".png")).
Proof.
  assert (H : NoDup (map de_name ex_future_dir)) by decide_by_compute.
  split; [exact H|].
  apply (newer_file_stays_latest ex_future_dir "2024-01-01-00-01-00" 1704067260000%Q
           {| sf_fullPath := image_path "2099-01-01-00-00-00.png"; sf_mtime := 4070908800000%Q |} H).
  - vm_compute. left. reflexivity.
  - vm_compute. discriminate.
  - vm_compute. reflexivity.
Defined.
