(* ===== verification/Timestamp.v ===== *)
(** * Snapshot timestamps

    [formatFileTimestamp] and [formatLabelTimestamp] of
    [src/src/map-renderer.ts] (lines 38-46) and the file name
    [renderMapSnapshot] gives the image it writes (line 423).  A [Date]
    is read through its local-time getters, a record [LocalDate] of
    integers; [value.toString()] of an integer is [string_of_Z] and
    [padStart(2, "0")] is [padStart].

    The theorems: on a date whose fields are in the getters' ranges, the
    file name reads back to the date ([formatFileTimestamp_roundtrip]),
    so two snapshots taken in different seconds get different file
    names, and two in the same second the same one: the second write
    replaces the first. *)

From Stdlib Require Import QArith ZArith String Ascii List Lia DecimalString DecimalNat.
From S2P Require Import Prelude Oid Snapshots.
Import ListNotations.

Local Open Scope string_scope.

(** ** Formatting *)

(** The local-time getters of a [Date]: [getMonth] counts from 0. *)
Record LocalDate := {
  getFullYear : Z;
  getMonth : Z;
  getDate : Z;
  getHours : Z;
  getMinutes : Z;
  getSeconds : Z
}.

(** [s.padStart(targetLength, "0")]. *)
Definition padStart (targetLength : nat) (s : string) : string :=
  if Nat.leb targetLength (String.length s) then s
  else string_of_list_ascii (repeat "0"%char (targetLength - String.length s)) ++ s.

(** [pad = value => value.toString().padStart(2, "0")]. *)
Definition pad (value : Z) : string := padStart 2 (string_of_Z value).

Definition formatFileTimestamp (date : LocalDate) : string :=
  string_of_Z (getFullYear date) ++ "-" ++ pad (getMonth date + 1) ++ "-" ++ pad (getDate date) ++ "-" ++
  pad (getHours date) ++ "-" ++ pad (getMinutes date) ++ "-" ++ pad (getSeconds date).

Definition formatLabelTimestamp (date : LocalDate) : string :=
  string_of_Z (getFullYear date) ++ "-" ++ pad (getMonth date + 1) ++ "-" ++ pad (getDate date) ++ " " ++
  pad (getHours date) ++ ":" ++ pad (getMinutes date) ++ ":" ++ pad (getSeconds date).

(** [`${formatFileTimestamp(new Date())}.png`]. *)
Definition snapshot_file_name (now : LocalDate) : string := formatFileTimestamp now ++ ".png".

(** The label of the legend overlay: the metrics' own timestamp, read
    by [new Date], or the present time when it is empty. *)
Definition snapshot_label (parseDate : string -> LocalDate) (now : LocalDate) (timestamp : string) : string :=
  formatLabelTimestamp (if negb (String.eqb timestamp "") then parseDate timestamp else now).

(** ** Reading a name back *)

(** The ranges of the getters (a year of the common era). *)
Definition date_ok (d : LocalDate) : Prop :=
  (0 <= getFullYear d /\ 0 <= getMonth d <= 11 /\ 1 <= getDate d <= 31 /\ 0 <= getHours d <= 23 /\
   0 <= getMinutes d <= 59 /\ 0 <= getSeconds d <= 59)%Z.

Definition parse_nat (w : list ascii) : option nat :=
  option_map Nat.of_uint (NilEmpty.uint_of_string (string_of_list_ascii w)).

(** The inverse of [formatFileTimestamp] on dates in range. *)
Definition parse_file_timestamp (name : string) : option LocalDate :=
  match split_on "-"%char (list_ascii_of_string name) with
  | [y; mo; d; h; mi; s] =>
      match parse_nat y, parse_nat mo, parse_nat d, parse_nat h, parse_nat mi, parse_nat s with
      | Some y, Some mo, Some d, Some h, Some mi, Some s =>
          Some {| getFullYear := Z.of_nat y; getMonth := Z.of_nat mo - 1; getDate := Z.of_nat d;
                  getHours := Z.of_nat h; getMinutes := Z.of_nat mi; getSeconds := Z.of_nat s |}
      | _, _, _, _, _, _ => None
      end
  | _ => None
  end.

(** ** Lemmas *)

Example formatFileTimestamp_example :
  let d := {| getFullYear := 2024; getMonth := 2; getDate := 5; getHours := 7; getMinutes := 8; getSeconds := 9 |} in
  snapshot_file_name d = "2024-03-05-07-08-09.png" /\ formatLabelTimestamp d = "2024-03-05 07:08:09".
Proof. split; reflexivity. Qed.

Lemma string_of_uint_std (d : Decimal.uint) : string_of_uint d = NilEmpty.string_of_uint d.
Proof. induction d; cbn; congruence. Qed.

Lemma parse_nat_string_of_nat (n : nat) : parse_nat (list_ascii_of_string (string_of_nat n)) = Some n.
Proof.
  unfold parse_nat, string_of_nat. rewrite string_of_list_ascii_of_string, string_of_uint_std, NilEmpty.usu.
  cbn [option_map]. rewrite Unsigned.of_to. reflexivity.
Qed.

(** Leading zeros do not change the number read. *)
Lemma parse_nat_zeros (m : nat) (w : list ascii) (n : nat) :
  parse_nat w = Some n -> parse_nat (repeat "0"%char m ++ w)%list = Some n.
Proof.
  intros H. induction m as [|m IH]; [exact H|]. unfold parse_nat in *.
  change (string_of_list_ascii (repeat "0"%char (S m) ++ w)%list)
    with (String "0"%char (string_of_list_ascii (repeat "0"%char m ++ w)%list)).
  change (NilEmpty.uint_of_string (String "0"%char ?s)) with (uint_of_char "0"%char (NilEmpty.uint_of_string s)).
  destruct (NilEmpty.uint_of_string (string_of_list_ascii (repeat "0"%char m ++ w)%list)) as [d|]; [|discriminate].
  cbn [uint_of_char option_map] in IH |- *. rewrite <- IH. f_equal.
Qed.

Lemma no_dash_uint (d : Decimal.uint) : no_char "-"%char (list_ascii_of_string (string_of_uint d)).
Proof. induction d; cbn; constructor; auto. Qed.

(** A non-negative number prints without a dash and reads back. *)
Lemma string_of_Z_facts (v : Z) : (0 <= v)%Z ->
  no_char "-"%char (list_ascii_of_string (string_of_Z v)) /\
  parse_nat (list_ascii_of_string (string_of_Z v)) = Some (Z.to_nat v).
Proof.
  intros Hv. unfold string_of_Z. destruct (Z.ltb_spec v 0); [lia|].
  split; [apply no_dash_uint | apply parse_nat_string_of_nat].
Qed.

Lemma pad_facts (v : Z) : (0 <= v)%Z ->
  no_char "-"%char (list_ascii_of_string (pad v)) /\
  parse_nat (list_ascii_of_string (pad v)) = Some (Z.to_nat v).
Proof.
  intros Hv. destruct (string_of_Z_facts v Hv) as [N P]. unfold pad, padStart.
  destruct (Nat.leb _ _); [split; assumption|].
  rewrite list_ascii_of_string_app, list_ascii_of_string_of_list_ascii. split.
  - apply Forall_app. split; [|exact N]. apply Forall_forall. intros x Hx. apply repeat_spec in Hx. subst x. reflexivity.
  - apply parse_nat_zeros, P.
Qed.

(** ** Properties *)

(** [parse_file_timestamp] undoes [formatFileTimestamp] on dates in range. *)
Lemma parse_formatFileTimestamp (d : LocalDate) :
  date_ok d -> parse_file_timestamp (formatFileTimestamp d) = Some d.
Proof.
  intros (Hy & Hmo & Hd & Hh & Hmi & Hs).
  destruct (string_of_Z_facts (getFullYear d) Hy) as [Ny Py].
  destruct (pad_facts (getMonth d + 1)) as [Nmo Pmo]; [lia|].
  destruct (pad_facts (getDate d)) as [Nd Pd]; [lia|].
  destruct (pad_facts (getHours d)) as [Nh Ph]; [lia|].
  destruct (pad_facts (getMinutes d)) as [Nmi Pmi]; [lia|].
  destruct (pad_facts (getSeconds d)) as [Ns Ps]; [lia|].
  unfold parse_file_timestamp, formatFileTimestamp. rewrite !list_ascii_of_string_app. cbn [list_ascii_of_string app].
  rewrite !split_on_app_sep by assumption. rewrite split_on_no_sep by assumption.
  rewrite Py, Pmo, Pd, Ph, Pmi, Ps. destruct d as [y mo da h mi s]. cbn in *. f_equal. f_equal; lia.
Qed.

(** C26: the file name of a snapshot reads back to the date it was
    taken at, on dates in the getters' ranges: the six fields are
    printed between dashes, the month as [getMonth() + 1], and a reader
    that splits at the dashes and undoes the [+ 1] recovers every field
    ([padStart]'s zeros included). *)
Theorem formatFileTimestamp_roundtrip (d : LocalDate) :
  date_ok d -> parse_file_timestamp (formatFileTimestamp d) = Some d.
Proof. apply parse_formatFileTimestamp. Qed.

Corollary formatFileTimestamp_injective (d1 d2 : LocalDate) :
  date_ok d1 -> date_ok d2 -> formatFileTimestamp d1 = formatFileTimestamp d2 -> d1 = d2.
Proof.
  intros H1 H2 E. apply (f_equal parse_file_timestamp) in E.
  rewrite !parse_formatFileTimestamp in E by assumption. congruence.
Qed.

Lemma append_cancel_r (a b s : string) : a ++ s = b ++ s -> a = b.
Proof.
  intros E. apply (f_equal list_ascii_of_string) in E. rewrite !list_ascii_of_string_app in E.
  apply app_inv_tail in E. rewrite <- (string_of_list_ascii_of_string a), E. apply string_of_list_ascii_of_string.
Qed.

(** Snapshots taken in different seconds are written to different
    files. *)
Corollary snapshot_file_name_injective (d1 d2 : LocalDate) :
  date_ok d1 -> date_ok d2 -> snapshot_file_name d1 = snapshot_file_name d2 -> d1 = d2.
Proof. intros H1 H2 E. apply formatFileTimestamp_injective; [exact H1 | exact H2 | exact (append_cancel_r _ _ _ E)]. Qed.

(** ** The image directory *)

Local Open Scope list_scope.

Lemma existsb_name (name : string) (dir : list DirEntry) :
  existsb (fun e => String.eqb (de_name e) name) dir = true <-> In name (map de_name dir).
Proof.
  rewrite existsb_exists, in_map_iff. split; intros (e & H1 & H2); exists e.
  - split; [apply String.eqb_eq, H2 | exact H1].
  - split; [exact H2 | apply String.eqb_eq, H1].
Qed.

(** The names in the directory after [fs.promises.writeFile]. *)
Lemma write_file_names (name : string) (t : Q) (dir : list DirEntry) :
  map de_name (write_file name t dir) =
    if existsb (fun e => String.eqb (de_name e) name) dir then map de_name dir else map de_name dir ++ [name].
Proof.
  unfold write_file. destruct (existsb _ dir); [|rewrite map_app; reflexivity].
  rewrite map_map. apply map_ext. intros e. destruct (String.eqb_spec (de_name e) name); [symmetry; assumption | reflexivity].
Qed.

Lemma write_file_fresh_names (name : string) (t : Q) (dir : list DirEntry) :
  ~ In name (map de_name dir) -> map de_name (write_file name t dir) = map de_name dir ++ [name].
Proof.
  intros H. rewrite write_file_names. destruct (existsb _ dir) eqn:E; [|reflexivity].
  apply existsb_name in E. contradiction.
Qed.

(** Two cycles' snapshots: taken in different seconds they are two new
    files; in the same second the second is written over the first, and
    the directory gains one file. *)
Theorem snapshots_one_per_second (d1 d2 : LocalDate) (t1 t2 : Q) (dir : list DirEntry) :
  date_ok d1 -> date_ok d2 ->
  ~ In (snapshot_file_name d1) (map de_name dir) -> ~ In (snapshot_file_name d2) (map de_name dir) ->
  (d1 = d2 -> map de_name (write_file (snapshot_file_name d2) t2 (write_file (snapshot_file_name d1) t1 dir)) =
                map de_name dir ++ [snapshot_file_name d1]) /\
  (d1 <> d2 -> map de_name (write_file (snapshot_file_name d2) t2 (write_file (snapshot_file_name d1) t1 dir)) =
                 map de_name dir ++ [snapshot_file_name d1; snapshot_file_name d2]).
Proof.
  intros H1 H2 N1 N2. split; intros E.
  - subst d2. rewrite write_file_names, write_file_fresh_names by exact N1.
    destruct (existsb _ _) eqn:Ex; [reflexivity|].
    exfalso. apply Bool.not_true_iff_false in Ex. apply Ex, existsb_name.
    rewrite write_file_fresh_names by exact N1. apply in_or_app. right. left. reflexivity.
  - rewrite write_file_fresh_names; [rewrite write_file_fresh_names by exact N1; rewrite <- app_assoc; reflexivity|].
    rewrite write_file_fresh_names by exact N1. intros Hin. apply in_app_or in Hin as [Hin|[Heq|[]]]; [contradiction|].
    apply E, snapshot_file_name_injective; assumption.
Qed.

Lemma formatFileTimestamp_roundtrip_witness :
  let d := {| getFullYear := 2024; getMonth := 0; getDate := 31; getHours := 23; getMinutes := 0;
              getSeconds := 59 |} in
  date_ok d /\ parse_file_timestamp (formatFileTimestamp d) = Some d.
Proof.
  intros d. assert (H : date_ok d) by (unfold date_ok; cbn; lia).
  split; [exact H | apply formatFileTimestamp_roundtrip, H].
Defined.
