(* ===== verification/Geometry.v ===== *)
(** * Link geometry

    [splitPathAtHalf] of [src/src/shared/path-utils.ts] and
    [computeAutoPath] of [src/src/map-renderer.ts] (the same code is in
    [src/src/frontend/main.ts]).  Coordinates are real numbers: the code's
    only non-rational operation is [Math.hypot], which is [sqrt] of the
    sum of squares; floating-point rounding is not modelled.

    The theorems: the two halves of a split path have equal arc length and
    meet at the midpoint; the straight and degenerate cases; the offsets
    and control points of [computeAutoPath]. *)

From Stdlib Require Import Reals Lra Lia List String Ascii.
From S2P Require Import Prelude Topology.
Import ListNotations.

Local Open Scope R_scope.

(** ** Points and lengths *)

Record Pt := { x : R; y : R }.

(** A configured position. *)
Definition pt_of (p : Position) : Pt := {| x := Q2R (px p); y := Q2R (py p) |}.

(** [Math.hypot(a, b)]. *)
Definition hypot (a b : R) : R := sqrt (a * a + b * b).

(** The length of the segment from [p] to [q]. *)
Definition seg_len (p q : Pt) : R := hypot (x q - x p) (y q - y p).

(** [segmentLengths] of the first loop of [splitPathAtHalf]. *)
Fixpoint segmentLengths (path : list Pt) : list R :=
  match path with
  | p :: ((q :: _) as rest) => seg_len p q :: segmentLengths rest
  | _ => []
  end.

(** [totalLength] after the first loop. *)
Definition totalLength (path : list Pt) : R := fold_left Rplus (segmentLengths path) 0.

(** ** [splitPathAtHalf] *)

Record SplitPathResult := {
  midpoint : Pt;
  firstHalf : list Pt;
  secondHalf : list Pt
}.

(** [start + (end - start) * ratio]. *)
Definition lerp (start end_ : Pt) (ratio : R) : Pt :=
  {| x := x start + (x end_ - x start) * ratio; y := y start + (y end_ - y start) * ratio |}.

(** The second loop: [prefix] is [path.slice(0, i)], [pts] is
    [path.slice(i)], [accumulated] the length walked so far.  [None] is
    the end of the loop without a split. *)
Fixpoint split_walk (prefix pts : list Pt) (accumulated halfway : R) : option SplitPathResult :=
  match pts with
  | start :: ((end_ :: _) as rest) =>
      let length := seg_len start end_ in
      if Rle_dec halfway (accumulated + length) then
        let remaining := halfway - accumulated in
        let ratio := if Req_EM_T length 0 then 0 else remaining / length in
        let m := lerp start end_ ratio in
        Some {| midpoint := m; firstHalf := prefix ++ [start; m]; secondHalf := m :: rest |}
      else split_walk (prefix ++ [start]) rest (accumulated + length) halfway
  | _ => None
  end.

Definition origin : Pt := {| x := 0; y := 0 |}.

Definition splitPathAtHalf (path : list Pt) : SplitPathResult :=
  match path with
  | [] => {| midpoint := origin; firstHalf := [origin]; secondHalf := [origin] |}
  | [p] => {| midpoint := p; firstHalf := [p]; secondHalf := [p] |}
  | p0 :: _ =>
      let total := totalLength path in
      if Req_EM_T total 0 then
        let m := nth (Nat.div2 (List.length path)) path p0 in
        {| midpoint := m; firstHalf := [p0; m]; secondHalf := [m; List.last path p0] |}
      else
        match split_walk [] path 0 (total / 2) with
        | Some r => r
        | None =>
            let f := List.last path p0 in
            {| midpoint := f; firstHalf := path; secondHalf := [f] |}
        end
  end.

(** ** [computeAutoPath] *)

(** [spacing = Math.min(160, Math.max(40, length / 3))]. *)
Definition spacing_of (length : R) : R := Rmin 160 (Rmax 40 (length / 3)).

(** [offset = (index - (groupSize - 1) / 2) * spacing]. *)
Definition offset_of (groupSize index : nat) (spacing : R) : R :=
  (INR index - (INR groupSize - 1) / 2) * spacing.

Definition computeAutoPath (from to : Pt) (groupSize index : nat) : list Pt :=
  let dx := x to - x from in
  let dy := y to - y from in
  let length := if Req_EM_T (hypot dx dy) 0 then 1 else hypot dx dy in
  let mid := {| x := x from + dx / 2; y := y from + dy / 2 |} in
  let perp := {| x := - dy / length; y := dx / length |} in
  let spacing := spacing_of length in
  let offset := offset_of groupSize index spacing in
  let control := {| x := x mid + x perp * offset; y := y mid + y perp * offset |} in
  if (Nat.eqb groupSize 1 || (if Rlt_dec (Rabs offset) 1 then true else false))%bool then [from; to]
  else [from; control; to].

(** ** Lengths *)

Lemma fold_left_Rplus (l : list R) (a : R) : fold_left Rplus l a = a + fold_left Rplus l 0.
Proof.
  revert a. induction l as [|b l IH]; intros a; simpl; [lra|].
  rewrite (IH (a + b)), (IH (0 + b)). lra.
Qed.

Lemma totalLength_cons2 (p q : Pt) (l : list Pt) :
  totalLength (p :: q :: l) = seg_len p q + totalLength (q :: l).
Proof. unfold totalLength. simpl. rewrite fold_left_Rplus. lra. Qed.

Lemma totalLength_one (p : Pt) : totalLength [p] = 0.
Proof. reflexivity. Qed.

Lemma totalLength_nil : totalLength [] = 0.
Proof. reflexivity. Qed.

Lemma segmentLengths_snoc2 (l : list Pt) (a b : Pt) :
  segmentLengths (l ++ [a; b]) = segmentLengths (l ++ [a]) ++ [seg_len a b].
Proof.
  induction l as [|c l IH]; [reflexivity|]. simpl.
  destruct l as [|d l]; [reflexivity|]. simpl in *. rewrite IH. reflexivity.
Qed.

Lemma totalLength_snoc2 (l : list Pt) (a b : Pt) :
  totalLength (l ++ [a; b]) = totalLength (l ++ [a]) + seg_len a b.
Proof. unfold totalLength. rewrite segmentLengths_snoc2, fold_left_app. reflexivity. Qed.

Lemma seg_len_nonneg (p q : Pt) : 0 <= seg_len p q.
Proof. apply sqrt_pos. Qed.

Lemma totalLength_nonneg (l : list Pt) : 0 <= totalLength l.
Proof.
  induction l as [|p [|q l] IH]; [right; reflexivity | right; reflexivity|].
  rewrite totalLength_cons2. pose proof (seg_len_nonneg p q). lra.
Qed.

(** Two points whose abscissae differ are a segment of positive length. *)
Lemma seg_len_pos (p q : Pt) : x p <> x q -> 0 < seg_len p q.
Proof.
  intros Hx. unfold seg_len, hypot. apply sqrt_lt_R0.
  assert (0 < (x q - x p) * (x q - x p)).
  { apply Rsqr_pos_lt. intros E. apply Hx. lra. }
  pose proof (Rle_0_sqr (y q - y p)). unfold Rsqr in *. lra.
Qed.

Lemma seg_len_refl (p : Pt) : seg_len p p = 0.
Proof. unfold seg_len, hypot. rewrite !Rminus_diag, Rmult_0_r, Rplus_0_r. apply sqrt_0. Qed.

(** A point at ratio [r] of a segment splits its length as [r] and [1 - r]. *)
Lemma seg_len_lerp (s e : Pt) (r : R) :
  0 <= r <= 1 ->
  seg_len s (lerp s e r) = r * seg_len s e /\ seg_len (lerp s e r) e = (1 - r) * seg_len s e.
Proof.
  intros Hr. unfold seg_len, hypot, lerp. simpl.
  set (dx := x e - x s). set (dy := y e - y s).
  assert (Hs : 0 <= dx * dx + dy * dy) by nra.
  split.
  - replace (x s + dx * r - x s) with (r * dx) by ring.
    replace (y s + dy * r - y s) with (r * dy) by ring.
    replace (r * dx * (r * dx) + r * dy * (r * dy)) with ((r * r) * (dx * dx + dy * dy)) by ring.
    rewrite sqrt_mult_alt by nra. rewrite sqrt_square by lra. reflexivity.
  - replace (x e - (x s + dx * r)) with ((1 - r) * dx) by (unfold dx; ring).
    replace (y e - (y s + dy * r)) with ((1 - r) * dy) by (unfold dy; ring).
    replace ((1 - r) * dx * ((1 - r) * dx) + (1 - r) * dy * ((1 - r) * dy))
      with (((1 - r) * (1 - r)) * (dx * dx + dy * dy)) by ring.
    rewrite sqrt_mult_alt by nra. rewrite sqrt_square by lra. reflexivity.
Qed.

(** ** The second loop of [splitPathAtHalf] *)

Lemma walk_ratio (len acc h : R) :
  0 <= len -> acc <= h <= acc + len ->
  let ratio := if Req_EM_T len 0 then 0 else (h - acc) / len in
  0 <= ratio <= 1 /\ ratio * len = h - acc.
Proof.
  intros Hl Hh. cbv zeta. destruct (Req_EM_T len 0) as [->|Hne]; [lra|].
  assert (0 < len) by lra. split; [split|].
  - apply Rmult_le_pos; [lra | apply Rlt_le, Rinv_0_lt_compat; lra].
  - apply (Rmult_le_reg_r len); [lra|]. unfold Rdiv. rewrite Rmult_assoc, Rinv_l by lra. lra.
  - field. exact Hne.
Qed.

Lemma last_cons2 {A} (a b : A) (l : list A) (d : A) : List.last (a :: b :: l) d = List.last (b :: l) d.
Proof. reflexivity. Qed.

(** What the loop returns when it finds the segment: the first half has
    length [halfway], the second the rest, and they meet at the
    midpoint. *)
Lemma split_walk_found (pts prefix : list Pt) (s : Pt) (acc h : R) (r : SplitPathResult) :
  split_walk prefix (s :: pts) acc h = Some r ->
  acc <= h -> acc = totalLength (prefix ++ [s]) ->
  totalLength (firstHalf r) = h /\
  totalLength (secondHalf r) = acc + totalLength (s :: pts) - h /\
  (forall d, List.last (firstHalf r) d = midpoint r) /\
  (forall d, hd d (secondHalf r) = midpoint r) /\
  (forall d, List.last (secondHalf r) d = List.last (s :: pts) d) /\
  (2 <= List.length (secondHalf r))%nat /\
  (exists l, firstHalf r = prefix ++ s :: l /\ l <> []).
Proof.
  revert prefix s acc. induction pts as [|e pts IH]; intros prefix s acc Hw Hh Hacc; [discriminate|].
  simpl in Hw. destruct (Rle_dec h (acc + seg_len s e)) as [Hle|Hgt].
  - injection Hw as <-. cbn [firstHalf secondHalf midpoint].
    destruct (walk_ratio (seg_len s e) acc h (seg_len_nonneg s e) (conj Hh Hle)) as [Hr Heq].
    set (ratio := if Req_EM_T (seg_len s e) 0 then 0 else (h - acc) / seg_len s e) in *.
    destruct (seg_len_lerp s e ratio Hr) as [L1 L2].
    split; [|split; [|split; [|split; [|split; [|split]]]]].
    + rewrite totalLength_snoc2, <- Hacc, L1. lra.
    + rewrite !totalLength_cons2, L2. lra.
    + intros d. change [s; lerp s e ratio] with ([s] ++ [lerp s e ratio]).
      rewrite app_assoc. apply last_last.
    + reflexivity.
    + intros d. reflexivity.
    + simpl. lia.
    + exists [lerp s e ratio]. split; [reflexivity | discriminate].
  - assert (Hacc' : acc + seg_len s e = totalLength ((prefix ++ [s]) ++ [e]))
      by (rewrite <- app_assoc; simpl; rewrite totalLength_snoc2, <- Hacc; reflexivity).
    destruct (IH (prefix ++ [s]) e (acc + seg_len s e) Hw ltac:(lra) Hacc')
      as (F1 & F2 & F3 & F4 & F5 & F7 & l & F6 & Hl).
    split; [exact F1|]. split; [rewrite F2, (totalLength_cons2 s e pts); lra|].
    split; [exact F3|]. split; [exact F4|]. split; [intros d; rewrite F5; reflexivity|].
    split; [exact F7|].
    exists (e :: l). split; [rewrite F6, <- app_assoc; reflexivity | discriminate].
Qed.

(** The loop finds the segment whenever [halfway] lies within the
    remaining length. *)
Lemma split_walk_some (pts prefix : list Pt) (s : Pt) (acc h : R) :
  pts <> [] -> acc <= h <= acc + totalLength (s :: pts) ->
  exists r, split_walk prefix (s :: pts) acc h = Some r.
Proof.
  revert prefix s acc. induction pts as [|e pts IH]; intros prefix s acc Hne Hh; [congruence|].
  simpl. destruct (Rle_dec h (acc + seg_len s e)) as [Hle|Hgt]; [eexists; reflexivity|].
  rewrite totalLength_cons2 in Hh.
  destruct pts as [|f pts]; [rewrite totalLength_one in Hh; lra|].
  apply IH; [discriminate | lra].
Qed.

(** ** Properties of [splitPathAtHalf] *)

(** C27: on a path with positive length, the two halves each have half
    the length of the path, the first ends and the second starts at the
    midpoint, the first starts where the path starts and the second ends
    where it ends: the forward and reverse colours each cover half of the
    drawn link, however many bends it has. *)
Theorem splitPathAtHalf_halves (path : list Pt) :
  0 < totalLength path ->
  let r := splitPathAtHalf path in
  totalLength (firstHalf r) = totalLength path / 2 /\
  totalLength (secondHalf r) = totalLength path / 2 /\
  (forall d, List.last (firstHalf r) d = midpoint r) /\
  (forall d, hd d (secondHalf r) = midpoint r) /\
  (forall d, hd d (firstHalf r) = hd d path) /\
  (forall d, List.last (secondHalf r) d = List.last path d).
Proof.
  intros Hpos. cbv zeta.
  destruct path as [|p0 [|p1 rest]]; [rewrite totalLength_nil in Hpos; lra | rewrite totalLength_one in Hpos; lra|].
  unfold splitPathAtHalf. destruct (Req_EM_T _ 0) as [E|_]; [lra|].
  set (T := totalLength (p0 :: p1 :: rest)) in *.
  destruct (split_walk_some (p1 :: rest) [] p0 0 (T / 2)) as [r Hr]; [discriminate | fold T; lra |].
  rewrite Hr.
  destruct (split_walk_found (p1 :: rest) [] p0 0 (T / 2) r Hr ltac:(lra) eq_refl)
    as (F1 & F2 & F3 & F4 & F5 & _ & l & F6 & _).
  split; [exact F1|]. split; [fold T in F2; rewrite F2; lra|].
  split; [exact F3|]. split; [exact F4|]. split; [intros d; rewrite F6; reflexivity | exact F5].
Qed.

Definition ex_bent_path : list Pt :=
  [origin; {| x := 3; y := 0 |}; {| x := 3; y := 4 |}].

Lemma splitPathAtHalf_halves_witness :
  0 < totalLength ex_bent_path /\
  totalLength (firstHalf (splitPathAtHalf ex_bent_path)) = totalLength ex_bent_path / 2.
Proof.
  assert (H : 0 < totalLength ex_bent_path).
  { unfold ex_bent_path. rewrite !totalLength_cons2, totalLength_one.
    pose proof (seg_len_pos origin {| x := 3; y := 0 |} ltac:(simpl; lra)).
    pose proof (seg_len_nonneg {| x := 3; y := 0 |} {| x := 3; y := 4 |}). lra. }
  split; [exact H|]. exact (proj1 (splitPathAtHalf_halves ex_bent_path H)).
Defined.

(** A straight two-point path [[start, end]] of length [L] is split
    at a midpoint [L/2] from each end, with halves [[start, mid]] and
    [[mid, end]] (for [L = 0] the midpoint is [end], which is [start]). *)
Theorem splitPathAtHalf_segment (a b : Pt) :
  let r := splitPathAtHalf [a; b] in
  firstHalf r = [a; midpoint r] /\ secondHalf r = [midpoint r; b] /\
  seg_len a (midpoint r) = seg_len a b / 2 /\ seg_len (midpoint r) b = seg_len a b / 2.
Proof.
  cbv zeta. unfold splitPathAtHalf.
  assert (HT : totalLength [a; b] = seg_len a b) by (rewrite totalLength_cons2, totalLength_one; ring).
  destruct (Req_EM_T _ 0) as [E|Hne]; rewrite HT in *.
  - simpl. rewrite E, seg_len_refl. repeat split; lra.
  - pose proof (seg_len_nonneg a b).
    destruct (split_walk_some [b] [] a 0 (seg_len a b / 2)) as [r Hr];
      [discriminate | rewrite HT; lra |].
    rewrite Hr. simpl in Hr. destruct (Rle_dec _ _) as [Hle|Hgt]; [|lra].
    injection Hr as <-. cbn [firstHalf secondHalf midpoint].
    destruct (walk_ratio (seg_len a b) 0 (seg_len a b / 2) ltac:(lra) ltac:(lra)) as [Hr Heq].
    destruct (seg_len_lerp a b _ Hr) as [L1 L2].
    repeat split; [rewrite L1 | rewrite L2]; lra.
Qed.

(** A path of two or more points that all coincide has length 0; it
    is split at its point, and each half is the two-point path from an
    end to that point (not a one-point path). *)
Theorem splitPathAtHalf_degenerate (p : Pt) (n : nat) :
  let r := splitPathAtHalf (repeat p (S (S n))) in
  midpoint r = p /\ firstHalf r = [p; p] /\ secondHalf r = [p; p].
Proof.
  cbv zeta. unfold splitPathAtHalf. cbn [repeat].
  assert (HT : totalLength (p :: p :: repeat p n) = 0).
  { induction n as [|n IH]; [rewrite totalLength_cons2, seg_len_refl, totalLength_one; ring|].
    cbn [repeat]. rewrite totalLength_cons2, seg_len_refl, IH. ring. }
  destruct (Req_EM_T _ 0) as [_|Hne]; [|contradiction].
  assert (Hnth : forall k, nth k (p :: p :: repeat p n) p = p)
    by (intros k; change (p :: p :: repeat p n) with (repeat p (S (S n))); apply nth_repeat).
  assert (Hlast : List.last (p :: p :: repeat p n) p = p).
  { change (p :: p :: repeat p n) with (repeat p (S (S n))). induction (S (S n)) as [|k IH]; [reflexivity|].
    destruct k; [reflexivity|]. exact IH. }
  rewrite Hnth, Hlast. auto.
Qed.

(** The shape of a split path of two or more points: both halves have
    two or more points, the first runs from the path's first point to
    the midpoint and the second from the midpoint to the path's last
    point. *)
Lemma splitPathAtHalf_shape (path : list Pt) :
  (2 <= List.length path)%nat ->
  let r := splitPathAtHalf path in
  (2 <= List.length (firstHalf r))%nat /\ (2 <= List.length (secondHalf r))%nat /\
  (forall d, hd d (firstHalf r) = hd d path) /\
  (forall d, List.last (firstHalf r) d = midpoint r) /\
  (forall d, hd d (secondHalf r) = midpoint r) /\
  (forall d, List.last (secondHalf r) d = List.last path d).
Proof.
  intros Hlen. cbv zeta.
  destruct path as [|p0 [|p1 rest]]; [simpl in Hlen; lia | simpl in Hlen; lia|].
  unfold splitPathAtHalf. destruct (Req_EM_T _ 0) as [E|Hne].
  - cbn [firstHalf secondHalf midpoint List.length hd].
    repeat split; try (simpl; lia); intros d; try reflexivity.
    transitivity (List.last (p0 :: p1 :: rest) p0); [reflexivity | apply last_cons_indep].
  - pose proof (totalLength_nonneg (p0 :: p1 :: rest)).
    set (T := totalLength (p0 :: p1 :: rest)) in *.
    destruct (split_walk_some (p1 :: rest) [] p0 0 (T / 2)) as [r Hr]; [discriminate | fold T; lra |].
    rewrite Hr.
    destruct (split_walk_found (p1 :: rest) [] p0 0 (T / 2) r Hr ltac:(lra) eq_refl)
      as (_ & _ & F3 & F4 & F5 & F7 & l & F6 & Hl).
    split; [rewrite F6; destruct l; [congruence | simpl; lia]|]. split; [exact F7|].
    split; [intros d; rewrite F6; reflexivity|]. split; [exact F3|]. split; [exact F4|].
    intros d. rewrite F5. reflexivity.
Qed.

(** ** [computeAutoPath] *)

(** The midpoint of the straight segment. *)
Definition seg_mid (from to : Pt) : Pt :=
  {| x := x from + (x to - x from) / 2; y := y from + (y to - y from) / 2 |}.

(** The control point at [offset] along the unit normal of a segment of
    positive length. *)
Definition control_of (from to : Pt) (offset : R) : Pt :=
  let L := seg_len from to in
  {| x := x (seg_mid from to) + - (y to - y from) / L * offset;
     y := y (seg_mid from to) + (x to - x from) / L * offset |}.

Lemma computeAutoPath_eq (from to : Pt) (n i : nat) :
  0 < seg_len from to ->
  let off := offset_of n i (spacing_of (seg_len from to)) in
  computeAutoPath from to n i =
    if (Nat.eqb n 1 || (if Rlt_dec (Rabs off) 1 then true else false))%bool then [from; to]
    else [from; control_of from to off; to].
Proof.
  intros Hpos. unfold computeAutoPath. fold (seg_len from to).
  destruct (Req_EM_T (seg_len from to) 0) as [E|_]; [lra|]. reflexivity.
Qed.

Lemma spacing_bounds (L : R) : 40 <= spacing_of L <= 160.
Proof.
  unfold spacing_of. split.
  - apply Rmin_glb; [lra | apply Rmax_l].
  - apply Rmin_l.
Qed.

(** The control point is [|offset|] away from the midpoint, on the normal
    of the segment. *)
Lemma control_of_geometry (from to : Pt) (offset : R) :
  0 < seg_len from to ->
  seg_len (seg_mid from to) (control_of from to offset) = Rabs offset /\
  (x (control_of from to offset) - x (seg_mid from to)) * (x to - x from) +
  (y (control_of from to offset) - y (seg_mid from to)) * (y to - y from) = 0.
Proof.
  intros Hpos. unfold control_of. cbn [x y]. set (L := seg_len from to) in *.
  set (dx := x to - x from). set (dy := y to - y from).
  assert (HL : L * L = dx * dx + dy * dy)
    by (unfold L, seg_len, hypot; fold dx dy; apply sqrt_sqrt; nra).
  split; [|field; lra].
  unfold seg_len, hypot. cbn [x y].
  replace (x (seg_mid from to) + - dy / L * offset - x (seg_mid from to)) with (- dy / L * offset) by ring.
  replace (y (seg_mid from to) + dx / L * offset - y (seg_mid from to)) with (dx / L * offset) by ring.
  replace (- dy / L * offset * (- dy / L * offset) + dx / L * offset * (dx / L * offset))
    with (offset * offset * ((dx * dx + dy * dy) / (L * L))) by (field; lra).
  rewrite <- HL. replace (L * L / (L * L)) with 1 by (field; lra).
  rewrite Rmult_1_r. apply sqrt_Rsqr_abs.
Qed.

Lemma seg_len_sym (p q : Pt) : seg_len q p = seg_len p q.
Proof. unfold seg_len, hypot. f_equal. ring. Qed.

(** Reversing the segment reverses its normal. *)
Lemma control_of_swap (from to : Pt) (offset : R) :
  control_of to from offset = control_of from to (- offset).
Proof.
  unfold control_of, seg_mid. rewrite seg_len_sym. cbv zeta. cbn [x y]. unfold Rdiv.
  generalize (/ seg_len from to). intros iL. f_equal; field.
Qed.

(** A group of two: offsets [-spacing/2] and [+spacing/2], both curves. *)
Lemma computeAutoPath_pair (from to : Pt) :
  0 < seg_len from to ->
  let s := spacing_of (seg_len from to) in
  computeAutoPath from to 2 0 = [from; control_of from to (- (s / 2)); to] /\
  computeAutoPath from to 2 1 = [from; control_of from to (s / 2); to].
Proof.
  intros Hpos. cbv zeta. set (s := spacing_of (seg_len from to)).
  pose proof (spacing_bounds (seg_len from to)) as Hs. fold s in Hs.
  rewrite !(computeAutoPath_eq from to 2) by exact Hpos. fold s.
  replace (offset_of 2 0 s) with (- (s / 2)) by (unfold offset_of; simpl; field).
  replace (offset_of 2 1 s) with (s / 2) by (unfold offset_of; simpl; field).
  rewrite Rabs_Ropp, (Rabs_right (s / 2)) by lra. simpl.
  destruct (Rlt_dec (s / 2) 1); [lra|]. split; reflexivity.
Qed.

(** Offsets of opposite sign give control points symmetric about the
    midpoint. *)
Lemma control_of_opposite (from to : Pt) (offset : R) :
  x (control_of from to (- offset)) + x (control_of from to offset) = 2 * x (seg_mid from to) /\
  y (control_of from to (- offset)) + y (control_of from to offset) = 2 * y (seg_mid from to).
Proof. unfold control_of. cbn [x y]. split; ring. Qed.

(** [computeAutoPath]: a group of one link is always the straight
    path; in a group of three the offsets are [-spacing], [0] and
    [+spacing], the middle link is straight and the outer two are
    three-point curves whose control points lie [spacing] away from the
    midpoint on either side of the segment, on its normal. *)
Theorem computeAutoPath_groups (from to : Pt) (index : nat) :
  computeAutoPath from to 1 index = [from; to] /\
  (0 < seg_len from to ->
   let s := spacing_of (seg_len from to) in
   offset_of 3 0 s = - s /\ offset_of 3 1 s = 0 /\ offset_of 3 2 s = s /\
   computeAutoPath from to 3 1 = [from; to] /\
   computeAutoPath from to 3 0 = [from; control_of from to (- s); to] /\
   computeAutoPath from to 3 2 = [from; control_of from to s; to] /\
   seg_len (seg_mid from to) (control_of from to (- s)) = s /\
   seg_len (seg_mid from to) (control_of from to s) = s).
Proof.
  split; [unfold computeAutoPath; destruct (Req_EM_T _ _); reflexivity|].
  intros Hpos. cbv zeta. set (s := spacing_of (seg_len from to)).
  pose proof (spacing_bounds (seg_len from to)) as Hs. fold s in Hs.
  assert (O0 : offset_of 3 0 s = - s) by (unfold offset_of; simpl; field).
  assert (O1 : offset_of 3 1 s = 0) by (unfold offset_of; simpl; field).
  assert (O2 : offset_of 3 2 s = s) by (unfold offset_of; simpl; field).
  rewrite !(computeAutoPath_eq from to 3) by exact Hpos. fold s. rewrite O0, O1, O2.
  rewrite Rabs_R0, Rabs_Ropp, (Rabs_right s) by lra.
  destruct (Rlt_dec 0 1) as [_|n]; [|lra]. destruct (Rlt_dec s 1) as [|_]; [lra|].
  destruct (control_of_geometry from to (- s) Hpos) as [D1 _].
  destruct (control_of_geometry from to s Hpos) as [D2 _].
  rewrite D1, D2, Rabs_Ropp, (Rabs_right s) by lra. repeat split; reflexivity.
Qed.

Lemma computeAutoPath_groups_witness :
  0 < seg_len origin {| x := 300; y := 0 |} /\
  computeAutoPath origin {| x := 300; y := 0 |} 3 1 = [origin; {| x := 300; y := 0 |}].
Proof.
  assert (H : 0 < seg_len origin {| x := 300; y := 0 |}) by (apply seg_len_pos; simpl; lra).
  split; [exact H|].
  destruct (computeAutoPath_groups origin {| x := 300; y := 0 |} 0%nat) as [_ G].
  destruct (G H) as (_ & _ & _ & G1 & _). exact G1.
Defined.
