(* ===== verification/Fanout.v ===== *)
(** * Fan-out of parallel links

    [computeLinkPaths] of [src/src/map-renderer.ts] (the same code is
    [rebuildLinkPaths] of [src/src/frontend/main.ts]): manual paths, the
    grouping of links by their unordered endpoint pair, the order of a
    group by id, and one [computeAutoPath] per link.  The comparator
    [localeCompare] of the JavaScript runtime, which orders the links of a
    group, is a parameter of the section.

    The theorems: the path of every link is the automatic path of its
    position in its sorted group; two links between the same routers fan
    out symmetrically, ordered by id; two links declared in opposite
    directions are drawn on the same curve; the group key ["from::to"]
    makes links between different endpoints share a group. *)

From Stdlib Require Import QArith Qreals Reals Lra List String Ascii.
From stdpp Require Import base gmap strings.
From S2P Require Import Prelude Topology Geometry.
Import ListNotations.

Local Open Scope R_scope.

(** ** [computeLinkPaths] *)

(** [buildRouterMap]: later routers with the same id replace earlier
    ones. *)
Definition buildRouterMap (routers : list RouterDefinition) : gmap string RouterDefinition :=
  fold_left (fun m r => <[rd_id r := r]> m) routers ∅.

(** The manual path of a link: both router positions around its
    waypoints, when it has waypoints and both routers exist. *)
Definition manual_path (routerMap : gmap string RouterDefinition) (link : LinkDefinition) : option (list Pt) :=
  match ld_path link with
  | None | Some [] => None
  | Some pts =>
      match routerMap !! ld_from link, routerMap !! ld_to link with
      | Some fr, Some tr => Some ([pt_of (rd_position fr)] ++ map pt_of pts ++ [pt_of (rd_position tr)])
      | _, _ => None
      end
  end.

Definition manualPaths (routerMap : gmap string RouterDefinition) (links : list LinkDefinition)
    : gmap string (list Pt) :=
  fold_left (fun m link => match manual_path routerMap link with
                           | Some p => <[ld_id link := p]> m
                           | None => m
                           end) links ∅.

(** [[link.from, link.to].sort().join("::")]: the default sort compares
    code units. *)
Definition group_key (link : LinkDefinition) : string :=
  let a := ld_from link in
  let b := ld_to link in
  if String.leb a b then (a ++ "::" ++ b)%string else (b ++ "::" ++ a)%string.

(** [groupMap]: a [Map] keeps its keys in insertion order; a link joins
    the end of its group. *)
Fixpoint group_insert (key : string) (link : LinkDefinition)
    (groups : list (string * list LinkDefinition)) : list (string * list LinkDefinition) :=
  match groups with
  | [] => [(key, [link])]
  | (k, g) :: rest =>
      if String.eqb k key then (k, g ++ [link]) :: rest else (k, g) :: group_insert key link rest
  end.

Definition groupLinks (links : list LinkDefinition) : list (string * list LinkDefinition) :=
  fold_left (fun groups link => group_insert (group_key link) link groups) links [].

Section LinkPaths.
(** [a.id.localeCompare(b.id)]: the runtime's collation. *)
Variable localeCompare : string -> string -> comparison.

(** [group.sort((a, b) => a.id.localeCompare(b.id))]: a stable sort. *)
Fixpoint sort_insert (link : LinkDefinition) (sorted : list LinkDefinition) : list LinkDefinition :=
  match sorted with
  | [] => [link]
  | l :: rest =>
      if localeCompare (ld_id link) (ld_id l) is Lt then link :: l :: rest
      else l :: sort_insert link rest
  end.

Definition sort_group (group : list LinkDefinition) : list LinkDefinition :=
  fold_left (fun sorted link => sort_insert link sorted) group [].

(** [group.forEach((link, index) => ...)]. *)
Fixpoint place_group (routerMap : gmap string RouterDefinition) (manual : gmap string (list Pt))
    (groupSize : nat) (index : nat) (group : list LinkDefinition) (paths : gmap string (list Pt))
    : gmap string (list Pt) :=
  match group with
  | [] => paths
  | link :: rest =>
      let paths' :=
        match manual !! ld_id link with
        | Some p => <[ld_id link := p]> paths
        | None =>
            match routerMap !! ld_from link, routerMap !! ld_to link with
            | Some fr, Some tr =>
                <[ld_id link := computeAutoPath (pt_of (rd_position fr)) (pt_of (rd_position tr))
                                  groupSize index]> paths
            | _, _ => paths
            end
        end in
      place_group routerMap manual groupSize (S index) rest paths'
  end.

Definition computeLinkPaths (topology : TopologyDefinition) : gmap string (list Pt) :=
  let routerMap := buildRouterMap (td_routers topology) in
  let manual := manualPaths routerMap (td_links topology) in
  let paths := fold_left (fun paths '(_, group) =>
                 let sorted := sort_group group in
                 place_group routerMap manual (List.length sorted) 0 sorted paths)
               (groupLinks (td_links topology)) ∅ in
  (* the manual paths of links that were not placed *)
  union paths manual.
End LinkPaths.


(** ** Grouping *)

(** The links of [links] whose group key is [k], in declaration order. *)
Definition group_of (links : list LinkDefinition) (k : string) : list LinkDefinition :=
  List.filter (fun l => String.eqb (group_key l) k) links.

(** [groupMap.get(key)]. *)
Fixpoint group_lookup (key : string) (groups : list (string * list LinkDefinition))
    : option (list LinkDefinition) :=
  match groups with
  | [] => None
  | (k, g) :: rest => if String.eqb k key then Some g else group_lookup key rest
  end.

Ltac str_cases :=
  repeat match goal with
         | |- context [String.eqb ?a ?b] => destruct (String.eqb_spec a b); subst
         | H : context [String.eqb ?a ?b] |- _ => destruct (String.eqb_spec a b); subst
         end.

Lemma group_lookup_insert (k k' : string) (l : LinkDefinition) gs :
  group_lookup k' (group_insert k l gs) =
  if String.eqb k k' then Some (default [] (group_lookup k gs) ++ [l]) else group_lookup k' gs.
Proof.
  induction gs as [|[k0 g0] rest IH]; simpl; [str_cases; reflexivity|].
  str_cases; simpl; str_cases; try congruence; rewrite IH; str_cases; congruence.
Qed.

Lemma group_insert_keys (k k' : string) (l : LinkDefinition) gs :
  In k' (map fst (group_insert k l gs)) <-> k' = k \/ In k' (map fst gs).
Proof.
  induction gs as [|[k0 g0] rest IH]; simpl; [intuition congruence|]. str_cases; simpl; rewrite ?IH; intuition congruence.
Qed.

Lemma group_insert_NoDup (k : string) (l : LinkDefinition) gs :
  NoDup (map fst gs) -> NoDup (map fst (group_insert k l gs)).
Proof.
  induction gs as [|[k0 g0] rest IH]; simpl; intros Hnd; [constructor; [set_solver | constructor]|].
  apply NoDup_cons in Hnd as [Hk Hnd]. str_cases; simpl; constructor; auto.
  rewrite list_elem_of_In, group_insert_keys. rewrite list_elem_of_In in Hk. intuition.
Qed.

Lemma group_lookup_In (k : string) (g : list LinkDefinition) gs :
  NoDup (map fst gs) -> group_lookup k gs = Some g -> In (k, g) gs.
Proof.
  induction gs as [|[k0 g0] rest IH]; simpl; [discriminate|]. intros Hnd.
  apply NoDup_cons in Hnd as [_ Hnd]. str_cases; [injection 1 as <-; auto|]. auto.
Qed.

Lemma In_group_lookup (k : string) (g : list LinkDefinition) gs :
  NoDup (map fst gs) -> In (k, g) gs -> group_lookup k gs = Some g.
Proof.
  induction gs as [|[k0 g0] rest IH]; simpl; [tauto|]. intros Hnd.
  apply NoDup_cons in Hnd as [Hk Hnd]. rewrite list_elem_of_In in Hk.
  intros [E|Hin]; [injection E as -> ->; str_cases; congruence|]. str_cases; [|auto].
  exfalso. apply Hk. apply in_map_iff. exists (k, g). auto.
Qed.

Lemma groupLinks_snoc (links : list LinkDefinition) (l : LinkDefinition) :
  groupLinks (links ++ [l]) = group_insert (group_key l) l (groupLinks links).
Proof. unfold groupLinks. rewrite fold_left_app. reflexivity. Qed.

Lemma groupLinks_NoDup (links : list LinkDefinition) : NoDup (map fst (groupLinks links)).
Proof.
  induction links as [|l links IH] using rev_ind; [constructor|].
  rewrite groupLinks_snoc. apply group_insert_NoDup, IH.
Qed.

(** Every group is the list of links with its key, in declaration order. *)
Lemma groupLinks_lookup (links : list LinkDefinition) (k : string) :
  group_lookup k (groupLinks links) = match group_of links k with [] => None | g => Some g end.
Proof.
  induction links as [|l links IH] using rev_ind; [reflexivity|].
  rewrite groupLinks_snoc, group_lookup_insert, IH. unfold group_of in *.
  rewrite List.filter_app. simpl. str_cases.
  - destruct (List.filter _ links); rewrite IH; reflexivity.
  - rewrite app_nil_r. reflexivity.
Qed.

Lemma group_of_In (links : list LinkDefinition) (l : LinkDefinition) (k : string) :
  In l (group_of links k) <-> In l links /\ group_key l = k.
Proof. unfold group_of. rewrite filter_In. str_cases; intuition congruence. Qed.

(** ** Sorting a group *)

Section Sorting.
Variable localeCompare : string -> string -> comparison.

Lemma sort_insert_perm (l : LinkDefinition) (s : list LinkDefinition) :
  Permutation (sort_insert localeCompare l s) (l :: s).
Proof.
  induction s as [|a s IH]; simpl; [reflexivity|].
  destruct (localeCompare _ _); try reflexivity;
    (etransitivity; [apply perm_skip, IH | apply perm_swap]).
Qed.

Lemma sort_group_perm (g : list LinkDefinition) : Permutation (sort_group localeCompare g) g.
Proof.
  unfold sort_group. cut (forall acc, Permutation
    (fold_left (fun s l => sort_insert localeCompare l s) g acc) (g ++ acc)).
  { intros H. rewrite (H []), app_nil_r. reflexivity. }
  induction g as [|a g IH]; intros acc; simpl; [reflexivity|].
  rewrite IH, sort_insert_perm. symmetry. apply Permutation_middle.
Qed.
End Sorting.

(** ** Placing a group *)

Section Placement.
Variable localeCompare : string -> string -> comparison.
Variable routerMap : gmap string RouterDefinition.
Variable manual : gmap string (list Pt).

Lemma place_group_other (n j : nat) (g : list LinkDefinition) paths (id : string) :
  ~ In id (map ld_id g) -> place_group routerMap manual n j g paths !! id = paths !! id.
Proof.
  revert j paths. induction g as [|l g IH]; intros j paths Hid; simpl in *; [reflexivity|].
  rewrite IH by tauto.
  destruct (manual !! ld_id l), (routerMap !! ld_from l), (routerMap !! ld_to l);
    rewrite ?lookup_insert_ne by tauto; reflexivity.
Qed.

(** The link at position [i] of a group placed from index [j] gets the
    automatic path of index [j + i]. *)
Lemma place_group_at (n j i : nat) (g : list LinkDefinition) paths (l : LinkDefinition)
    (fr tr : RouterDefinition) :
  NoDup (map ld_id g) -> nth_error g i = Some l -> manual !! ld_id l = None ->
  routerMap !! ld_from l = Some fr -> routerMap !! ld_to l = Some tr ->
  place_group routerMap manual n j g paths !! ld_id l =
    Some (computeAutoPath (pt_of (rd_position fr)) (pt_of (rd_position tr)) n (j + i)).
Proof.
  revert i j paths. induction g as [|a g IH]; intros i j paths Hnd Hi Hm Hf Ht;
    destruct i as [|i]; simpl in *; try discriminate.
  - injection Hi as ->. apply NoDup_cons in Hnd as [Hl _]. rewrite list_elem_of_In in Hl.
    rewrite place_group_other, Hm, Hf, Ht, lookup_insert_eq, Nat.add_0_r by exact Hl. reflexivity.
  - apply NoDup_cons in Hnd as [Ha Hnd]. rewrite list_elem_of_In in Ha.
    rewrite Nat.add_succ_r, <- Nat.add_succ_l. apply (IH i (S j)); auto.
Qed.

Definition place_sorted (paths : gmap string (list Pt)) (e : string * list LinkDefinition) :=
  let '(_, group) := e in
  let sorted := sort_group localeCompare group in
  place_group routerMap manual (List.length sorted) 0 sorted paths.

Lemma fold_place_other gs paths (id : string) :
  Forall (fun e => ~ In id (map ld_id (snd e))) gs -> fold_left place_sorted gs paths !! id = paths !! id.
Proof.
  revert paths. induction gs as [|[k g] gs IH]; intros paths Hall; simpl; [reflexivity|].
  apply Forall_cons in Hall as [Hg Hall]. rewrite IH by exact Hall. apply place_group_other.
  rewrite in_map_iff in *. intros (l & E & Hl). apply Hg. exists l.
  split; [exact E|]. apply (Permutation_in _ (sort_group_perm localeCompare g)), Hl.
Qed.
End Placement.

Lemma manualPaths_other routerMap links (id : string) :
  (forall l, In l links -> ld_id l = id -> manual_path routerMap l = None) ->
  manualPaths routerMap links !! id = None.
Proof.
  unfold manualPaths. cut (forall m0 : gmap string (list Pt), m0 !! id = None ->
    (forall l, In l links -> ld_id l = id -> manual_path routerMap l = None) ->
    fold_left (fun m link => match manual_path routerMap link with
                             | Some p => <[ld_id link := p]> m
                             | None => m
                             end) links m0 !! id = None).
  { intros H Hl. apply H; [apply lookup_empty | exact Hl]. }
  induction links as [|l links IH]; intros m0 Hm0 Hl; simpl; [exact Hm0|].
  apply IH; [|intros; apply Hl; simpl; auto].
  destruct (manual_path routerMap l) eqn:E; [|exact Hm0].
  destruct (String.eqb_spec (ld_id l) id) as [<-|Hne].
  - rewrite (Hl l) in E by (simpl; auto). discriminate.
  - rewrite lookup_insert_ne by exact Hne. exact Hm0.
Qed.

Lemma computeLinkPaths_eq localeCompare (topology : TopologyDefinition) :
  let routerMap := buildRouterMap (td_routers topology) in
  let manual := manualPaths routerMap (td_links topology) in
  computeLinkPaths localeCompare topology =
    union (fold_left (place_sorted localeCompare routerMap manual) (groupLinks (td_links topology)) ∅)
          manual.
Proof. reflexivity. Qed.

Section AutoPaths.
Variable localeCompare : string -> string -> comparison.
Variable topology : TopologyDefinition.
Let links := td_links topology.
Let routerMap := buildRouterMap (td_routers topology).
Hypothesis links_NoDup : NoDup (map ld_id links).

Lemma manualPaths_auto (l : LinkDefinition) :
  In l links -> ld_path l = None -> manualPaths routerMap links !! ld_id l = None.
Proof.
  intros Hin Hp. apply manualPaths_other. intros l' Hl' E.
  rewrite (NoDup_map_eq ld_id links l' l links_NoDup Hl' Hin E).
  unfold manual_path. rewrite Hp. reflexivity.
Qed.

(** No other group holds a link with the id of [l]. *)
Lemma other_groups_disjoint (l : LinkDefinition) pre post g :
  In l links -> groupLinks links = pre ++ (group_key l, g) :: post ->
  Forall (fun e => ~ In (ld_id l) (map ld_id (snd e))) post.
Proof.
  intros Hin Hsplit. pose proof (groupLinks_NoDup links) as Hnd.
  rewrite List.Forall_forall. intros [k' g'] He Hid. simpl in Hid.
  assert (Hlk : group_lookup k' (groupLinks links) = Some g').
  { apply In_group_lookup; [exact Hnd|]. rewrite Hsplit. apply in_or_app. right; right; exact He. }
  rewrite groupLinks_lookup in Hlk.
  assert (Hg' : g' = group_of links k') by (destruct (group_of links k'); congruence).
  apply in_map_iff in Hid as (l' & E & Hl'). rewrite Hg', group_of_In in Hl'.
  destruct Hl' as [Hl' Hk']. rewrite (NoDup_map_eq ld_id links l' l links_NoDup Hl' Hin E) in Hk'.
  subst k'. rewrite Hsplit, map_app in Hnd. simpl in Hnd.
  apply NoDup_app in Hnd as (_ & _ & Hnd). apply NoDup_cons in Hnd as [Hk _].
  apply Hk. rewrite list_elem_of_In. apply (in_map fst) in He. exact He.
Qed.

(** The path of a link without waypoints whose routers exist is the
    automatic path of its position in its sorted group. *)
Lemma link_path_auto (l : LinkDefinition) (fr tr : RouterDefinition) :
  In l links -> ld_path l = None ->
  routerMap !! ld_from l = Some fr -> routerMap !! ld_to l = Some tr ->
  exists i, nth_error (sort_group localeCompare (group_of links (group_key l))) i = Some l /\
    computeLinkPaths localeCompare topology !! ld_id l =
      Some (computeAutoPath (pt_of (rd_position fr)) (pt_of (rd_position tr))
              (List.length (group_of links (group_key l))) i).
Proof.
  intros Hin Hp Hf Ht. remember (group_of links (group_key l)) as g eqn:Eg.
  assert (Hg : In l g) by (subst g; apply group_of_In; auto).
  assert (Hlk : group_lookup (group_key l) (groupLinks links) = Some g).
  { rewrite groupLinks_lookup, <- Eg. destruct g; [destruct Hg | reflexivity]. }
  apply group_lookup_In in Hlk; [|apply groupLinks_NoDup].
  apply in_split in Hlk as (pre & post & Hsplit).
  pose proof (sort_group_perm localeCompare g) as Hperm.
  assert (Hs : In l (sort_group localeCompare g)) by (apply (Permutation_in _ (Permutation_sym Hperm)), Hg).
  apply In_nth_error in Hs as [i Hi]. exists i. split; [exact Hi|].
  rewrite computeLinkPaths_eq. apply lookup_union_Some_l. fold links routerMap.
  rewrite Hsplit, fold_left_app. cbn [fold_left].
  rewrite fold_place_other by (apply (other_groups_disjoint l pre post g Hin Hsplit)).
  unfold place_sorted. rewrite (Permutation_length Hperm).
  apply (place_group_at localeCompare routerMap _ _ 0 i); auto using manualPaths_auto.
  apply NoDup_ListNoDup, (Permutation_NoDup (Permutation_map ld_id (Permutation_sym Hperm))).
  apply NoDup_ListNoDup. subst g. apply NoDup_map_filter, links_NoDup.
Qed.
End AutoPaths.

(** ** Groups of two *)

Lemma group_of_pair (l1 l2 : LinkDefinition) :
  group_key l1 = group_key l2 -> group_of [l1; l2] (group_key l1) = [l1; l2].
Proof. intros E. unfold group_of. simpl. rewrite <- E, String.eqb_refl. reflexivity. Qed.

(** Two links of one group, in id order: the first gets index 0 and the
    second index 1 of a group of two. *)
Lemma link_paths_pair localeCompare (topology : TopologyDefinition) (l1 l2 : LinkDefinition)
    (f1 t1 f2 t2 : RouterDefinition) :
  let routerMap := buildRouterMap (td_routers topology) in
  td_links topology = [l1; l2] -> ld_id l1 <> ld_id l2 -> group_key l1 = group_key l2 ->
  ld_path l1 = None -> ld_path l2 = None -> localeCompare (ld_id l2) (ld_id l1) = Gt ->
  routerMap !! ld_from l1 = Some f1 -> routerMap !! ld_to l1 = Some t1 ->
  routerMap !! ld_from l2 = Some f2 -> routerMap !! ld_to l2 = Some t2 ->
  computeLinkPaths localeCompare topology !! ld_id l1 =
    Some (computeAutoPath (pt_of (rd_position f1)) (pt_of (rd_position t1)) 2 0) /\
  computeLinkPaths localeCompare topology !! ld_id l2 =
    Some (computeAutoPath (pt_of (rd_position f2)) (pt_of (rd_position t2)) 2 1).
Proof.
  intros routerMap Hl Hid Hk Hp1 Hp2 Hlc Hf1 Ht1 Hf2 Ht2.
  assert (Hnd : NoDup (map ld_id (td_links topology))).
  { rewrite Hl. simpl. constructor; [|constructor; [set_solver | constructor]].
    rewrite list_elem_of_In. simpl. intuition. }
  assert (Hs : sort_group localeCompare [l1; l2] = [l1; l2]).
  { unfold sort_group. simpl. rewrite Hlc. reflexivity. }
  destruct (link_path_auto localeCompare topology Hnd l1 f1 t1) as (i1 & Hi1 & E1);
    [rewrite Hl; simpl; auto | assumption .. |].
  destruct (link_path_auto localeCompare topology Hnd l2 f2 t2) as (i2 & Hi2 & E2);
    [rewrite Hl; simpl; auto | assumption .. |].
  rewrite <- Hk in Hi2, E2. rewrite Hl, group_of_pair in Hi1, Hi2, E1, E2 by exact Hk. rewrite Hs in Hi1, Hi2.
  assert (i1 = 0%nat) as -> by (destruct i1 as [|[|[|i1]]]; simpl in Hi1; congruence).
  assert (i2 = 1%nat) as -> by (destruct i2 as [|[|[|i2]]]; simpl in Hi2; congruence).
  split; assumption.
Qed.

(** ** Example maps *)

Definition ex_router (id : string) (p : Position) : RouterDefinition :=
  {| rd_id := id; rd_label := id; rd_position := p; rd_interfaces := [] |}.

Definition ex_link (id from to : string) : LinkDefinition :=
  {| ld_id := id; ld_from := from; ld_to := to; ld_ifaceFrom := "eth0"; ld_ifaceTo := "eth0";
     ld_label := None; ld_path := None |}.

Definition ex_map (routers : list RouterDefinition) (links : list LinkDefinition) : TopologyDefinition :=
  {| td_title := None; td_backgroundImage := "map.png"; td_mapSize := None;
     td_pollIntervalMs := 5000%Q; td_routers := routers; td_links := links |}.

Definition ex_p : Position := {| px := 0%Q; py := 0%Q |}.
Definition ex_q : Position := {| px := 300%Q; py := 0%Q |}.

Lemma ex_p_q_apart : 0 < seg_len (pt_of ex_p) (pt_of ex_q).
Proof.
  apply seg_len_pos. unfold pt_of. cbn [x px ex_p ex_q]. intros E.
  apply eqR_Qeq in E. vm_compute in E. discriminate.
Qed.

Ltac pair_paths pair_lemma :=
  destruct pair_lemma as [E1 E2];
  [reflexivity | discriminate | reflexivity | reflexivity | reflexivity | assumption
  | reflexivity .. | cbn [ld_id ex_link ex_router rd_position] in E1, E2].

(** Two links declared between the same two routers, with ids
    ["a1"] and ["b2"], fan out with offsets of equal magnitude and
    opposite sign, ["a1"] first: both are three-point curves whose
    control points lie half a spacing from the midpoint, symmetric about
    it. *)
Theorem fanout_parallel_links localeCompare (p q : Position) :
  0 < seg_len (pt_of p) (pt_of q) -> localeCompare "b2" "a1" = Gt ->
  let P := pt_of p in let Q := pt_of q in
  let s := spacing_of (seg_len P Q) in
  let paths := computeLinkPaths localeCompare
                 (ex_map [ex_router "r1" p; ex_router "r2" q]
                         [ex_link "a1" "r1" "r2"; ex_link "b2" "r1" "r2"]) in
  paths !! "a1" = Some [P; control_of P Q (- (s / 2)); Q] /\
  paths !! "b2" = Some [P; control_of P Q (s / 2); Q] /\
  seg_len (seg_mid P Q) (control_of P Q (- (s / 2))) = s / 2 /\
  seg_len (seg_mid P Q) (control_of P Q (s / 2)) = s / 2 /\
  x (control_of P Q (- (s / 2))) + x (control_of P Q (s / 2)) = 2 * x (seg_mid P Q) /\
  y (control_of P Q (- (s / 2))) + y (control_of P Q (s / 2)) = 2 * y (seg_mid P Q).
Proof.
  intros Hpos Hlc. cbv zeta.
  pair_paths (link_paths_pair localeCompare (ex_map [ex_router "r1" p; ex_router "r2" q]
                                   [ex_link "a1" "r1" "r2"; ex_link "b2" "r1" "r2"])
    (ex_link "a1" "r1" "r2") (ex_link "b2" "r1" "r2")
    (ex_router "r1" p) (ex_router "r2" q) (ex_router "r1" p) (ex_router "r2" q)).
  destruct (computeAutoPath_pair _ _ Hpos) as [A0 A1]. rewrite A0 in E1. rewrite A1 in E2.
  pose proof (spacing_bounds (seg_len (pt_of p) (pt_of q))).
  destruct (control_of_geometry _ _ (- (spacing_of (seg_len (pt_of p) (pt_of q)) / 2)) Hpos) as [D0 _].
  destruct (control_of_geometry _ _ (spacing_of (seg_len (pt_of p) (pt_of q)) / 2) Hpos) as [D1 _].
  rewrite Rabs_Ropp, Rabs_right in D0 by lra. rewrite Rabs_right in D1 by lra.
  repeat split; try assumption; apply control_of_opposite.
Qed.

(** C28: two links between the same routers declared in opposite
    directions are drawn on one and the same curve: the second link's
    offset has the opposite sign, and so does its normal, so both paths
    pass through the same control point, one the reverse of the other. *)
Theorem fanout_opposite_links_coincide localeCompare (p q : Position) :
  0 < seg_len (pt_of p) (pt_of q) -> localeCompare "b2" "a1" = Gt ->
  let P := pt_of p in let Q := pt_of q in
  let c := control_of P Q (- (spacing_of (seg_len P Q) / 2)) in
  let paths := computeLinkPaths localeCompare
                 (ex_map [ex_router "r1" p; ex_router "r2" q]
                         [ex_link "a1" "r1" "r2"; ex_link "b2" "r2" "r1"]) in
  paths !! "a1" = Some [P; c; Q] /\ paths !! "b2" = Some [Q; c; P] /\
  seg_len (seg_mid P Q) c = spacing_of (seg_len P Q) / 2.
Proof.
  intros Hpos Hlc. cbv zeta.
  pair_paths (link_paths_pair localeCompare (ex_map [ex_router "r1" p; ex_router "r2" q]
                                   [ex_link "a1" "r1" "r2"; ex_link "b2" "r2" "r1"])
    (ex_link "a1" "r1" "r2") (ex_link "b2" "r2" "r1")
    (ex_router "r1" p) (ex_router "r2" q) (ex_router "r2" q) (ex_router "r1" p)).
  pose proof Hpos as Hpos'. rewrite <- seg_len_sym in Hpos'.
  destruct (computeAutoPath_pair _ _ Hpos) as [A0 _]. destruct (computeAutoPath_pair _ _ Hpos') as [_ A1].
  rewrite A0 in E1. rewrite A1, seg_len_sym, control_of_swap in E2.
  pose proof (spacing_bounds (seg_len (pt_of p) (pt_of q))).
  destruct (control_of_geometry _ _ (- (spacing_of (seg_len (pt_of p) (pt_of q)) / 2)) Hpos) as [D0 _].
  rewrite Rabs_Ropp, Rabs_right in D0 by lra. auto.
Qed.

(** The group key joins the two router ids with ["::"], so a link
    from ["a::b"] to ["c"] and a link from ["a"] to ["b::c"] fall into one
    group: the first, the only link between its two routers, is drawn as
    a curve half a spacing off its straight line. *)
Theorem group_key_collision localeCompare (p q p' q' : Position) :
  0 < seg_len (pt_of p) (pt_of q) -> localeCompare "l2" "l1" = Gt ->
  let P := pt_of p in let Q := pt_of q in
  let c := control_of P Q (- (spacing_of (seg_len P Q) / 2)) in
  computeLinkPaths localeCompare
    (ex_map [ex_router "a::b" p; ex_router "c" q; ex_router "a" p'; ex_router "b::c" q']
            [ex_link "l1" "a::b" "c"; ex_link "l2" "a" "b::c"]) !! "l1" = Some [P; c; Q] /\
  seg_len (seg_mid P Q) c = spacing_of (seg_len P Q) / 2.
Proof.
  intros Hpos Hlc. cbv zeta.
  pair_paths (link_paths_pair localeCompare
    (ex_map [ex_router "a::b" p; ex_router "c" q; ex_router "a" p'; ex_router "b::c" q']
            [ex_link "l1" "a::b" "c"; ex_link "l2" "a" "b::c"])
    (ex_link "l1" "a::b" "c") (ex_link "l2" "a" "b::c")
    (ex_router "a::b" p) (ex_router "c" q) (ex_router "a" p') (ex_router "b::c" q')).
  destruct (computeAutoPath_pair _ _ Hpos) as [A0 _]. rewrite A0 in E1.
  pose proof (spacing_bounds (seg_len (pt_of p) (pt_of q))).
  destruct (control_of_geometry _ _ (- (spacing_of (seg_len (pt_of p) (pt_of q)) / 2)) Hpos) as [D0 _].
  rewrite Rabs_Ropp, Rabs_right in D0 by lra. auto.
Qed.

Lemma fanout_parallel_links_witness :
  0 < seg_len (pt_of ex_p) (pt_of ex_q) /\ String.compare "b2" "a1" = Gt /\
  computeLinkPaths String.compare
    (ex_map [ex_router "r1" ex_p; ex_router "r2" ex_q]
            [ex_link "a1" "r1" "r2"; ex_link "b2" "r1" "r2"]) !! "b2" =
    Some [pt_of ex_p; control_of (pt_of ex_p) (pt_of ex_q)
                        (spacing_of (seg_len (pt_of ex_p) (pt_of ex_q)) / 2); pt_of ex_q].
Proof.
  split; [exact ex_p_q_apart|]. split; [reflexivity|].
  apply (fanout_parallel_links String.compare ex_p ex_q ex_p_q_apart eq_refl).
Defined.

Lemma fanout_opposite_links_coincide_witness :
  0 < seg_len (pt_of ex_p) (pt_of ex_q) /\ String.compare "b2" "a1" = Gt /\
  computeLinkPaths String.compare
    (ex_map [ex_router "r1" ex_p; ex_router "r2" ex_q]
            [ex_link "a1" "r1" "r2"; ex_link "b2" "r2" "r1"]) !! "b2" =
    Some [pt_of ex_q; control_of (pt_of ex_p) (pt_of ex_q)
                        (- (spacing_of (seg_len (pt_of ex_p) (pt_of ex_q)) / 2)); pt_of ex_p].
Proof.
  split; [exact ex_p_q_apart|]. split; [reflexivity|].
  apply (fanout_opposite_links_coincide String.compare ex_p ex_q ex_p_q_apart eq_refl).
Defined.

Lemma group_key_collision_witness :
  0 < seg_len (pt_of ex_p) (pt_of ex_q) /\ String.compare "l2" "l1" = Gt /\
  computeLinkPaths String.compare
    (ex_map [ex_router "a::b" ex_p; ex_router "c" ex_q; ex_router "a" ex_q; ex_router "b::c" ex_p]
            [ex_link "l1" "a::b" "c"; ex_link "l2" "a" "b::c"]) !! "l1" =
    Some [pt_of ex_p; control_of (pt_of ex_p) (pt_of ex_q)
                        (- (spacing_of (seg_len (pt_of ex_p) (pt_of ex_q)) / 2)); pt_of ex_q].
Proof.
  split; [exact ex_p_q_apart|]. split; [reflexivity|].
  apply (group_key_collision String.compare ex_p ex_q ex_q ex_p ex_p_q_apart eq_refl).
Defined.
