(* ===== verification/Canvas.v ===== *)
(** * The 2D canvas context

    Both renderers draw through a [CanvasRenderingContext2D]: the offline
    renderer [src/src/map-renderer.ts] through the [canvas] package, the
    frontend [src/src/frontend/main.ts] through the browser's.  The
    context is a library the code only calls; it is modelled here, after
    the HTML canvas specification, as far as the renderers use it: a
    drawing state (styles, line width, transform, ...), the stack that
    [save()] and [restore()] maintain, the current path, and the marks
    painted so far.  A drawing function of the code is a list of
    commands, and [run] executes it.

    The theorem: a command list in which every change of the drawing
    state happens between a [save()] and its [restore()] ([balanced])
    leaves the drawing state and the stack as it found them. *)

From Stdlib Require Import Reals Lra Lia List String.
From S2P Require Import Prelude.
Import ListNotations.

Local Open Scope R_scope.

(** [fillStyle] and [strokeStyle] take a colour or a gradient object. *)
Inductive Paint :=
| Color (c : string)
| LinearGradient (x0 y0 x1 y1 : R) (stops : list (R * string)).

(** The attributes of the drawing state the renderers assign. *)
Inductive Attr :=
| FillStyle (p : Paint)
| StrokeStyle (p : Paint)
| LineWidth (w : R)
| LineCap (s : string)
| LineJoin (s : string)
| Font (s : string)
| ShadowColor (s : string)
| ShadowBlur (b : R)
| LineDash (d : list R)
| Transform (a b c d e f : R).

Inductive Cmd :=
| Save
| Restore
| SetAttr (a : Attr)
| BeginPath
| MoveTo (x y : R)
| LineTo (x y : R)
| QuadraticCurveTo (cpx cpy x y : R)
| Arc (x y r startAngle endAngle : R)
| ClosePath
| Fill
| Stroke
| FillRect (x y w h : R)
| StrokeRect (x y w h : R)
| ClearRect (x y w h : R)
| FillText (text : string) (x y : R)
| DrawImage (src : string) (x y w h : R).

Record DrawState := {
  ds_fillStyle : Paint;
  ds_strokeStyle : Paint;
  ds_lineWidth : R;
  ds_lineCap : string;
  ds_lineJoin : string;
  ds_font : string;
  ds_shadowColor : string;
  ds_shadowBlur : R;
  ds_lineDash : list R;
  ds_transform : R * R * R * R * R * R
}.

(** The initial drawing state of a fresh context. *)
Definition initial_state : DrawState :=
  {| ds_fillStyle := Color "#000000"; ds_strokeStyle := Color "#000000"; ds_lineWidth := 1;
     ds_lineCap := "butt"; ds_lineJoin := "miter"; ds_font := "10px sans-serif";
     ds_shadowColor := "rgba(0, 0, 0, 0)"; ds_shadowBlur := 0; ds_lineDash := [];
     ds_transform := (1, 0, 0, 1, 0, 0) |}.

Definition apply_attr (a : Attr) (s : DrawState) : DrawState :=
  let '(Build_DrawState fs ss lw lc lj f sc sb ld tr) := s in
  match a with
  | FillStyle p => Build_DrawState p ss lw lc lj f sc sb ld tr
  | StrokeStyle p => Build_DrawState fs p lw lc lj f sc sb ld tr
  | LineWidth w => Build_DrawState fs ss w lc lj f sc sb ld tr
  | LineCap c => Build_DrawState fs ss lw c lj f sc sb ld tr
  | LineJoin j => Build_DrawState fs ss lw lc j f sc sb ld tr
  | Font g => Build_DrawState fs ss lw lc lj g sc sb ld tr
  | ShadowColor c => Build_DrawState fs ss lw lc lj f c sb ld tr
  | ShadowBlur b => Build_DrawState fs ss lw lc lj f sc b ld tr
  | LineDash d => Build_DrawState fs ss lw lc lj f sc sb d tr
  | Transform a b c d e g => Build_DrawState fs ss lw lc lj f sc sb ld (a, b, c, d, e, g)
  end.

(** The sub-path commands of the current path. *)
Inductive Seg :=
| SMove (x y : R)
| SLine (x y : R)
| SQuad (cpx cpy x y : R)
| SArc (x y r startAngle endAngle : R)
| SClose.

(** What has been painted, with the drawing state it was painted in. *)
Inductive Mark :=
| MStroke (s : DrawState) (path : list Seg)
| MFill (s : DrawState) (path : list Seg)
| MFillRect (s : DrawState) (x y w h : R)
| MStrokeRect (s : DrawState) (x y w h : R)
| MClearRect (s : DrawState) (x y w h : R)
| MText (s : DrawState) (text : string) (x y : R)
| MImage (s : DrawState) (src : string) (x y w h : R).

Record Canvas := {
  cv_state : DrawState;
  cv_stack : list DrawState;
  cv_path : list Seg;
  cv_marks : list Mark
}.

Definition fresh_canvas : Canvas :=
  {| cv_state := initial_state; cv_stack := []; cv_path := []; cv_marks := [] |}.

Definition with_state (s : DrawState) (stack : list DrawState) (c : Canvas) : Canvas :=
  {| cv_state := s; cv_stack := stack; cv_path := cv_path c; cv_marks := cv_marks c |}.

Definition add_seg (g : Seg) (c : Canvas) : Canvas :=
  {| cv_state := cv_state c; cv_stack := cv_stack c; cv_path := cv_path c ++ [g];
     cv_marks := cv_marks c |}.

Definition add_mark (m : Mark) (c : Canvas) : Canvas :=
  {| cv_state := cv_state c; cv_stack := cv_stack c; cv_path := cv_path c;
     cv_marks := cv_marks c ++ [m] |}.

(** One command.  [restore()] with an empty stack does nothing. *)
Definition exec (c : Canvas) (cmd : Cmd) : Canvas :=
  let s := cv_state c in
  match cmd with
  | Save => with_state s (s :: cv_stack c) c
  | Restore =>
      match cv_stack c with
      | [] => c
      | s' :: rest => with_state s' rest c
      end
  | SetAttr a => with_state (apply_attr a s) (cv_stack c) c
  | BeginPath =>
      {| cv_state := s; cv_stack := cv_stack c; cv_path := []; cv_marks := cv_marks c |}
  | MoveTo x y => add_seg (SMove x y) c
  | LineTo x y => add_seg (SLine x y) c
  | QuadraticCurveTo cpx cpy x y => add_seg (SQuad cpx cpy x y) c
  | Arc x y r a0 a1 => add_seg (SArc x y r a0 a1) c
  | ClosePath => add_seg SClose c
  | Fill => add_mark (MFill s (cv_path c)) c
  | Stroke => add_mark (MStroke s (cv_path c)) c
  | FillRect x y w h => add_mark (MFillRect s x y w h) c
  | StrokeRect x y w h => add_mark (MStrokeRect s x y w h) c
  | ClearRect x y w h => add_mark (MClearRect s x y w h) c
  | FillText t x y => add_mark (MText s t x y) c
  | DrawImage src x y w h => add_mark (MImage s src x y w h) c
  end.

Definition run (cmds : list Cmd) (c : Canvas) : Canvas := fold_left exec cmds c.

(** [balanced_from d cmds]: [cmds] run at save depth [d] returns to depth
    [0], never restores below it, and changes the drawing state only at a
    positive depth. *)
Fixpoint balanced_from (d : nat) (cmds : list Cmd) : bool :=
  match cmds with
  | [] => Nat.eqb d 0
  | Save :: rest => balanced_from (S d) rest
  | Restore :: rest => match d with O => false | S d' => balanced_from d' rest end
  | SetAttr _ :: rest => match d with O => false | S _ => balanced_from d rest end
  | _ :: rest => balanced_from d rest
  end.

Definition balanced (cmds : list Cmd) : bool := balanced_from 0 cmds.

(** ** Lemmas *)

Lemma run_app (a b : list Cmd) (c : Canvas) : run (a ++ b) c = run b (run a c).
Proof. unfold run. apply fold_left_app. Qed.

Lemma run_cons (cmd : Cmd) (rest : list Cmd) (c : Canvas) : run (cmd :: rest) c = run rest (exec c cmd).
Proof. reflexivity. Qed.

(** The state a depth-[d] command list returns to: the one saved [d]
    levels down. *)
Definition saved_at (d : nat) (c : Canvas) : DrawState :=
  match d with O => cv_state c | S d' => nth d' (cv_stack c) (cv_state c) end.

Lemma balanced_from_run (cmds : list Cmd) : forall (d : nat) (c : Canvas),
  balanced_from d cmds = true -> (d <= List.length (cv_stack c))%nat ->
  cv_state (run cmds c) = saved_at d c /\ cv_stack (run cmds c) = skipn d (cv_stack c).
Proof.
  induction cmds as [|cmd rest IH]; intros d c Hb Hd.
  - simpl in Hb. apply Nat.eqb_eq in Hb. subst d. auto.
  - rewrite run_cons. destruct cmd; simpl in Hb;
      try (match goal with |- context [exec c ?k] =>
             destruct (IH d (exec c k) Hb Hd) as [E1 E2]; rewrite E1, E2; destruct d; split; reflexivity
           end).
    + destruct (IH (S d) (exec c Save) Hb) as [E1 E2]; [simpl; lia|]. rewrite E1, E2.
      destruct d; split; reflexivity.
    + destruct d as [|d]; [discriminate|].
      destruct (cv_stack c) as [|s' ss] eqn:Es; [simpl in Hd; lia|].
      assert (Ex : exec c Restore = with_state s' ss c) by (unfold exec; rewrite Es; reflexivity).
      rewrite Ex. destruct (IH d (with_state s' ss c) Hb) as [E1 E2]; [simpl in *; lia|]. rewrite E1, E2.
      unfold saved_at. simpl. rewrite Es.
      destruct d; split; try reflexivity. simpl. apply nth_indep. simpl in Hd. lia.
    + destruct d as [|d]; [discriminate|].
      destruct (IH (S d) (exec c (SetAttr a)) Hb Hd) as [E1 E2]. rewrite E1, E2.
      split; [apply nth_indep; simpl in Hd; lia | reflexivity].
Qed.

(** A balanced command list restores the drawing state and the stack. *)
Lemma balanced_run (cmds : list Cmd) (c : Canvas) :
  balanced cmds = true -> cv_state (run cmds c) = cv_state c /\ cv_stack (run cmds c) = cv_stack c.
Proof. intros Hb. apply (balanced_from_run cmds 0 c Hb). lia. Qed.

Lemma balanced_from_app (a b : list Cmd) (d : nat) :
  balanced_from d a = true -> balanced b = true -> balanced_from d (a ++ b) = true.
Proof.
  revert d. induction a as [|cmd rest IH]; intros d Ha Hb; simpl in *.
  - apply Nat.eqb_eq in Ha. subst d. exact Hb.
  - destruct cmd; try (apply IH; assumption); destruct d; try discriminate; apply IH; assumption.
Qed.

Lemma balanced_app (a b : list Cmd) : balanced a = true -> balanced b = true -> balanced (a ++ b) = true.
Proof. apply balanced_from_app. Qed.

Lemma balanced_concat (l : list (list Cmd)) :
  Forall (fun t => balanced t = true) l -> balanced (List.concat l) = true.
Proof.
  induction 1 as [|t l Ht _ IH]; [reflexivity|]. simpl. apply balanced_app; assumption.
Qed.

(** Commands other than [save()] and [restore()]. *)
Definition flat (cmd : Cmd) : bool :=
  match cmd with Save | Restore => false | _ => true end.

(** Above depth [0], commands other than [save()] and [restore()] do not
    change the balance. *)
Lemma balanced_from_flat (l rest : list Cmd) (d : nat) :
  forallb flat l = true -> balanced_from (S d) (l ++ rest) = balanced_from (S d) rest.
Proof.
  induction l as [|cmd l IH]; intros Hl; [reflexivity|].
  simpl in Hl. apply andb_prop in Hl as [Hc Hl].
  destruct cmd; try discriminate; simpl; apply IH; exact Hl.
Qed.

(** [save()], a flat block, [restore()]. *)
Lemma balanced_bracket (l : list Cmd) :
  forallb flat l = true -> balanced (Save :: l ++ [Restore]) = true.
Proof. intros Hl. unfold balanced. simpl. rewrite balanced_from_flat by exact Hl. reflexivity. Qed.

(** A balanced block keeps the depth it starts at. *)
Lemma balanced_from_block (l rest : list Cmd) : forall (k d : nat),
  balanced_from k l = true -> balanced_from (k + d) (l ++ rest) = balanced_from d rest.
Proof.
  induction l as [|cmd l IH]; intros k d Hl; simpl in *.
  - apply Nat.eqb_eq in Hl. subst k. reflexivity.
  - destruct cmd; try (apply IH; exact Hl).
    + apply (IH (S k)). exact Hl.
    + destruct k as [|k]; [discriminate|]. apply (IH k). exact Hl.
    + destruct k as [|k]; [discriminate|]. apply (IH (S k)). exact Hl.
Qed.

Lemma balanced_from_flat_map {A} (f : A -> list Cmd) (l : list A) (rest : list Cmd) (d : nat) :
  (forall a, balanced (f a) = true) ->
  balanced_from d (List.flat_map f l ++ rest) = balanced_from d rest.
Proof.
  intros Hf. induction l as [|a l IH]; [reflexivity|]. simpl.
  rewrite <- app_assoc, (balanced_from_block (f a) _ 0 d (Hf a)). exact IH.
Qed.
