(* ===== verification/Scale.v ===== *)
(** * The colour scale and the link capacities

    The parts of the two renderers that work on numbers of the metrics
    and of the topology, with no geometry: [UTILIZATION_BUCKETS] and
    [utilToColor], [interfaceUtilization] (identical in
    [src/src/map-renderer.ts] and [src/src/frontend/main.ts]), and the
    link capacities of the offline renderer, [getInterfaceCapacity] and
    [computeLinkCapacities], with the range [capacityRange] the stroke
    widths are scaled on.

    The theorems: the colour of a utilisation is the colour of the bucket
    that contains it, and the colour scale is monotone. *)

From Stdlib Require Import QArith Lqa Lia List String.
From stdpp Require Import base gmap strings.
From S2P Require Import Prelude Topology Fanout.
Import ListNotations.

Local Open Scope Q_scope.

(** ** The colour scale *)

Record Bucket := { b_min : Q; b_max : Q; b_color : string; b_label : string }.

Definition UTILIZATION_BUCKETS : list Bucket := [
  {| b_min := 0; b_max := 1 # 100; b_color := "#0ea5e9"; b_label := "0-1%" |};
  {| b_min := 1 # 100; b_max := 1 # 5; b_color := "#22c55e"; b_label := "1-20%" |};
  {| b_min := 1 # 5; b_max := 2 # 5; b_color := "#84cc16"; b_label := "20-40%" |};
  {| b_min := 2 # 5; b_max := 3 # 5; b_color := "#facc15"; b_label := "40-60%" |};
  {| b_min := 3 # 5; b_max := 4 # 5; b_color := "#f97316"; b_label := "60-80%" |};
  {| b_min := 4 # 5; b_max := 9 # 10; b_color := "#ea580c"; b_label := "80-90%" |};
  {| b_min := 9 # 10; b_max := 99 # 100; b_color := "#ef4444"; b_label := "90-99%" |};
  {| b_min := 99 # 100; b_max := 101 # 100; b_color := "#991b1b"; b_label := "99-100%" |}
].

(** ** Colours and widths *)

(** [interfaceUtilization]. *)
Definition interfaceUtilization (iface : option InterfaceMetrics) : option Q :=
  match iface with
  | None => None
  | Some i => Some (jsmax (im_inUtilization i) (im_outUtilization i))
  end.

(** [utilization >= range.min && utilization < range.max]. *)
Definition in_bucket (u : Q) (b : Bucket) : bool := Qle_bool (b_min b) u && Qltb u (b_max b).

(** [UTILIZATION_BUCKETS[UTILIZATION_BUCKETS.length - 1]]. *)
Definition last_bucket : Bucket :=
  nth (List.length UTILIZATION_BUCKETS - 1) UTILIZATION_BUCKETS
    {| b_min := 0; b_max := 0; b_color := ""; b_label := "" |}.

(** [utilToColor]: [null] is grey; a utilisation in no bucket takes the
    last one.  ([NaN] has no counterpart among the rationals.) *)
Definition utilToColor (utilization : option Q) : string :=
  match utilization with
  | None => "#5a646d"
  | Some u =>
      b_color (match List.find (in_bucket u) UTILIZATION_BUCKETS with
               | Some b => b
               | None => last_bucket
               end)
  end.

(** [Math.min(a, b)]. *)
Definition jsmin (a b : Q) : Q := if Qle_bool a b then a else b.

(** ** Link capacities *)

(** [getInterfaceCapacity]. *)
Definition getInterfaceCapacity (router : option RouterDefinition) (ifaceName : string) : option Q :=
  match router with
  | None => None
  | Some r =>
      match List.find (fun i => String.eqb (idef_name i) ifaceName) (rd_interfaces r) with
      | Some i => idef_maxBandwidth i
      | None => None
      end
  end.

(** [.filter(value => typeof value === "number" && value > 0)]. *)
Definition positive_candidates (values : list (option Q)) : list Q :=
  List.flat_map (fun v => match v with Some c => if Qltb 0 c then [c] else [] | None => [] end) values.

(** [candidates.length ? Math.min(...candidates) : null]. *)
Definition min_of (candidates : list Q) : option Q :=
  match candidates with
  | [] => None
  | c :: cs => Some (fold_left jsmin cs c)
  end.

Definition link_capacity (routerMap : gmap string RouterDefinition) (link : LinkDefinition) : option Q :=
  min_of (positive_candidates
            [getInterfaceCapacity (routerMap !! ld_from link) (ld_ifaceFrom link);
             getInterfaceCapacity (routerMap !! ld_to link) (ld_ifaceTo link)]).

(** [computeLinkCapacities]: the capacities found, in link order, and the
    capacity of every link id. *)
Definition computeLinkCapacities (routers : list RouterDefinition) (links : list LinkDefinition)
    : list Q * gmap string (option Q) :=
  let routerMap := buildRouterMap routers in
  fold_left (fun '(capacities, m) link =>
               let capacity := link_capacity routerMap link in
               (match capacity with Some c => capacities ++ [c] | None => capacities end,
                <[ld_id link := capacity]> m))
            links ([], ∅).

(** [capacities.length ? { min: Math.min(...), max: Math.max(...) } : null]. *)
Definition capacity_range (capacities : list Q) : option (Q * Q) :=
  match capacities with
  | [] => None
  | c :: cs => Some (fold_left jsmin cs c, fold_left jsmax cs c)
  end.


(** ** Lemmas and properties of the colour scale *)

(** The position of a colour in the legend. *)
Definition legend_position (color : string) : Z := index_of color (map b_color UTILIZATION_BUCKETS).

(** The bucket boundaries between the first and the last bucket. *)
Definition boundaries : list Q := [1 # 100; 1 # 5; 2 # 5; 3 # 5; 4 # 5; 9 # 10; 99 # 100].

(** The number of boundaries at or below [u]. *)
Definition rank (u : Q) : nat := List.length (List.filter (fun t => Qle_bool t u) boundaries).

(** Where a non-negative utilisation lies among the boundaries. *)
Lemma boundary_cases (u : Q) :
  0 <= u ->
  u < 1 # 100 \/ (1 # 100 <= u < 1 # 5) \/ (1 # 5 <= u < 2 # 5) \/ (2 # 5 <= u < 3 # 5) \/
  (3 # 5 <= u < 4 # 5) \/ (4 # 5 <= u < 9 # 10) \/ (9 # 10 <= u < 99 # 100) \/ 99 # 100 <= u.
Proof.
  intros Hu.
  destruct (Qlt_le_dec u (1 # 100)); [tauto|]. destruct (Qlt_le_dec u (1 # 5)); [tauto|].
  destruct (Qlt_le_dec u (2 # 5)); [tauto|]. destruct (Qlt_le_dec u (3 # 5)); [tauto|].
  destruct (Qlt_le_dec u (4 # 5)); [tauto|]. destruct (Qlt_le_dec u (9 # 10)); [tauto|].
  destruct (Qlt_le_dec u (99 # 100)); tauto.
Qed.

(** A non-negative utilisation has the colour of bucket [rank u]. *)
Lemma utilToColor_rank (u : Q) :
  0 <= u -> utilToColor (Some u) = b_color (nth (rank u) UTILIZATION_BUCKETS last_bucket).
Proof.
  intros Hu. unfold utilToColor, rank, boundaries, in_bucket.
  cbn [List.find List.filter UTILIZATION_BUCKETS b_min b_max].
  destruct (boundary_cases u Hu) as [H|[H|[H|[H|[H|[H|[H|H]]]]]]]; q_eval; try reflexivity.
  q_cases; reflexivity.
Qed.

Lemma filter_length_mono {A} (f g : A -> bool) (l : list A) :
  (forall a, f a = true -> g a = true) ->
  (List.length (List.filter f l) <= List.length (List.filter g l))%nat.
Proof.
  intros Hfg. induction l as [|a l IH]; simpl; [lia|].
  destruct (f a) eqn:E; [rewrite (Hfg a E); simpl; lia|]. destruct (g a); simpl; lia.
Qed.

Lemma rank_mono (u v : Q) : u <= v -> (rank u <= rank v)%nat.
Proof.
  intros Huv. apply filter_length_mono. intros t Ht.
  apply Qle_bool_iff in Ht. apply Qle_bool_iff. lra.
Qed.

Lemma legend_position_nth (k : nat) :
  (k <= 7)%nat -> legend_position (b_color (nth k UTILIZATION_BUCKETS last_bucket)) = Z.of_nat k.
Proof.
  intros Hk. do 8 (destruct k as [|k]; [reflexivity|]). lia.
Qed.

Lemma rank_le (u : Q) : (rank u <= 7)%nat.
Proof.
  unfold rank. change 7%nat with (List.length boundaries). apply List.filter_length_le.
Qed.

(** C31: the colour scale: a utilisation in a bucket [[min, max)] gets
    that bucket's colour, a utilisation of 1.01 or more the last (dark
    red) one, and for non-negative utilisations a higher utilisation
    never gets a colour earlier in the legend. *)
Theorem utilToColor_scale (u v : Q) :
  0 <= u -> u <= v ->
  (forall b, In b UTILIZATION_BUCKETS -> in_bucket u b = true -> utilToColor (Some u) = b_color b) /\
  (101 # 100 <= u -> utilToColor (Some u) = "#991b1b") /\
  (legend_position (utilToColor (Some u)) <= legend_position (utilToColor (Some v)))%Z.
Proof.
  intros Hu Huv. split; [|split].
  - intros b Hb Hin. unfold in_bucket in Hin. apply andb_prop in Hin as [H1 H2].
    apply Qle_bool_iff in H1. apply Qltb_iff in H2. rewrite utilToColor_rank by exact Hu.
    unfold rank, boundaries. cbn [List.filter]. simpl in Hb.
    repeat destruct Hb as [<-|Hb]; try contradiction; cbn [b_min b_max b_color] in *;
      q_eval; reflexivity.
  - intros Hge. rewrite utilToColor_rank by exact Hu. unfold rank, boundaries. cbn [List.filter].
    q_eval. reflexivity.
  - rewrite !utilToColor_rank by lra. rewrite !legend_position_nth by apply rank_le.
    apply inj_le, rank_mono, Huv.
Qed.

Lemma utilToColor_scale_witness :
  (0 <= 1 # 2)%Q /\ (1 # 2 <= 3 # 4)%Q /\ utilToColor (Some (1 # 2)) = "#facc15".
Proof.
  split; [lra|]. split; [lra|].
  destruct (utilToColor_scale (1 # 2) (3 # 4) ltac:(lra) ltac:(lra)) as [H _].
  apply (H {| b_min := 2 # 5; b_max := 3 # 5; b_color := "#facc15"; b_label := "40-60%" |});
    [simpl; tauto | reflexivity].
Defined.
