(* ===== verification/Render.v ===== *)
(** * The offline renderer

    [src/src/map-renderer.ts]: the colour scale [utilToColor] over
    [UTILIZATION_BUCKETS], the stroke width [capacityToWidth] on a
    logarithmic scale between the smallest and the largest link capacity,
    the link capacities [computeLinkCapacities], and the drawing functions
    [drawPathStroke], [drawHalfStroke], [drawLink], [drawRouter],
    [drawLegendOverlay] and the drawing part of [renderMapSnapshot], each
    as the list of canvas commands it issues ([Canvas]).  The width of a
    text, [ctx.measureText(t).width], is a parameter [measureText]; the
    background image, which [renderMapSnapshot] loads from disk, is an
    optional image source.

    The theorems: a link is drawn as two strokes, the first half in the
    colour of the forward utilisation and the second in that of the
    reverse, at the width of its capacity; the width stays between
    [MIN_LINK_WIDTH] and [MAX_LINK_WIDTH] and grows with the capacity;
    the colour scale is monotone; the legend shows the colours of the
    scale; each drawn component restores the canvas state. *)

From Stdlib Require Import QArith Qreals Reals Lra Lia List String.
From stdpp Require Import base gmap strings.
From S2P Require Import Prelude Status Topology Geometry Fanout Canvas Scale.
Import ListNotations.

Local Open Scope R_scope.

(** ** Constants *)

Definition DEFAULT_WIDTH : Q := 1600%Q.
Definition DEFAULT_HEIGHT : Q := 900%Q.
Definition MIN_LINK_WIDTH : R := 2.
Definition MAX_LINK_WIDTH : R := 14.

(** [capacityToWidth]: [!capacity] holds for [null] and [0]. *)
Definition capacityToWidth (capacity : option Q) (range : option (Q * Q)) : R :=
  match capacity, range with
  | Some c, Some (mn, mx) =>
      if Qeq_bool c 0 then MIN_LINK_WIDTH
      else if (Qle_bool c 0 || Qle_bool mn 0)%bool then MIN_LINK_WIDTH
      else if Qeq_bool mx mn then (MIN_LINK_WIDTH + MAX_LINK_WIDTH) / 2
      else
        let logMin := ln (Q2R mn) in
        let logMax := ln (Q2R mx) in
        let logValue := ln (Q2R c) in
        let t := Rmin 1 (Rmax 0 ((logValue - logMin) / (logMax - logMin))) in
        MIN_LINK_WIDTH + (MAX_LINK_WIDTH - MIN_LINK_WIDTH) * t
  | _, _ => MIN_LINK_WIDTH
  end.

(** ** Drawing *)

Definition LABEL_FONT : string := "12px 'Inter', 'Segoe UI', sans-serif".

Definition fillStyle (c : string) : Cmd := SetAttr (FillStyle (Color c)).
Definition strokeStyle (c : string) : Cmd := SetAttr (StrokeStyle (Color c)).

(** The rounded box the code traces inline, with corner radius [r]. *)
Definition rounded_box (r x y w h : R) : list Cmd :=
  [BeginPath;
   MoveTo (x + r) y;
   LineTo (x + w - r) y;
   QuadraticCurveTo (x + w) y (x + w) (y + r);
   LineTo (x + w) (y + h - r);
   QuadraticCurveTo (x + w) (y + h) (x + w - r) (y + h);
   LineTo (x + r) (y + h);
   QuadraticCurveTo x (y + h) x (y + h - r);
   LineTo x (y + r);
   QuadraticCurveTo x y (x + r) y;
   ClosePath].

(** The [for] loop of [drawPathStroke]: a quadratic curve through each
    inner point to the middle of the next segment. *)
Fixpoint quad_segments (pts : list Pt) : list Cmd :=
  match pts with
  | current :: ((next :: _) as rest) =>
      QuadraticCurveTo (x current) (y current) ((x current + x next) / 2) ((y current + y next) / 2)
        :: quad_segments rest
  | _ => []
  end.

Definition drawPathStroke (pathPoints : list Pt) : list Cmd :=
  match pathPoints with
  | [] | [_] => []
  | [p0; p1] => [BeginPath; MoveTo (x p0) (y p0); LineTo (x p1) (y p1); Stroke]
  | p0 :: rest =>
      [BeginPath; MoveTo (x p0) (y p0)] ++ quad_segments rest ++
      [LineTo (x (List.last rest p0)) (y (List.last rest p0)); Stroke]
  end.

Definition drawHalfStroke (pathPoints : list Pt) (color : string) (width : R) : list Cmd :=
  if Nat.ltb (List.length pathPoints) 2 then []
  else [Save; strokeStyle color; SetAttr (LineWidth width); SetAttr (LineCap "round");
        SetAttr (LineJoin "round")] ++ drawPathStroke pathPoints ++ [Restore].

Definition status_color (status : MetricStatus) : string :=
  match status with
  | ok => "#22c55e"
  | warning => "#f97316"
  | critical => "#ef4444"
  | error => "#f87171"
  end.

(** The legend swatch of bucket number [index]. *)
Definition legend_item (x0 legendStartY : R) (index : nat) (bucket : Bucket) : list Cmd :=
  let itemY := legendStartY + INR index * 18 in
  [fillStyle (b_color bucket);
   FillRect (x0 + 20) itemY 18 18;
   strokeStyle "rgba(15, 23, 42, 0.4)";
   SetAttr (LineWidth 1);
   StrokeRect (x0 + 20) itemY 18 18;
   fillStyle "rgba(226, 232, 240, 0.85)";
   FillText (b_label bucket) (x0 + 48) (itemY + 14)].

Fixpoint legend_items (x0 legendStartY : R) (index : nat) (buckets : list Bucket) : list Cmd :=
  match buckets with
  | [] => []
  | b :: rest => legend_item x0 legendStartY index b ++ legend_items x0 legendStartY (S index) rest
  end.

Definition drawLegendOverlay (title timestampLabel : string) (width : R) : list Cmd :=
  let panelWidth := 280 in
  let panelHeight := 250 in
  let padding := 16 in
  let x0 := width - panelWidth - padding in
  let y0 := padding in
  [Save; fillStyle "rgba(15, 23, 42, 0.82)"; strokeStyle "rgba(59, 130, 246, 0.35)";
   SetAttr (LineWidth (12 / 10))] ++
  rounded_box 18 x0 y0 panelWidth panelHeight ++
  [Fill; Stroke;
   fillStyle "#e2e8f0";
   SetAttr (Font "16px 'Inter', 'Segoe UI', sans-serif");
   FillText title (x0 + 20) (y0 + 32);
   SetAttr (Font LABEL_FONT);
   fillStyle "rgba(226, 232, 240, 0.8)";
   FillText ("Last updated " ++ timestampLabel) (x0 + 20) (y0 + 52)] ++
  legend_items x0 (y0 + 72) 0 UTILIZATION_BUCKETS ++
  [Restore].

(** [drawBackground]: the image when it exists and loads, otherwise the
    gradient. *)
Definition drawBackground (width height : R) (image : option string) : list Cmd :=
  match image with
  | Some src => [DrawImage src 0 0 width height]
  | None =>
      [SetAttr (FillStyle (LinearGradient 0 0 width height [(0, "#0b1120"); (1, "#111827")]));
       FillRect 0 0 width height]
  end.

Section Drawing.
Variable measureText : string -> R.

Definition link_label (midpoint : Pt) (label : string) : list Cmd :=
  let padding := 6 in
  let textWidth := measureText label in
  let boxWidth := textWidth + padding * 2 in
  let boxHeight := 18 in
  [Save; fillStyle "rgba(15, 23, 42, 0.85)"; strokeStyle "rgba(148, 163, 184, 0.7)";
   SetAttr (LineWidth 1); SetAttr (Font LABEL_FONT)] ++
  rounded_box 4 (x midpoint - boxWidth / 2) (y midpoint - boxHeight / 2) boxWidth boxHeight ++
  [Fill; Stroke; fillStyle "#e2e8f0";
   FillText label (x midpoint - textWidth / 2) (y midpoint + 4); Restore].

Definition drawLink (pathPoints : list Pt) (forwardUtilization reverseUtilization : option Q)
    (capacity : option Q) (label : option string) (capacityRange : option (Q * Q)) : list Cmd :=
  if Nat.ltb (List.length pathPoints) 2 then []
  else
    let width := capacityToWidth capacity capacityRange in
    let r := splitPathAtHalf pathPoints in
    (if Nat.leb 2 (List.length (firstHalf r))
     then drawHalfStroke (firstHalf r) (utilToColor forwardUtilization) width else []) ++
    (if Nat.leb 2 (List.length (secondHalf r))
     then drawHalfStroke (secondHalf r) (utilToColor reverseUtilization) width else []) ++
    (if truthy_str label then link_label (midpoint r) (default "" label) else []).

Definition drawRouter (router : RouterDefinition) (status : MetricStatus) : list Cmd :=
  let p := pt_of (rd_position router) in
  let label := rd_label router in
  let padding := 6 in
  let textWidth := measureText label in
  let boxWidth := textWidth + padding * 2 in
  let boxHeight := 20 in
  let bx := x p - boxWidth / 2 in
  let by_ := y p + 18 in
  [Save; SetAttr (ShadowColor "rgba(30, 64, 175, 0.25)"); SetAttr (ShadowBlur 12);
   fillStyle (status_color status); BeginPath; Arc (x p) (y p) 12 0 (PI * 2); Fill; Restore;
   Save; fillStyle "rgba(15, 23, 42, 0.85)"; strokeStyle "rgba(148, 163, 184, 0.6)";
   SetAttr (LineWidth 1); SetAttr (Font LABEL_FONT)] ++
  rounded_box 4 bx by_ boxWidth boxHeight ++
  [Fill; Stroke; fillStyle "#e2e8f0"; FillText label (x p - textWidth / 2) (by_ + 14); Restore].

(** The commands [renderMapSnapshot] issues, for a loaded background
    [image] and the label of the metrics' timestamp; the links are laid
    out with [computeLinkPaths] under the runtime's [localeCompare]. *)
Definition renderMapSnapshot_commands (localeCompare : string -> string -> comparison)
    (topology : TopologyDefinition) (metrics : MetricsPayload) (image : option string)
    (timestampLabel : string) : list Cmd :=
  let width := Q2R (match td_mapSize topology with Some s => ms_width s | None => DEFAULT_WIDTH end) in
  let height := Q2R (match td_mapSize topology with Some s => ms_height s | None => DEFAULT_HEIGHT end) in
  let routerMap := buildRouterMap (td_routers topology) in
  let linkMetricsMap : gmap string LinkMetrics :=
    fold_left (fun m (l : LinkMetrics) => <[lm_id l := l]> m) (mp_links metrics) ∅ in
  let '(capacities, capacityMap) := computeLinkCapacities (td_routers topology) (td_links topology) in
  let capacityRange := capacity_range capacities in
  let linkPaths := computeLinkPaths localeCompare topology in
  drawBackground width height image ++
  List.flat_map (fun link =>
    match routerMap !! ld_from link, routerMap !! ld_to link with
    | Some fromRouter, Some toRouter =>
        let linkMetrics : option LinkMetrics := linkMetricsMap !! ld_id link in
        let forwardUtil := interfaceUtilization (linkMetrics ≫= lm_forward) in
        let reverseUtil := interfaceUtilization (linkMetrics ≫= lm_reverse) in
        let pathPoints := default [pt_of (rd_position fromRouter); pt_of (rd_position toRouter)]
                            (linkPaths !! ld_id link) in
        let label := match linkMetrics ≫= lm_label with Some l => Some l | None => ld_label link end in
        drawLink pathPoints forwardUtil reverseUtil (default None (capacityMap !! ld_id link)) label
          capacityRange
    | _, _ => []
    end) (td_links topology) ++
  List.flat_map (fun router =>
    drawRouter router (default error (rm_status <$> mp_routers metrics !! rd_id router)))
    (td_routers topology) ++
  drawLegendOverlay (default "TS Weathermap" (td_title topology)) timestampLabel width.
End Drawing.

(** ** Lemmas: the commands of a stroke *)

Lemma quad_segments_flat (pts : list Pt) : forallb flat (quad_segments pts) = true.
Proof. induction pts as [|p [|q pts] IH]; try reflexivity. exact IH. Qed.

Lemma drawPathStroke_flat (pts : list Pt) : forallb flat (drawPathStroke pts) = true.
Proof.
  destruct pts as [|p0 [|p1 [|p2 rest]]]; try reflexivity.
  unfold drawPathStroke. rewrite !forallb_app, quad_segments_flat. reflexivity.
Qed.

Lemma run_quad_segments (pts : list Pt) (c : Canvas) :
  exists segs, run (quad_segments pts) c =
    {| cv_state := cv_state c; cv_stack := cv_stack c; cv_path := cv_path c ++ segs;
       cv_marks := cv_marks c |}.
Proof.
  revert c. induction pts as [|p [|q pts] IH]; intros c.
  - exists []. destruct c. simpl. rewrite app_nil_r. reflexivity.
  - exists []. destruct c. simpl. rewrite app_nil_r. reflexivity.
  - destruct (IH (exec c (QuadraticCurveTo (x p) (y p) ((x p + x q) / 2) ((y p + y q) / 2))))
      as [segs E].
    exists (SQuad (x p) (y p) ((x p + x q) / 2) ((y p + y q) / 2) :: segs).
    change (quad_segments (p :: q :: pts)) with
      (QuadraticCurveTo (x p) (y p) ((x p + x q) / 2) ((y p + y q) / 2) :: quad_segments (q :: pts)).
    rewrite run_cons, E. simpl. rewrite <- app_assoc. reflexivity.
Qed.

(** [drawPathStroke] strokes one path, in the current state, from the
    first point to the last. *)
Lemma run_drawPathStroke (pts : list Pt) (c : Canvas) :
  (2 <= List.length pts)%nat ->
  exists segs,
    run (drawPathStroke pts) c =
      {| cv_state := cv_state c; cv_stack := cv_stack c; cv_path := segs;
         cv_marks := cv_marks c ++ [MStroke (cv_state c) segs] |} /\
    hd SClose segs = SMove (x (hd origin pts)) (y (hd origin pts)) /\
    List.last segs SClose = SLine (x (List.last pts origin)) (y (List.last pts origin)).
Proof.
  intros Hlen. destruct pts as [|p0 [|p1 [|p2 rest]]]; simpl in Hlen; try lia.
  - eexists. split; [reflexivity | split; reflexivity].
  - set (c1 := run [BeginPath; MoveTo (x p0) (y p0)] c).
    destruct (run_quad_segments (p1 :: p2 :: rest) c1) as [segs E].
    exists (SMove (x p0) (y p0) :: segs ++
            [SLine (x (List.last (p1 :: p2 :: rest) p0)) (y (List.last (p1 :: p2 :: rest) p0))]).
    split; [|split].
    + unfold drawPathStroke. rewrite !run_app. fold c1. rewrite E. reflexivity.
    + reflexivity.
    + rewrite app_comm_cons, last_last. rewrite (last_cons_indep p1 (p2 :: rest) p0 origin).
      reflexivity.
Qed.

(** The drawing state of a half stroke. *)
Definition half_style (color : string) (width : R) (s : DrawState) : DrawState :=
  apply_attr (LineJoin "round") (apply_attr (LineCap "round")
    (apply_attr (LineWidth width) (apply_attr (StrokeStyle (Color color)) s))).

Lemma half_style_attrs (color : string) (width : R) (s : DrawState) :
  ds_strokeStyle (half_style color width s) = Color color /\ ds_lineWidth (half_style color width s) = width.
Proof. destruct s. split; reflexivity. Qed.

(** [drawHalfStroke] strokes its path in its colour and width and
    restores the canvas state. *)
Lemma run_drawHalfStroke (pts : list Pt) (color : string) (width : R) (c : Canvas) :
  (2 <= List.length pts)%nat ->
  exists segs,
    run (drawHalfStroke pts color width) c =
      {| cv_state := cv_state c; cv_stack := cv_stack c; cv_path := segs;
         cv_marks := cv_marks c ++ [MStroke (half_style color width (cv_state c)) segs] |} /\
    hd SClose segs = SMove (x (hd origin pts)) (y (hd origin pts)) /\
    List.last segs SClose = SLine (x (List.last pts origin)) (y (List.last pts origin)).
Proof.
  intros Hlen. unfold drawHalfStroke.
  destruct (Nat.ltb_spec (List.length pts) 2) as [Hlt|_]; [lia|].
  set (c1 := run [Save; strokeStyle color; SetAttr (LineWidth width); SetAttr (LineCap "round");
                  SetAttr (LineJoin "round")] c).
  destruct (run_drawPathStroke pts c1 Hlen) as (segs & E & H1 & H2).
  exists segs. split; [|split; assumption].
  rewrite !run_app. fold c1. rewrite E. reflexivity.
Qed.

Lemma drawHalfStroke_balanced (pts : list Pt) (color : string) (width : R) :
  balanced (drawHalfStroke pts color width) = true.
Proof.
  unfold drawHalfStroke. destruct (Nat.ltb _ _); [reflexivity|].
  apply (balanced_bracket (_ :: _ :: _ :: _ :: drawPathStroke pts)).
  simpl. apply drawPathStroke_flat.
Qed.

Section DrawingLemmas.
Variable measureText : string -> R.

Lemma link_label_balanced (m : Pt) (label : string) : balanced (link_label measureText m label) = true.
Proof. reflexivity. Qed.

Lemma drawLink_balanced (pts : list Pt) (fu ru cap : option Q) (label : option string)
    (range : option (Q * Q)) :
  balanced (drawLink measureText pts fu ru cap label range) = true.
Proof.
  unfold drawLink. destruct (Nat.ltb _ _); [reflexivity|]. cbv zeta.
  repeat apply balanced_app;
    repeat match goal with |- context [if ?b then _ else _] => destruct b end;
    try reflexivity; auto using drawHalfStroke_balanced, link_label_balanced.
Qed.

Lemma drawRouter_balanced (router : RouterDefinition) (status : MetricStatus) :
  balanced (drawRouter measureText router status) = true.
Proof. reflexivity. Qed.

Lemma drawLegendOverlay_balanced (title timestampLabel : string) (width : R) :
  balanced (drawLegendOverlay title timestampLabel width) = true.
Proof. reflexivity. Qed.
End DrawingLemmas.

(** ** Properties of the offline renderer *)

(** C29: a link of two or more points without a label is drawn as exactly
    two strokes at the width of its capacity: the first half of the path,
    from its first point to the midpoint, in the colour of the forward
    utilisation, then the second half, from the midpoint to its last
    point, in the colour of the reverse utilisation; the canvas state is
    restored after each. *)
Theorem drawLink_two_halves measureText (pts : list Pt) (fu ru cap : option Q)
    (range : option (Q * Q)) (c : Canvas) :
  (2 <= List.length pts)%nat ->
  let width := capacityToWidth cap range in
  let r := splitPathAtHalf pts in
  exists st1 segs1 st2 segs2,
    cv_marks (run (drawLink measureText pts fu ru cap None range) c) =
      cv_marks c ++ [MStroke st1 segs1; MStroke st2 segs2] /\
    ds_strokeStyle st1 = Color (utilToColor fu) /\ ds_lineWidth st1 = width /\
    ds_strokeStyle st2 = Color (utilToColor ru) /\ ds_lineWidth st2 = width /\
    hd SClose segs1 = SMove (x (hd origin pts)) (y (hd origin pts)) /\
    List.last segs1 SClose = SLine (x (midpoint r)) (y (midpoint r)) /\
    hd SClose segs2 = SMove (x (midpoint r)) (y (midpoint r)) /\
    List.last segs2 SClose = SLine (x (List.last pts origin)) (y (List.last pts origin)) /\
    cv_state (run (drawLink measureText pts fu ru cap None range) c) = cv_state c.
Proof.
  intros Hlen. cbv zeta.
  destruct (splitPathAtHalf_shape pts Hlen) as (L1 & L2 & H1 & H2 & H3 & H4).
  set (r := splitPathAtHalf pts) in *. set (w := capacityToWidth cap range).
  unfold drawLink. destruct (Nat.ltb_spec (List.length pts) 2) as [Hlt|_]; [lia|].
  fold r w. destruct (Nat.leb_spec 2 (List.length (firstHalf r))) as [_|]; [|lia].
  destruct (Nat.leb_spec 2 (List.length (secondHalf r))) as [_|]; [|lia].
  cbn [truthy_str]. rewrite app_nil_r, run_app.
  destruct (run_drawHalfStroke (firstHalf r) (utilToColor fu) w c L1) as (segs1 & E1 & S1 & T1).
  rewrite E1.
  destruct (run_drawHalfStroke (secondHalf r) (utilToColor ru) w
    {| cv_state := cv_state c; cv_stack := cv_stack c; cv_path := segs1;
       cv_marks := cv_marks c ++ [MStroke (half_style (utilToColor fu) w (cv_state c)) segs1] |} L2)
    as (segs2 & E2 & S2 & T2).
  rewrite E2. cbn [cv_marks cv_state].
  destruct (half_style_attrs (utilToColor fu) w (cv_state c)) as [A1 B1].
  destruct (half_style_attrs (utilToColor ru) w (cv_state c)) as [A2 B2].
  exists (half_style (utilToColor fu) w (cv_state c)), segs1,
         (half_style (utilToColor ru) w (cv_state c)), segs2.
  rewrite <- app_assoc. repeat split; try assumption.
  - rewrite S1, H1. reflexivity.
  - rewrite T1, H2. reflexivity.
  - rewrite S2, H3. reflexivity.
  - rewrite T2, H4. reflexivity.
Qed.

(** ** Widths *)

Lemma clamp01_bounds (v : R) : 0 <= Rmin 1 (Rmax 0 v) <= 1.
Proof.
  split; [apply Rmin_glb; [lra | apply Rmax_l] | apply Rmin_l].
Qed.

Lemma clamp01_monotone (v w : R) : v <= w -> Rmin 1 (Rmax 0 v) <= Rmin 1 (Rmax 0 w).
Proof.
  intros H. apply Rmin_glb; [apply Rmin_l|].
  eapply Rle_trans; [apply Rmin_r|]. apply Rmax_lub; [apply Rmax_l|].
  eapply Rle_trans; [exact H | apply Rmax_r].
Qed.

(** Every width lies between [MIN_LINK_WIDTH] and [MAX_LINK_WIDTH]. *)
Lemma capacityToWidth_bounds (capacity : option Q) (range : option (Q * Q)) :
  MIN_LINK_WIDTH <= capacityToWidth capacity range <= MAX_LINK_WIDTH.
Proof.
  unfold capacityToWidth, MIN_LINK_WIDTH, MAX_LINK_WIDTH.
  destruct capacity as [c|], range as [[mn mx]|]; try lra.
  destruct (Qeq_bool c 0); [lra|]. destruct (Qle_bool c 0 || Qle_bool mn 0)%bool; [lra|].
  destruct (Qeq_bool mx mn); [lra|]. cbv zeta.
  pose proof (clamp01_bounds ((ln (Q2R c) - ln (Q2R mn)) / (ln (Q2R mx) - ln (Q2R mn)))). lra.
Qed.

Lemma Q2R_pos (q : Q) : (0 < q)%Q -> 0 < Q2R q.
Proof. intros H. apply Qlt_Rlt in H. unfold Q2R in H at 1. simpl in H. lra. Qed.

(** The logarithmic branch, for a positive capacity and a range of
    positive, distinct bounds. *)
Lemma capacityToWidth_log (c mn mx : Q) :
  (0 < c)%Q -> (0 < mn)%Q -> (mn < mx)%Q ->
  capacityToWidth (Some c) (Some (mn, mx)) =
    MIN_LINK_WIDTH + (MAX_LINK_WIDTH - MIN_LINK_WIDTH) *
      Rmin 1 (Rmax 0 ((ln (Q2R c) - ln (Q2R mn)) / (ln (Q2R mx) - ln (Q2R mn)))).
Proof.
  intros Hc Hmn Hlt. unfold capacityToWidth.
  destruct (Qeq_bool c 0) eqn:E1; [apply Qeq_bool_iff in E1; rewrite E1 in Hc; discriminate|].
  q_cases; try q_contra; simpl.
  destruct (Qeq_bool mx mn) eqn:E2; [|reflexivity].
  apply Qeq_bool_iff in E2. rewrite E2 in Hlt. destruct (Qlt_irrefl mn Hlt).
Qed.

(** C30: the stroke width of a link lies between [MIN_LINK_WIDTH] (2) and
    [MAX_LINK_WIDTH] (14) for every capacity and range; on a range of
    positive, distinct capacities it is 2 at the smallest, 14 at the
    largest, and never decreases as the capacity grows (logarithmic
    scale). *)
Theorem capacityToWidth_scale (mn mx c1 c2 : Q) :
  (0 < mn)%Q -> (mn < mx)%Q -> (0 < c1)%Q -> (c1 <= c2)%Q ->
  let w c := capacityToWidth (Some c) (Some (mn, mx)) in
  w mn = MIN_LINK_WIDTH /\ w mx = MAX_LINK_WIDTH /\ w c1 <= w c2 /\
  (forall capacity range, MIN_LINK_WIDTH <= capacityToWidth capacity range <= MAX_LINK_WIDTH).
Proof.
  intros Hmn Hlt Hc1 Hle. cbv beta zeta.
  assert (Hmx : (0 < mx)%Q) by (apply (Qlt_trans _ mn); assumption).
  assert (Hc2 : (0 < c2)%Q) by (apply (Qlt_le_trans _ c1); assumption).
  pose proof (Q2R_pos mn Hmn). pose proof (Q2R_pos c1 Hc1).
  assert (D : 0 < ln (Q2R mx) - ln (Q2R mn)) by (pose proof (ln_increasing _ _ H (Qlt_Rlt _ _ Hlt)); lra).
  rewrite !capacityToWidth_log by assumption.
  unfold MIN_LINK_WIDTH, MAX_LINK_WIDTH.
  split; [|split; [|split; [|apply capacityToWidth_bounds]]].
  - replace ((ln (Q2R mn) - ln (Q2R mn)) / (ln (Q2R mx) - ln (Q2R mn))) with 0 by (field; lra).
    rewrite Rmax_left, Rmin_right by lra. ring.
  - replace ((ln (Q2R mx) - ln (Q2R mn)) / (ln (Q2R mx) - ln (Q2R mn))) with 1 by (field; lra).
    rewrite Rmax_right, Rmin_left by lra. ring.
  - apply Rplus_le_compat_l, Rmult_le_compat_l; [lra|]. apply clamp01_monotone.
    unfold Rdiv. apply Rmult_le_compat_r; [apply Rlt_le, Rinv_0_lt_compat, D|].
    assert (ln (Q2R c1) <= ln (Q2R c2)); [|lra].
    destruct (Rle_lt_or_eq_dec _ _ (Qle_Rle _ _ Hle)) as [Hl|He];
      [apply Rlt_le, ln_increasing; assumption | rewrite He; lra].
Qed.

(** The paints of the rectangles filled, in order. *)
Definition fill_rect_paints (marks : list Mark) : list Paint :=
  List.flat_map (fun m => match m with MFillRect s _ _ _ _ => [ds_fillStyle s] | _ => [] end) marks.

Lemma fill_rect_paints_app (a b : list Mark) :
  fill_rect_paints (a ++ b) = fill_rect_paints a ++ fill_rect_paints b.
Proof. apply List.flat_map_app. Qed.

(** The legend fills one swatch per bucket, in the order of
    [UTILIZATION_BUCKETS], each in the colour [utilToColor] gives to the
    smallest utilisation of that bucket: the legend shows the scale the
    links are drawn with, and fills no other rectangle. *)
Theorem legend_matches_scale (title timestampLabel : string) (width : R) (c : Canvas) :
  fill_rect_paints (cv_marks (run (drawLegendOverlay title timestampLabel width) c)) =
    fill_rect_paints (cv_marks c) ++
    map (fun b => Color (utilToColor (Some (b_min b)))) UTILIZATION_BUCKETS.
Proof.
  destruct c as [[] stack path marks].
  unfold drawLegendOverlay, legend_items, legend_item, rounded_box, run. cbv zeta.
  cbn [fold_left app exec add_mark add_seg with_state apply_attr fillStyle strokeStyle
       cv_state cv_stack cv_path cv_marks UTILIZATION_BUCKETS b_color b_label].
  rewrite <- !app_assoc, !fill_rect_paints_app. reflexivity.
Qed.

(** Every component of the map is drawn between a [save()] and a
    [restore()]: after a link, a router or the legend the canvas has the
    drawing state and the save stack it had before, so no colour, width,
    font or shadow leaks from one component into the next. *)
Theorem components_restore_state measureText (pts : list Pt) (fu ru cap : option Q)
    (label : option string) (range : option (Q * Q)) (router : RouterDefinition)
    (status : MetricStatus) (title timestampLabel : string) (width : R) (c : Canvas) :
  let restores t := cv_state (run t c) = cv_state c /\ cv_stack (run t c) = cv_stack c in
  restores (drawLink measureText pts fu ru cap label range) /\
  restores (drawRouter measureText router status) /\
  restores (drawLegendOverlay title timestampLabel width).
Proof.
  cbv zeta. split; [|split]; apply balanced_run;
    auto using drawLink_balanced, drawRouter_balanced, drawLegendOverlay_balanced.
Qed.

Lemma drawLink_two_halves_witness :
  (2 <= List.length [origin; {| x := 4; y := 0 |}])%nat /\
  exists st1 segs1 st2 segs2,
    cv_marks (run (drawLink (fun _ => 0) [origin; {| x := 4; y := 0 |}] (Some 0%Q) (Some 1%Q)
                   None None None) fresh_canvas) = [MStroke st1 segs1; MStroke st2 segs2] /\
    ds_strokeStyle st1 = Color "#0ea5e9" /\ ds_strokeStyle st2 = Color "#991b1b".
Proof.
  assert (H : (2 <= List.length [origin; {| x := 4; y := 0 |}])%nat) by (simpl; lia).
  split; [exact H|].
  destruct (drawLink_two_halves (fun _ => 0) [origin; {| x := 4; y := 0 |}] (Some 0%Q) (Some 1%Q)
              None None fresh_canvas H)
    as (st1 & segs1 & st2 & segs2 & E & S1 & _ & S2 & _).
  exists st1, segs1, st2, segs2. split; [exact E|]. split; [exact S1 | exact S2].
Defined.

Lemma capacityToWidth_scale_witness :
  (0 < 1)%Q /\ (1 < 100)%Q /\ (0 < 10)%Q /\ (10 <= 50)%Q /\
  capacityToWidth (Some 1%Q) (Some (1%Q, 100%Q)) = MIN_LINK_WIDTH.
Proof.
  assert (H1 : (0 < 1)%Q) by reflexivity. assert (H2 : (1 < 100)%Q) by reflexivity.
  assert (H3 : (0 < 10)%Q) by reflexivity. assert (H4 : (10 <= 50)%Q) by discriminate.
  split; [exact H1|]. split; [exact H2|]. split; [exact H3|]. split; [exact H4|].
  exact (proj1 (capacityToWidth_scale 1 100 10 50 H1 H2 H3 H4)).
Defined.
