(* ===== verification/Frontend.v ===== *)
(** * The interactive frontend: pure functions

    [src/src/frontend/main.ts] (the current version, lines 1-912): HTML
    escaping [escapeHtml], the canvas helper [roundedRect], the link
    capacities [rebuildLinkCapacities] with [interfaceMetricCapacity] and
    [interfaceDefinitionCapacity], the stroke width [capacityToWidth]
    against the global [capacityRange], and the drawing functions
    [drawPathStroke], [drawHalfStroke], [drawLink], [drawRouter],
    [drawBackground] and the frame [draw], as canvas commands ([Canvas]).
    The module-level variables they read ([topology], [metrics],
    [capacityRange], [linkCapacityMap], [linkPathMap], [layoutMode], the
    render state) are arguments here; the state machine that updates them
    is [Ui].

    The theorems: escaping leaves none of the five special characters
    and decodes back to the input; the frontend draws a link and a router
    with exactly the commands of the offline renderer; its link
    capacities prefer the probed speed, so the two renderers can give the
    same link different widths. *)

From Stdlib Require Import QArith Qreals Reals Lra Lia List String Ascii.
From stdpp Require Import base gmap strings.
From S2P Require Import Prelude Status Topology Geometry Fanout Canvas Scale Render.
Import ListNotations.

Local Open Scope R_scope.

(** ** [escapeHtml] *)

(** The double quote, code 34. *)
Definition dquote : ascii := Ascii false true false false false true false false.

(** [htmlEscapeMap[char] ?? char] for a character the pattern of
    [escapeHtml] matches: ampersand, less-than, greater-than, double and
    single quote. *)
Definition escape_char (c : ascii) : string :=
  if Ascii.eqb c "&"%char then "&amp;"
  else if Ascii.eqb c "<"%char then "&lt;"
  else if Ascii.eqb c ">"%char then "&gt;"
  else if Ascii.eqb c dquote then "&quot;"
  else if Ascii.eqb c "'"%char then "&#39;"
  else String c EmptyString.

(** [value.replace(pattern, char => ...)]: each character is replaced by
    its [escape_char]. *)
Fixpoint escapeHtml (value : string) : string :=
  match value with
  | EmptyString => EmptyString
  | String c rest => escape_char c ++ escapeHtml rest
  end.

(** ** The frontend's copies of the colour scale *)

(** [UTILIZATION_BUCKETS] of [main.ts], a copy of the offline renderer's. *)
Definition frontend_UTILIZATION_BUCKETS : list Bucket := [
  {| b_min := 0; b_max := 1 # 100; b_color := "#0ea5e9"; b_label := "0-1%" |};
  {| b_min := 1 # 100; b_max := 1 # 5; b_color := "#22c55e"; b_label := "1-20%" |};
  {| b_min := 1 # 5; b_max := 2 # 5; b_color := "#84cc16"; b_label := "20-40%" |};
  {| b_min := 2 # 5; b_max := 3 # 5; b_color := "#facc15"; b_label := "40-60%" |};
  {| b_min := 3 # 5; b_max := 4 # 5; b_color := "#f97316"; b_label := "60-80%" |};
  {| b_min := 4 # 5; b_max := 9 # 10; b_color := "#ea580c"; b_label := "80-90%" |};
  {| b_min := 9 # 10; b_max := 99 # 100; b_color := "#ef4444"; b_label := "90-99%" |};
  {| b_min := 99 # 100; b_max := 101 # 100; b_color := "#991b1b"; b_label := "99-100%" |}
]%Q.

(** [utilToColor] of [main.ts]. *)
Definition frontend_utilToColor (utilization : option Q) : string :=
  match utilization with
  | None => "#5a646d"
  | Some u =>
      b_color (match List.find (in_bucket u) frontend_UTILIZATION_BUCKETS with
               | Some b => b
               | None => nth (List.length frontend_UTILIZATION_BUCKETS - 1) frontend_UTILIZATION_BUCKETS
                             {| b_min := 0; b_max := 0; b_color := ""; b_label := "" |}
               end)
  end.

(** [interfaceUtilization] of [main.ts]. *)
Definition frontend_interfaceUtilization (iface : option InterfaceMetrics) : option Q :=
  match iface with
  | None => None
  | Some i => Some (jsmax (im_inUtilization i) (im_outUtilization i))
  end.

(** [buildRouterMap] of [main.ts]: [map.set] per router, the last one
    with an id wins. *)
Definition frontend_buildRouterMap (routers : list RouterDefinition) : gmap string RouterDefinition :=
  fold_left (fun m r => <[rd_id r := r]> m) routers ∅.

(** ** [roundedRect] *)

(** [roundedRect(context, x, y, width, height, radius)]: the radius is
    clamped to half the width and half the height. *)
Definition roundedRect (x0 y0 width height radius : R) : list Cmd :=
  let r := Rmin radius (Rmin (width / 2) (height / 2)) in
  rounded_box r x0 y0 width height.

(** ** Link capacities *)

(** [interfaceDefinitionCapacity]: the first router with the id, the
    first interface with the name. *)
Definition interfaceDefinitionCapacity (topology : option TopologyDefinition) (routerId ifaceName : string)
    : option Q :=
  match topology with
  | None => None
  | Some t =>
      match List.find (fun r => String.eqb (rd_id r) routerId) (td_routers t) with
      | None => None
      | Some router =>
          match List.find (fun i => String.eqb (idef_name i) ifaceName) (rd_interfaces router) with
          | Some i => idef_maxBandwidth i
          | None => None
          end
      end
  end.

(** [interfaceMetricCapacity]: the [maxBandwidth] the last metrics report. *)
Definition interfaceMetricCapacity (metrics : option MetricsPayload) (routerId ifaceName : string)
    : option Q :=
  match metrics with
  | None => None
  | Some m =>
      match mp_routers m !! routerId with
      | None => None
      | Some rm => im_maxBandwidth <$> rm_interfaces rm !! ifaceName
      end
  end.

(** The capacity of one link: the metrics' capacities, and the
    configured ones when the metrics have none. *)
Definition frontend_link_capacity (topology : option TopologyDefinition) (metrics : option MetricsPayload)
    (link : LinkDefinition) : option Q :=
  let fromMetrics := positive_candidates
    [interfaceMetricCapacity metrics (ld_from link) (ld_ifaceFrom link);
     interfaceMetricCapacity metrics (ld_to link) (ld_ifaceTo link)] in
  let candidates :=
    match fromMetrics with
    | [] => positive_candidates
              [interfaceDefinitionCapacity topology (ld_from link) (ld_ifaceFrom link);
               interfaceDefinitionCapacity topology (ld_to link) (ld_ifaceTo link)]
    | _ => fromMetrics
    end in
  min_of candidates.

(** [rebuildLinkCapacities]: the new [linkCapacityMap] and
    [capacityRange], or nothing without a topology.  [if (capacity)]
    holds for every candidate, which is positive. *)
Definition rebuildLinkCapacities (topology : option TopologyDefinition) (metrics : option MetricsPayload)
    : option (gmap string (option Q) * option (Q * Q)) :=
  match topology with
  | None => None
  | Some t =>
      let '(capacities, m) :=
        fold_left (fun '(capacities, m) link =>
                     let capacity := frontend_link_capacity topology metrics link in
                     (match capacity with
                      | Some c => if Qeq_bool c 0 then capacities else capacities ++ [c]
                      | None => capacities
                      end,
                      <[ld_id link := capacity]> m))
                  (td_links t) ([], ∅) in
      Some (m, capacity_range capacities)
  end.

(** ** Drawing *)

(** [capacityToWidth] of the frontend reads the global [capacityRange]. *)
Definition frontend_capacityToWidth (capacityRange : option (Q * Q)) (capacity : option Q) : R :=
  match capacity, capacityRange with
  | Some c, Some (mn, mx) =>
      if Qeq_bool c 0 then MIN_LINK_WIDTH
      else if (Qle_bool c 0 || Qle_bool mn 0)%bool then MIN_LINK_WIDTH
      else if Qeq_bool mx mn then (MIN_LINK_WIDTH + MAX_LINK_WIDTH) / 2
      else
        let logMin := ln (Q2R mn) in
        let logMax := ln (Q2R mx) in
        let logValue := ln (Q2R c) in
        let t := Rmin 1 (Rmax 0 ((logValue - logMin) / (logMax - logMin))) in
        MIN_LINK_WIDTH + (MAX_LINK_WIDTH - MIN_LINK_WIDTH) * t
  | _, _ => MIN_LINK_WIDTH
  end.

Fixpoint frontend_quad_segments (path : list Pt) : list Cmd :=
  match path with
  | current :: ((next :: _) as rest) =>
      QuadraticCurveTo (x current) (y current) ((x current + x next) / 2) ((y current + y next) / 2)
        :: frontend_quad_segments rest
  | _ => []
  end.

Definition frontend_drawPathStroke (path : list Pt) : list Cmd :=
  match path with
  | [] | [_] => []
  | [p0; p1] => [BeginPath; MoveTo (x p0) (y p0); LineTo (x p1) (y p1); Stroke]
  | p0 :: rest =>
      [BeginPath; MoveTo (x p0) (y p0)] ++ frontend_quad_segments rest ++
      [LineTo (x (List.last rest p0)) (y (List.last rest p0)); Stroke]
  end.

Definition frontend_drawHalfStroke (path : list Pt) (color : string) (width : R) : list Cmd :=
  if Nat.ltb (List.length path) 2 then []
  else [Save; strokeStyle color; SetAttr (LineWidth width); SetAttr (LineCap "round");
        SetAttr (LineJoin "round")] ++ frontend_drawPathStroke path ++ [Restore].

(** [drawBackground]: the image once it has loaded, otherwise the
    gradient, over the base size of the map. *)
Definition frontend_drawBackground (backgroundLoaded : bool) (src : string) (baseWidth baseHeight : R)
    : list Cmd :=
  if backgroundLoaded then [DrawImage src 0 0 baseWidth baseHeight]
  else [SetAttr (FillStyle (LinearGradient 0 0 baseWidth baseHeight [(0, "#0b1120"); (1, "#111827")]));
        FillRect 0 0 baseWidth baseHeight].

Section FrontendDrawing.
Variable measureText : string -> R.

Definition frontend_drawLink (capacityRange : option (Q * Q)) (path : list Pt)
    (forwardUtilization reverseUtilization : option Q) (capacity : option Q) (label : option string)
    : list Cmd :=
  if Nat.ltb (List.length path) 2 then []
  else
    let width := frontend_capacityToWidth capacityRange capacity in
    let r := splitPathAtHalf path in
    (if Nat.leb 2 (List.length (firstHalf r))
     then frontend_drawHalfStroke (firstHalf r) (frontend_utilToColor forwardUtilization) width else []) ++
    (if Nat.leb 2 (List.length (secondHalf r))
     then frontend_drawHalfStroke (secondHalf r) (frontend_utilToColor reverseUtilization) width else []) ++
    (if truthy_str label then
       let l := default "" label in
       let padding := 6 in
       let textWidth := measureText l in
       let boxWidth := textWidth + padding * 2 in
       let boxHeight := 18 in
       [Save; fillStyle "rgba(15, 23, 42, 0.85)"; strokeStyle "rgba(148, 163, 184, 0.7)";
        SetAttr (LineWidth 1); SetAttr (Font LABEL_FONT)] ++
       roundedRect (x (midpoint r) - boxWidth / 2) (y (midpoint r) - boxHeight / 2) boxWidth boxHeight 4 ++
       [Fill; Stroke; fillStyle "#e2e8f0";
        FillText l (x (midpoint r) - textWidth / 2) (y (midpoint r) + 4); Restore]
     else []).

(** [drawRouter(router, metric)]: the status is [metric?.status ?? "error"]. *)
Definition frontend_drawRouter (router : RouterDefinition) (metric : option RouterMetrics) : list Cmd :=
  let status := default error (rm_status <$> metric) in
  let p := pt_of (rd_position router) in
  let label := rd_label router in
  let padding := 6 in
  let textWidth := measureText label in
  let boxWidth := textWidth + padding * 2 in
  let boxHeight := 20 in
  let bx := x p - boxWidth / 2 in
  let by_ := y p + 18 in
  [Save; SetAttr (ShadowColor "rgba(30, 64, 175, 0.25)"); SetAttr (ShadowBlur 12);
   fillStyle (status_color status); BeginPath; Arc (x p) (y p) 12 0 (PI * 2); Fill; Restore;
   Save; fillStyle "rgba(15, 23, 42, 0.85)"; strokeStyle "rgba(148, 163, 184, 0.6)";
   SetAttr (LineWidth 1); SetAttr (Font LABEL_FONT)] ++
  roundedRect bx by_ boxWidth boxHeight 4 ++
  [Fill; Stroke; fillStyle "#e2e8f0"; FillText label (x p - textWidth / 2) (by_ + 14); Restore].
End FrontendDrawing.

(** ** Decoding entities *)

(** What an HTML parser reads back from text: the five entities
    [escapeHtml] writes are decoded, every other character is kept. *)
Fixpoint unescapeHtml (s : string) : string :=
  match s with
  | EmptyString => EmptyString
  | String "&" (String "a" (String "m" (String "p" (String ";" r)))) => String "&" (unescapeHtml r)
  | String "&" (String "l" (String "t" (String ";" r))) => String "<" (unescapeHtml r)
  | String "&" (String "g" (String "t" (String ";" r))) => String ">" (unescapeHtml r)
  | String "&" (String "q" (String "u" (String "o" (String "t" (String ";" r))))) =>
      String dquote (unescapeHtml r)
  | String "&" (String "#" (String "3" (String "9" (String ";" r)))) => String "'" (unescapeHtml r)
  | String c r => String c (unescapeHtml r)
  end%char.

(** The characters [escapeHtml] must not let through. *)
Definition html_special (c : ascii) : bool :=
  (Ascii.eqb c "<" || Ascii.eqb c ">" || Ascii.eqb c dquote || Ascii.eqb c "'")%char%bool.

Lemma unescapeHtml_plain (c : ascii) (r : string) :
  c <> "&"%char -> unescapeHtml (String c r) = String c (unescapeHtml r).
Proof.
  intros Hc. destruct c as [[] [] [] [] [] [] [] []]; try reflexivity. contradiction.
Qed.

Lemma unescapeHtml_entities (r : string) :
  unescapeHtml ("&amp;" ++ r) = String "&" (unescapeHtml r) /\
  unescapeHtml ("&lt;" ++ r) = String "<" (unescapeHtml r) /\
  unescapeHtml ("&gt;" ++ r) = String ">" (unescapeHtml r) /\
  unescapeHtml ("&quot;" ++ r) = String dquote (unescapeHtml r) /\
  unescapeHtml ("&#39;" ++ r) = String "'" (unescapeHtml r).
Proof. repeat split; reflexivity. Qed.

Lemma escape_char_cases (c : ascii) :
  (c = "&"%char /\ escape_char c = "&amp;") \/ (c = "<"%char /\ escape_char c = "&lt;") \/
  (c = ">"%char /\ escape_char c = "&gt;") \/ (c = dquote /\ escape_char c = "&quot;") \/
  (c = "'"%char /\ escape_char c = "&#39;") \/
  (html_special c = false /\ c <> "&"%char /\ escape_char c = String c EmptyString).
Proof.
  unfold escape_char, html_special.
  destruct (Ascii.eqb_spec c "&"); [tauto|]. destruct (Ascii.eqb_spec c "<"); [tauto|].
  destruct (Ascii.eqb_spec c ">"); [tauto|]. destruct (Ascii.eqb_spec c dquote); [tauto|].
  destruct (Ascii.eqb_spec c "'"); [tauto|]. right; right; right; right; right. auto.
Qed.

(** C32: [escapeHtml] output contains no [<], [>], double or single
    quote, whatever the input: text put into the sidebar markup cannot
    open a tag or close an attribute. *)
Theorem escapeHtml_safe (value : string) :
  Forall (fun c => html_special c = false) (list_ascii_of_string (escapeHtml value)).
Proof.
  induction value as [|c rest IH]; [constructor|]. cbn [escapeHtml].
  rewrite list_ascii_of_string_app. apply Forall_app. split; [|exact IH].
  destruct (escape_char_cases c) as [[-> ->]|[[-> ->]|[[-> ->]|[[-> ->]|[[-> ->]|(Hs & _ & ->)]]]]];
    repeat constructor; assumption.
Qed.

(** Escaping loses nothing: decoding the entities of [escapeHtml s]
    gives [s] back. *)
Theorem escapeHtml_roundtrip (value : string) : unescapeHtml (escapeHtml value) = value.
Proof.
  induction value as [|c rest IH]; [reflexivity|]. cbn [escapeHtml].
  destruct (unescapeHtml_entities (escapeHtml rest)) as (E1 & E2 & E3 & E4 & E5).
  destruct (escape_char_cases c) as [[-> ->]|[[-> ->]|[[-> ->]|[[-> ->]|[[-> ->]|(_ & Hc & ->)]]]]];
    [rewrite E1 | rewrite E2 | rewrite E3 | rewrite E4 | rewrite E5 |
     change (String.append (String c EmptyString) (escapeHtml rest)) with (String c (escapeHtml rest));
     rewrite unescapeHtml_plain by exact Hc]; rewrite IH; reflexivity.
Qed.

(** ** The two renderers draw alike *)

(** The two copies of the stroke code are the same function. *)
Lemma frontend_drawHalfStroke_eq (pts : list Pt) (color : string) (width : R) :
  frontend_drawHalfStroke pts color width = drawHalfStroke pts color width.
Proof. reflexivity. Qed.

(** The two copies of the colour scale agree on every utilisation. *)
Lemma frontend_utilToColor_eq (u : option Q) : frontend_utilToColor u = utilToColor u.
Proof. reflexivity. Qed.

(** A label box at least [8] high and [12] wide keeps the radius [4]. *)
Lemma roundedRect_label (x0 y0 textWidth h : R) :
  0 <= textWidth -> 8 <= h ->
  roundedRect x0 y0 (textWidth + 6 * 2) h 4 = rounded_box 4 x0 y0 (textWidth + 6 * 2) h.
Proof.
  intros Hw Hh. unfold roundedRect. rewrite Rmin_left; [reflexivity|].
  apply Rmin_glb; lra.
Qed.

(** C33: the frontend and the offline renderer issue exactly the same
    canvas commands for a link (halves, colours, width, label box) and
    for a router (status disc, label box), given the same capacity range
    and text widths: the label boxes of [roundedRect] keep the radius 4
    the offline renderer hard-codes. *)
Theorem frontend_draws_like_offline measureText (capacityRange : option (Q * Q)) (path : list Pt)
    (fu ru capacity : option Q) (label : option string) (router : RouterDefinition)
    (metric : option RouterMetrics) :
  (forall t, 0 <= measureText t) ->
  frontend_drawLink measureText capacityRange path fu ru capacity label =
    drawLink measureText path fu ru capacity label capacityRange /\
  frontend_drawRouter measureText router metric =
    drawRouter measureText router (default error (rm_status <$> metric)).
Proof.
  intros Hmt. split.
  - unfold frontend_drawLink, drawLink, link_label. destruct (Nat.ltb _ _); [reflexivity|].
    cbv zeta. rewrite !frontend_drawHalfStroke_eq, !frontend_utilToColor_eq.
    change (frontend_capacityToWidth capacityRange capacity) with (capacityToWidth capacity capacityRange).
    destruct (truthy_str label); [|reflexivity].
    rewrite roundedRect_label by (auto; lra). reflexivity.
  - unfold frontend_drawRouter, drawRouter. cbv zeta.
    rewrite roundedRect_label by (auto; lra). reflexivity.
Qed.

Lemma frontend_draws_like_offline_witness :
  (forall t : string, 0 <= (fun _ => 0) t) /\
  frontend_drawRouter (fun _ => 0) (ex_router "r1" ex_p) None =
    drawRouter (fun _ => 0) (ex_router "r1" ex_p) error.
Proof.
  assert (H : forall t : string, 0 <= (fun _ => 0) t) by (intros; lra).
  split; [exact H|].
  exact (proj2 (frontend_draws_like_offline (fun _ => 0) None [] None None None None
                  (ex_router "r1" ex_p) None H)).
Defined.

(** ** Link capacities: the two renderers disagree *)

Definition ex_iface (name : string) (bandwidth : option Q) : InterfaceDefinition :=
  {| idef_name := name; idef_displayName := None; idef_maxBandwidth := bandwidth;
     idef_speedOid := Some "1.3.6.1.2.1.31.1.1.1.15"; idef_speedScale := None |}.

(** Two routers whose [eth0] is configured at 1000 and [eth1] at 100000. *)
Definition ex_speed_router (id : string) : RouterDefinition :=
  {| rd_id := id; rd_label := id; rd_position := ex_p;
     rd_interfaces := [ex_iface "eth0" (Some 1000%Q); ex_iface "eth1" (Some 100000%Q)] |}.

Definition ex_speed_link (id iface : string) : LinkDefinition :=
  {| ld_id := id; ld_from := "r1"; ld_to := "r2"; ld_ifaceFrom := iface; ld_ifaceTo := iface;
     ld_label := None; ld_path := None |}.

Definition ex_speed_topology : TopologyDefinition :=
  ex_map [ex_speed_router "r1"; ex_speed_router "r2"]
         [ex_speed_link "l1" "eth0"; ex_speed_link "l2" "eth1"].

Definition ex_iface_metrics (name : string) (bandwidth : Q) : InterfaceMetrics :=
  {| im_name := name; im_inBps := 0; im_outBps := 0; im_inUtilization := 0; im_outUtilization := 0;
     im_status := ok; im_maxBandwidth := bandwidth; im_fresh := true; im_error := None |}.

Definition ex_router_metrics (id : string) : RouterMetrics :=
  {| rm_id := id; rm_label := id; rm_status := ok;
     rm_interfaces := <["eth0" := ex_iface_metrics "eth0" 100000]>
                        (<["eth1" := ex_iface_metrics "eth1" 100000]> ∅);
     rm_error := None |}.

(** The metrics when the probed speed of every interface is 100000. *)
Definition ex_probed_metrics : MetricsPayload :=
  {| mp_timestamp := "2024-01-01T00:00:00.000Z";
     mp_routers := <["r1" := ex_router_metrics "r1"]> (<["r2" := ex_router_metrics "r2"]> ∅);
     mp_links := [] |}.

(** The offline snapshot sizes links from the configured
    [maxBandwidth] only, the frontend from the speed the metrics report
    first: when the probed speed of [eth0] (100000) differs from its
    configuration (1000), link [l1] is drawn at the minimum width 2 in
    the snapshot and at the middle width 8 in the browser. *)
Theorem snapshot_ignores_probed_capacity :
  let '(capacities, offline) :=
    computeLinkCapacities (td_routers ex_speed_topology) (td_links ex_speed_topology) in
  offline !! "l1" = Some (Some 1000%Q) /\
  capacityToWidth (Some 1000%Q) (capacity_range capacities) = MIN_LINK_WIDTH /\
  match rebuildLinkCapacities (Some ex_speed_topology) (Some ex_probed_metrics) with
  | Some (frontend, range) =>
      frontend !! "l1" = Some (Some 100000%Q) /\
      frontend_capacityToWidth range (Some 100000%Q) = (MIN_LINK_WIDTH + MAX_LINK_WIDTH) / 2
  | None => False
  end.
Proof.
  destruct (computeLinkCapacities _ _) as [capacities offline] eqn:E1. vm_compute in E1.
  injection E1 as <- <-.
  destruct (rebuildLinkCapacities _ _) as [[frontend range]|] eqn:E2; vm_compute in E2; [|discriminate].
  injection E2 as <- <-.
  split; [reflexivity|]. split; [|split; reflexivity].
  change (capacity_range [1000%Q; 100000%Q]) with (Some (1000%Q, 100000%Q)).
  assert (H1 : (0 < 1000)%Q) by reflexivity. assert (H2 : (1000 < 100000)%Q) by reflexivity.
  pose proof (Q2R_pos _ H1).
  assert (D : 0 < ln (Q2R 100000) - ln (Q2R 1000)) by
    (pose proof (ln_increasing _ _ H (Qlt_Rlt _ _ H2)); lra).
  rewrite capacityToWidth_log by assumption.
  replace ((ln (Q2R 1000) - ln (Q2R 1000)) / (ln (Q2R 100000) - ln (Q2R 1000))) with 0 by (field; lra).
  rewrite Rmax_left, Rmin_right by lra. unfold MIN_LINK_WIDTH. ring.
Qed.

(** ** Balance of the frontend's drawing *)

Lemma frontend_drawLink_balanced measureText (range : option (Q * Q)) (path : list Pt)
    (fu ru capacity : option Q) (label : option string) :
  balanced (frontend_drawLink measureText range path fu ru capacity label) = true.
Proof.
  unfold frontend_drawLink. destruct (Nat.ltb _ _); [reflexivity|]. cbv zeta.
  rewrite !frontend_drawHalfStroke_eq.
  repeat apply balanced_app;
    repeat match goal with |- context [if ?b then _ else _] => destruct b end;
    try reflexivity; apply drawHalfStroke_balanced.
Qed.

Lemma frontend_drawRouter_balanced measureText (router : RouterDefinition) (metric : option RouterMetrics) :
  balanced (frontend_drawRouter measureText router metric) = true.
Proof. reflexivity. Qed.

Lemma frontend_drawBackground_flat (loaded : bool) (src : string) (w h : R) :
  forallb flat (frontend_drawBackground loaded src w h) = true.
Proof. destruct loaded; reflexivity. Qed.
