(* ===== verification/Backend.v ===== *)
(** * The backend server: poll loop, publication and configuration reload

    The module-level state of [src/src/backend.ts] (current version, lines
    819-950) as a record [Server]: [runtime.config], [latestMetrics],
    [latestImagePath], the image directory ([Snapshots]), the sampler's
    [sampleCache], the WebSocket clients and the messages sent to them.  [pollLoop] is split at its [await]s
    into a start (a timer fires), the end of [pollRouters] (success or
    rejection) and the end of [saveSnapshotImage]; the [fs.watchFile]
    callback and WebSocket connections are further events.  The events
    interleave freely: [step] is the relation of one event, [reachable]
    its closure from the start of the process.

    The theorems: exactly one loop instance exists at any time and it
    always reschedules (the loop never stops); the published payload is
    never partial; an in-flight cycle resolves its snapshot against a
    topology that a reload replaced while it was polling; at most fifty
    images are kept and the newest is served. *)

From Stdlib Require Import QArith String List Lia Lqa Permutation Relations.
From stdpp Require Import base option gmap strings.
From S2P Require Import Prelude Status Sampler Topology Config Resolver Snapshots.

(** ** State *)

Inductive ServerMessage :=
  | MsgTopology (topology : TopologyDefinition)
  | MsgMetrics (payload : MetricsPayload).

(** A WebSocket client and whether its [readyState] is [OPEN]. *)
Record Client := { cl_id : nat; cl_open : bool }.

(** Where [pollLoop] is: not running (a [setTimeout] may be pending),
    awaiting [pollRouters] on the poll configuration it read when it
    started, or awaiting [saveSnapshotImage] of the payload it
    published. *)
Inductive Phase :=
  | Idle
  | Polling (pollConfig : gmap string RouterConfig)
  | Saving (payload : MetricsPayload).

Record Server := {
  sv_config : RuntimeConfig;
  sv_latestMetrics : option MetricsPayload;
  sv_latestImagePath : option string;
  sv_images : list DirEntry;
  sv_cache : SampleCache;
  sv_phase : Phase;
  sv_timer : option Q;
  sv_clients : list Client;
  sv_sent : list (nat * ServerMessage)
}.

(** [broadcast(message)]: one send per open client, in client order. *)
Definition broadcast (clients : list Client) (msg : ServerMessage) : list (nat * ServerMessage) :=
  map (fun c => (cl_id c, msg)) (List.filter cl_open clients).

(** The process after its top level has run: the configuration is
    loaded, [pruneSnapshots()] has run on the image directory, nothing is
    published yet, and the first [pollLoop()] has read the poll
    configuration and is awaiting [pollRouters]. *)
Definition init (cfg : RuntimeConfig) (images : list DirEntry) : Server :=
  {| sv_config := cfg; sv_latestMetrics := None; sv_latestImagePath := (prune_dir images).1;
     sv_images := (prune_dir images).2;
     sv_cache := ∅; sv_phase := Polling (rt_routerPollConfig cfg); sv_timer := None;
     sv_clients := []; sv_sent := [] |}.

(** ** Events *)

(** The [setTimeout] fires: [pollLoop] starts and reads
    [runtime.config.routerPollConfig]. *)
Definition on_timer (s : Server) : Server :=
  {| sv_config := sv_config s; sv_latestMetrics := sv_latestMetrics s;
     sv_latestImagePath := sv_latestImagePath s; sv_images := sv_images s; sv_cache := sv_cache s;
     sv_phase := Polling (rt_routerPollConfig (sv_config s)); sv_timer := None;
     sv_clients := sv_clients s; sv_sent := sv_sent s |}.

(** The payload of a cycle, resolved against [runtime.config.topology] as
    it is when [pollRouters] has returned. *)
Definition metrics_payload (topology : TopologyDefinition) (snapshot : gmap string RouterSample)
    (timestamp : string) : MetricsPayload :=
  let routers := toRouterMetrics snapshot topology in
  let links := toLinkMetrics routers (td_links topology) in
  {| mp_timestamp := timestamp; mp_routers := routers; mp_links := links |}.

(** [pollRouters] has resolved: the payload is built, stored as
    [latestMetrics] and broadcast, and [saveSnapshotImage] starts. *)
Definition on_poll_done (s : Server) (snapshot : gmap string RouterSample) (cache : SampleCache)
    (timestamp : string) : Server :=
  let payload := metrics_payload (rt_topology (sv_config s)) snapshot timestamp in
  {| sv_config := sv_config s; sv_latestMetrics := Some payload;
     sv_latestImagePath := sv_latestImagePath s; sv_images := sv_images s; sv_cache := cache;
     sv_phase := Saving payload; sv_timer := None;
     sv_clients := sv_clients s; sv_sent := sv_sent s ++ broadcast (sv_clients s) (MsgMetrics payload) |}.

(** [pollRouters] has rejected: the error is logged and the [finally]
    block schedules the next cycle with the current interval.  The cache
    keeps the writes of the routers whose polls completed. *)
Definition on_poll_failed (s : Server) (cache : SampleCache) : Server :=
  {| sv_config := sv_config s; sv_latestMetrics := sv_latestMetrics s;
     sv_latestImagePath := sv_latestImagePath s; sv_images := sv_images s; sv_cache := cache;
     sv_phase := Idle; sv_timer := Some (rt_pollIntervalMs (sv_config s));
     sv_clients := sv_clients s; sv_sent := sv_sent s |}.

(** What [saveSnapshotImage] does to the image directory and
    [latestImagePath]: when [renderMapSnapshot] has written
    [<stamp>.png] (at modification time [mtime]) and returned its path,
    that path becomes [latestImagePath] and [pruneSnapshots()] runs,
    which sets [latestImagePath] again; when it threw, nothing. *)
Definition save_images (s : Server) (outcome : option (string * Q)) : option string * list DirEntry :=
  match outcome with
  | None => (sv_latestImagePath s, sv_images s)
  | Some (stamp, mtime) => prune_dir (write_file (stamp ++ ".png") mtime (sv_images s))
  end.

(** [saveSnapshotImage] has finished; then the [finally] block
    schedules the next cycle. *)
Definition on_save_done (s : Server) (outcome : option (string * Q)) : Server :=
  {| sv_config := sv_config s; sv_latestMetrics := sv_latestMetrics s;
     sv_latestImagePath := (save_images s outcome).1; sv_images := (save_images s outcome).2;
     sv_cache := sv_cache s; sv_phase := Idle; sv_timer := Some (rt_pollIntervalMs (sv_config s));
     sv_clients := sv_clients s; sv_sent := sv_sent s |}.

(** The [fs.watchFile] callback: a configuration that loads replaces
    [runtime.config] wholesale, [pruneSnapshots()] runs, and the topology
    is broadcast; one that fails to load is logged and changes nothing. *)
Definition on_reload (s : Server) (loaded : Result RuntimeConfig) : Server :=
  match loaded with
  | inl _ => s
  | inr cfg =>
      {| sv_config := cfg; sv_latestMetrics := sv_latestMetrics s;
         sv_latestImagePath := (prune_dir (sv_images s)).1; sv_images := (prune_dir (sv_images s)).2;
         sv_cache := sv_cache s;
         sv_phase := sv_phase s; sv_timer := sv_timer s; sv_clients := sv_clients s;
         sv_sent := sv_sent s ++ broadcast (sv_clients s) (MsgTopology (rt_topology cfg)) |}
  end.

(** [wss.on("connection")]: the topology, then the latest metrics if
    any, are sent to the new client. *)
Definition on_connect (s : Server) (id : nat) : Server :=
  {| sv_config := sv_config s; sv_latestMetrics := sv_latestMetrics s;
     sv_latestImagePath := sv_latestImagePath s; sv_images := sv_images s; sv_cache := sv_cache s;
     sv_phase := sv_phase s; sv_timer := sv_timer s;
     sv_clients := sv_clients s ++ [{| cl_id := id; cl_open := true |}];
     sv_sent := sv_sent s ++ [(id, MsgTopology (rt_topology (sv_config s)))] ++
                match sv_latestMetrics s with Some p => [(id, MsgMetrics p)] | None => [] end |}.

(** A client's socket leaves the [OPEN] state. *)
Definition on_close (s : Server) (id : nat) : Server :=
  {| sv_config := sv_config s; sv_latestMetrics := sv_latestMetrics s;
     sv_latestImagePath := sv_latestImagePath s; sv_images := sv_images s; sv_cache := sv_cache s;
     sv_phase := sv_phase s; sv_timer := sv_timer s;
     sv_clients := map (fun c => if Nat.eqb (cl_id c) id
                                 then {| cl_id := cl_id c; cl_open := false |} else c) (sv_clients s);
     sv_sent := sv_sent s |}.

(** One event.  A poll runs the routers of the configuration it started
    with, in an order its SNMP answers decide; it may reject after some of
    the routers' cache phases ran.  A reload reads some document. *)
Inductive step : Server -> Server -> Prop :=
  | step_timer s delay :
      sv_phase s = Idle -> sv_timer s = Some delay -> step s (on_timer s)
  | step_poll_done s pc agents clock schedule timestamp :
      sv_phase s = Polling pc -> Permutation schedule (map_to_list pc) ->
      step s (on_poll_done s (pollRouters agents clock schedule (sv_cache s)).1
                            (pollRouters agents clock schedule (sv_cache s)).2 timestamp)
  | step_poll_failed s pc agents clock schedule n :
      sv_phase s = Polling pc -> Permutation schedule (map_to_list pc) ->
      step s (on_poll_failed s (pollRouters agents clock (firstn n schedule) (sv_cache s)).2)
  | step_save_done s p outcome :
      sv_phase s = Saving p -> step s (on_save_done s outcome)
  | step_reload s parsed :
      NoDup (map fst (raw_routers parsed)) -> step s (on_reload s (loadRuntimeConfig parsed))
  | step_connect s id : step s (on_connect s id)
  | step_close s id : step s (on_close s id).

Inductive reachable : Server -> Prop :=
  | reach_init parsed cfg images :
      NoDup (map fst (raw_routers parsed)) -> loadRuntimeConfig parsed = inr cfg ->
      NoDup (map de_name images) -> reachable (init cfg images)
  | reach_step s s' : reachable s -> step s s' -> reachable s'.

(** ** HTTP handlers *)

Inductive HttpResponse :=
  | Json (body : MetricsPayload)
  | JsonTopology (body : TopologyDefinition)
  | File (path : string)
  | HttpStatus (code : nat) (text : string).

(** [GET /api/metrics]. *)
Definition get_metrics (s : Server) : HttpResponse :=
  match sv_latestMetrics s with
  | None => HttpStatus 204 ""
  | Some p => Json p
  end.

(** [GET /api/topology]. *)
Definition get_topology (s : Server) : HttpResponse := JsonTopology (rt_topology (sv_config s)).

(** [sendLatestSnapshot], for [GET /] and [GET /map.png]. *)
Definition sendLatestSnapshot (s : Server) : HttpResponse :=
  if truthy_str (sv_latestImagePath s) then File (sv_latestImagePath s ?? EmptyString)
  else HttpStatus 404 "Map image not available".

(** [GET BACKGROUND_ROUTE]: the configured file (a missing file is a
    [404] of the file server, not modelled). *)
Definition get_background (s : Server) : HttpResponse := File (rt_backgroundPath (sv_config s)).

(** ** Invariants *)

(** Compute the fields of a state after an event, leaving the
    computations the event carries (polls, payloads) folded. *)
Ltac sv_simpl :=
  cbn [sv_phase sv_timer sv_latestMetrics sv_config sv_cache sv_clients sv_sent
       on_timer on_poll_done on_poll_failed on_save_done on_connect on_close init get_metrics].

Ltac sv_simpl_in H :=
  cbn [sv_phase sv_timer sv_latestMetrics sv_config sv_cache sv_clients sv_sent
       on_timer on_poll_done on_poll_failed on_save_done on_connect on_close init get_metrics] in H.

(** What a payload published for [topology] contains. *)
Definition payload_complete (topology : TopologyDefinition) (p : MetricsPayload) : Prop :=
  (forall r, In r (td_routers topology) -> mp_routers p !! rd_id r <> None) /\
  length (mp_links p) = length (td_links topology) /\
  Forall (fun lm => lm_forward lm <> None /\ lm_reverse lm <> None /\
                    lm_aggregateUtilization lm <> None) (mp_links p).

Definition topology_ok (topology : TopologyDefinition) : Prop :=
  NoDup (map rd_id (td_routers topology)) /\
  Forall (link_resolves (td_routers topology)) (td_links topology).

Lemma metrics_payload_complete (topology : TopologyDefinition) (snapshot : gmap string RouterSample)
    (timestamp : string) :
  topology_ok topology -> payload_complete topology (metrics_payload topology snapshot timestamp).
Proof.
  intros [Hnd Hlinks]. unfold metrics_payload, payload_complete, toLinkMetrics. simpl.
  split; [|split].
  - intros r Hr. rewrite (proj1 (toRouterMetrics_lookup snapshot topology Hnd) r Hr). discriminate.
  - apply length_map.
  - apply List.Forall_forall. intros lm Hlm. apply in_map_iff in Hlm as (link & <- & Hl).
    rewrite List.Forall_forall in Hlinks. exact (link_metrics_resolved snapshot topology link Hnd (Hlinks link Hl)).
Qed.

(** Reachability is closed under any number of steps. *)
Lemma reachable_star (s s' : Server) : clos_refl_trans Server step s s' -> reachable s -> reachable s'.
Proof. induction 1; eauto using reach_step. Qed.

(** Every configuration the server holds was loaded, so its topology is
    well formed. *)
Lemma reachable_config_ok (s : Server) : reachable s -> topology_ok (rt_topology (sv_config s)).
Proof.
  induction 1 as [parsed cfg images Hnd Hload _ | s s' _ IH Hstep].
  - exact (loaded_topology_ok parsed cfg Hnd Hload).
  - destruct Hstep; try exact IH.
    unfold on_reload. destruct (loadRuntimeConfig parsed) as [e|cfg] eqn:E; [exact IH|].
    exact (loaded_topology_ok parsed cfg H E).
Qed.

(** C16: the poll loop never stops and never runs twice: in every
    reachable state, [pollLoop] is idle exactly when a [setTimeout] for
    the next cycle is pending; a cycle that fails, like one that succeeds,
    ends with the next cycle scheduled. *)
Theorem pollLoop_always_rescheduled (s : Server) :
  reachable s -> (sv_phase s = Idle <-> exists delay, sv_timer s = Some delay).
Proof.
  induction 1 as [parsed cfg images _ _ _ | s s' _ IH Hstep].
  - sv_simpl. split; [discriminate | intros [? [=]]].
  - destruct Hstep; sv_simpl; try exact IH.
    + split; [discriminate | intros [? [=]]].
    + split; [discriminate | intros [? [=]]].
    + split; [intros _; eexists; reflexivity | reflexivity].
    + split; [intros _; eexists; reflexivity | reflexivity].
    + unfold on_reload. destruct (loadRuntimeConfig parsed); exact IH.
Qed.

(** C17: the published snapshot is never partial and comes from one
    cycle: whenever [latestMetrics] is set, it is the payload that a
    cycle's [pollRouters] resolution published, in a reachable state
    [s0], resolved against the configuration [s0] held (a loaded one),
    and the current state is reached from that publication; the payload
    has an entry for every router of that topology and, for every link,
    metrics in both directions and an aggregate utilisation.  (A reload
    since then may have replaced the topology, see [reload_mid_cycle_mixes_configurations].) *)
Theorem latestMetrics_complete (s : Server) (p : MetricsPayload) :
  reachable s -> sv_latestMetrics s = Some p ->
  exists s0 snapshot cache timestamp,
    reachable s0 /\ step s0 (on_poll_done s0 snapshot cache timestamp) /\
    clos_refl_trans Server step (on_poll_done s0 snapshot cache timestamp) s /\
    p = metrics_payload (rt_topology (sv_config s0)) snapshot timestamp /\
    topology_ok (rt_topology (sv_config s0)) /\ payload_complete (rt_topology (sv_config s0)) p.
Proof.
  intros Hr. revert p. induction Hr as [parsed cfg images _ _ _ | s s' Hr IH Hstep]; intros p Hp; [discriminate|].
  assert (Hlater : forall x, clos_refl_trans Server step x s -> clos_refl_trans Server step x s')
    by (intros x Hx; eapply rt_trans; [exact Hx | apply rt_step, Hstep]).
  assert (Hkeep : sv_latestMetrics s = Some p -> exists s0 snapshot cache timestamp,
    reachable s0 /\ step s0 (on_poll_done s0 snapshot cache timestamp) /\
    clos_refl_trans Server step (on_poll_done s0 snapshot cache timestamp) s' /\
    p = metrics_payload (rt_topology (sv_config s0)) snapshot timestamp /\
    topology_ok (rt_topology (sv_config s0)) /\ payload_complete (rt_topology (sv_config s0)) p).
  { intros Hs. destruct (IH p Hs) as (s0 & sn & c & ts & H0 & H1 & H2 & H3 & H4 & H5).
    exists s0, sn, c, ts. auto 6. }
  destruct Hstep; sv_simpl_in Hp; try exact (Hkeep Hp).
  - injection Hp as <-. pose proof (reachable_config_ok s Hr) as Hok.
    do 4 eexists. split; [exact Hr|]. split; [eapply step_poll_done; eassumption|].
    split; [apply rt_refl|]. split; [reflexivity|]. split; [exact Hok|].
    apply metrics_payload_complete, Hok.
  - unfold on_reload in Hp. destruct (loadRuntimeConfig parsed); exact (Hkeep Hp).
Qed.

(** C18: a failed cycle, a reload, a connection or the end of a save
    never change what [/api/metrics] serves: the served snapshot changes
    only when a cycle's [pollRouters] resolves, and then to the payload
    that cycle publishes. *)
Theorem served_snapshot_changes_on_publish (s s' : Server) :
  step s s' -> get_metrics s' <> get_metrics s ->
  (exists pc, sv_phase s = Polling pc) /\
  exists p, sv_latestMetrics s' = Some p /\ get_metrics s' = Json p /\ sv_phase s' = Saving p.
Proof.
  intros Hstep Hne. destruct Hstep; sv_simpl_in Hne; sv_simpl;
    try (exfalso; apply Hne; reflexivity).
  - split; [eexists; eassumption|]. eexists. split; [reflexivity|]. split; reflexivity.
  - unfold on_reload in Hne. destruct (loadRuntimeConfig parsed); contradiction Hne; reflexivity.
Qed.

(** ** The served image *)

Definition images_ok (s : Server) : Prop :=
  NoDup (map de_name (sv_images s)) /\
  sv_latestImagePath s = option_map sf_fullPath (hd_error (collectSnapshotFiles (Some (sv_images s)))) /\
  (List.length (collectSnapshotFiles (Some (sv_images s))) <= MAX_SAVED_MAP_IMAGES)%nat.

Lemma reachable_images_ok (s : Server) : reachable s -> images_ok s.
Proof.
  induction 1 as [parsed cfg images _ _ Hnd | s s' _ IH Hstep].
  - exact (prune_dir_ok images Hnd).
  - destruct Hstep; try exact IH.
    + unfold on_save_done, images_ok. cbn [sv_images sv_latestImagePath]. unfold save_images.
      destruct outcome as [[stamp mtime]|]; [|exact IH].
      apply prune_dir_ok, write_file_NoDup, (proj1 IH).
    + unfold on_reload. destruct (loadRuntimeConfig parsed); [exact IH|].
      exact (prune_dir_ok _ (proj1 IH)).
Qed.

(** C20: in every reachable state of the server at most fifty snapshots
    are on disk, and [GET /] and [GET /map.png] serve the newest of them
    (by modification time), or [404] when there is none: every path that
    sets [latestImagePath] (start-up, a save, a reload) ends with
    [pruneSnapshots]. *)
Theorem served_image_newest (s : Server) :
  reachable s ->
  (List.length (collectSnapshotFiles (Some (sv_images s))) <= MAX_SAVED_MAP_IMAGES)%nat /\
  sendLatestSnapshot s =
    match collectSnapshotFiles (Some (sv_images s)) with
    | f :: _ => File (sf_fullPath f)
    | [] => HttpStatus 404 "Map image not available"
    end.
Proof.
  intros Hr. destruct (reachable_images_ok s Hr) as (_ & Hl & Hlen). split; [exact Hlen|].
  unfold sendLatestSnapshot. rewrite Hl.
  destruct (collectSnapshotFiles (Some (sv_images s))) as [|f rest] eqn:E; [reflexivity|].
  assert (Hf : In f (collectSnapshotFiles (Some (sv_images s)))) by (rewrite E; left; reflexivity).
  apply collect_from in Hf as (e & _ & _ & Hs). cbn. rewrite (stat_entry_path e f Hs). reflexivity.
Qed.

(** ** A reload during a cycle *)

Definition ex_doc (routerId : string) : RawConfig :=
  {| meta_title := None; meta_poll_interval_ms := None; map_background := None; map_size := None;
     raw_routers := [(routerId, ex_raw_router [ex_raw_iface "eth0"])]; raw_links := None |}.

Definition ex_answer (_ : string) (_ : list string) : SnmpResponse := inr [ex_vb 100; ex_vb 200].

(** A router the cycle did not poll has no sample in the snapshot. *)
Lemma pollRouters_unpolled (agents : string -> list string -> SnmpResponse) (clock : string -> Z)
    (schedule : list (string * RouterConfig)) (cache : SampleCache) (k : string) :
  ~ In k (map fst schedule) -> (pollRouters agents clock schedule cache).1 !! k = None.
Proof.
  unfold pollRouters. assert (Hsnap : (∅ : gmap string RouterSample) !! k = None) by apply lookup_empty.
  revert Hsnap. generalize (∅ : gmap string RouterSample) as snap. revert cache.
  induction schedule as [|[rid rc] rest IH]; intros cache snap Hsnap Hk; cbn in *; [exact Hsnap|].
  destruct (pollRouter rid rc (agents rid) (clock rid) cache) as [rs cache'].
  apply IH; [|tauto]. rewrite lookup_insert_ne; [exact Hsnap|]. intros ->. tauto.
Qed.

(** C19: a reload that lands while a cycle is awaiting [pollRouters]
    does not wait for the next cycle.  From any state polling [pc], the
    reload of a document that loads and then the end of the in-flight
    [pollRouters] are two possible events; the cycle polled the routers
    of the old poll configuration [pc] but resolves its snapshot against
    the new topology: a router it polled that the new topology lacks gets
    no entry, and a router of the new topology that [pc] did not poll is
    published in [error] with "No SNMP data". *)
Theorem reload_mid_cycle_mixes_configurations (s : Server) (pc : gmap string RouterConfig)
    (parsed : RawConfig) (cfg : RuntimeConfig) (agents : string -> list string -> SnmpResponse)
    (clock : string -> Z) (schedule : list (string * RouterConfig)) (timestamp : string) :
  sv_phase s = Polling pc -> NoDup (map fst (raw_routers parsed)) -> loadRuntimeConfig parsed = inr cfg ->
  Permutation schedule (map_to_list pc) ->
  let s1 := on_reload s (inr cfg) in
  let r := pollRouters agents clock schedule (sv_cache s1) in
  let s2 := on_poll_done s1 r.1 r.2 timestamp in
  step s s1 /\ step s1 s2 /\
  exists p, sv_latestMetrics s2 = Some p /\ p = metrics_payload (rt_topology cfg) r.1 timestamp /\
    (forall id, pc !! id <> None -> ~ In id (map rd_id (td_routers (rt_topology cfg))) ->
       mp_routers p !! id = None) /\
    (forall rt, In rt (td_routers (rt_topology cfg)) -> pc !! rd_id rt = None ->
       exists rm, mp_routers p !! rd_id rt = Some rm /\ rm_status rm = error /\
                  rm_error rm = Some "No SNMP data"%string).
Proof.
  intros Hph Hnd E Hperm. cbv zeta.
  set (snap := (pollRouters agents clock schedule (sv_cache (on_reload s (inr cfg)))).1).
  destruct (loaded_topology_ok parsed cfg Hnd E) as [Hids _].
  destruct (toRouterMetrics_lookup snap (rt_topology cfg) Hids) as [Hin Hout].
  split; [rewrite <- E; apply step_reload, Hnd|].
  split; [apply (step_poll_done _ pc); [exact Hph | exact Hperm]|].
  eexists. split; [reflexivity|]. split; [reflexivity|]. cbn [mp_routers metrics_payload].
  change (sv_config (on_reload s (inr cfg))) with cfg.
  split; [intros id _ Hid; apply Hout, Hid|].
  intros rt Hrt Hpc. rewrite (Hin rt Hrt). eexists. split; [reflexivity|].
  unfold router_entry, snap. rewrite pollRouters_unpolled; [split; reflexivity|].
  intros Hk. apply in_map_iff in Hk as ([k v] & Hk & Hkv). cbn in Hk. subst k.
  apply (Permutation_in _ Hperm) in Hkv. rewrite <- list_elem_of_In, elem_of_map_to_list in Hkv.
  congruence.
Qed.

(** ** Witnesses *)

Definition ex_first_cycle (cfg : RuntimeConfig) : Server :=
  let s0 := init cfg [] in
  let r := pollRouters ex_answer (fun _ => 1000%Z) (map_to_list (rt_routerPollConfig cfg)) (sv_cache s0) in
  on_poll_done s0 r.1 r.2 "t".

Lemma ex_first_cycle_reachable (cfg : RuntimeConfig) :
  loadRuntimeConfig (ex_doc "core") = inr cfg ->
  reachable (init cfg []) /\ step (init cfg []) (ex_first_cycle cfg).
Proof.
  intros E. split.
  - apply (reach_init (ex_doc "core") cfg []); [decide_by_compute | exact E | constructor].
  - apply (step_poll_done (init cfg []) (rt_routerPollConfig cfg)); [reflexivity | apply Permutation_refl].
Qed.

(** The first cycle of a configuration polling router "core" is in
    flight when a configuration with router "core2" instead loads. *)
Lemma reload_mid_cycle_mixes_configurations_witness :
  exists cfg1 cfg2, loadRuntimeConfig (ex_doc "core") = inr cfg1 /\
    loadRuntimeConfig (ex_doc "core2") = inr cfg2 /\
    rt_routerPollConfig cfg1 !! "core"%string <> None /\
    ~ In "core"%string (map rd_id (td_routers (rt_topology cfg2))) /\
    let s1 := on_reload (init cfg1 []) (inr cfg2) in
    let r := pollRouters ex_answer (fun _ => 1000%Z) (map_to_list (rt_routerPollConfig cfg1)) (sv_cache s1) in
    let s2 := on_poll_done s1 r.1 r.2 "t" in
    step (init cfg1 []) s1 /\ step s1 s2 /\
    exists p, sv_latestMetrics s2 = Some p /\ p = metrics_payload (rt_topology cfg2) r.1 "t" /\
      (forall id, rt_routerPollConfig cfg1 !! id <> None ->
         ~ In id (map rd_id (td_routers (rt_topology cfg2))) -> mp_routers p !! id = None) /\
      (forall rt, In rt (td_routers (rt_topology cfg2)) -> rt_routerPollConfig cfg1 !! rd_id rt = None ->
         exists rm, mp_routers p !! rd_id rt = Some rm /\ rm_status rm = error /\
                    rm_error rm = Some "No SNMP data"%string).
Proof.
  destruct (loadRuntimeConfig (ex_doc "core")) as [e|cfg1] eqn:E1; [vm_compute in E1; discriminate|].
  destruct (loadRuntimeConfig (ex_doc "core2")) as [e|cfg2] eqn:E2; [vm_compute in E2; discriminate|].
  exists cfg1, cfg2. split; [reflexivity|]. split; [reflexivity|].
  split; [vm_compute in E1; injection E1 as <-; vm_compute; discriminate|].
  split; [vm_compute in E2; injection E2 as <-; vm_compute; intros [H|[]]; discriminate H|].
  apply (reload_mid_cycle_mixes_configurations (init cfg1 []) (rt_routerPollConfig cfg1) (ex_doc "core2"));
    [reflexivity | decide_by_compute | exact E2 | apply Permutation_refl].
Defined.

Lemma pollLoop_always_rescheduled_witness :
  exists s, reachable s /\ (sv_phase s = Idle <-> exists delay, sv_timer s = Some delay).
Proof.
  destruct (loadRuntimeConfig (ex_doc "core")) as [e|cfg] eqn:E; [vm_compute in E; discriminate|].
  destruct (ex_first_cycle_reachable cfg E) as [H0 _].
  exists (init cfg []). split; [exact H0 | exact (pollLoop_always_rescheduled (init cfg []) H0)].
Defined.

Lemma latestMetrics_complete_witness :
  exists s p, reachable s /\ sv_latestMetrics s = Some p /\
    exists s0 snapshot cache timestamp,
      reachable s0 /\ step s0 (on_poll_done s0 snapshot cache timestamp) /\
      clos_refl_trans Server step (on_poll_done s0 snapshot cache timestamp) s /\
      p = metrics_payload (rt_topology (sv_config s0)) snapshot timestamp /\
      topology_ok (rt_topology (sv_config s0)) /\ payload_complete (rt_topology (sv_config s0)) p.
Proof.
  destruct (loadRuntimeConfig (ex_doc "core")) as [e|cfg] eqn:E; [vm_compute in E; discriminate|].
  destruct (ex_first_cycle_reachable cfg E) as [H0 H1].
  assert (Hr : reachable (ex_first_cycle cfg)) by exact (reach_step _ _ H0 H1).
  exists (ex_first_cycle cfg), (metrics_payload (rt_topology cfg) (pollRouters ex_answer (fun _ => 1000%Z)
     (map_to_list (rt_routerPollConfig cfg)) ∅).1 "t").
  split; [exact Hr|]. split; [reflexivity|].
  exact (latestMetrics_complete (ex_first_cycle cfg) _ Hr eq_refl).
Defined.

Lemma served_snapshot_changes_on_publish_witness :
  exists s s', step s s' /\ get_metrics s' <> get_metrics s /\
    (exists pc, sv_phase s = Polling pc) /\
    exists p, sv_latestMetrics s' = Some p /\ get_metrics s' = Json p /\ sv_phase s' = Saving p.
Proof.
  destruct (loadRuntimeConfig (ex_doc "core")) as [e|cfg] eqn:E; [vm_compute in E; discriminate|].
  destruct (ex_first_cycle_reachable cfg E) as [_ H1].
  assert (Hne : get_metrics (ex_first_cycle cfg) <> get_metrics (init cfg [])) by discriminate.
  exists (init cfg []), (ex_first_cycle cfg). split; [exact H1|]. split; [exact Hne|].
  exact (served_snapshot_changes_on_publish _ _ H1 Hne).
Defined.

Lemma served_image_newest_witness :
  exists s, reachable s /\
    (List.length (collectSnapshotFiles (Some (sv_images s))) <= MAX_SAVED_MAP_IMAGES)%nat /\
    sendLatestSnapshot s =
      match collectSnapshotFiles (Some (sv_images s)) with
      | f :: _ => File (sf_fullPath f)
      | [] => HttpStatus 404 "Map image not available"
      end.
Proof.
  destruct (loadRuntimeConfig (ex_doc "core")) as [e|cfg] eqn:E; [vm_compute in E; discriminate|].
  assert (H0 : reachable (init cfg ex_dir))
    by (apply (reach_init (ex_doc "core") cfg ex_dir); [decide_by_compute | exact E | decide_by_compute]).
  exists (init cfg ex_dir). split; [exact H0 | exact (served_image_newest _ H0)].
Defined.
