(* ===== verification/Ui.v ===== *)
(** * The interactive frontend: its state and events

    The module-level state of [src/src/frontend/main.ts] ([topology],
    [metrics], [linkCapacityMap], [capacityRange], [linkPathMap],
    [layoutMode], [pointerState], [backgroundLoaded], the image source,
    [sidebarVisible], [renderState], the canvas size and its 2D context)
    as the record [Ui], and every event handler of the file as one step
    [ui_step]: the initial fetches, the WebSocket messages
    ([handleServerMessage], [applyTopology]), the pointer handlers of
    layout mode, the Escape key, the sidebar and layout buttons, the
    background image's load and error, and window resizes.  The DOM of
    the sidebar ([renderHud]), the clipboard and pointer capture are
    effects outside this state.  The browser's window size, pixel ratio,
    canvas position, URL resolution, text metrics and [localeCompare]
    are section variables.

    The theorem: in every state reachable by a sequence of events, a drag
    happens only in layout mode, the link paths and capacities are those
    of the current topology and metrics, and the canvas context is back
    in its initial state between frames. *)

From Stdlib Require Import QArith Qreals Reals Lra Lia List String.
From stdpp Require Import base gmap strings.
From S2P Require Import Prelude Status Topology Geometry Fanout Canvas Scale Render Frontend Backend.
Import ListNotations.

Local Open Scope R_scope.

Record PointerState := {
  ps_dragging : bool;
  ps_routerId : option string;
  ps_pointerId : option Z;
  ps_offset : option Pt
}.

Record RenderState := {
  rs_baseWidth : R;
  rs_baseHeight : R;
  rs_scale : R;
  rs_dpr : R
}.

Record Ui := {
  ui_topology : option TopologyDefinition;
  ui_metrics : option MetricsPayload;
  ui_linkCapacityMap : gmap string (option Q);
  ui_capacityRange : option (Q * Q);
  ui_linkPathMap : gmap string (list Pt);
  ui_layoutMode : bool;
  ui_pointer : PointerState;
  ui_backgroundLoaded : bool;
  ui_backgroundSrc : string;
  ui_sidebarVisible : bool;
  ui_render : RenderState;
  ui_canvasWidth : Z;
  ui_canvasHeight : Z;
  ui_cssWidth : R;
  ui_cssHeight : R;
  ui_canvas : Canvas
}.

Inductive UiEvent :=
| EvTopologyFetched (topology : TopologyDefinition)
| EvMetricsFetched (metrics : option MetricsPayload)
| EvServerMessage (message : ServerMessage)
| EvPointerDown (pointerId : Z) (clientX clientY : R)
| EvPointerMove (pointerId : Z) (clientX clientY : R)
| EvPointerUp (pointerId : Z)
| EvEscape
| EvToggleLayout
| EvExitLayout
| EvToggleSidebar
| EvSidebarPeek
| EvImageLoad (success : bool)
| EvResize.

(** [pointerState] after [cancelDragging]. *)
Definition no_pointer : PointerState :=
  {| ps_dragging := false; ps_routerId := None; ps_pointerId := None; ps_offset := None |}.

(** [Math.round]. *)
Definition js_round (v : R) : Z := Int_part (v + / 2).

(** [ROUTER_HIT_RADIUS]. *)
Definition ROUTER_HIT_RADIUS : R := 24.

(** [findRouterAtPoint]: the first router within the hit radius. *)
Definition findRouterAtPoint (topology : option TopologyDefinition) (point : Pt) : option RouterDefinition :=
  match topology with
  | None => None
  | Some t =>
      List.find (fun r => if Rle_dec (seg_len point (pt_of (rd_position r))) ROUTER_HIT_RADIUS
                          then true else false) (td_routers t)
  end.

(** [router.position.x = ...; router.position.y = ...] on the first
    router [topology.routers.find] returns. *)
Fixpoint move_first (id : string) (p : Position) (routers : list RouterDefinition) : list RouterDefinition :=
  match routers with
  | [] => []
  | r :: rest =>
      if String.eqb (rd_id r) id
      then {| rd_id := rd_id r; rd_label := rd_label r; rd_position := p;
              rd_interfaces := rd_interfaces r |} :: rest
      else r :: move_first id p rest
  end.

Definition with_routers (t : TopologyDefinition) (routers : list RouterDefinition) : TopologyDefinition :=
  {| td_title := td_title t; td_backgroundImage := td_backgroundImage t; td_mapSize := td_mapSize t;
     td_pollIntervalMs := td_pollIntervalMs t; td_routers := routers; td_links := td_links t |}.

(** ** Moving a router keeps the capacities *)

Lemma find_move_first (rid id : string) (p : Position) (routers : list RouterDefinition) :
  option_map rd_interfaces (List.find (fun r => String.eqb (rd_id r) rid) (move_first id p routers)) =
  option_map rd_interfaces (List.find (fun r => String.eqb (rd_id r) rid) routers).
Proof.
  induction routers as [|r rest IH]; [reflexivity|]. simpl.
  destruct (String.eqb (rd_id r) id); simpl; destruct (String.eqb (rd_id r) rid); auto.
Qed.

Lemma interfaceDefinitionCapacity_move (t : TopologyDefinition) (id : string) (p : Position)
    (rid name : string) :
  interfaceDefinitionCapacity (Some (with_routers t (move_first id p (td_routers t)))) rid name =
  interfaceDefinitionCapacity (Some t) rid name.
Proof.
  unfold interfaceDefinitionCapacity. cbn [td_routers with_routers].
  pose proof (find_move_first rid id p (td_routers t)) as E.
  destruct (List.find _ (move_first _ _ _)) as [r1|], (List.find _ (td_routers t)) as [r2|];
    simpl in E; try discriminate; [|reflexivity].
  injection E as E. rewrite E. reflexivity.
Qed.

(** Dragging a router changes positions only: the capacities the
    frontend derives stay the same. *)
Lemma rebuildLinkCapacities_move (t : TopologyDefinition) (metrics : option MetricsPayload)
    (id : string) (p : Position) :
  rebuildLinkCapacities (Some (with_routers t (move_first id p (td_routers t)))) metrics =
  rebuildLinkCapacities (Some t) metrics.
Proof.
  unfold rebuildLinkCapacities. cbn [td_links with_routers].
  erewrite fold_left_ext; [reflexivity|]. intros [caps m] link. unfold frontend_link_capacity.
  rewrite !interfaceDefinitionCapacity_move. reflexivity.
Qed.

Section Browser.
Variable measureText : string -> R.
Variable localeCompare : string -> string -> comparison.
Variables innerWidth innerHeight : R.
(** [window.devicePixelRatio || 1]. *)
Variable devicePixelRatio : R.
(** [canvas.getBoundingClientRect()]'s [left] and [top]. *)
Variables rectLeft rectTop : R.
(** [new URL(path, window.location.origin).toString()]. *)
Variable resolveUrl : string -> string.

Definition dpr : R := if Req_EM_T devicePixelRatio 0 then 1 else devicePixelRatio.

Definition ui_init : Ui :=
  {| ui_topology := None; ui_metrics := None; ui_linkCapacityMap := ∅; ui_capacityRange := None;
     ui_linkPathMap := ∅; ui_layoutMode := false; ui_pointer := no_pointer;
     ui_backgroundLoaded := false; ui_backgroundSrc := ""; ui_sidebarVisible := true;
     ui_render := {| rs_baseWidth := innerWidth; rs_baseHeight := innerHeight; rs_scale := 1;
                     rs_dpr := dpr |};
     ui_canvasWidth := 300; ui_canvasHeight := 150; ui_cssWidth := 300; ui_cssHeight := 150;
     ui_canvas := fresh_canvas |}.

(** A copy of the state with some fields replaced. *)
Definition set_derived (u : Ui) (capacityMap : gmap string (option Q)) (range : option (Q * Q))
    (paths : gmap string (list Pt)) : Ui :=
  {| ui_topology := ui_topology u; ui_metrics := ui_metrics u; ui_linkCapacityMap := capacityMap;
     ui_capacityRange := range; ui_linkPathMap := paths; ui_layoutMode := ui_layoutMode u;
     ui_pointer := ui_pointer u; ui_backgroundLoaded := ui_backgroundLoaded u;
     ui_backgroundSrc := ui_backgroundSrc u; ui_sidebarVisible := ui_sidebarVisible u;
     ui_render := ui_render u; ui_canvasWidth := ui_canvasWidth u; ui_canvasHeight := ui_canvasHeight u;
     ui_cssWidth := ui_cssWidth u; ui_cssHeight := ui_cssHeight u; ui_canvas := ui_canvas u |}.

Definition set_model (u : Ui) (topology : option TopologyDefinition) (metrics : option MetricsPayload) : Ui :=
  {| ui_topology := topology; ui_metrics := metrics; ui_linkCapacityMap := ui_linkCapacityMap u;
     ui_capacityRange := ui_capacityRange u; ui_linkPathMap := ui_linkPathMap u;
     ui_layoutMode := ui_layoutMode u; ui_pointer := ui_pointer u;
     ui_backgroundLoaded := ui_backgroundLoaded u; ui_backgroundSrc := ui_backgroundSrc u;
     ui_sidebarVisible := ui_sidebarVisible u; ui_render := ui_render u;
     ui_canvasWidth := ui_canvasWidth u; ui_canvasHeight := ui_canvasHeight u;
     ui_cssWidth := ui_cssWidth u; ui_cssHeight := ui_cssHeight u; ui_canvas := ui_canvas u |}.

Definition set_controls (u : Ui) (layoutMode : bool) (pointer : PointerState) (sidebarVisible : bool) : Ui :=
  {| ui_topology := ui_topology u; ui_metrics := ui_metrics u;
     ui_linkCapacityMap := ui_linkCapacityMap u; ui_capacityRange := ui_capacityRange u;
     ui_linkPathMap := ui_linkPathMap u; ui_layoutMode := layoutMode; ui_pointer := pointer;
     ui_backgroundLoaded := ui_backgroundLoaded u; ui_backgroundSrc := ui_backgroundSrc u;
     ui_sidebarVisible := sidebarVisible; ui_render := ui_render u;
     ui_canvasWidth := ui_canvasWidth u; ui_canvasHeight := ui_canvasHeight u;
     ui_cssWidth := ui_cssWidth u; ui_cssHeight := ui_cssHeight u; ui_canvas := ui_canvas u |}.

Definition set_view (u : Ui) (loaded : bool) (src : string) (render : RenderState)
    (canvasWidth canvasHeight : Z) (cssWidth cssHeight : R) (canvas : Canvas) : Ui :=
  {| ui_topology := ui_topology u; ui_metrics := ui_metrics u;
     ui_linkCapacityMap := ui_linkCapacityMap u; ui_capacityRange := ui_capacityRange u;
     ui_linkPathMap := ui_linkPathMap u; ui_layoutMode := ui_layoutMode u; ui_pointer := ui_pointer u;
     ui_backgroundLoaded := loaded; ui_backgroundSrc := src; ui_sidebarVisible := ui_sidebarVisible u;
     ui_render := render; ui_canvasWidth := canvasWidth; ui_canvasHeight := canvasHeight;
     ui_cssWidth := cssWidth; ui_cssHeight := cssHeight; ui_canvas := canvas |}.

Definition set_canvas (u : Ui) (canvas : Canvas) : Ui :=
  set_view u (ui_backgroundLoaded u) (ui_backgroundSrc u) (ui_render u) (ui_canvasWidth u)
    (ui_canvasHeight u) (ui_cssWidth u) (ui_cssHeight u) canvas.

(** [rebuildLinkCapacities]. *)
Definition ui_rebuildLinkCapacities (u : Ui) : Ui :=
  match rebuildLinkCapacities (ui_topology u) (ui_metrics u) with
  | None => u
  | Some (m, range) => set_derived u m range (ui_linkPathMap u)
  end.

(** [rebuildLinkPaths]: [computeLinkPaths] of the current topology. *)
Definition rebuildLinkPaths (u : Ui) : Ui :=
  match ui_topology u with
  | None => u
  | Some t => set_derived u (ui_linkCapacityMap u) (ui_capacityRange u) (computeLinkPaths localeCompare t)
  end.

(** [resizeCanvas].  Assigning [canvas.width] resets the context and clears the bitmap. *)
Definition resizeCanvas (u : Ui) : Ui :=
  match ui_topology u with
  | None => u
  | Some t =>
      let baseWidth := match td_mapSize t with Some s => Q2R (ms_width s) | None => innerWidth end in
      let baseHeight := match td_mapSize t with Some s => Q2R (ms_height s) | None => innerHeight end in
      let scale := match td_mapSize t with
                   | Some _ => Rmin (innerWidth / baseWidth) (innerHeight / baseHeight)
                   | None => 1
                   end in
      let width := baseWidth * scale in
      let height := baseHeight * scale in
      set_view u (ui_backgroundLoaded u) (ui_backgroundSrc u)
        {| rs_baseWidth := baseWidth; rs_baseHeight := baseHeight; rs_scale := scale; rs_dpr := dpr |}
        (Z.max 1 (Int_part (width * dpr))) (Z.max 1 (Int_part (height * dpr))) width height
        {| cv_state := initial_state; cv_stack := []; cv_path := []; cv_marks := [] |}
  end.

(** [screenToMap]. *)
Definition screenToMap (u : Ui) (clientX clientY : R) : Pt :=
  let scaleX := IZR (ui_canvasWidth u) / ui_cssWidth u in
  let scaleY := IZR (ui_canvasHeight u) / ui_cssHeight u in
  let xPx := (clientX - rectLeft) * scaleX in
  let yPx := (clientY - rectTop) * scaleY in
  let transform := rs_dpr (ui_render u) * rs_scale (ui_render u) in
  {| x := xPx / transform; y := yPx / transform |}.

(** The commands of one [draw()] frame. *)
Definition frame (u : Ui) (t : TopologyDefinition) : list Cmd :=
  let rs := ui_render u in
  let transformScale := rs_dpr rs * rs_scale rs in
  let routerMap := frontend_buildRouterMap (td_routers t) in
  let linkMetricsMap : gmap string LinkMetrics :=
    match ui_metrics u with
    | Some m => fold_left (fun acc (l : LinkMetrics) => <[lm_id l := l]> acc) (mp_links m) ∅
    | None => ∅
    end in
  [Save; SetAttr (Transform 1 0 0 1 0 0);
   ClearRect 0 0 (IZR (ui_canvasWidth u)) (IZR (ui_canvasHeight u)); Restore;
   Save; SetAttr (Transform transformScale 0 0 transformScale 0 0)] ++
  frontend_drawBackground (ui_backgroundLoaded u) (ui_backgroundSrc u) (rs_baseWidth rs) (rs_baseHeight rs) ++
  List.flat_map (fun link =>
    match routerMap !! ld_from link, routerMap !! ld_to link with
    | Some fromRouter, Some toRouter =>
        let metric : option LinkMetrics := linkMetricsMap !! ld_id link in
        let forwardUtil := frontend_interfaceUtilization (metric ≫= lm_forward) in
        let reverseUtil := frontend_interfaceUtilization (metric ≫= lm_reverse) in
        let label := match metric ≫= lm_label with Some l => Some l | None => ld_label link end in
        let capacity := default None (ui_linkCapacityMap u !! ld_id link) in
        let path := default [pt_of (rd_position fromRouter); pt_of (rd_position toRouter)]
                      (ui_linkPathMap u !! ld_id link) in
        frontend_drawLink measureText (ui_capacityRange u) path forwardUtil reverseUtil capacity label
    | _, _ => []
    end) (td_links t) ++
  List.flat_map (fun router =>
    frontend_drawRouter measureText router (ui_metrics u ≫= fun m => mp_routers m !! rd_id router))
    (td_routers t) ++
  (if ui_layoutMode u then
     List.flat_map (fun router =>
       [Save; strokeStyle "rgba(59, 130, 246, 0.8)"; SetAttr (LineDash [6; 6]);
        SetAttr (LineWidth (15 / 10)); BeginPath;
        Arc (x (pt_of (rd_position router))) (y (pt_of (rd_position router))) 20 0 (PI * 2);
        Stroke; Restore]) (td_routers t)
   else []) ++
  [Restore].

(** [draw()]. *)
Definition draw (u : Ui) : Ui :=
  match ui_topology u with
  | None => u
  | Some t => set_canvas u (run (frame u t) (ui_canvas u))
  end.

(** [applyTopology]. *)
Definition applyTopology (next : TopologyDefinition) (u : Ui) : Ui :=
  let u1 := rebuildLinkPaths (ui_rebuildLinkCapacities (set_model u (Some next) (ui_metrics u))) in
  let url := resolveUrl (td_backgroundImage next) in
  let u2 := if String.eqb (ui_backgroundSrc u1) url then u1
            else set_view u1 false url (ui_render u1) (ui_canvasWidth u1) (ui_canvasHeight u1)
                   (ui_cssWidth u1) (ui_cssHeight u1) (ui_canvas u1) in
  draw (resizeCanvas u2).

(** New metrics: [handleServerMessage] and [fetchInitialMetrics]. *)
Definition applyMetrics (m : MetricsPayload) (u : Ui) : Ui :=
  draw (ui_rebuildLinkCapacities (set_model u (ui_topology u) (Some m))).

Definition handleServerMessage (message : ServerMessage) (u : Ui) : Ui :=
  match message with
  | MsgTopology t => applyTopology t u
  | MsgMetrics m => applyMetrics m u
  end.

(** [cancelDragging]. *)
Definition cancelDragging (u : Ui) : Ui := set_controls u (ui_layoutMode u) no_pointer (ui_sidebarVisible u).

(** [setLayoutMode]. *)
Definition setLayoutMode (enabled : bool) (u : Ui) : Ui :=
  if Bool.eqb (ui_layoutMode u) enabled then u
  else
    let u1 := set_controls u enabled (ui_pointer u) (ui_sidebarVisible u) in
    let u2 := if enabled then u1 else cancelDragging u1 in
    let u3 := if enabled then rebuildLinkPaths u2 else u2 in
    draw u3.

Definition handlePointerDown (pointerId : Z) (clientX clientY : R) (u : Ui) : Ui :=
  if negb (ui_layoutMode u) then u
  else match ui_topology u with
  | None => u
  | Some _ =>
      let point := screenToMap u clientX clientY in
      match findRouterAtPoint (ui_topology u) point with
      | None => u
      | Some router =>
          let p := pt_of (rd_position router) in
          set_controls u (ui_layoutMode u)
            {| ps_dragging := true; ps_routerId := Some (rd_id router); ps_pointerId := Some pointerId;
               ps_offset := Some {| x := x p - x point; y := y p - y point |} |}
            (ui_sidebarVisible u)
      end
  end.

Definition handlePointerMove (pointerId : Z) (clientX clientY : R) (u : Ui) : Ui :=
  let ps := ui_pointer u in
  if negb (ps_dragging ps) then u
  else if negb (bool_decide (ps_pointerId ps = Some pointerId)) then u
  else match ui_topology u with
  | None => u
  | Some t =>
      match List.find (fun r => bool_decide (Some (rd_id r) = ps_routerId ps)) (td_routers t) with
      | None => u
      | Some router =>
          let point := screenToMap u clientX clientY in
          let offset := default {| x := 0; y := 0 |} (ps_offset ps) in
          let position := {| px := inject_Z (js_round (x point + x offset));
                             py := inject_Z (js_round (y point + y offset)) |} in
          let t' := with_routers t (move_first (rd_id router) position (td_routers t)) in
          draw (rebuildLinkPaths (set_model u (Some t') (ui_metrics u)))
      end
  end.

Definition handlePointerUp (pointerId : Z) (u : Ui) : Ui :=
  if negb (ps_dragging (ui_pointer u)) then u
  else if bool_decide (ps_pointerId (ui_pointer u) = Some pointerId) then cancelDragging u
  else u.

(** [backgroundImage.onload] ([success]) and [backgroundImage.onerror]. *)
Definition onImageLoad (success : bool) (u : Ui) : Ui :=
  draw (set_view u success (ui_backgroundSrc u) (ui_render u) (ui_canvasWidth u) (ui_canvasHeight u)
          (ui_cssWidth u) (ui_cssHeight u) (ui_canvas u)).

(** The window's [resize] listener. *)
Definition onResize (u : Ui) : Ui :=
  match ui_topology u with
  | None => u
  | Some _ => draw (resizeCanvas u)
  end.

(** One event. *)
Definition ui_step (u : Ui) (ev : UiEvent) : Ui :=
  match ev with
  | EvTopologyFetched t => applyTopology t u
  | EvMetricsFetched None => u
  | EvMetricsFetched (Some m) => applyMetrics m u
  | EvServerMessage msg => handleServerMessage msg u
  | EvPointerDown pid cx cy => handlePointerDown pid cx cy u
  | EvPointerMove pid cx cy => handlePointerMove pid cx cy u
  | EvPointerUp pid => handlePointerUp pid u
  | EvEscape => if ui_layoutMode u then setLayoutMode false u else u
  | EvToggleLayout => setLayoutMode (negb (ui_layoutMode u)) u
  | EvExitLayout => setLayoutMode false u
  | EvToggleSidebar | EvSidebarPeek =>
      set_controls u (ui_layoutMode u) (ui_pointer u) (negb (ui_sidebarVisible u))
  | EvImageLoad success => onImageLoad success u
  | EvResize => onResize u
  end.

Definition ui_run (events : list UiEvent) : Ui := fold_left ui_step events ui_init.

(** ** The invariant *)

Definition drag_ok (u : Ui) : Prop :=
  ps_dragging (ui_pointer u) = true ->
  ui_layoutMode u = true /\ ps_pointerId (ui_pointer u) <> None /\ ps_routerId (ui_pointer u) <> None.

Definition paths_ok (u : Ui) : Prop :=
  ui_linkPathMap u = match ui_topology u with Some t => computeLinkPaths localeCompare t | None => ∅ end.

Definition capacities_ok (u : Ui) : Prop :=
  match rebuildLinkCapacities (ui_topology u) (ui_metrics u) with
  | Some (m, range) => ui_linkCapacityMap u = m /\ ui_capacityRange u = range
  | None => ui_linkCapacityMap u = ∅ /\ ui_capacityRange u = None
  end.

Definition canvas_ok (u : Ui) : Prop := cv_state (ui_canvas u) = initial_state /\ cv_stack (ui_canvas u) = [].

Definition ui_inv (u : Ui) : Prop := drag_ok u /\ paths_ok u /\ capacities_ok u /\ canvas_ok u.

(** The part of the state the drawing does not touch. *)
Definition ui_model (u : Ui) :=
  (ui_topology u, ui_metrics u, ui_linkCapacityMap u, ui_capacityRange u, ui_linkPathMap u,
   ui_layoutMode u, ui_pointer u).

Ltac inv_simpl :=
  unfold ui_inv, drag_ok, paths_ok, capacities_ok, canvas_ok in *;
  cbn -[rebuildLinkCapacities computeLinkPaths] in *.

Lemma model_inv (u v : Ui) :
  ui_model v = ui_model u -> canvas_ok v -> ui_inv u -> ui_inv v.
Proof.
  unfold ui_model. intros E Hc (D & P & C & _). injection E as E1 E2 E3 E4 E5 E6 E7.
  unfold ui_inv, drag_ok, paths_ok, capacities_ok in *.
  rewrite E1, E2, E3, E4, E5, E6, E7. auto.
Qed.

Lemma frame_balanced (u : Ui) (t : TopologyDefinition) : balanced (frame u t) = true.
Proof.
  unfold frame, balanced. cbv zeta. cbn [app balanced_from].
  rewrite balanced_from_flat by apply frontend_drawBackground_flat.
  rewrite balanced_from_flat_map
    by (intros; repeat case_match; first [apply frontend_drawLink_balanced | reflexivity]).
  rewrite balanced_from_flat_map by (intros; apply frontend_drawRouter_balanced).
  destruct (ui_layoutMode u); [|reflexivity].
  rewrite balanced_from_flat_map by (intros; reflexivity). reflexivity.
Qed.

Lemma draw_inv (u : Ui) : ui_inv u -> ui_inv (draw u).
Proof.
  intros Hu. unfold draw. destruct (ui_topology u) as [t|] eqn:Et; [|exact Hu].
  apply (model_inv u); [reflexivity| |exact Hu]. destruct Hu as (_ & _ & _ & K1 & K2).
  unfold canvas_ok. cbn [set_canvas set_view ui_canvas].
  destruct (balanced_run (frame u t) (ui_canvas u) (frame_balanced u t)) as [E1 E2].
  rewrite E1, E2. auto.
Qed.

Lemma resize_inv (u : Ui) : ui_inv u -> ui_inv (resizeCanvas u).
Proof.
  intros Hu. unfold resizeCanvas. destruct (ui_topology u) as [t|]; [|exact Hu].
  apply (model_inv u); [reflexivity | split; reflexivity | exact Hu].
Qed.

Lemma set_view_inv (u : Ui) loaded src rs cw ch w h :
  ui_inv u -> ui_inv (set_view u loaded src rs cw ch w h (ui_canvas u)).
Proof. intros Hu. apply (model_inv u); [reflexivity | apply Hu | exact Hu]. Qed.

(** A new topology or new metrics: the derived maps are recomputed. *)
Lemma refresh_inv (u : Ui) (t : TopologyDefinition) (metrics : option MetricsPayload) :
  drag_ok u -> canvas_ok u ->
  ui_inv (rebuildLinkPaths (ui_rebuildLinkCapacities (set_model u (Some t) metrics))).
Proof.
  intros D K. unfold ui_rebuildLinkCapacities. cbn [set_model ui_topology ui_metrics].
  destruct (rebuildLinkCapacities (Some t) metrics) as [[m range]|] eqn:E.
  - inv_simpl. rewrite E. auto.
  - unfold rebuildLinkCapacities in E. destruct (fold_left _ _ _). discriminate.
Qed.

Lemma applyMetrics_inv (m : MetricsPayload) (u : Ui) : ui_inv u -> ui_inv (applyMetrics m u).
Proof.
  intros Hu. unfold applyMetrics. apply draw_inv.
  destruct (ui_topology u) as [t|] eqn:Et.
  - destruct Hu as (D & P & C & K). unfold ui_rebuildLinkCapacities. cbn [set_model ui_topology ui_metrics].
    destruct (rebuildLinkCapacities (Some t) (Some m)) as [[cm range]|] eqn:E.
    + inv_simpl. rewrite Et in P. rewrite E. auto.
    + unfold rebuildLinkCapacities in E. destruct (fold_left _ _ _). discriminate.
  - destruct Hu as (D & P & C & K). unfold ui_rebuildLinkCapacities. inv_simpl. rewrite Et in *. auto.
Qed.

Lemma applyTopology_inv (t : TopologyDefinition) (u : Ui) : ui_inv u -> ui_inv (applyTopology t u).
Proof.
  intros Hu. unfold applyTopology. cbv zeta. apply draw_inv, resize_inv.
  destruct Hu as (D & _ & _ & K). pose proof (refresh_inv u t (ui_metrics u) D K) as H1.
  destruct (String.eqb _ _); [exact H1|].
  apply (model_inv _ _ eq_refl); [apply H1 | exact H1].
Qed.

Lemma cancelDragging_inv (u : Ui) : ui_inv u -> ui_inv (cancelDragging u).
Proof.
  intros (D & P & C & K). split; [discriminate|]. split; [exact P|]. split; [exact C | exact K].
Qed.

Lemma setLayoutMode_inv (enabled : bool) (u : Ui) : ui_inv u -> ui_inv (setLayoutMode enabled u).
Proof.
  intros Hu. unfold setLayoutMode. destruct (Bool.eqb _ _); [exact Hu|]. cbv zeta.
  apply draw_inv. destruct Hu as (D & P & C & K). destruct enabled.
  - unfold rebuildLinkPaths. cbn [set_controls ui_topology].
    destruct (ui_topology u) as [t|] eqn:Et;
      inv_simpl; rewrite ?Et in *;
      (split; [intros Hd; destruct (D Hd) as (_ & H2 & H3); auto|]); auto.
  - unfold cancelDragging. inv_simpl.
    split; [discriminate | auto].
Qed.

Lemma handlePointerDown_inv (pid : Z) (cx cy : R) (u : Ui) :
  ui_inv u -> ui_inv (handlePointerDown pid cx cy u).
Proof.
  intros Hu. unfold handlePointerDown.
  destruct (ui_layoutMode u) eqn:El; [|exact Hu]. cbn [negb].
  destruct (ui_topology u); [|exact Hu]. destruct (findRouterAtPoint _ _) as [r|]; [|exact Hu].
  destruct Hu as (D & P & C & K). inv_simpl.
  split; [intros _; split; [reflexivity | split; discriminate]|]. auto.
Qed.

Lemma handlePointerMove_inv (pid : Z) (cx cy : R) (u : Ui) :
  ui_inv u -> ui_inv (handlePointerMove pid cx cy u).
Proof.
  intros Hu. unfold handlePointerMove. cbv zeta.
  destruct (negb (ps_dragging _)); [exact Hu|]. destruct (negb (bool_decide _)); [exact Hu|].
  destruct (ui_topology u) as [t|] eqn:Et; [|exact Hu].
  destruct (List.find _ _) as [r|]; [|exact Hu].
  apply draw_inv. destruct Hu as (D & P & C & K).
  unfold rebuildLinkPaths. inv_simpl.
  rewrite rebuildLinkCapacities_move. rewrite Et in C. auto.
Qed.

Lemma handlePointerUp_inv (pid : Z) (u : Ui) : ui_inv u -> ui_inv (handlePointerUp pid u).
Proof.
  intros Hu. unfold handlePointerUp.
  destruct (negb _); [exact Hu|]. destruct (bool_decide _); [apply cancelDragging_inv|]; exact Hu.
Qed.

Lemma ui_step_inv (u : Ui) (ev : UiEvent) : ui_inv u -> ui_inv (ui_step u ev).
Proof.
  intros Hu. destruct ev as [t|[m|]|[t|m]|pid cx cy|pid cx cy|pid| | | | | |success|]; cbn [ui_step].
  - apply applyTopology_inv, Hu.
  - apply applyMetrics_inv, Hu.
  - exact Hu.
  - apply applyTopology_inv, Hu.
  - apply applyMetrics_inv, Hu.
  - apply handlePointerDown_inv, Hu.
  - apply handlePointerMove_inv, Hu.
  - apply handlePointerUp_inv, Hu.
  - destruct (ui_layoutMode u); [apply setLayoutMode_inv|]; exact Hu.
  - apply setLayoutMode_inv, Hu.
  - apply setLayoutMode_inv, Hu.
  - destruct Hu as (D & P & C & K). split; [exact D|]. auto.
  - destruct Hu as (D & P & C & K). split; [exact D|]. auto.
  - apply draw_inv, set_view_inv, Hu.
  - unfold onResize. destruct (ui_topology u); [apply draw_inv, resize_inv|]; exact Hu.
Qed.

Lemma ui_init_inv : ui_inv ui_init.
Proof.
  split; [discriminate|]. split; [reflexivity|]. split; [split; reflexivity | split; reflexivity].
Qed.
Lemma ui_steps_inv (events : list UiEvent) (u : Ui) :
  ui_inv u -> ui_inv (fold_left ui_step events u).
Proof.
  revert u. induction events as [|ev events IH]; intros u Hu; [exact Hu|].
  apply IH, ui_step_inv, Hu.
Qed.

(** C39: whatever sequence of fetch results, server messages, pointer, keyboard, button,
    image and resize events the page receives, the state it reaches satisfies the
    invariant: a drag is in progress only in layout mode and with a pointer and a router
    recorded, the link paths are those [computeLinkPaths] gives for the current topology,
    the capacity map and range are those [rebuildLinkCapacities] gives for the current
    topology and metrics, and the canvas context is back at its initial state with an
    empty save stack between frames. *)
Theorem ui_invariant (events : list UiEvent) : ui_inv (ui_run events).
Proof. apply ui_steps_inv, ui_init_inv. Qed.
End Browser.
