(* ===== verification/Hud.v ===== *)
(** * The frontend's heads-up display: the numbers it prints

    The pure helpers [renderHud] of [src/src/frontend/main.ts] builds its
    panel from: [formatPercent], [formatThroughput] with its loop over the
    units, [renderUtilBar], the ranking of the top five links by aggregate
    utilisation and the list items that show them, and the utilisation an
    interface row of a router card shows.  JavaScript's number printing
    ([String(x)] and [x.toFixed(d)]) is not part of the sources: it is a
    [Variable] of the section, so every theorem holds for any printing.

    The theorems: the unit loop of [formatThroughput] exits within its
    five iterations and its result does not depend on more; the value it
    prints is the rate in the unit it picks, below 1000 except in Tbps and
    at least 1 except in bps; the width of a utilisation bar lies between
    0 and 100 per cent; the link ranking is the five most utilised links,
    most utilised first. *)

From Stdlib Require Import QArith Qround Lqa Lia List String Sorting Permutation.
From stdpp Require Import base gmap strings.
From S2P Require Import Prelude Topology Scale Frontend.
Import ListNotations.

Local Open Scope Q_scope.
Local Open Scope string_scope.

(** [Math.round]: the nearest integer, halves rounded up. *)
Definition js_round (q : Q) : Z := Qfloor (q + (1 # 2)).

(** [Math.min]. *)
Definition jsmin (a b : Q) : Q := if Qle_bool a b then a else b.

(** A double-quoted HTML attribute value. *)
Definition quoted (s : string) : string := String dquote (s ++ String dquote EmptyString).

Section Formatting.

(** [String(x)] of a number, as a template literal prints it. *)
Variable numberToString : Q -> string.
(** [x.toFixed(digits)]. *)
Variable toFixed : Q -> nat -> string.

(** [formatPercent]: a missing value is an em dash; otherwise the
    percentage rounded to one decimal. *)
Definition formatPercent (value : option Q) : string :=
  match value with
  | None => "—"
  | Some v => numberToString (inject_Z (js_round (v * 1000)) / 10) ++ "%"
  end.

(** The [units] of [formatThroughput]. *)
Definition units : list string := ["bps"; "Kbps"; "Mbps"; "Gbps"; "Tbps"].

(** The condition of the loop, [value >= 1000 && unitIndex < units.length - 1]. *)
Definition loop_guard (r : Q * nat) : bool :=
  Qle_bool 1000 (fst r) && Nat.ltb (snd r) (List.length units - 1).

(** The [while] loop of [formatThroughput]: divide by 1000 and move to
    the next unit while the value is at least 1000 and a larger unit
    exists.  The loop runs at most [length units - 1] times, and
    [formatThroughput] gives it [length units] iterations of fuel. *)
Fixpoint scale_down (fuel : nat) (value : Q) (unitIndex : nat) : Q * nat :=
  match fuel with
  | O => (value, unitIndex)
  | S fuel' =>
      if loop_guard (value, unitIndex)
      then scale_down fuel' (value / 1000) (S unitIndex)
      else (value, unitIndex)
  end.

(** [const precision = value >= 100 ? 0 : value >= 10 ? 1 : 2]. *)
Definition precision (value : Q) : nat :=
  if Qle_bool 100 value then 0%nat else if Qle_bool 10 value then 1%nat else 2%nat.

(** [formatThroughput]: a missing, zero or negative rate prints as
    [0 bps]; otherwise the scaled value with its precision and unit. *)
Definition formatThroughput (bps : option Q) : string :=
  match bps with
  | None => "0 bps"
  | Some b =>
      if Qle_bool b 0 then "0 bps"
      else let '(value, unitIndex) := scale_down (List.length units) b 0 in
           toFixed value (precision value) ++ " " ++ nth unitIndex units ""
  end.

(** [renderUtilBar]: the utilisation clamped to [[0, 1]], as a rounded
    percentage, is the width of the bar; the colour is [utilToColor]'s. *)
Definition util_bar_percent (utilization : option Q) : Z :=
  let clamped := match utilization with Some u => jsmax 0 (jsmin 1 u) | None => 0 end in
  js_round (clamped * 100).

Definition renderUtilBar (utilization : option Q) : string :=
  let percent := util_bar_percent utilization in
  let color := frontend_utilToColor utilization in
  "<div class=" ++ quoted "util-bar" ++ "><span class=" ++ quoted "util-bar-fill"
    ++ " style=" ++ quoted ("width:" ++ numberToString (inject_Z percent) ++ "%;background:" ++ color)
    ++ "></span></div>".

(** The utilisation of an interface row of a router card: the larger
    direction, or none without metrics (a [Q] is always finite). *)
Definition iface_row_utilisation (ifaceMetrics : option InterfaceMetrics) : option Q :=
  match ifaceMetrics with
  | Some m => Some (jsmax (im_inUtilization m) (im_outUtilization m))
  | None => None
  end.

(** The two rates of an interface row: up is the outbound rate, down the
    inbound one. *)
Definition iface_row_metrics (ifaceMetrics : option InterfaceMetrics) : string * string :=
  (escapeHtml (formatThroughput (option_map im_outBps ifaceMetrics)),
   escapeHtml (formatThroughput (option_map im_inBps ifaceMetrics))).

(** [(link.aggregateUtilization ?? 0)], the key of the ranking. *)
Definition aggregate_or_zero (link : LinkMetrics) : Q :=
  match lm_aggregateUtilization link with Some u => u | None => 0 end.

(** [linkRanking]: the links of the snapshot sorted by decreasing
    aggregate utilisation (a stable sort), the first five. *)
Definition linkRanking (metrics : option MetricsPayload) : list LinkMetrics :=
  match metrics with
  | Some m => firstn 5 (sort_desc aggregate_or_zero (mp_links m))
  | None => []
  end.

(** One item of the link list: the label, or [from → to] without one,
    and the aggregate utilisation. *)
Definition link_item (link : LinkMetrics) : string :=
  let fallbackLabel := lm_from link ++ " → " ++ lm_to link in
  let label := escapeHtml (match lm_label link with Some l => l | None => fallbackLabel end) in
  let metricValue := escapeHtml (formatPercent (lm_aggregateUtilization link)) in
  "<li><span>" ++ label ++ "</span><span class=" ++ quoted "metric" ++ ">" ++ metricValue ++ "</span></li>".

(** [linkList]. *)
Definition linkList (ranking : list LinkMetrics) : string :=
  match ranking with
  | [] => "<li>No link telemetry yet.</li>"
  | _ => String.concat "" (map link_item ranking)
  end.

End Formatting.

(** ** The unit loop of [formatThroughput] *)

(** [1000] to the power [k], the factor between the rate in bps and its
    value in the [k]-th unit. *)
Definition pow1000 (k : nat) : Q := inject_Z (1000 ^ Z.of_nat k).

Lemma pow1000_S (k : nat) : pow1000 (S k) == pow1000 k * 1000.
Proof.
  unfold pow1000. rewrite Nat2Z.inj_succ, Z.pow_succ_r by lia.
  rewrite inject_Z_mult. apply Qmult_comm.
Qed.

Lemma scale_down_step (f : nat) (v : Q) (i : nat) :
  scale_down (S f) v i =
    if loop_guard (v, i) then scale_down f (v / 1000) (S i) else (v, i).
Proof. reflexivity. Qed.

(** More fuel than the loop's remaining iterations does not change its
    result. *)
Lemma scale_down_fuel (f1 f2 : nat) (v : Q) (i : nat) :
  (4 - i < f1)%nat -> (4 - i < f2)%nat -> scale_down f1 v i = scale_down f2 v i.
Proof.
  revert f2 v i. induction f1 as [|f1 IH]; intros f2 v i H1 H2; [lia|].
  destruct f2 as [|f2]; [lia|]. rewrite !scale_down_step.
  destruct (loop_guard (v, i)) eqn:E; [|reflexivity].
  unfold loop_guard in E. apply andb_prop in E as [_ E]. apply Nat.ltb_lt in E.
  cbn in E. apply IH; lia.
Qed.

(** With enough fuel the loop stops because its condition fails. *)
Lemma scale_down_guard (f : nat) (v : Q) (i : nat) :
  (4 - i < f)%nat -> loop_guard (scale_down f v i) = false.
Proof.
  revert v i. induction f as [|f IH]; intros v i Hf; [lia|].
  rewrite scale_down_step. destruct (loop_guard (v, i)) eqn:E; [|exact E].
  unfold loop_guard in E. apply andb_prop in E as [_ E]. apply Nat.ltb_lt in E.
  cbn in E. apply IH; lia.
Qed.

(** What the loop keeps: the unit index only grows and stays within the
    units, the value stays positive and is the input in the current unit,
    and a value that was divided at least once is at least 1. *)
Lemma scale_down_inv (f : nat) (v : Q) (i : nat) :
  0 < v ->
  let r := scale_down f v i in
  (i <= snd r)%nat /\ ((i <= 4)%nat -> (snd r <= 4)%nat) /\ 0 < fst r /\
  fst r * pow1000 (snd r - i) == v /\ (1 <= v -> 1 <= fst r) /\ ((i < snd r)%nat -> 1 <= fst r).
Proof.
  revert v i. induction f as [|f IH]; intros v i Hv; cbn zeta.
  2: rewrite scale_down_step; destruct (loop_guard (v, i)) eqn:E.
  1, 3: cbn [fst snd scale_down]; rewrite Nat.sub_diag; change (pow1000 0) with 1;
        repeat split; intros; try lia; try lra; exfalso; lia.
  unfold loop_guard in E. apply andb_prop in E as [E1 E2].
  apply Qle_bool_iff in E1. apply Nat.ltb_lt in E2. cbn in E1, E2.
  change (v / 1000) with (v * (1 # 1000)).
  destruct (IH (v * (1 # 1000)) (S i)) as (Hi & Hle & Hpos & Heq & Hone & _); [lra|].
  repeat split; try lia; try lra.
  replace (snd (scale_down f (v * (1 # 1000)) (S i)) - i)%nat
      with (S (snd (scale_down f (v * (1 # 1000)) (S i)) - S i))%nat by lia.
  rewrite pow1000_S, Qmult_assoc, Heq. ring.
Qed.

(** ** The link ranking *)

Lemma linkRanking_split (m : MetricsPayload) :
  (linkRanking (Some m) ++ skipn 5 (sort_desc aggregate_or_zero (mp_links m)))%list =
  sort_desc aggregate_or_zero (mp_links m).
Proof. apply firstn_skipn. Qed.

(** C38: The HUD's top links are the five most utilised links of the
    snapshot (all of them when there are fewer), most utilised first:
    together with the links left out they are a permutation of the
    snapshot's links, and no link left out has a larger aggregate
    utilisation, counting a missing one as 0, than a link shown. *)
Theorem linkRanking_top5 (m : MetricsPayload) :
  let r := linkRanking (Some m) in
  (List.length r = Nat.min 5 (List.length (mp_links m)))%nat /\
  StronglySorted (desc aggregate_or_zero) r /\
  exists rest, Permutation (r ++ rest)%list (mp_links m) /\
    forall a b, In a r -> In b rest -> aggregate_or_zero b <= aggregate_or_zero a.
Proof.
  cbn zeta. pose proof (sort_desc_sorted aggregate_or_zero (mp_links m)) as Hs.
  rewrite <- (linkRanking_split m) in Hs. split; [|split].
  - unfold linkRanking. rewrite List.length_firstn, (Permutation_length (sort_desc_perm _ _)).
    reflexivity.
  - exact (StronglySorted_app_l _ _ _ Hs).
  - eexists. split; [rewrite linkRanking_split; apply sort_desc_perm|].
    exact (StronglySorted_app_inv _ _ _ Hs).
Qed.

(** ** The utilisation bar *)

Lemma js_round_mono (a b : Q) : a <= b -> (js_round a <= js_round b)%Z.
Proof. intros H. unfold js_round. apply Qfloor_resp_le. lra. Qed.

Lemma js_round_wd (a b : Q) : a == b -> js_round a = js_round b.
Proof. intros H. apply Z.le_antisymm; apply js_round_mono; lra. Qed.

(** [Math.max(0, Math.min(1, u))] is [u] clamped to [[0, 1]]. *)
Lemma clamp_spec (u : Q) :
  0 <= jsmax 0 (jsmin 1 u) <= 1 /\ (0 <= u <= 1 -> jsmax 0 (jsmin 1 u) == u).
Proof. unfold jsmax, jsmin. case_qle 1 u; [case_qle 1 0 | case_qle u 0]; lra. Qed.

(** The width of a utilisation bar is a percentage between 0 and 100,
    whatever the utilisation, and is the rounded percentage of a
    utilisation in [[0, 1]]. *)
Lemma util_bar_percent_bounds (u : option Q) :
  (0 <= util_bar_percent u <= 100)%Z /\
  forall x, u = Some x -> 0 <= x <= 1 -> util_bar_percent u = js_round (x * 100).
Proof.
  unfold util_bar_percent. split.
  - assert (Hc : forall c, 0 <= c <= 1 -> (0 <= js_round (c * 100) <= 100)%Z).
    { intros c Hc. split.
      - apply (Z.le_trans _ (js_round 0)); [compute; discriminate | apply js_round_mono; lra].
      - apply (Z.le_trans _ (js_round 100)); [apply js_round_mono; lra | compute; discriminate]. }
    destruct u as [x|]; apply Hc; [apply clamp_spec | lra].
  - intros x -> Hx. apply js_round_wd. destruct (clamp_spec x) as [_ ->]; [reflexivity | exact Hx].
Qed.

(** ** The unit loop: termination and the printed magnitude *)

(** C37: The [while] loop of [formatThroughput] on a positive rate
    terminates within the five iterations it is given, and it exits at a
    unit of the list: at its result the loop condition is false, the unit
    index names one of the five units, the value is the rate in that unit
    ([value * 1000^unitIndex = v]), the value is below 1000 unless the
    unit is the last one (Tbps), and any larger number of iterations gives
    the same result. *)
Theorem formatThroughput_loop_terminates (v : Q) :
  0 < v ->
  let r := scale_down (List.length units) v 0 in
  loop_guard r = false /\ (snd r < List.length units)%nat /\ fst r * pow1000 (snd r) == v /\
  (fst r < 1000 \/ snd r = (List.length units - 1)%nat) /\
  forall fuel, (List.length units <= fuel)%nat -> scale_down fuel v 0 = r.
Proof.
  intros Hv r.
  assert (Hfuel : forall fuel, (List.length units <= fuel)%nat -> scale_down fuel v 0 = r).
  { intros fuel Hf. unfold units in Hf. cbn in Hf. apply scale_down_fuel; cbn; lia. }
  pose proof (scale_down_guard (List.length units) v 0 ltac:(cbn; lia)) as Hg.
  destruct (scale_down_inv (List.length units) v 0 Hv) as (_ & Hle & _ & Heq & _).
  fold r in Hg, Hle, Heq. clearbody r. rewrite Nat.sub_0_r in Heq. specialize (Hle (Nat.le_0_l 4)).
  change (List.length units) with 5%nat in *.
  split; [exact Hg|]. split; [lia|]. split; [exact Heq|]. split; [|exact Hfuel].
  unfold loop_guard in Hg. apply andb_false_iff in Hg as [H | H].
  - left. apply Qle_bool_false in H. exact H.
  - right. apply Nat.ltb_ge in H. cbn in H. lia.
Qed.

(** For a positive rate [bps], [formatThroughput] prints a positive
    value in one of the five units with [value * 1000^unitIndex = bps];
    the value is below 1000 unless the unit is Tbps, and at least 1 unless
    the unit is bps. *)
Theorem formatThroughput_scale (bps : Q) :
  0 < bps ->
  let '(value, unitIndex) := scale_down (List.length units) bps 0 in
  (unitIndex < List.length units)%nat /\ 0 < value /\ value * pow1000 unitIndex == bps /\
  ((unitIndex < 4)%nat -> value < 1000) /\ ((0 < unitIndex)%nat -> 1 <= value).
Proof.
  intros Hb. pose proof (scale_down_guard (List.length units) bps 0 ltac:(cbn; lia)) as Hg.
  destruct (scale_down_inv (List.length units) bps 0 Hb) as (_ & Hle & Hpos & Heq & _ & Hone).
  destruct (scale_down (List.length units) bps 0) as [value unitIndex].
  cbn [fst snd] in *. rewrite Nat.sub_0_r in Heq. unfold loop_guard in Hg. cbn [fst snd] in Hg.
  repeat split; auto; [cbn; lia|]. intros Hi.
  apply Nat.ltb_lt in Hi. change (List.length units - 1)%nat with 4%nat in Hg. rewrite Hi, andb_true_r in Hg. apply Qle_bool_false in Hg. exact Hg.
Qed.

(** [formatThroughput] on 1234567 bps: the loop stops at 1.234567
    Mbps. *)
Lemma formatThroughput_scale_witness :
  0 < 1234567 /\
  (let '(value, unitIndex) := scale_down (List.length units) 1234567 0 in
   (unitIndex < List.length units)%nat /\ 0 < value /\ value * pow1000 unitIndex == 1234567 /\
   ((unitIndex < 4)%nat -> value < 1000) /\ ((0 < unitIndex)%nat -> 1 <= value)).
Proof. split; [reflexivity | apply formatThroughput_scale; reflexivity]. Defined.

Lemma formatThroughput_loop_terminates_witness :
  0 < 1234567 /\
  (let r := scale_down (List.length units) 1234567 0 in
   loop_guard r = false /\ (snd r < List.length units)%nat /\ fst r * pow1000 (snd r) == 1234567 /\
   (fst r < 1000 \/ snd r = (List.length units - 1)%nat) /\
   forall fuel, (List.length units <= fuel)%nat -> scale_down fuel 1234567 0 = r).
Proof. split; [reflexivity | apply formatThroughput_loop_terminates; reflexivity]. Defined.
