(* ===== verification/Sidebar.v ===== *)
(** * The sidebar: [renderHud], the layout snippet and the sidebar's DOM

    The panel [renderHud] of [src/src/frontend/main.ts] writes into
    [hud.innerHTML], as the values it interpolates: the escaped title,
    the time of the last update, the legend, the top-links list
    ([Hud.linkList]), one card per router with one row per interface, the
    two buttons whose text follows [layoutMode] and [sidebarVisible], and
    the layout panel with [getLayoutSnippet] in its text area.  The fixed
    text of the template between them is not repeated.  [getLayoutSnippet]
    is modelled to the character: the object [reduce] builds, with the
    key order of a JavaScript object (array-index keys first, ascending,
    then the others in insertion order), printed by [JSON.stringify] with
    an indentation of 2.

    The DOM the sidebar consists of ([hud]'s content, its [hidden] state,
    the peek button) changes only where a handler calls [renderHud] or
    [updateSidebarVisibility], or sets the toggle button's text: [hud_step]
    follows every event of [Ui.ui_step].  The theorem: in every state the
    frontend reaches, the DOM's visibility agrees with [sidebarVisible],
    and a visible sidebar shows exactly what [renderHud] renders from the
    current state (before the first topology, the page's own markup). *)

From Stdlib Require Import QArith Qround Reals Lra Lia List String Ascii.
From stdpp Require Import base gmap strings.
From S2P Require Import Prelude Status Oid Topology Canvas Scale Frontend Backend Ui Hud.
Import ListNotations.

Local Open Scope string_scope.

(** ** [getLayoutSnippet] *)

Definition nl : string := String (ascii_of_nat 10) EmptyString.

(** A lower-case hexadecimal digit. *)
Definition hex_digit (n : nat) : ascii := ascii_of_nat (if Nat.ltb n 10 then 48 + n else 87 + n).

(** [JSON.stringify] of one character of a string. *)
Definition json_char (c : ascii) : string :=
  let n := nat_of_ascii c in
  if Ascii.eqb c dquote then String "\" (String dquote EmptyString)
  else if Nat.eqb n 92 then String "\" (String "\" EmptyString)
  else if Nat.eqb n 8 then String "\" "b"
  else if Nat.eqb n 9 then String "\" "t"
  else if Nat.eqb n 10 then String "\" "n"
  else if Nat.eqb n 12 then String "\" "f"
  else if Nat.eqb n 13 then String "\" "r"
  else if Nat.ltb n 32 then String "\" ("u00" ++ String (hex_digit (n / 16)) (String (hex_digit (n mod 16)) EmptyString))
  else String c EmptyString.

Fixpoint json_chars (s : string) : string :=
  match s with
  | EmptyString => EmptyString
  | String c rest => json_char c ++ json_chars rest
  end.

(** [JSON.stringify] of a string. *)
Definition json_string (s : string) : string := String dquote (json_chars s ++ String dquote EmptyString).

(** [acc[key] = value] on an object: an existing key keeps its place. *)
Fixpoint obj_set {A} (key : string) (value : A) (obj : list (string * A)) : list (string * A) :=
  match obj with
  | [] => [(key, value)]
  | (k, v) :: rest => if String.eqb k key then (k, value) :: rest else (k, v) :: obj_set key value rest
  end.

(** The number a string of decimal digits denotes. *)
Definition digits_value (ds : list ascii) : Z :=
  fold_left (fun acc c => acc * 10 + Z.of_nat (nat_of_ascii c) - 48)%Z ds 0%Z.

Definition index_value (key : string) : Z := digits_value (list_ascii_of_string key).

(** A canonical array index: the decimal form of a number below
    [2^32 - 1], without leading zero. *)
Definition is_array_index (key : string) : bool :=
  match list_ascii_of_string key with
  | [] => false
  | c :: rest =>
      forallb is_digit (c :: rest) && (negb (Ascii.eqb c "0"%char) || is_nil rest) &&
      (index_value key <? 4294967295)%Z
  end.

Fixpoint insert_index {A} (e : string * A) (l : list (string * A)) : list (string * A) :=
  match l with
  | [] => [e]
  | e' :: rest => if (index_value e.1 <? index_value e'.1)%Z then e :: l else e' :: insert_index e rest
  end.

(** [OrdinaryOwnPropertyKeys]: the array indices in ascending order, then
    the other keys in the order they were created. *)
Definition own_keys_order {A} (obj : list (string * A)) : list (string * A) :=
  fold_right insert_index [] (List.filter (fun e => is_array_index e.1) obj) ++
  List.filter (fun e => negb (is_array_index e.1)) obj.

(** The object [topology.routers.reduce(...)] builds: the rounded
    position of each router id. *)
Definition layout_positions (routers : list RouterDefinition) : list (string * (Z * Z)) :=
  fold_left (fun acc router =>
               obj_set (rd_id router) (js_round (px (rd_position router)), js_round (py (rd_position router))) acc)
            routers [].

(** [JSON.stringify(positions, null, 2)]. *)
Definition json_entry (e : string * (Z * Z)) : string :=
  "  " ++ json_string e.1 ++ ": {" ++ nl ++
  "    " ++ json_string "position" ++ ": {" ++ nl ++
  "      " ++ json_string "x" ++ ": " ++ string_of_Z e.2.1 ++ "," ++ nl ++
  "      " ++ json_string "y" ++ ": " ++ string_of_Z e.2.2 ++ nl ++
  "    }" ++ nl ++ "  }".

Definition json_positions (obj : list (string * (Z * Z))) : string :=
  match own_keys_order obj with
  | [] => "{}"
  | entries => "{" ++ nl ++ String.concat ("," ++ nl) (map json_entry entries) ++ nl ++ "}"
  end.

Definition getLayoutSnippet (topology : option TopologyDefinition) : string :=
  match topology with
  | None => ""
  | Some t => json_positions (layout_positions (td_routers t))
  end.

(** ** What [renderHud] shows *)

Definition status_string (s : MetricStatus) : string :=
  match s with ok => "ok" | warning => "warning" | critical => "critical" | error => "error" end.

(** [s.charAt(0).toUpperCase() + s.slice(1)] on an ASCII string. *)
Definition capitalize (s : string) : string :=
  match s with
  | EmptyString => EmptyString
  | String c rest =>
      let n := nat_of_ascii c in
      String (if Nat.leb 97 n && Nat.leb n 122 then ascii_of_nat (n - 32) else c) rest
  end.

(** [cond ? `...${escapeHtml(message)}...` : ""]: the escaped message of
    a truthy error, nothing otherwise. *)
Definition error_text (message : option string) : string :=
  if truthy_str message then escapeHtml (default "" message) else "".

(** An interface row of a router card. *)
Record IfaceRow := {
  row_label : string;
  row_bar : string;
  row_up : string;
  row_down : string;
  row_error : string
}.

Record RouterCard := {
  card_status : string;
  card_label : string;
  card_statusLabel : string;
  card_rows : list IfaceRow;
  card_error : string
}.

(** The values [hud.innerHTML] interpolates once a topology is loaded. *)
Record HudView := {
  hv_title : string;
  hv_lastUpdated : string;
  hv_legend : list (string * string);
  hv_linkList : string;
  hv_routerCards : list RouterCard;
  hv_layoutActive : bool;
  hv_layoutText : string;
  hv_sidebarText : string;
  hv_snippet : option string
}.

(** The content of [hud]: the page's own markup before [renderHud] has
    run, the loading message, or the panel. *)
Inductive HudContent := HudInitial | HudLoading | HudShown (v : HudView).

(** [sidebarVisible ? "Hide Panel" : "Show Panel"]. *)
Definition sidebar_text (visible : bool) : string := if visible then "Hide Panel" else "Show Panel".

Section Rendering.
Variable numberToString : Q -> string.
Variable toFixed : Q -> nat -> string.
(** [new Date(timestamp).toLocaleTimeString()]. *)
Variable toLocaleTimeString : string -> string.

(** The [router.interfaces.map] callback of [renderHud]. *)
Definition iface_row (routerMetrics : option RouterMetrics) (iface : InterfaceDefinition) : IfaceRow :=
  let ifaceMetrics := routerMetrics ≫= fun rm => rm_interfaces rm !! idef_name iface in
  let utilisation := iface_row_utilisation ifaceMetrics in
  {| row_label := escapeHtml (default (idef_name iface) (idef_displayName iface));
     row_bar := renderUtilBar numberToString utilisation;
     row_up := (iface_row_metrics toFixed ifaceMetrics).1;
     row_down := (iface_row_metrics toFixed ifaceMetrics).2;
     row_error := error_text (ifaceMetrics ≫= im_error) |}.

(** The [topology.routers.map] callback of [renderHud]. *)
Definition router_card (metrics : option MetricsPayload) (router : RouterDefinition) : RouterCard :=
  let routerMetrics := metrics ≫= fun m => mp_routers m !! rd_id router in
  let status := default error (rm_status <$> routerMetrics) in
  {| card_status := status_string status;
     card_label := escapeHtml (rd_label router);
     card_statusLabel := escapeHtml (capitalize (status_string status));
     card_rows := map (iface_row routerMetrics) (rd_interfaces router);
     card_error := error_text (routerMetrics ≫= rm_error) |}.

(** What [renderHud] writes into [hud] in state [u]. *)
Definition renderHud_view (u : Ui) : HudContent :=
  match ui_topology u with
  | None => HudLoading
  | Some t =>
      let lastUpdatedRaw := match ui_metrics u with
                            | Some m => toLocaleTimeString (mp_timestamp m)
                            | None => "Waiting for data…"
                            end in
      HudShown {| hv_title := escapeHtml (default "TS Weathermap" (td_title t));
                  hv_lastUpdated := escapeHtml lastUpdatedRaw;
                  hv_legend := map (fun b => (b_color b, escapeHtml (b_label b))) frontend_UTILIZATION_BUCKETS;
                  hv_linkList := linkList numberToString (linkRanking (ui_metrics u));
                  hv_routerCards := map (router_card (ui_metrics u)) (td_routers t);
                  hv_layoutActive := ui_layoutMode u;
                  hv_layoutText := if ui_layoutMode u then "Exit Layout Mode" else "Layout Mode";
                  hv_sidebarText := sidebar_text (ui_sidebarVisible u);
                  hv_snippet := if ui_layoutMode u then Some (getLayoutSnippet (ui_topology u)) else None |}
  end.

End Rendering.

(** ** The sidebar's DOM *)

Record SidebarDom := {
  sd_content : HudContent;
  sd_hidden : bool;
  sd_peekText : string;
  sd_peekLabel : string;
  sd_peekPressed : string
}.

(** [updateSidebarVisibility()]: [aria-hidden] and the class [hidden] of
    [hud], the arrow, label and [aria-pressed] of the peek button. *)
Definition updateSidebarVisibility (visible : bool) (d : SidebarDom) : SidebarDom :=
  {| sd_content := sd_content d; sd_hidden := negb visible;
     sd_peekText := if visible then "❯" else "❮";
     sd_peekLabel := if visible then "Hide sidebar" else "Show sidebar";
     sd_peekPressed := if visible then "false" else "true" |}.

(** [hideButton.textContent = text]: the toggle button exists in the panel only. *)
Definition content_text (text : string) (c : HudContent) : HudContent :=
  match c with
  | HudShown v =>
      HudShown {| hv_title := hv_title v; hv_lastUpdated := hv_lastUpdated v; hv_legend := hv_legend v;
                  hv_linkList := hv_linkList v; hv_routerCards := hv_routerCards v;
                  hv_layoutActive := hv_layoutActive v; hv_layoutText := hv_layoutText v;
                  hv_sidebarText := text; hv_snippet := hv_snippet v |}
  | _ => c
  end.

Definition set_toggle_text (text : string) (d : SidebarDom) : SidebarDom :=
  {| sd_content := content_text text (sd_content d); sd_hidden := sd_hidden d; sd_peekText := sd_peekText d;
     sd_peekLabel := sd_peekLabel d; sd_peekPressed := sd_peekPressed d |}.

(** The DOM when the script has run its top level: the page's markup,
    and [updateSidebarVisibility()] with [sidebarVisible = true]. *)
Definition dom_init : SidebarDom :=
  updateSidebarVisibility true
    {| sd_content := HudInitial; sd_hidden := false; sd_peekText := ""; sd_peekLabel := "";
       sd_peekPressed := "" |}.

Section Browser.
Variable numberToString : Q -> string.
Variable toFixed : Q -> nat -> string.
Variable toLocaleTimeString : string -> string.
Variable measureText : string -> R.
Variable localeCompare : string -> string -> comparison.
Variables innerWidth innerHeight devicePixelRatio rectLeft rectTop : R.
Variable resolveUrl : string -> string.

Definition step_ui (u : Ui) (ev : UiEvent) : Ui :=
  ui_step measureText localeCompare innerWidth innerHeight devicePixelRatio rectLeft rectTop resolveUrl u ev.

(** [renderHud()]: the panel of the state, then [updateSidebarVisibility()]. *)
Definition renderHud (u : Ui) (d : SidebarDom) : SidebarDom :=
  updateSidebarVisibility (ui_sidebarVisible u)
    {| sd_content := renderHud_view numberToString toFixed toLocaleTimeString u; sd_hidden := sd_hidden d;
       sd_peekText := sd_peekText d; sd_peekLabel := sd_peekLabel d; sd_peekPressed := sd_peekPressed d |}.

(** Whether [handlePointerMove] gets past its guards and moves a router. *)
Definition move_applies (u : Ui) (pointerId : Z) : bool :=
  let ps := ui_pointer u in
  ps_dragging ps && bool_decide (ps_pointerId ps = Some pointerId) &&
  match ui_topology u with
  | None => false
  | Some t => is_Some_b (List.find (fun r => bool_decide (Some (rd_id r) = ps_routerId ps)) (td_routers t))
  end.

(** The sidebar's DOM after one event in state [u]: the handlers that
    call [renderHud] render the state they leave; the hide button also
    sets its own text; the peek button renders only when it shows the
    sidebar; the other handlers leave the sidebar alone. *)
Definition hud_step (u : Ui) (d : SidebarDom) (ev : UiEvent) : SidebarDom :=
  let u' := step_ui u ev in
  match ev with
  | EvTopologyFetched _ | EvServerMessage _ | EvToggleLayout => renderHud u' d
  | EvMetricsFetched None => d
  | EvMetricsFetched (Some _) => renderHud u' d
  | EvPointerMove pid _ _ => if move_applies u pid then renderHud u' d else d
  | EvEscape | EvExitLayout => if ui_layoutMode u then renderHud u' d else d
  | EvToggleSidebar =>
      set_toggle_text (sidebar_text (ui_sidebarVisible u')) (updateSidebarVisibility (ui_sidebarVisible u') d)
  | EvSidebarPeek =>
      let d1 := updateSidebarVisibility (ui_sidebarVisible u') d in
      if ui_sidebarVisible u' then renderHud u' d1 else d1
  | EvPointerDown _ _ _ | EvPointerUp _ | EvImageLoad _ | EvResize => d
  end.

(** The frontend and its sidebar after a sequence of events. *)
Definition run_with_hud (events : list UiEvent) : Ui * SidebarDom :=
  fold_left (fun '(u, d) ev => (step_ui u ev, hud_step u d ev)) events (ui_init innerWidth innerHeight devicePixelRatio, dom_init).

End Browser.

(** ** The sidebar never shows a stale panel *)

(** The panel without the text of the hide button. *)
Definition strip (c : HudContent) : HudContent := content_text "" c.

(** The part of the state the panel shows. *)
Definition hud_inputs (u : Ui) : option TopologyDefinition * option MetricsPayload * bool * bool :=
  (ui_topology u, ui_metrics u, ui_layoutMode u, ui_sidebarVisible u).

Lemma content_text_strip (t : string) (c1 c2 : HudContent) :
  strip c1 = strip c2 -> content_text t c1 = content_text t c2.
Proof. destruct c1, c2; cbn; intros H; try discriminate; try reflexivity. injection H. destruct v, v0; cbn. intros; subst; reflexivity. Qed.

Lemma strip_content_text (t : string) (c : HudContent) : strip (content_text t c) = strip c.
Proof. destruct c; reflexivity. Qed.

Lemma updateSidebarVisibility_idem (b : bool) (d : SidebarDom) :
  updateSidebarVisibility b (updateSidebarVisibility b d) = updateSidebarVisibility b d.
Proof. reflexivity. Qed.

Lemma updateSidebarVisibility_toggle (b : bool) (t : string) (d : SidebarDom) :
  updateSidebarVisibility b (set_toggle_text t (updateSidebarVisibility b d)) =
    set_toggle_text t (updateSidebarVisibility b d).
Proof. reflexivity. Qed.

Section Invariant.
Context (numberToString : Q -> string) (toFixed : Q -> nat -> string) (toLocaleTimeString : string -> string).
Context (measureText : string -> R) (localeCompare : string -> string -> comparison).
Context (innerWidth innerHeight devicePixelRatio rectLeft rectTop : R) (resolveUrl : string -> string).

Abbreviation view := (renderHud_view numberToString toFixed toLocaleTimeString).
Abbreviation step := (step_ui measureText localeCompare innerWidth innerHeight devicePixelRatio rectLeft rectTop resolveUrl).

(** The sidebar's visibility is [sidebarVisible]'s, and its panel is the
    one [renderHud] renders from the state, the hide button's text apart
    while it is hidden; before any [renderHud], the page's markup with no
    topology loaded. *)
Definition sidebar_ok (u : Ui) (d : SidebarDom) : Prop :=
  updateSidebarVisibility (ui_sidebarVisible u) d = d /\
  ((sd_content d = HudInitial /\ ui_topology u = None) \/
   (if ui_sidebarVisible u then sd_content d = view u else strip (sd_content d) = strip (view u))).

Lemma view_inputs (u u' : Ui) : hud_inputs u = hud_inputs u' -> view u = view u'.
Proof.
  unfold hud_inputs, renderHud_view, getLayoutSnippet. intros E. injection E as E1 E2 E3 E4.
  rewrite E1, E2, E3, E4. reflexivity.
Qed.

Lemma ok_inputs (u u' : Ui) (d : SidebarDom) :
  hud_inputs u = hud_inputs u' -> sidebar_ok u d -> sidebar_ok u' d.
Proof.
  intros E. pose proof (view_inputs u u' E) as V. unfold sidebar_ok. rewrite <- V.
  unfold hud_inputs in E. injection E as E1 _ _ E4. rewrite <- E1, <- E4. tauto.
Qed.

(** Flipping [sidebarVisible] changes the panel's hide button only. *)
Lemma view_toggle (u : Ui) (pointer : PointerState) :
  view (set_controls u (ui_layoutMode u) pointer (negb (ui_sidebarVisible u))) =
    content_text (sidebar_text (negb (ui_sidebarVisible u))) (view u).
Proof. unfold renderHud_view, getLayoutSnippet. cbn. destruct (ui_topology u); reflexivity. Qed.

Lemma ok_render (u : Ui) (d : SidebarDom) : sidebar_ok u (renderHud numberToString toFixed toLocaleTimeString u d).
Proof.
  split; [apply updateSidebarVisibility_idem|]. right. cbn.
  destruct (ui_sidebarVisible u); reflexivity.
Qed.

Lemma draw_inputs (u : Ui) : hud_inputs (draw measureText u) = hud_inputs u.
Proof. unfold draw. destruct (ui_topology u); reflexivity. Qed.

Lemma resizeCanvas_inputs (u : Ui) :
  hud_inputs (resizeCanvas innerWidth innerHeight devicePixelRatio u) = hud_inputs u.
Proof. unfold resizeCanvas. destruct (ui_topology u); reflexivity. Qed.

Lemma pointerDown_inputs (pid : Z) (cx cy : R) (u : Ui) :
  hud_inputs (handlePointerDown rectLeft rectTop pid cx cy u) = hud_inputs u.
Proof.
  unfold handlePointerDown. repeat case_match; reflexivity.
Qed.

Lemma pointerUp_inputs (pid : Z) (u : Ui) : hud_inputs (handlePointerUp pid u) = hud_inputs u.
Proof. unfold handlePointerUp. repeat case_match; reflexivity. Qed.

Lemma pointerMove_idle (pid : Z) (cx cy : R) (u : Ui) :
  move_applies u pid = false ->
  handlePointerMove measureText localeCompare rectLeft rectTop pid cx cy u = u.
Proof.
  unfold move_applies, handlePointerMove. destruct (ps_dragging (ui_pointer u)); [|reflexivity].
  destruct (bool_decide _); [|reflexivity]. cbn. destruct (ui_topology u); [|reflexivity].
  destruct (List.find _ _); [discriminate | reflexivity].
Qed.

(** One event keeps the sidebar consistent with the state. *)
Lemma hud_step_ok (u : Ui) (d : SidebarDom) (ev : UiEvent) :
  sidebar_ok u d ->
  sidebar_ok (step u ev) (hud_step numberToString toFixed toLocaleTimeString measureText localeCompare
                            innerWidth innerHeight devicePixelRatio rectLeft rectTop resolveUrl u d ev).
Proof.
  intros Hok. unfold hud_step. destruct ev as [t|[m|]|msg|pid cx cy|pid cx cy|pid| | | | | |b|];
    try apply ok_render.
  - exact Hok.
  - apply (ok_inputs u); [symmetry; apply pointerDown_inputs | exact Hok].
  - destruct (move_applies u pid) eqn:A; [apply ok_render|].
    unfold step, step_ui, ui_step. rewrite pointerMove_idle by exact A. exact Hok.
  - apply (ok_inputs u); [symmetry; apply pointerUp_inputs | exact Hok].
  - destruct (ui_layoutMode u) eqn:L; [apply ok_render|].
    unfold step, step_ui, ui_step. rewrite L. exact Hok.
  - destruct (ui_layoutMode u) eqn:L; [apply ok_render|].
    unfold step, step_ui, ui_step, setLayoutMode. rewrite L. exact Hok.
  - (* the hide button *)
    unfold step, step_ui, ui_step. cbn [ui_sidebarVisible set_controls].
    destruct Hok as [Hvis Hc]. split; [apply updateSidebarVisibility_toggle|].
    cbn [sd_content set_toggle_text updateSidebarVisibility].
    destruct Hc as [[-> Ht]|Hc]; [left; split; [reflexivity | exact Ht]|right].
    rewrite view_toggle. destruct (negb (ui_sidebarVisible u));
      [apply content_text_strip | rewrite !strip_content_text];
      (destruct (ui_sidebarVisible u); [rewrite Hc; reflexivity | exact Hc]).
  - (* the peek button *)
    unfold step, step_ui, ui_step. cbn [ui_sidebarVisible set_controls].
    pose proof (view_toggle u (ui_pointer u)) as VT. destruct Hok as [Hvis Hc].
    destruct (ui_sidebarVisible u) eqn:V0; cbn [negb] in *; [|apply ok_render].
    split; [reflexivity|]. cbn [sd_content updateSidebarVisibility].
    destruct Hc as [[-> Ht]|Hc]; [left; split; [reflexivity | exact Ht]|right].
    rewrite VT, strip_content_text, Hc. reflexivity.
  - apply (ok_inputs u); [|exact Hok]. unfold step, step_ui, ui_step, onImageLoad. rewrite draw_inputs. reflexivity.
  - apply (ok_inputs u); [|exact Hok]. unfold step, step_ui, ui_step, onResize.
    destruct (ui_topology u); [rewrite draw_inputs, resizeCanvas_inputs|]; reflexivity.
Qed.

Lemma run_with_hud_ok (events : list UiEvent) (u : Ui) (d : SidebarDom) :
  sidebar_ok u d ->
  let '(u', d') := fold_left (fun '(u, d) ev => (step u ev, hud_step numberToString toFixed toLocaleTimeString
                       measureText localeCompare innerWidth innerHeight devicePixelRatio rectLeft rectTop
                       resolveUrl u d ev)) events (u, d) in
  sidebar_ok u' d'.
Proof.
  revert u d. induction events as [|ev events IH]; intros u d Hok; [exact Hok|].
  cbn [fold_left]. apply IH, hud_step_ok, Hok.
Qed.

(** C40: in every state the frontend reaches, by any sequence of fetches,
    server messages, pointer, key and button events, image loads and
    resizes, the sidebar's [hidden] state and peek button agree with
    [sidebarVisible], and a visible sidebar shows exactly the panel
    [renderHud] renders from the current topology, metrics and layout
    mode (before the first topology, the page's own markup): no handler
    changes what the panel shows without rendering it again. *)
Theorem sidebar_never_stale (events : list UiEvent) :
  let '(u, d) := run_with_hud numberToString toFixed toLocaleTimeString measureText localeCompare
                   innerWidth innerHeight devicePixelRatio rectLeft rectTop resolveUrl events in
  updateSidebarVisibility (ui_sidebarVisible u) d = d /\
  (ui_sidebarVisible u = true -> sd_content d = view u \/ (sd_content d = HudInitial /\ ui_topology u = None)).
Proof.
  pose proof (run_with_hud_ok events (ui_init innerWidth innerHeight devicePixelRatio) dom_init) as H.
  unfold run_with_hud. destruct (fold_left _ _ _) as [u d].
  destruct H as [Hvis Hc]; [split; [reflexivity | left; split; reflexivity]|].
  split; [exact Hvis|]. intros V. rewrite V in Hc. destruct Hc as [Hc|Hc]; [right | left]; exact Hc.
Qed.

End Invariant.
