(* ===== verification/Layout.v ===== *)
(** * Layout mode: a drag as the layout snippet shows it

    In layout mode, [handlePointerMove] of [src/src/frontend/main.ts]
    (lines 800-811, [Ui.handlePointerMove]) moves the dragged router to
    the rounded map position under the pointer, and the [renderHud] it
    calls puts [getLayoutSnippet] (lines 656-668,
    [Sidebar.getLayoutSnippet]) in the layout panel's text area: the object of the routers' rounded
    positions, printed with the key order of a JavaScript object.  This
    file composes the two.  The theorem: after a move of the pointer
    that drags router [id], the snippet's entries are those it had, with
    [id]'s entry replaced by the integers the drag stored ([Math.round]
    of an integer is that integer); every other router keeps its entry.

    The router ids are assumed distinct, as the configuration loader
    ensures ([Config]); with a repeated id the snippet would show the
    position of the last router of that id, and [move_first] moves the
    first. *)

From Stdlib Require Import QArith Qround Reals Lia List String.
From stdpp Require Import base strings.
From S2P Require Import Prelude Topology Geometry Ui Hud Sidebar Resolver.
Import ListNotations.

(** ** Objects built with [obj_set] *)

Section Objects.
Context {A : Type}.

Lemma obj_set_keys (k k' : string) (v : A) (obj : list (string * A)) :
  In k' (map fst (obj_set k v obj)) -> k' = k \/ In k' (map fst obj).
Proof.
  induction obj as [|[k0 v0] rest IH]; cbn; [intuition|].
  destruct (String.eqb_spec k0 k); cbn; [subst; tauto|].
  intros [<- | H]; [tauto|]. destruct (IH H); tauto.
Qed.

Lemma obj_set_nodup (k : string) (v : A) (obj : list (string * A)) :
  NoDup (map fst obj) -> NoDup (map fst (obj_set k v obj)).
Proof.
  induction obj as [|[k0 v0] rest IH]; cbn; intros Hd; [apply NoDup_cons_In; split; [intros [] | constructor]|].
  apply NoDup_cons_In in Hd as [Hn Hr].
  destruct (String.eqb_spec k0 k); cbn; apply NoDup_cons_In; split; auto.
  intros Hin. destruct (obj_set_keys _ _ _ _ Hin); auto.
Qed.

(** With distinct keys, [acc[k] = v] replaces the entry of [k]. *)
Lemma obj_set_In (k : string) (v : A) (obj : list (string * A)) (e : string * A) :
  NoDup (map fst obj) ->
  In e (obj_set k v obj) <-> e = (k, v) \/ (e.1 <> k /\ In e obj).
Proof.
  induction obj as [|[k0 v0] rest IH]; cbn; intros Hd; [intuition|].
  apply NoDup_cons_In in Hd as [Hn Hr].
  destruct (String.eqb_spec k0 k) as [<- | Hne]; cbn.
  - split; [intros [-> | Hin]; [auto|] | intros [-> | [He [<- | Hin]]]; auto; cbn in He; congruence].
    right. split; [|auto]. intros <-. apply Hn, in_map, Hin.
  - rewrite IH by exact Hr. split; [intros [<- | [-> | [? ?]]] | intros [-> | [? [<- | ?]]]]; auto.
Qed.

Lemma insert_index_In (e x : string * A) (l : list (string * A)) :
  In x (insert_index e l) <-> In x (e :: l).
Proof.
  induction l as [|e' rest IH]; cbn; [tauto|].
  destruct (_ <? _)%Z; cbn; [tauto|]. rewrite IH. cbn. tauto.
Qed.

(** [OrdinaryOwnPropertyKeys] lists every entry of the object. *)
Lemma own_keys_order_In (obj : list (string * A)) (e : string * A) :
  In e (own_keys_order obj) <-> In e obj.
Proof.
  assert (Hf : forall l, In e (fold_right insert_index [] l) <-> In e l).
  { induction l as [|e' l IH]; cbn; [tauto|]. rewrite insert_index_In. cbn. rewrite IH. tauto. }
  unfold own_keys_order. rewrite in_app_iff, Hf, !filter_In.
  destruct (is_array_index e.1); cbn; intuition.
Qed.

End Objects.

(** ** The object [getLayoutSnippet] prints *)

(** The entry the [reduce] callback writes for one router. *)
Definition position_entry (r : RouterDefinition) : string * (Z * Z) :=
  (rd_id r, (Hud.js_round (px (rd_position r)), Hud.js_round (py (rd_position r)))).

Lemma layout_fold_In (rs : list RouterDefinition) (acc : list (string * (Z * Z))) :
  NoDup (map fst acc) -> NoDup (map rd_id rs) -> (forall r, In r rs -> ~ In (rd_id r) (map fst acc)) ->
  let obj := fold_left (fun acc router => obj_set (rd_id router) (position_entry router).2 acc) rs acc in
  NoDup (map fst obj) /\ forall e, In e obj <-> In e acc \/ exists r, In r rs /\ e = position_entry r.
Proof.
  revert acc. induction rs as [|r rs IH]; intros acc Hacc Hrs Hfresh; cbn.
  - split; [exact Hacc | intros e; split; [auto | intros [H | (? & [] & _)]; exact H]].
  - apply NoDup_cons_In in Hrs as [Hn Hr].
    destruct (IH (obj_set (rd_id r) (position_entry r).2 acc)) as [Hd Hin]; auto using obj_set_nodup.
    { intros r' Hr' Hk. destruct (obj_set_keys _ _ _ _ Hk) as [E | Hk'].
      - apply Hn. rewrite <- E. apply in_map, Hr'.
      - apply (Hfresh r'); [right; exact Hr' | exact Hk']. }
    split; [exact Hd|]. intros e. rewrite Hin, obj_set_In by exact Hacc.
    assert (~ In (rd_id r) (map fst acc)) by (apply Hfresh; left; reflexivity).
    split.
    + intros [[-> | [_ ?]] | (r' & ? & ->)]; eauto.
    + intros [Ha | (r' & [<- | ?] & ->)]; eauto.
      left; right. split; [|exact Ha]. intros E. apply H. rewrite <- E. apply in_map, Ha.
Qed.

(** With distinct ids, the snippet's object holds one entry per router. *)
Lemma layout_positions_In (rs : list RouterDefinition) (e : string * (Z * Z)) :
  NoDup (map rd_id rs) -> In e (layout_positions rs) <-> exists r, In r rs /\ e = position_entry r.
Proof.
  intros Hrs. destruct (layout_fold_In rs [] ltac:(constructor) Hrs ltac:(intros; auto)) as [_ Hin].
  unfold layout_positions. rewrite Hin. cbn. tauto.
Qed.

(** ** Moving one router *)

Lemma move_first_ids (id : string) (p : Position) (rs : list RouterDefinition) :
  map rd_id (move_first id p rs) = map rd_id rs.
Proof.
  induction rs as [|r rs IH]; cbn; [reflexivity|].
  destruct (String.eqb (rd_id r) id); cbn; congruence.
Qed.

Lemma move_first_In_inv (id : string) (p : Position) (rs : list RouterDefinition) (r' : RouterDefinition) :
  NoDup (map rd_id rs) -> In r' (move_first id p rs) ->
  (rd_id r' = id /\ rd_position r' = p) \/ (In r' rs /\ rd_id r' <> id).
Proof.
  induction rs as [|r rs IH]; cbn; intros Hd; [tauto|].
  apply NoDup_cons_In in Hd as [Hn Hr].
  destruct (String.eqb_spec (rd_id r) id) as [<- | Hne]; cbn.
  - intros [<- | Hin]; [left; auto|]. right. split; [auto|]. intros E. apply Hn. rewrite <- E. apply in_map, Hin.
  - intros [<- | Hin]; [right; auto|]. destruct (IH Hr Hin) as [? | [? ?]]; auto.
Qed.

(** The router of id [id] is moved; [NoDup] makes it the first one. *)
Lemma move_first_In_moved (id : string) (p : Position) (rs : list RouterDefinition) (r : RouterDefinition) :
  NoDup (map rd_id rs) -> In r rs -> rd_id r = id ->
  In {| rd_id := rd_id r; rd_label := rd_label r; rd_position := p; rd_interfaces := rd_interfaces r |}
     (move_first id p rs).
Proof.
  induction rs as [|r0 rs IH]; cbn; intros Hd Hin Hid; [contradiction|].
  apply NoDup_cons_In in Hd as [Hn Hr].
  destruct Hin as [<- | Hin]; [rewrite Hid, String.eqb_refl; left; reflexivity|].
  destruct (String.eqb_spec (rd_id r0) id) as [E | Hne]; [|right; auto].
  exfalso. apply Hn. rewrite E, <- Hid. apply in_map, Hin.
Qed.

Lemma move_first_In_other (id : string) (p : Position) (rs : list RouterDefinition) (r : RouterDefinition) :
  In r rs -> rd_id r <> id -> In r (move_first id p rs).
Proof.
  induction rs as [|r0 rs IH]; cbn; intros Hin Hne; [contradiction|].
  destruct (String.eqb_spec (rd_id r0) id) as [E | _]; destruct Hin as [<- | Hin];
    [contradiction | right; exact Hin | left; reflexivity | right; auto].
Qed.

(** Dragging router [id] to [p] replaces its entry of the snippet's
    object, and only that entry. *)
Lemma layout_after_move (id : string) (p : Position) (rs : list RouterDefinition) (e : string * (Z * Z)) :
  NoDup (map rd_id rs) -> In id (map rd_id rs) ->
  In e (layout_positions (move_first id p rs)) <->
  e = (id, (Hud.js_round (px p), Hud.js_round (py p))) \/ (e.1 <> id /\ In e (layout_positions rs)).
Proof.
  intros Hd Hid. pose proof Hd as Hd'. rewrite <- (move_first_ids id p) in Hd'.
  rewrite !layout_positions_In by assumption. split.
  - intros (r & Hr & ->). apply move_first_In_inv in Hr; [|exact Hd].
    destruct Hr as [(<- & <-) | [Hr Hne]]; [left; reflexivity | right; split; eauto].
  - intros [-> | [Hne (r & Hr & ->)]].
    + apply in_map_iff in Hid as (r & <- & Hr).
      eexists. split; [apply move_first_In_moved; eauto | reflexivity].
    + exists r. split; [apply move_first_In_other; auto | reflexivity].
Qed.

(** [Math.round] of an integer is that integer. *)
Lemma js_round_inject_Z (z : Z) : Hud.js_round (inject_Z z) = z.
Proof.
  unfold Hud.js_round. apply Z.le_antisymm.
  - assert (H : (inject_Z (Qfloor (inject_Z z + (1 # 2))) < inject_Z (z + 1))%Q).
    { eapply Qle_lt_trans; [apply Qfloor_le|]. rewrite inject_Z_plus. unfold Qlt, Qplus; cbn; lia. }
    rewrite <- Zlt_Qlt in H. lia.
  - rewrite <- (Qfloor_Z z) at 1. apply Qfloor_resp_le. unfold Qle; cbn; lia.
Qed.

Lemma draw_keeps_topology (measureText : string -> R) (u : Ui) :
  ui_topology (draw measureText u) = ui_topology u.
Proof. unfold draw. destruct (ui_topology u) eqn:E; exact E. Qed.

Lemma rebuildLinkPaths_keeps_topology (localeCompare : string -> string -> comparison) (u : Ui) :
  ui_topology (rebuildLinkPaths localeCompare u) = ui_topology u.
Proof. unfold rebuildLinkPaths. destruct (ui_topology u) eqn:E; exact E. Qed.

(** ** A drag, seen in the layout snippet *)

Section Drag.
Context (measureText : string -> R) (localeCompare : string -> string -> comparison).
Context (innerWidth innerHeight devicePixelRatio rectLeft rectTop : R) (resolveUrl : string -> string).

Local Abbreviation step := (ui_step measureText localeCompare innerWidth innerHeight devicePixelRatio
                               rectLeft rectTop resolveUrl).

(** C23: a move of the pointer that drags router [id] (layout mode,
    the pointer that grabbed it) sets [id]'s entry of the layout snippet
    to the integer position [handlePointerMove] computed, [Math.round] of
    the map point under the pointer plus the grab offset, and leaves the
    entry of every other router as the [reduce] callback writes it from
    the position it had: the entries [getLayoutSnippet] prints after the
    event are exactly those. *)
Theorem drag_moves_snippet_entry (u : Ui) (t : TopologyDefinition) (id : string) (pid : Z) (cx cy : R) :
  ui_topology u = Some t -> NoDup (map rd_id (td_routers t)) -> In id (map rd_id (td_routers t)) ->
  ps_dragging (ui_pointer u) = true -> ps_pointerId (ui_pointer u) = Some pid ->
  ps_routerId (ui_pointer u) = Some id ->
  let point := screenToMap rectLeft rectTop u cx cy in
  let offset := default {| x := 0; y := 0 |} (ps_offset (ui_pointer u)) in
  exists t', ui_topology (step u (EvPointerMove pid cx cy)) = Some t' /\
    forall e, In e (own_keys_order (layout_positions (td_routers t'))) <->
      e = (id, (Ui.js_round (x point + x offset), Ui.js_round (y point + y offset))) \/
      (exists r, In r (td_routers t) /\ rd_id r <> id /\ e = position_entry r).
Proof.
  intros Ht Hd Hid Hdr Hpid Hrid point offset.
  unfold ui_step, handlePointerMove. rewrite Hdr, Hpid, Hrid, Ht, bool_decide_eq_true_2 by reflexivity.
  cbn [negb].
  destruct (List.find _ (td_routers t)) as [router|] eqn:Hf.
  - apply find_some in Hf as [_ Hr]. apply bool_decide_eq_true_1 in Hr. injection Hr as ->.
    eexists. rewrite draw_keeps_topology, rebuildLinkPaths_keeps_topology. split; [reflexivity|].
    intros e. rewrite !own_keys_order_In. cbn [td_routers with_routers].
    rewrite layout_after_move, layout_positions_In by assumption. cbn [px py]. rewrite !js_round_inject_Z.
    apply or_iff_compat_l. split; [intros [Hne (r & Hr & ->)] | intros (r & Hr & Hne & ->)]; eauto.
  - exfalso. apply in_map_iff in Hid as (r & <- & Hr). apply (find_none _ _ Hf) in Hr.
    rewrite bool_decide_eq_false in Hr. auto.
Qed.

End Drag.

(** The core router of [Resolver.ex_topology], grabbed by pointer 1 in
    layout mode. *)
Definition ex_dragging : Ui :=
  set_controls (set_model (ui_init 800 600 1) (Some ex_topology) None) true
    {| ps_dragging := true; ps_routerId := Some "core"%string; ps_pointerId := Some 1%Z; ps_offset := None |} true.

Lemma drag_moves_snippet_entry_witness :
  let point := screenToMap 0 0 ex_dragging 250 120 in
  let offset := default {| x := 0; y := 0 |} (ps_offset (ui_pointer ex_dragging)) in
  exists t', ui_topology (ui_step (fun _ => 0%R) (fun _ _ => Eq) 800 600 1 0 0 (fun s => s) ex_dragging
                            (EvPointerMove 1 250 120)) = Some t' /\
    forall e, In e (own_keys_order (layout_positions (td_routers t'))) <->
      e = ("core"%string, (Ui.js_round (x point + x offset), Ui.js_round (y point + y offset))) \/
      (exists r, In r (td_routers ex_topology) /\ rd_id r <> "core"%string /\ e = position_entry r).
Proof.
  apply (drag_moves_snippet_entry (fun _ => 0%R) (fun _ _ => Eq) 800 600 1 0 0 (fun s => s)
           ex_dragging ex_topology "core" 1 250 120);
    [reflexivity | exact ex_topology_ids | left; reflexivity | reflexivity | reflexivity | reflexivity].
Defined.
