(* ===== verification/Session.v ===== *)
(** * A browser session against the server

    The start-up of [src/src/frontend/main.ts] (lines 857-912):
    [fetchInitialTopology] on [GET /api/topology], [fetchInitialMetrics]
    on [GET /api/metrics], then [startWebSocket], whose message listener
    hands every message to [handleServerMessage]; a failed topology fetch
    puts an error message in the sidebar and opens no socket.  Composed
    with the server of [Backend] (its HTTP handlers and the messages its
    [step]s send to each client) and the frontend of [Ui] (its
    [ui_step]), this is a whole session: what a browser shows after it
    loaded the page and processed the messages the server sent it.

    The theorems: the messages the server has sent a connected client
    end with its current topology and its latest metrics, in every
    reachable state ([reachable_synced]); a browser in any state that
    connects a fresh socket, as after a reconnection, shows the current
    topology and the latest metrics once it has handled the socket's
    messages ([socket_shows_server_state]); a browser that fetched, then
    connected and stays connected, shows exactly the server's current
    topology and latest metrics ([session_shows_server_state]).  The
    socket's [close] listener starts a new connection after 1000 ms: a
    new client of the server, covered by the second theorem. *)

From Stdlib Require Import QArith ZArith Reals List String Relations Permutation.
From stdpp Require Import base gmap strings.
From S2P Require Import Prelude Status Sampler Topology Config Frontend Backend Ui Hud.
Import ListNotations.

(** ** Start-up *)

(** [fetchInitialTopology]: the events it leads to, or the error it
    throws when the response is not [ok].  A response here carries the
    type of its body; one that is not a topology is taken to fail with
    the function's message (the message of a failed [response.json()]
    is the JSON parser's and is not modelled). *)
Definition fetchInitialTopology (response : HttpResponse) : Result (list UiEvent) :=
  match response with
  | JsonTopology data => inr [EvTopologyFetched data]
  | _ => inl "Failed to load topology"%string
  end.

(** [fetchInitialMetrics]: nothing on [204], the payload on a JSON
    response, an error otherwise. *)
Definition fetchInitialMetrics (response : HttpResponse) : Result (list UiEvent) :=
  match response with
  | HttpStatus 204 _ => inr [EvMetricsFetched None]
  | Json data => inr [EvMetricsFetched (Some data)]
  | _ => inl "Failed to load initial metrics"%string
  end.

(** The end of the start-up chain: the sidebar shows the error and no
    socket is opened, or the socket is open after the fetches' events. *)
Inductive Boot :=
  | BootFailed (hudText : string)
  | BootStarted (events : list UiEvent).

(** The promise chain at the end of the file: a failed metrics fetch is
    only logged; a failed topology fetch ends in the [catch]. *)
Definition bootstrap (topologyResponse metricsResponse : HttpResponse) : Boot :=
  match fetchInitialTopology topologyResponse with
  | inl message => BootFailed ("<div class=" ++ quoted "hud-empty" ++ ">Failed to load topology: " ++
                               escapeHtml message ++ "</div>")%string
  | inr events =>
      BootStarted (events ++ match fetchInitialMetrics metricsResponse with
                             | inl _ => []
                             | inr events' => events'
                             end)
  end.

(** [startWebSocket]'s message listener: each message, in order, to
    [handleServerMessage]. *)
Definition socket_events (messages : list ServerMessage) : list UiEvent := map EvServerMessage messages.

(** ** What a client has been sent *)

(** The messages [sent] addressed to client [id], in order. *)
Definition msgs_to (id : nat) (sent : list (nat * ServerMessage)) : list ServerMessage :=
  map snd (List.filter (fun e => Nat.eqb e.1 id) sent).

Definition topology_of (m : ServerMessage) : option TopologyDefinition :=
  match m with MsgTopology t => Some t | MsgMetrics _ => None end.

Definition metrics_of (m : ServerMessage) : option MetricsPayload :=
  match m with MsgMetrics p => Some p | MsgTopology _ => None end.

(** The last message of a kind, by what it carries. *)
Fixpoint last_of {X} (f : ServerMessage -> option X) (msgs : list ServerMessage) : option X :=
  match msgs with
  | [] => None
  | m :: rest => match last_of f rest with Some x => Some x | None => f m end
  end.

(** The server state a client that is connected has been told: its
    current topology and its latest metrics; before any publication, no
    client has been sent metrics. *)
Definition synced (s : Server) : Prop :=
  (sv_latestMetrics s = None -> forall id, last_of metrics_of (msgs_to id (sv_sent s)) = None) /\
  forall id, In {| cl_id := id; cl_open := true |} (sv_clients s) ->
    last_of topology_of (msgs_to id (sv_sent s)) = Some (rt_topology (sv_config s)) /\
    last_of metrics_of (msgs_to id (sv_sent s)) = sv_latestMetrics s.

(** ** The messages of a client *)

Lemma msgs_to_app (id : nat) (a b : list (nat * ServerMessage)) :
  msgs_to id (a ++ b) = msgs_to id a ++ msgs_to id b.
Proof. unfold msgs_to. rewrite List.filter_app, map_app. reflexivity. Qed.

Lemma msgs_to_single (id id' : nat) (m : ServerMessage) :
  msgs_to id' [(id, m)] = if Nat.eqb id id' then [m] else [].
Proof. unfold msgs_to. cbn. destruct (Nat.eqb id id'); reflexivity. Qed.

Lemma last_of_app {X} (f : ServerMessage -> option X) (a b : list ServerMessage) :
  last_of f (a ++ b) = match last_of f b with Some x => Some x | None => last_of f a end.
Proof.
  induction a as [|m a IH]; cbn; [destruct (last_of f b); reflexivity|].
  rewrite IH. destruct (last_of f b); reflexivity.
Qed.

(** A broadcast reaches a client once per open socket of its id. *)
Lemma msgs_to_broadcast (id : nat) (clients : list Client) (msg : ServerMessage) :
  msgs_to id (broadcast clients msg) =
    map (fun _ => msg) (List.filter (fun c => cl_open c && Nat.eqb (cl_id c) id) clients).
Proof.
  unfold msgs_to, broadcast. induction clients as [|c cs IH]; [reflexivity|]. cbn.
  destruct (cl_open c); cbn; [destruct (Nat.eqb (cl_id c) id); cbn; rewrite IH; reflexivity | exact IH].
Qed.

Lemma last_of_const {X} (f : ServerMessage -> option X) (msg : ServerMessage) (l : list Client) :
  last_of f (map (fun _ => msg) l) = match l with [] => None | _ => f msg end.
Proof.
  induction l as [|c l IH]; [reflexivity|]. cbn [map last_of]. rewrite IH.
  destruct l; [reflexivity|]. destruct (f msg); reflexivity.
Qed.

(** A broadcast of another kind of message does not change the last
    message of a kind. *)
Lemma last_of_broadcast_other {X} (f : ServerMessage -> option X) (id : nat) (clients : list Client)
    (msg : ServerMessage) (sent : list (nat * ServerMessage)) :
  f msg = None -> last_of f (msgs_to id (sent ++ broadcast clients msg)) = last_of f (msgs_to id sent).
Proof.
  intros Hf. rewrite msgs_to_app, last_of_app, msgs_to_broadcast, last_of_const.
  destruct (List.filter _ clients); [reflexivity|]. rewrite Hf. reflexivity.
Qed.

(** A broadcast reaches every open client. *)
Lemma last_of_broadcast_open {X} (f : ServerMessage -> option X) (id : nat) (clients : list Client)
    (msg : ServerMessage) (sent : list (nat * ServerMessage)) (x : X) :
  In {| cl_id := id; cl_open := true |} clients -> f msg = Some x ->
  last_of f (msgs_to id (sent ++ broadcast clients msg)) = Some x.
Proof.
  intros Hin Hf. rewrite msgs_to_app, last_of_app, msgs_to_broadcast, last_of_const.
  destruct (List.filter (fun c => cl_open c && Nat.eqb (cl_id c) id) clients) eqn:E; [|rewrite Hf; reflexivity].
  assert (H : In {| cl_id := id; cl_open := true |} (List.filter (fun c => cl_open c && Nat.eqb (cl_id c) id) clients))
    by (apply filter_In; split; [exact Hin | cbn; rewrite Nat.eqb_refl; reflexivity]).
  rewrite E in H. destruct H.
Qed.

Lemma in_close (clients : list Client) (id k : nat) :
  In {| cl_id := k; cl_open := true |}
     (map (fun c => if Nat.eqb (cl_id c) id then {| cl_id := cl_id c; cl_open := false |} else c) clients) ->
  In {| cl_id := k; cl_open := true |} clients.
Proof.
  intros H. apply in_map_iff in H as (c & Hc & Hin). destruct (Nat.eqb (cl_id c) id); [discriminate|].
  subst c. exact Hin.
Qed.

(** ** The server keeps its clients up to date *)

Lemma step_synced (s s' : Server) : step s s' -> synced s -> synced s'.
Proof.
  intros Hstep [H0 H1]. destruct Hstep; try (unfold synced; sv_simpl; split; assumption).
  - unfold synced, on_poll_done. cbn zeta. sv_simpl. split; [discriminate|]. intros id Hin. split.
    + rewrite last_of_broadcast_other by reflexivity. exact (proj1 (H1 id Hin)).
    + apply last_of_broadcast_open; [exact Hin | reflexivity].
  - unfold on_reload. destruct (loadRuntimeConfig parsed) as [e|cfg]; [split; assumption|].
    unfold synced. cbn [sv_latestMetrics sv_sent sv_clients sv_config]. split.
    + intros Hn id. rewrite last_of_broadcast_other by reflexivity. exact (H0 Hn id).
    + intros id Hin. split; [apply last_of_broadcast_open; [exact Hin | reflexivity]|].
      rewrite last_of_broadcast_other by reflexivity. exact (proj2 (H1 id Hin)).
  - unfold synced, on_connect. sv_simpl. split.
    + intros Hn k. rewrite Hn, app_nil_r, msgs_to_app, last_of_app, msgs_to_single.
      destruct (Nat.eqb id k); exact (H0 Hn k).
    + intros k Hin. rewrite !msgs_to_app, !last_of_app, msgs_to_single.
      destruct (Nat.eqb id k) eqn:E.
      * apply Nat.eqb_eq in E as <-. destruct (sv_latestMetrics s) as [p|] eqn:El.
        -- rewrite msgs_to_single, Nat.eqb_refl. split; reflexivity.
        -- cbn. split; [reflexivity | exact (H0 eq_refl id)].
      * apply Nat.eqb_neq in E. apply in_app_or in Hin as [Hin|[Hk|[]]]; [|injection Hk as Hk; contradiction].
        destruct (sv_latestMetrics s) as [p|]; [rewrite msgs_to_single, (proj2 (Nat.eqb_neq _ _) E)|];
          exact (H1 k Hin).
  - unfold synced, on_close. sv_simpl. split; [exact H0|]. intros k Hin. exact (H1 k (in_close _ _ _ Hin)).
Qed.

Lemma reachable_synced (s : Server) : reachable s -> synced s.
Proof.
  induction 1 as [parsed cfg images _ _ _ | s s' _ IH Hstep].
  - split; [reflexivity | intros id []].
  - exact (step_synced s s' Hstep IH).
Qed.

(** The published metrics are never withdrawn. *)
Lemma star_latest_none (s s' : Server) :
  clos_refl_trans Server step s s' -> sv_latestMetrics s' = None -> sv_latestMetrics s = None.
Proof.
  induction 1 as [s s' Hstep | s | s s' s'' _ IH1 _ IH2]; auto.
  intros Hn. destruct Hstep; sv_simpl_in Hn; try exact Hn; [discriminate|].
  unfold on_reload in Hn. destruct (loadRuntimeConfig parsed); exact Hn.
Qed.

(** What the server has sent only grows. *)
Lemma star_sent_prefix (s s' : Server) :
  clos_refl_trans Server step s s' -> exists l, sv_sent s' = sv_sent s ++ l.
Proof.
  induction 1 as [s s' Hstep | s | s s' s'' _ (l1 & E1) _ (l2 & E2)].
  - destruct Hstep; sv_simpl; try (exists []; rewrite app_nil_r; reflexivity);
      try (eexists; reflexivity).
    + unfold on_reload. destruct (loadRuntimeConfig parsed); [exists []; rewrite app_nil_r | eexists]; reflexivity.
  - exists []. rewrite app_nil_r. reflexivity.
  - exists (l1 ++ l2). rewrite E2, E1, app_assoc. reflexivity.
Qed.

(** ** The browser follows the messages *)

Section Browser.
Context (measureText : string -> R) (localeCompare : string -> string -> comparison)
        (innerWidth innerHeight devicePixelRatio rectLeft rectTop : R) (resolveUrl : string -> string).

Local Abbreviation browse :=
  (ui_step measureText localeCompare innerWidth innerHeight devicePixelRatio rectLeft rectTop resolveUrl).

(** What an event does to [topology] and [metrics]: a topology replaces
    the one shown, metrics replace the metrics shown, nothing else. *)
Lemma browse_model (u : Ui) (m : ServerMessage) :
  ui_topology (browse u (EvServerMessage m)) = match topology_of m with Some t => Some t | None => ui_topology u end /\
  ui_metrics (browse u (EvServerMessage m)) = match metrics_of m with Some p => Some p | None => ui_metrics u end.
Proof.
  destruct m; cbn [ui_step handleServerMessage topology_of metrics_of];
    unfold applyTopology, applyMetrics, draw, resizeCanvas, rebuildLinkPaths, ui_rebuildLinkCapacities;
    repeat (case_match; cbn [set_model set_canvas set_view set_derived ui_topology ui_metrics] in *); cbn;
    split; congruence.
Qed.

Lemma browse_fetched (u : Ui) (t : TopologyDefinition) (m : option MetricsPayload) :
  ui_topology (browse (browse u (EvTopologyFetched t)) (EvMetricsFetched m)) = Some t /\
  ui_metrics (browse (browse u (EvTopologyFetched t)) (EvMetricsFetched m)) =
    match m with Some p => Some p | None => ui_metrics u end.
Proof.
  pose proof (browse_model u (MsgTopology t)) as [T M]. cbn [ui_step handleServerMessage] in T, M |- *.
  destruct m as [p|]; [|split; assumption].
  pose proof (browse_model (applyTopology measureText localeCompare innerWidth innerHeight devicePixelRatio
                              resolveUrl t u) (MsgMetrics p)) as [T' M'].
  cbn [ui_step handleServerMessage topology_of metrics_of] in T', M'. rewrite T', M'. split; [exact T | reflexivity].
Qed.

Lemma socket_events_model (msgs : list ServerMessage) (u : Ui) :
  ui_topology (fold_left browse (socket_events msgs) u) =
    match last_of topology_of msgs with Some t => Some t | None => ui_topology u end /\
  ui_metrics (fold_left browse (socket_events msgs) u) =
    match last_of metrics_of msgs with Some p => Some p | None => ui_metrics u end.
Proof.
  revert u. induction msgs as [|m msgs IH]; intros u; [split; reflexivity|].
  cbn [socket_events map fold_left last_of]. destruct (IH (browse u (EvServerMessage m))) as [T M].
  unfold socket_events in T, M. rewrite T, M.
  destruct (browse_model u m) as [T' M']. rewrite T', M'.
  destruct (last_of topology_of msgs), (last_of metrics_of msgs), m; split; reflexivity.
Qed.

(** What a browser in any state shows once it has handled the messages
    of a fresh socket that is still open: the server's current topology,
    and its last published metrics, or the metrics it showed before when
    the server has published none.  This is also what follows a
    reconnection ([startWebSocket] again after the socket closed). *)
Theorem socket_shows_server_state (u : Ui) (s3 s : Server) (id : nat) :
  reachable s3 -> msgs_to id (sv_sent s3) = [] -> clos_refl_trans Server step (on_connect s3 id) s ->
  In {| cl_id := id; cl_open := true |} (sv_clients s) ->
  let u' := fold_left browse (socket_events (msgs_to id (drop (length (sv_sent s3)) (sv_sent s)))) u in
  ui_topology u' = Some (rt_topology (sv_config s)) /\
  ui_metrics u' = match sv_latestMetrics s with Some p => Some p | None => ui_metrics u end.
Proof.
  intros Hr3 Hfresh H4 Hin.
  assert (Hr : reachable s) by exact (reachable_star _ s H4 (reach_step s3 _ Hr3 (step_connect s3 id))).
  destruct (proj2 (reachable_synced s Hr) id Hin) as [HT HM].
  destruct (star_sent_prefix (on_connect s3 id) s H4) as (l & El).
  assert (Hmsgs : msgs_to id (drop (length (sv_sent s3)) (sv_sent s)) = msgs_to id (sv_sent s)).
  { rewrite El. cbn [on_connect sv_sent]. rewrite <- !app_assoc, drop_app_length, (msgs_to_app id (sv_sent s3)), Hfresh.
    reflexivity. }
  cbv zeta. rewrite Hmsgs. destruct (socket_events_model (msgs_to id (sv_sent s)) u) as [T M].
  rewrite T, M, HT, HM. split; reflexivity.
Qed.

(** C22: a whole session: a browser that loads the page, fetches
    [/api/topology] and then [/api/metrics] from a running server, opens
    a WebSocket on a fresh connection and stays connected, shows, once it
    has handled every message the server has sent on that socket,
    exactly the topology the server holds now and the metrics it
    published last (none if it has published none), whatever the server
    did in between: polls, failures, reloads, other clients. *)
Theorem session_shows_server_state (s1 s2 s3 s : Server) (id : nat) :
  reachable s1 -> clos_refl_trans Server step s1 s2 -> clos_refl_trans Server step s2 s3 ->
  msgs_to id (sv_sent s3) = [] -> clos_refl_trans Server step (on_connect s3 id) s ->
  In {| cl_id := id; cl_open := true |} (sv_clients s) ->
  exists events, bootstrap (get_topology s1) (get_metrics s2) = BootStarted events /\
    let u := fold_left browse (events ++ socket_events (msgs_to id (drop (length (sv_sent s3)) (sv_sent s))))
               (ui_init innerWidth innerHeight devicePixelRatio) in
    ui_topology u = Some (rt_topology (sv_config s)) /\ ui_metrics u = sv_latestMetrics s.
Proof.
  intros Hr1 H12 H23 Hfresh H4 Hin.
  assert (H2s : clos_refl_trans Server step s2 s)
    by (apply rt_trans with s3; [exact H23 | apply rt_trans with (on_connect s3 id); [apply rt_step, step_connect | exact H4]]).
  assert (Hr3 : reachable s3) by exact (reachable_star s2 s3 H23 (reachable_star s1 s2 H12 Hr1)).
  unfold bootstrap, get_topology, get_metrics. cbn [fetchInitialTopology].
  destruct (sv_latestMetrics s2) as [p|] eqn:E2; eexists; (split; [reflexivity|]); cbv zeta;
    rewrite fold_left_app; cbn [fetchInitialMetrics app fold_left];
    match goal with |- context [fold_left _ (socket_events _) ?u0] =>
      destruct (socket_shows_server_state u0 s3 s id Hr3 Hfresh H4 Hin) as [T M] end;
    rewrite T, M; (split; [reflexivity|]); destruct (sv_latestMetrics s) as [q|] eqn:Es; try reflexivity.
  - rewrite (star_latest_none s2 s H2s Es) in E2. discriminate.
  - exact (proj2 (browse_fetched _ _ _)).
Qed.

End Browser.

(** ** Examples *)

Definition ex_measure (_ : string) : R := 0%R.
Definition ex_compare (_ _ : string) : comparison := Eq.
Definition ex_resolve (url : string) : string := url.

(** The server starts and has published nothing; a browser loads the
    page, connects as client [1], and the first cycle publishes. *)
Lemma session_shows_server_state_witness :
  exists s1 s2 s3 s id, reachable s1 /\ clos_refl_trans Server step s1 s2 /\ clos_refl_trans Server step s2 s3 /\
    msgs_to id (sv_sent s3) = [] /\ clos_refl_trans Server step (on_connect s3 id) s /\
    In {| cl_id := id; cl_open := true |} (sv_clients s) /\
    exists events, bootstrap (get_topology s1) (get_metrics s2) = BootStarted events /\
      let u := fold_left (ui_step ex_measure ex_compare 800 600 1 0 0 ex_resolve)
                 (events ++ socket_events (msgs_to id (drop (length (sv_sent s3)) (sv_sent s)))) (ui_init 800 600 1) in
      ui_topology u = Some (rt_topology (sv_config s)) /\ ui_metrics u = sv_latestMetrics s.
Proof.
  destruct (loadRuntimeConfig (ex_doc "core")) as [e|cfg] eqn:E; [vm_compute in E; discriminate|].
  set (s0 := init cfg []). set (s4 := on_connect s0 1).
  set (r := pollRouters ex_answer (fun _ => 1000%Z) (map_to_list (rt_routerPollConfig cfg)) (sv_cache s4)).
  set (s := on_poll_done s4 r.1 r.2 "t").
  assert (H0 : reachable s0) by (apply (reach_init (ex_doc "core") cfg []); [decide_by_compute | exact E | constructor]).
  assert (H4 : clos_refl_trans Server step s4 s)
    by (apply rt_step, (step_poll_done s4 (rt_routerPollConfig cfg)); [reflexivity | apply Permutation_refl]).
  assert (Hin : In {| cl_id := 1; cl_open := true |} (sv_clients s)) by (cbn; left; reflexivity).
  assert (Hf : msgs_to 1 (sv_sent s0) = []) by reflexivity.
  assert (H11 : clos_refl_trans Server step s0 s0) by apply rt_refl.
  exists s0, s0, s0, s, 1. split; [exact H0|]. split; [exact H11|]. split; [exact H11|]. split; [exact Hf|].
  split; [exact H4|]. split; [exact Hin|].
  exact (session_shows_server_state ex_measure ex_compare 800 600 1 0 0 ex_resolve s0 s0 s0 s 1
           H0 H11 H11 Hf H4 Hin).
Defined.
