(* ===== verification/CopyButton.v ===== *)
(** * The layout panel's copy button

    [copyLayoutSnippet] and [flashButton] of [src/src/frontend/main.ts]
    (lines 670-704) on the button the [hud] click handler hands them
    (line 759): the snippet is written to the clipboard, through
    [navigator.clipboard.writeText] (awaited) or, without it, through a
    hidden [textarea] and [document.execCommand("copy")] (at once); the
    button then shows "Copied!" or "Copy failed", disabled, and a timer
    of 1200 ms writes back the text it had before.  A disabled button
    receives no clicks.

    The state is the button's [textContent] and [disabled], the copies
    awaiting [writeText] (they resolve in the order they were started),
    the restore timers pending (all of the same duration, so they fire in
    the order they were set, each with the text it will write back) and
    the clipboard.

    The theorem: used one copy at a time, the button always returns to
    "Copy JSON", enabled; a second click while [writeText] is pending
    makes the second [flashButton] record "Copied!" as the text to write
    back, and the button is left enabled and reading "Copied!". *)

From Stdlib Require Import String List Lia.
From S2P Require Import Prelude.
Import ListNotations.

Local Open Scope string_scope.

(** ** State *)

Record Button := { textContent : string; disabled : bool }.

Record CopyState := {
  cp_button : Button;
  cp_awaiting : list string;
  cp_timers : list string;
  cp_clipboard : option string
}.

Inductive CopyEvent :=
  | Click (snippet : string) (hasClipboard : bool)
  | WriteDone (ok : bool)
  | TimerFires.

(** The button as the layout panel's markup creates it. *)
Definition copy_button_init : Button := {| textContent := "Copy JSON"; disabled := false |}.

Definition copy_init : CopyState :=
  {| cp_button := copy_button_init; cp_awaiting := []; cp_timers := []; cp_clipboard := None |}.

(** ** Operations *)

(** [flashButton(button, message)]: the message, disabled, and a timer
    that writes back the text the button had. *)
Definition flashButton (st : CopyState) (message : string) : CopyState :=
  let previous := textContent (cp_button st) in
  {| cp_button := {| textContent := message; disabled := true |}; cp_awaiting := cp_awaiting st;
     cp_timers := cp_timers st ++ [previous]; cp_clipboard := cp_clipboard st |}.

(** [copyLayoutSnippet(button)] up to its [await]: nothing for an empty
    snippet; with [navigator.clipboard], the write is started and
    awaited; without it, the [execCommand] copy is done at once and the
    button flashes. *)
Definition copyLayoutSnippet (snippet : string) (hasClipboard : bool) (st : CopyState) : CopyState :=
  if String.eqb snippet "" then st
  else if hasClipboard then
    {| cp_button := cp_button st; cp_awaiting := cp_awaiting st ++ [snippet]; cp_timers := cp_timers st;
       cp_clipboard := cp_clipboard st |}
  else
    flashButton {| cp_button := cp_button st; cp_awaiting := cp_awaiting st; cp_timers := cp_timers st;
                   cp_clipboard := Some snippet |} "Copied!".

(** The end of the oldest [await navigator.clipboard.writeText]: the
    [try] goes on with "Copied!", or the [catch] with "Copy failed". *)
Definition write_done (ok : bool) (st : CopyState) : CopyState :=
  match cp_awaiting st with
  | [] => st
  | snippet :: rest =>
      flashButton {| cp_button := cp_button st; cp_awaiting := rest; cp_timers := cp_timers st;
                     cp_clipboard := if ok then Some snippet else cp_clipboard st |}
                  (if ok then "Copied!" else "Copy failed")
  end.

(** The oldest restore timer of [flashButton] fires. *)
Definition restore (st : CopyState) : CopyState :=
  match cp_timers st with
  | [] => st
  | previous :: rest =>
      {| cp_button := {| textContent := previous; disabled := false |}; cp_awaiting := cp_awaiting st;
         cp_timers := rest; cp_clipboard := cp_clipboard st |}
  end.

(** One event; a click reaches the handler only while the button is
    enabled. *)
Definition copy_step (st : CopyState) (ev : CopyEvent) : CopyState :=
  match ev with
  | Click snippet hasClipboard =>
      if disabled (cp_button st) then st else copyLayoutSnippet snippet hasClipboard st
  | WriteDone ok => write_done ok st
  | TimerFires => restore st
  end.

Definition copy_run (events : list CopyEvent) : CopyState := fold_left copy_step events copy_init.

(** ** The button comes back *)

(** Every pending timer writes back "Copy JSON", and with none pending
    the button reads "Copy JSON" and is enabled. *)
Definition restored (st : CopyState) : Prop :=
  Forall (eq "Copy JSON") (cp_timers st) /\ (cp_timers st = [] -> cp_button st = copy_button_init).

(** A user who waits for a copy to finish before clicking again. *)
Fixpoint one_at_a_time (st : CopyState) (events : list CopyEvent) : Prop :=
  match events with
  | [] => True
  | ev :: rest =>
      match ev with Click _ _ => cp_awaiting st = [] | _ => True end /\ one_at_a_time (copy_step st ev) rest
  end.

(** The states of one-at-a-time use: idle, awaiting one write with the
    button untouched, or flashing with one timer that restores
    "Copy JSON". *)
Definition copy_inv (st : CopyState) : Prop :=
  (cp_awaiting st = [] /\ cp_timers st = [] /\ cp_button st = copy_button_init) \/
  (length (cp_awaiting st) = 1 /\ cp_timers st = [] /\ cp_button st = copy_button_init) \/
  (cp_awaiting st = [] /\ cp_timers st = ["Copy JSON"] /\ disabled (cp_button st) = true).

Lemma copy_inv_restored (st : CopyState) : copy_inv st -> restored st.
Proof.
  unfold restored. intros [(_ & -> & ->) | [(_ & -> & ->) | (_ & -> & _)]];
    (split; [repeat constructor | intros; try discriminate; reflexivity]).
Qed.

Lemma copy_step_inv (st : CopyState) (ev : CopyEvent) :
  copy_inv st -> match ev with Click _ _ => cp_awaiting st = [] | _ => True end -> copy_inv (copy_step st ev).
Proof.
  destruct st as [b aw tm cb]. unfold copy_inv. cbn [cp_awaiting cp_timers cp_button].
  intros H Hclick. destruct ev as [snippet hasClipboard | ok |]; cbn [copy_step].
  - subst aw. destruct H as [(_ & -> & ->) | [(Hl & _) | (_ & -> & Hd)]]; [| discriminate |].
    + cbn [disabled copy_button_init]. unfold copyLayoutSnippet.
      destruct (String.eqb snippet ""); [left; auto|].
      destruct hasClipboard; [right; left; auto | right; right; auto].
    + cbn [cp_button]. rewrite Hd. right; right; auto.
  - unfold write_done. cbn [cp_awaiting].
    destruct H as [(-> & -> & ->) | [(Hl & -> & ->) | (-> & -> & Hd)]]; [left; auto | | right; right; auto].
    destruct aw as [|s [|s' rest]]; try discriminate. right; right; auto.
  - unfold restore. cbn [cp_timers].
    destruct H as [(-> & -> & ->) | [(Hl & -> & ->) | (-> & -> & Hd)]]; [left; auto | right; left; auto | left; auto].
Qed.

Lemma copy_steps_inv (events : list CopyEvent) (st : CopyState) :
  copy_inv st -> one_at_a_time st events -> copy_inv (fold_left copy_step events st).
Proof.
  revert st. induction events as [|ev rest IH]; intros st Hinv Hseq; [exact Hinv|].
  destruct Hseq as [Hev Hrest]. apply IH; [apply copy_step_inv|]; assumption.
Qed.

(** Two clicks before the first write resolves. *)
Definition ex_double_click : list CopyEvent :=
  [Click "{}" true; Click "{}" true; WriteDone true; WriteDone true; TimerFires; TimerFires].

(** The copy button comes back to "Copy JSON", enabled, whenever each
    copy is finished before the next click; a second click while
    [writeText] is pending leaves it, once every timer has fired, enabled
    and reading "Copied!": the second [flashButton] took "Copied!" as the
    text to write back. *)
Theorem copy_button_restored :
  (forall events, one_at_a_time copy_init events -> restored (copy_run events)) /\
  (cp_awaiting (copy_run ex_double_click) = [] /\ cp_timers (copy_run ex_double_click) = [] /\
   cp_button (copy_run ex_double_click) = {| textContent := "Copied!"; disabled := false |}).
Proof.
  split.
  - intros events Hseq. apply copy_inv_restored, copy_steps_inv; [left; auto | exact Hseq].
  - vm_compute. auto.
Qed.
