(* ===== verification/OldServer.v ===== *)
(** * The earlier backend server

    The module-level state and event handlers of the first version of
    [src/src/backend.ts] (lines 326-417): [runtime.config] (an
    [OldRuntimeConfig] of [OldBackend]), [latestMetrics], the sampler's
    cache of [src/src/snmp.ts] ([OldSampler]), the WebSocket clients and
    the messages sent to them.  It has no snapshot images: [pollLoop]
    publishes and schedules the next cycle at once.  The events are an
    inductive type [OldEvent], one constructor per callback, and
    [old_step] the transition each of them makes, as for [Backend.step].

    The earlier [toRouterMetrics] (lines 224-293) copies
    [iface.maxBandwidth] where the current one writes
    [iface.maxBandwidth ?? 0]; every interface of a topology the earlier
    loader builds has a [maxBandwidth] ([old_loaded_maxBandwidth]), so
    the two agree on every topology the earlier server holds and the
    resolver of [Resolver] stands for both.  Its [toLinkMetrics] (lines
    295-322) is the current code to the character.

    The theorems: a star simulation ([current_simulates_old], in the
    manner of a compiler's simulation diagram) relates every state of the
    earlier server to a state of the current one with the same
    configuration, published payload, cache, clients and sent messages;
    a configuration both loaders read alike, polled through agents that
    answer every OID, keeps the relation; hence every sequence of
    WebSocket messages and [/api/metrics] and [/api/topology] answers of
    the earlier server is one of the current server's. *)

From Stdlib Require Import QArith ZArith String List Lia Permutation Relations.
From stdpp Require Import base option gmap strings.
From S2P Require Import Prelude Status Sampler OldSampler Topology Config OldBackend Resolver Backend.

(** ** State *)

(** Where the earlier [pollLoop] is: not running, or awaiting
    [pollRouters] on the poll configuration it read when it started. *)
Inductive OldPhase :=
  | OIdle
  | OPolling (pollConfig : gmap string OldRouterConfig).

Record OldServer := {
  osv_config : OldRuntimeConfig;
  osv_latestMetrics : option MetricsPayload;
  osv_cache : SampleCache;
  osv_phase : OldPhase;
  osv_timer : option Q;
  osv_clients : list Client;
  osv_sent : list (nat * ServerMessage)
}.

(** The events: a [setTimeout] firing, the end of [pollRouters] (with
    the agents, clocks and completion order of the routers' polls), its
    rejection after [n] routers' cache phases, the [fs.watchFile]
    callback on a document, a WebSocket connection and a socket
    leaving [OPEN]. *)
Inductive OldEvent :=
  | OTimer
  | OPollDone (agents : string -> list string -> SnmpResponse) (clock : string -> Z)
              (schedule : list (string * OldRouterConfig)) (timestamp : string)
  | OPollFailed (agents : string -> list string -> SnmpResponse) (clock : string -> Z)
                (schedule : list (string * OldRouterConfig)) (n : nat)
  | OReload (doc : OldRawConfig)
  | OConnect (id : nat)
  | OClose (id : nat).

Section OldProcess.

(** [DATA_DIR], fixed by the environment when the process starts. *)
Variable dataDir : string.

(** The process after its top level has run: the configuration is
    loaded, nothing is published, and the first [pollLoop()] is
    awaiting [pollRouters]. *)
Definition old_init (cfg : OldRuntimeConfig) : OldServer :=
  {| osv_config := cfg; osv_latestMetrics := None; osv_cache := ∅;
     osv_phase := OPolling (ort_routerPollConfig cfg); osv_timer := None;
     osv_clients := []; osv_sent := [] |}.

(** ** Handlers *)

(** The [setTimeout] fires: [pollLoop] reads
    [runtime.config.routerPollConfig]. *)
Definition old_on_timer (s : OldServer) : OldServer :=
  {| osv_config := osv_config s; osv_latestMetrics := osv_latestMetrics s; osv_cache := osv_cache s;
     osv_phase := OPolling (ort_routerPollConfig (osv_config s)); osv_timer := None;
     osv_clients := osv_clients s; osv_sent := osv_sent s |}.

(** [pollRouters] has resolved: the payload is resolved against
    [runtime.config.topology] as it is now, stored, broadcast, and the
    [finally] block schedules the next cycle. *)
Definition old_on_poll_done (s : OldServer) (snapshot : gmap string RouterSample) (cache : SampleCache)
    (timestamp : string) : OldServer :=
  let payload := metrics_payload (ort_topology (osv_config s)) snapshot timestamp in
  {| osv_config := osv_config s; osv_latestMetrics := Some payload; osv_cache := cache;
     osv_phase := OIdle; osv_timer := Some (ort_pollIntervalMs (osv_config s));
     osv_clients := osv_clients s;
     osv_sent := osv_sent s ++ broadcast (osv_clients s) (MsgMetrics payload) |}.

(** [pollRouters] has rejected: logged, and the next cycle scheduled. *)
Definition old_on_poll_failed (s : OldServer) (cache : SampleCache) : OldServer :=
  {| osv_config := osv_config s; osv_latestMetrics := osv_latestMetrics s; osv_cache := cache;
     osv_phase := OIdle; osv_timer := Some (ort_pollIntervalMs (osv_config s));
     osv_clients := osv_clients s; osv_sent := osv_sent s |}.

(** The [fs.watchFile] callback: a configuration that loads replaces
    [runtime.config] and its topology is broadcast; a failure is logged. *)
Definition old_on_reload (s : OldServer) (loaded : Result OldRuntimeConfig) : OldServer :=
  match loaded with
  | inl _ => s
  | inr cfg =>
      {| osv_config := cfg; osv_latestMetrics := osv_latestMetrics s; osv_cache := osv_cache s;
         osv_phase := osv_phase s; osv_timer := osv_timer s; osv_clients := osv_clients s;
         osv_sent := osv_sent s ++ broadcast (osv_clients s) (MsgTopology (ort_topology cfg)) |}
  end.

(** [wss.on("connection")]: the topology, then the latest metrics. *)
Definition old_on_connect (s : OldServer) (id : nat) : OldServer :=
  {| osv_config := osv_config s; osv_latestMetrics := osv_latestMetrics s; osv_cache := osv_cache s;
     osv_phase := osv_phase s; osv_timer := osv_timer s;
     osv_clients := osv_clients s ++ [{| cl_id := id; cl_open := true |}];
     osv_sent := osv_sent s ++ [(id, MsgTopology (ort_topology (osv_config s)))] ++
                 match osv_latestMetrics s with Some p => [(id, MsgMetrics p)] | None => [] end |}.

Definition old_on_close (s : OldServer) (id : nat) : OldServer :=
  {| osv_config := osv_config s; osv_latestMetrics := osv_latestMetrics s; osv_cache := osv_cache s;
     osv_phase := osv_phase s; osv_timer := osv_timer s;
     osv_clients := map (fun c => if Nat.eqb (cl_id c) id
                                  then {| cl_id := cl_id c; cl_open := false |} else c) (osv_clients s);
     osv_sent := osv_sent s |}.

(** One event and the state it leads to. *)
Inductive old_step : OldServer -> OldEvent -> OldServer -> Prop :=
  | ostep_timer s delay :
      osv_phase s = OIdle -> osv_timer s = Some delay -> old_step s OTimer (old_on_timer s)
  | ostep_poll_done s pc agents clock schedule timestamp :
      osv_phase s = OPolling pc -> Permutation schedule (map_to_list pc) ->
      old_step s (OPollDone agents clock schedule timestamp)
        (old_on_poll_done s (old_pollRouters agents clock schedule (osv_cache s)).1
                            (old_pollRouters agents clock schedule (osv_cache s)).2 timestamp)
  | ostep_poll_failed s pc agents clock schedule n :
      osv_phase s = OPolling pc -> Permutation schedule (map_to_list pc) ->
      old_step s (OPollFailed agents clock schedule n)
        (old_on_poll_failed s (old_pollRouters agents clock (firstn n schedule) (osv_cache s)).2)
  | ostep_reload s doc :
      NoDup (map fst (oraw_routers doc)) ->
      old_step s (OReload doc) (old_on_reload s (old_loadRuntimeConfig dataDir doc))
  | ostep_connect s id : old_step s (OConnect id) (old_on_connect s id)
  | ostep_close s id : old_step s (OClose id) (old_on_close s id).

(** A run: the events in the order they happen. *)
Inductive old_run : OldServer -> list OldEvent -> OldServer -> Prop :=
  | orun_nil s : old_run s [] s
  | orun_cons s e s' es s'' : old_step s e s' -> old_run s' es s'' -> old_run s (e :: es) s''.

(** ** HTTP handlers *)

Definition old_get_metrics (s : OldServer) : HttpResponse :=
  match osv_latestMetrics s with
  | None => HttpStatus 204 ""
  | Some p => Json p
  end.

Definition old_get_topology (s : OldServer) : HttpResponse := JsonTopology (ort_topology (osv_config s)).

Definition old_get_background (s : OldServer) : HttpResponse := File (ort_backgroundPath (osv_config s)).

End OldProcess.

(** ** The configurations both samplers read alike *)

(** A router the two samplers poll alike ([old_pollRouter_equiv]):
    distinct interface names, distinct valid OIDs, positive capacities. *)
Definition router_ok (r : OldRouterConfig) : Prop :=
  NoDup (map oic_name (orc_interfaces r)) /\ NoDup (map fst (all_entries (orc_interfaces r))) /\
  Forall (fun i => 0 < oic_max_bandwidth i)%Q (orc_interfaces r).

Definition pc_ok (pc : gmap string OldRouterConfig) : Prop := map_Forall (fun _ => router_ok) pc.

(** The same condition on the document, on the interfaces as the
    earlier loader's poll entries have them. *)
Definition raw_router_distinct (r : OldRawRouterConfig) : bool :=
  match orr_interfaces r with
  | Some ifs => bool_decide (NoDup (map oic_name (map old_pollInterface ifs))) &&
                bool_decide (NoDup (map fst (all_entries (map old_pollInterface ifs))))
  | None => true
  end.

Definition old_doc_distinct (doc : OldRawConfig) : bool :=
  forallb (fun e => raw_router_distinct e.2) (oraw_routers doc).

(** SNMP agents that answer every OID they are asked for. *)
Definition answers (agents : string -> list string -> SnmpResponse) : Prop :=
  exists reading : string -> string -> string + Z, forall k, agents k = answering (reading k).

(** The events the simulation covers: polls through answering agents,
    reloads of documents both loaders read alike. *)
Definition event_ok (e : OldEvent) : Prop :=
  match e with
  | OPollDone agents _ _ _ | OPollFailed agents _ _ _ => answers agents
  | OReload doc => old_doc_okb doc = true /\ old_doc_distinct doc = true
  | _ => True
  end.

(** A schedule of the earlier poll configuration as the current one. *)
Definition to_schedule (schedule : list (string * OldRouterConfig)) : list (string * RouterConfig) :=
  map (fun e => (e.1, to_router e.2)) schedule.

(** ** The simulation relation *)

Definition phase_matches (p : OldPhase) (q : Phase) : Prop :=
  match p, q with
  | OIdle, Idle => True
  | OPolling pc, Polling pc' => pc' = to_router <$> pc /\ pc_ok pc
  | _, _ => False
  end.

Record old_matches (s : OldServer) (t : Server) : Prop := {
  m_topology : rt_topology (sv_config t) = ort_topology (osv_config s);
  m_interval : rt_pollIntervalMs (sv_config t) = ort_pollIntervalMs (osv_config s);
  m_pollConfig : rt_routerPollConfig (sv_config t) = to_router <$> ort_routerPollConfig (osv_config s);
  m_pc_ok : pc_ok (ort_routerPollConfig (osv_config s));
  m_latest : sv_latestMetrics t = osv_latestMetrics s;
  m_cache : sv_cache t = osv_cache s;
  m_phase : phase_matches (osv_phase s) (sv_phase t);
  m_timer : sv_timer t = osv_timer s;
  m_clients : sv_clients t = osv_clients s;
  m_sent : sv_sent t = osv_sent s
}.

(** ** The samplers on a whole schedule *)

Lemma old_pollRouters_equiv (agents : string -> list string -> SnmpResponse) (clock : string -> Z)
    (schedule : list (string * OldRouterConfig)) (cache : SampleCache) :
  answers agents -> Forall (fun e => router_ok e.2) schedule ->
  old_pollRouters agents clock schedule cache = pollRouters agents clock (to_schedule schedule) cache.
Proof.
  intros [reading Hr] Hok. unfold old_pollRouters, pollRouters, to_schedule. rewrite fold_left_map_in.
  apply fold_left_ext_in. intros [snapshot c] [k r] Hin. rewrite List.Forall_forall in Hok.
  destruct (Hok _ Hin) as (H1 & H2 & H3). unfold poll_one. cbn [fst snd]. rewrite Hr.
  rewrite old_pollRouter_equiv by assumption. reflexivity.
Qed.

Lemma to_schedule_perm (pc : gmap string OldRouterConfig) (schedule : list (string * OldRouterConfig)) :
  Permutation schedule (map_to_list pc) -> Permutation (to_schedule schedule) (map_to_list (to_router <$> pc)).
Proof.
  intros Hp. rewrite map_to_list_fmap. unfold to_schedule.
  transitivity (map (fun e => (e.1, to_router e.2)) (map_to_list pc)); [apply Permutation_map, Hp|]. clear Hp.
  induction (map_to_list pc) as [|[k r] l IH]; [reflexivity|]. cbn. f_equiv. exact IH.
Qed.

Lemma schedule_ok (pc : gmap string OldRouterConfig) (schedule : list (string * OldRouterConfig)) :
  pc_ok pc -> Permutation schedule (map_to_list pc) -> Forall (fun e => router_ok e.2) schedule.
Proof.
  intros Hpc Hp. apply List.Forall_forall. intros [k r] Hin.
  apply (Permutation_in _ Hp), list_elem_of_In, elem_of_map_to_list in Hin. exact (Hpc k r Hin).
Qed.

Lemma firstn_schedule_ok (n : nat) (schedule : list (string * OldRouterConfig)) :
  Forall (fun e => router_ok e.2) schedule -> Forall (fun e => router_ok e.2) (firstn n schedule).
Proof.
  rewrite !List.Forall_forall. intros H e He. apply H. rewrite <- (firstn_skipn n schedule). apply in_or_app. left. exact He.
Qed.

(** ** What the earlier loader builds *)

Lemma old_normaliseRouter_inr (routerId : string) (r : OldRawRouterConfig) (p : OldRouterConfig)
    (d : RouterDefinition) :
  old_normaliseRouter routerId r = inr (p, d) ->
  exists ifs, orr_interfaces r = Some ifs /\ orc_interfaces p = map old_pollInterface ifs /\
              rd_interfaces d = map old_interfaceDefinition ifs.
Proof.
  unfold old_normaliseRouter. destruct (_ || _); [discriminate|].
  destruct (orr_interfaces r) as [[|i ifs]|]; try discriminate.
  intros [= <- <-]. eexists. split; [reflexivity|]. split; reflexivity.
Qed.

(** A property of every router's poll entry and definition that each
    successful [old_normaliseRouter] establishes holds of the result. *)
Lemma old_loop_preserves (P : OldRouterConfig -> Prop) (D : RouterDefinition -> Prop)
    (entries : list (string * OldRawRouterConfig)) (pc pc' : gmap string OldRouterConfig)
    (defs defs' : list RouterDefinition) :
  (forall rid r p d, In (rid, r) entries -> old_normaliseRouter rid r = inr (p, d) -> P p /\ D d) ->
  map_Forall (fun _ => P) pc -> Forall D defs ->
  old_normaliseRouters_loop entries pc defs = inr (pc', defs') ->
  map_Forall (fun _ => P) pc' /\ Forall D defs'.
Proof.
  revert pc defs. induction entries as [|[rid r] entries IH]; intros pc defs Hstep Hpc Hdefs H.
  - injection H as <- <-. auto.
  - cbn [old_normaliseRouters_loop] in H. apply res_bind_inr in H as ([p d] & Hr & H).
    destruct (Hstep rid r p d (or_introl eq_refl) Hr) as [Hp Hd].
    apply (IH (<[rid := p]> pc) (defs ++ [d]) (fun rid' r' p' d' Hin => Hstep rid' r' p' d' (or_intror Hin)));
      [| |exact H].
    + apply map_Forall_insert_2; assumption.
    + apply Forall_app. split; [exact Hdefs | constructor; [exact Hd | constructor]].
Qed.

Lemma old_load_inv (dataDir : string) (doc : OldRawConfig) (o : OldRuntimeConfig)
    (P : OldRouterConfig -> Prop) (D : RouterDefinition -> Prop) :
  (forall rid r p d, In (rid, r) (oraw_routers doc) -> old_normaliseRouter rid r = inr (p, d) -> P p /\ D d) ->
  old_loadRuntimeConfig dataDir doc = inr o ->
  map_Forall (fun _ => P) (ort_routerPollConfig o) /\ Forall D (td_routers (ort_topology o)).
Proof.
  intros Hstep H. unfold old_loadRuntimeConfig, old_normaliseRouters in H.
  apply res_bind_inr in H as (raw & Hraw & H).
  destruct (is_nil (oraw_routers doc)); [discriminate|]. injection Hraw as <-.
  apply res_bind_inr in H as ([pc defs] & Hloop & H). apply res_bind_inr in H as (links & _ & H).
  injection H as <-. cbn [ort_routerPollConfig ort_topology td_routers fst snd].
  exact (old_loop_preserves P D _ ∅ pc [] defs Hstep (map_Forall_empty _) (List.Forall_nil _) Hloop).
Qed.

(** Every interface of a topology the earlier loader builds has a
    [maxBandwidth], so the earlier [toRouterMetrics]'s
    [iface.maxBandwidth] and the current [iface.maxBandwidth ?? 0] are
    the same number on it. *)
Lemma old_loaded_maxBandwidth (dataDir : string) (doc : OldRawConfig) (o : OldRuntimeConfig) :
  old_loadRuntimeConfig dataDir doc = inr o ->
  Forall (fun r => Forall (fun i => idef_maxBandwidth i <> None) (rd_interfaces r)) (td_routers (ort_topology o)).
Proof.
  intros H. refine (proj2 (old_load_inv dataDir doc o (fun _ => True) _ _ H)). intros rid r p d _ E.
  destruct (old_normaliseRouter_inr _ _ _ _ E) as (ifs & _ & _ & Hd). split; [exact I|].
  rewrite Hd. apply List.Forall_forall. intros i Hi. apply in_map_iff in Hi as (ri & <- & _). discriminate.
Qed.

(** A document both loaders read alike gives poll entries both samplers
    poll alike. *)
Lemma old_load_pc_ok (dataDir : string) (doc : OldRawConfig) (o : OldRuntimeConfig) :
  old_doc_okb doc = true -> old_doc_distinct doc = true ->
  old_loadRuntimeConfig dataDir doc = inr o -> pc_ok (ort_routerPollConfig o).
Proof.
  intros Hok Hdis H. refine (proj1 (old_load_inv dataDir doc o router_ok (fun _ => True) _ H)).
  intros rid r p d Hin E. split; [|exact I].
  destruct (old_normaliseRouter_inr _ _ _ _ E) as (ifs & Hifs & Hp & _).
  unfold old_doc_okb in Hok. unfold old_doc_distinct in Hdis. rewrite forallb_forall in Hok, Hdis.
  specialize (Hok _ Hin). specialize (Hdis _ Hin). cbn [fst snd] in Hok, Hdis.
  unfold raw_router_distinct in Hdis. rewrite Hifs in Hok, Hdis. apply andb_prop in Hdis as [H1 H2].
  unfold router_ok. rewrite Hp. split; [exact (bool_decide_eq_true_1 _ H1)|]. split; [exact (bool_decide_eq_true_1 _ H2)|].
  apply List.Forall_forall. intros i Hi. apply in_map_iff in Hi as (ri & <- & Hri).
  rewrite forallb_forall in Hok. specialize (Hok ri Hri). unfold old_iface_okb in Hok.
  apply andb_prop in Hok as [_ Hq]. apply Qltb_iff, Hq.
Qed.

(** ** The simulation *)

Section Simulation.
Variable dataDir : string.

Lemma matches_idle (s : OldServer) (t : Server) :
  old_matches s t -> osv_phase s = OIdle -> sv_phase t = Idle.
Proof.
  intros M E. pose proof (m_phase _ _ M) as Hph. rewrite E in Hph.
  destruct (sv_phase t); [reflexivity | destruct Hph | destruct Hph].
Qed.

Lemma matches_polling (s : OldServer) (t : Server) (pc : gmap string OldRouterConfig) :
  old_matches s t -> osv_phase s = OPolling pc -> sv_phase t = Polling (to_router <$> pc) /\ pc_ok pc.
Proof.
  intros M E. pose proof (m_phase _ _ M) as Hph. rewrite E in Hph.
  destruct (sv_phase t) as [|pc'|p]; [destruct Hph | | destruct Hph].
  destruct Hph as [-> Hok]. split; [reflexivity | exact Hok].
Qed.

(** Rewrite every field of the current state by the relation and
    compare the two records field by field. *)
Ltac matches_fields M :=
  destruct M as [Mt Mi Mpc Mok Ml Mc Mph Mtm Mcl Ms];
  constructor; cbn [sv_config sv_latestMetrics sv_cache sv_phase sv_timer sv_clients sv_sent
                    osv_config osv_latestMetrics osv_cache osv_phase osv_timer osv_clients osv_sent
                    phase_matches];
  rewrite ?Mt, ?Mi, ?Mpc, ?Ml, ?Mc, ?Mtm, ?Mcl, ?Ms; auto; try congruence.

(** A cycle of the earlier loop ends where the current loop's cycle
    ends once its image is saved. *)
Lemma poll_done_matches (s : OldServer) (t : Server) agents clock (schedule : list (string * OldRouterConfig)) (timestamp : string) :
  old_matches s t -> answers agents -> Forall (fun e => router_ok e.2) schedule ->
  old_matches (old_on_poll_done s (old_pollRouters agents clock schedule (osv_cache s)).1
                                  (old_pollRouters agents clock schedule (osv_cache s)).2 timestamp)
              (on_save_done (on_poll_done t (pollRouters agents clock (to_schedule schedule) (sv_cache t)).1
                                           (pollRouters agents clock (to_schedule schedule) (sv_cache t)).2
                                           timestamp) None).
Proof.
  intros M Ha Hsch. rewrite (old_pollRouters_equiv agents clock schedule _ Ha Hsch), <- (m_cache _ _ M).
  unfold old_on_poll_done, on_save_done, on_poll_done. matches_fields M.
Qed.

Lemma reload_matches (s : OldServer) (t : Server) (doc : OldRawConfig) :
  old_matches s t -> old_doc_okb doc = true -> old_doc_distinct doc = true ->
  old_matches (old_on_reload s (old_loadRuntimeConfig dataDir doc))
              (on_reload t (loadRuntimeConfig (raw_config_view doc))).
Proof.
  intros M Hok Hdis. pose proof (old_loader_refines dataDir doc Hok) as Href.
  destruct (old_loadRuntimeConfig dataDir doc) as [e|o] eqn:Eo,
           (loadRuntimeConfig (raw_config_view doc)) as [e'|n]; try contradiction; [exact M|].
  destruct Href as (Htop & Hint & Hpoll). pose proof (old_load_pc_ok dataDir doc o Hok Hdis Eo) as Hpo.
  unfold old_on_reload, on_reload. matches_fields M.
Qed.

Lemma current_simulates_old (s s' : OldServer) (e : OldEvent) (t : Server) :
  old_step dataDir s e s' -> event_ok e -> old_matches s t ->
  exists t', clos_refl_trans Server step t t' /\ old_matches s' t'.
Proof.
  intros Hs He M. destruct Hs as [s delay Hp Htimer | s pc agents clock schedule timestamp Hp Hperm
    | s pc agents clock schedule n Hp Hperm | s doc Hnd | s id | s id]; cbn [event_ok] in He.
  - exists (on_timer t). split.
    + apply rt_step, (step_timer t delay); [exact (matches_idle s t M Hp) | rewrite (m_timer _ _ M); exact Htimer].
    + unfold old_on_timer, on_timer. matches_fields M.
  - destruct (matches_polling s t pc M Hp) as [Hq Hok].
    set (r := pollRouters agents clock (to_schedule schedule) (sv_cache t)).
    exists (on_save_done (on_poll_done t r.1 r.2 timestamp) None). split.
    + apply rt_trans with (on_poll_done t r.1 r.2 timestamp); apply rt_step.
      * apply (step_poll_done t (to_router <$> pc)); [exact Hq | apply to_schedule_perm, Hperm].
      * apply (step_save_done _ (metrics_payload (rt_topology (sv_config t)) r.1 timestamp)). reflexivity.
    + apply poll_done_matches; [exact M | exact He | exact (schedule_ok pc schedule Hok Hperm)].
  - destruct (matches_polling s t pc M Hp) as [Hq Hok].
    exists (on_poll_failed t (pollRouters agents clock (firstn n (to_schedule schedule)) (sv_cache t)).2). split.
    + apply rt_step, (step_poll_failed t (to_router <$> pc)); [exact Hq | apply to_schedule_perm, Hperm].
    + unfold to_schedule. rewrite firstn_map. fold (to_schedule (firstn n schedule)).
      rewrite <- (old_pollRouters_equiv agents clock (firstn n schedule) _ He
                    (firstn_schedule_ok n schedule (schedule_ok pc schedule Hok Hperm))).
      unfold old_on_poll_failed, on_poll_failed. matches_fields M.
  - destruct He as [Hok Hdis]. exists (on_reload t (loadRuntimeConfig (raw_config_view doc))). split.
    + apply rt_step, step_reload. cbn [raw_config_view raw_routers]. rewrite map_map. exact Hnd.
    + exact (reload_matches s t doc M Hok Hdis).
  - exists (on_connect t id). split; [apply rt_step, step_connect|].
    unfold old_on_connect, on_connect. matches_fields M.
  - exists (on_close t id). split; [apply rt_step, step_close|].
    unfold old_on_close, on_close. matches_fields M.
Qed.

Lemma current_simulates_old_run (s s'' : OldServer) (es : list OldEvent) (t : Server) :
  old_run dataDir s es s'' -> Forall event_ok es -> old_matches s t -> reachable t ->
  exists t'', reachable t'' /\ old_matches s'' t''.
Proof.
  intros Hrun. revert t. induction Hrun as [s | s e s' es s'' Hs _ IH]; intros t Hok M Hr.
  - exists t. auto.
  - inversion Hok as [|? ? He Hes]; subst.
    destruct (current_simulates_old s s' e t Hs He M) as (t' & Hst & M').
    exact (IH t' Hes M' (reachable_star t t' Hst Hr)).
Qed.

(** Both loaders start the servers in related states. *)
Lemma old_init_matches (doc : OldRawConfig) (o : OldRuntimeConfig) :
  old_doc_okb doc = true -> old_doc_distinct doc = true -> old_loadRuntimeConfig dataDir doc = inr o ->
  exists cfg, loadRuntimeConfig (raw_config_view doc) = inr cfg /\ old_matches (old_init o) (init cfg []).
Proof.
  intros Hok Hdis Eo. pose proof (old_loader_refines dataDir doc Hok) as Href. rewrite Eo in Href.
  destruct (loadRuntimeConfig (raw_config_view doc)) as [e|cfg]; [contradiction|].
  destruct Href as (Htop & Hint & Hpoll). exists cfg. split; [reflexivity|].
  pose proof (old_load_pc_ok dataDir doc o Hok Hdis Eo).
  constructor; cbn; auto.
Qed.

(** C21: the current backend shows a client everything the earlier one
    showed: on a configuration document both loaders read alike (names,
    OIDs and positive capacities on every interface, distinct interface
    names and OIDs within a router), every run of the earlier server
    whose polls go to agents answering every OID and whose reloads read
    such documents is matched by a reachable state of the current server
    that has sent the same WebSocket messages to the same clients in the
    same order and answers [/api/metrics] and [/api/topology] alike. *)
Theorem old_server_refined (doc : OldRawConfig) (o : OldRuntimeConfig) (es : list OldEvent) (s : OldServer) :
  NoDup (map fst (oraw_routers doc)) -> old_doc_okb doc = true -> old_doc_distinct doc = true ->
  old_loadRuntimeConfig dataDir doc = inr o -> old_run dataDir (old_init o) es s -> Forall event_ok es ->
  exists t, reachable t /\ sv_sent t = osv_sent s /\ get_metrics t = old_get_metrics s /\
            get_topology t = old_get_topology s.
Proof.
  intros Hnd Hok Hdis Eo Hrun Hes.
  destruct (old_init_matches doc o Hok Hdis Eo) as (cfg & Ecfg & M0).
  assert (Hr0 : reachable (init cfg [])).
  { apply (reach_init (raw_config_view doc)); [| exact Ecfg | constructor].
    cbn [raw_config_view raw_routers]. rewrite map_map. exact Hnd. }
  destruct (current_simulates_old_run _ _ _ _ Hrun Hes M0 Hr0) as (t & Hr & M).
  exists t. split; [exact Hr|]. split; [exact (m_sent _ _ M)|].
  unfold get_metrics, old_get_metrics, get_topology, old_get_topology.
  rewrite (m_latest _ _ M), (m_topology _ _ M). split; reflexivity.
Qed.

End Simulation.

(** ** Examples *)

Definition ex_agents (_ : string) : list string -> SnmpResponse := answering ex_reading.

Definition ex_clock (_ : string) : Z := 1000%Z.

(** A first cycle through agents that answer every OID, then a client
    connecting. *)
Definition ex_events (o : OldRuntimeConfig) : list OldEvent :=
  [OPollDone ex_agents ex_clock (map_to_list (ort_routerPollConfig o)) "t"; OConnect 1].

Definition ex_after_events (o : OldRuntimeConfig) : OldServer :=
  let s0 := old_init o in
  let r := old_pollRouters ex_agents ex_clock (map_to_list (ort_routerPollConfig o)) (osv_cache s0) in
  old_on_connect (old_on_poll_done s0 r.1 r.2 "t") 1.

Lemma old_server_refined_witness :
  exists o s, NoDup (map fst (oraw_routers (ex_old_doc 1000))) /\ old_doc_okb (ex_old_doc 1000) = true /\
    old_doc_distinct (ex_old_doc 1000) = true /\ old_loadRuntimeConfig "/app/data" (ex_old_doc 1000) = inr o /\
    old_run "/app/data" (old_init o) (ex_events o) s /\ Forall event_ok (ex_events o) /\
    exists t, reachable t /\ sv_sent t = osv_sent s /\ get_metrics t = old_get_metrics s /\
              get_topology t = old_get_topology s.
Proof.
  destruct (old_loadRuntimeConfig "/app/data" (ex_old_doc 1000)) as [e|o] eqn:Eo; [vm_compute in Eo; discriminate|].
  assert (H1 : NoDup (map fst (oraw_routers (ex_old_doc 1000)))) by decide_by_compute.
  assert (H2 : old_doc_okb (ex_old_doc 1000) = true) by (vm_compute; reflexivity).
  assert (H3 : old_doc_distinct (ex_old_doc 1000) = true) by (vm_compute; reflexivity).
  assert (Hrun : old_run "/app/data" (old_init o) (ex_events o) (ex_after_events o)).
  { econstructor; [apply (ostep_poll_done _ (old_init o) (ort_routerPollConfig o)); [reflexivity | apply Permutation_refl]|].
    econstructor; [apply ostep_connect | constructor]. }
  assert (Hev : Forall event_ok (ex_events o)).
  { constructor; [exists (fun _ => ex_reading); intros k; reflexivity | constructor; [exact I | constructor]]. }
  exists o, (ex_after_events o). split; [exact H1|]. split; [exact H2|]. split; [exact H3|].
  split; [reflexivity|]. split; [exact Hrun|]. split; [exact Hev|].
  exact (old_server_refined "/app/data" (ex_old_doc 1000) o (ex_events o) (ex_after_events o) H1 H2 H3 Eo Hrun Hev).
Defined.
