(* ===== verification/OldFrontend.v ===== *)
(** * The earlier interactive frontend

    [src/src/frontend/main.ts] holds, after the current frontend (lines
    1-912), the version it replaced (lines 913-1772) and that version
    compiled to JavaScript (lines 1773-2491, generated code, not
    modelled).  Most of the earlier version is the current code to the
    character ([roundedRect], the colour scale, [drawPathStroke],
    [capacityToWidth], [drawRouter], the event handlers), and the
    definitions of [Frontend] and [Ui] stand for it.  What differs is
    modelled here:
    - [rebuildLinkCapacities] reads the configured [maxBandwidth] of the
      interfaces only, through [buildRouterMap];
    - [drawLink] strokes the whole path once, in the colour of the
      aggregate utilisation, without [save]/[restore], and puts the label
      at [getPathMidpoint], the middle vertex of the path;
    - [draw] passes the aggregate utilisation to [drawLink];
    - [renderHud] inserts the title, labels, interface names, error
      messages, numbers and times into its markup without escaping them
      ([old_renderHud_view], the counterpart of [Sidebar.renderHud_view]).

    The theorems: the earlier frontend sized every link exactly as the
    offline snapshot does; it draws a link as one stroke of the aggregate
    colour and leaves its stroke style on the canvas, where the spec asks
    for two halves coloured by direction; its link list carries a label's
    markup into the page verbatim; and on texts free of the five
    characters [escapeHtml] replaces ([plain], [topology_plain],
    [metrics_plain]) its panel is exactly the current one, so escaping is
    the only change between the two sidebars. *)

From Stdlib Require Import QArith Qreals Reals Lra Lia List String Ascii.
From stdpp Require Import base gmap strings.
From S2P Require Import Prelude Status Topology Geometry Fanout Canvas Scale Render Frontend Ui Hud Sidebar.
Import ListNotations.

Local Open Scope R_scope.

(** ** Link capacities *)

(** [routerMap.get(id)?.interfaces.find(iface => iface.name === name)?.maxBandwidth ?? null]. *)
Definition old_interface_capacity (routerMap : gmap string RouterDefinition) (routerId ifaceName : string)
    : option Q :=
  match routerMap !! routerId with
  | Some router =>
      match List.find (fun i => String.eqb (idef_name i) ifaceName) (rd_interfaces router) with
      | Some i => idef_maxBandwidth i
      | None => None
      end
  | None => None
  end.

(** [rebuildLinkCapacities] of the earlier version: the configured
    capacities of the two endpoints, the smaller positive one. *)
Definition old_rebuildLinkCapacities (topology : option TopologyDefinition)
    : option (gmap string (option Q) * option (Q * Q)) :=
  match topology with
  | None => None
  | Some t =>
      let routerMap := frontend_buildRouterMap (td_routers t) in
      let '(capacities, m) :=
        fold_left (fun '(capacities, m) link =>
                     let forwardCapacity := old_interface_capacity routerMap (ld_from link) (ld_ifaceFrom link) in
                     let reverseCapacity := old_interface_capacity routerMap (ld_to link) (ld_ifaceTo link) in
                     let capacity := min_of (positive_candidates [forwardCapacity; reverseCapacity]) in
                     (match capacity with
                      | Some c => if Qeq_bool c 0 then capacities else capacities ++ [c]
                      | None => capacities
                      end,
                      <[ld_id link := capacity]> m))
                  (td_links t) ([], ∅) in
      Some (m, capacity_range capacities)
  end.

(** ** Drawing *)

(** [getPathMidpoint]: the origin for an empty path, the middle of a
    segment, otherwise the vertex at index [floor(length / 2)]. *)
Definition getPathMidpoint (path : list Pt) : Pt :=
  match path with
  | [] => origin
  | [p0; p1] => {| x := (x p0 + x p1) / 2; y := (y p0 + y p1) / 2 |}
  | _ => nth (Nat.div (List.length path) 2) path origin
  end.

Section OldDrawing.
Variable measureText : string -> R.

(** [drawLink] of the earlier version: one stroke of the whole path in
    the colour of [utilization], the style set on the context itself. *)
Definition old_drawLink (capacityRange : option (Q * Q)) (path : list Pt) (utilization capacity : option Q)
    (label : option string) : list Cmd :=
  if Nat.ltb (List.length path) 2 then []
  else
    let color := frontend_utilToColor utilization in
    let width := frontend_capacityToWidth capacityRange capacity in
    [strokeStyle color; SetAttr (LineWidth width); SetAttr (LineCap "round"); SetAttr (LineJoin "round")] ++
    frontend_drawPathStroke path ++
    (if truthy_str label then
       let l := default "" label in
       let midpoint := getPathMidpoint path in
       let padding := 6 in
       let textWidth := measureText l in
       let boxWidth := textWidth + padding * 2 in
       let boxHeight := 18 in
       [Save; fillStyle "rgba(15, 23, 42, 0.85)"; strokeStyle "rgba(148, 163, 184, 0.7)";
        SetAttr (LineWidth 1); SetAttr (Font LABEL_FONT)] ++
       roundedRect (x midpoint - boxWidth / 2) (y midpoint - boxHeight / 2) boxWidth boxHeight 4 ++
       [Fill; Stroke; fillStyle "#e2e8f0";
        FillText l (x midpoint - textWidth / 2) (y midpoint + 4); Restore]
     else []).

(** The link loop of [draw] in the earlier version: the aggregate
    utilisation of the link's metrics, the label of the metrics or of the
    configuration. *)
Definition old_draw_links (u : Ui) (t : TopologyDefinition) : list Cmd :=
  let routerMap := frontend_buildRouterMap (td_routers t) in
  let linkMetricsMap : gmap string LinkMetrics :=
    match ui_metrics u with
    | Some m => fold_left (fun acc (l : LinkMetrics) => <[lm_id l := l]> acc) (mp_links m) ∅
    | None => ∅
    end in
  List.flat_map (fun link =>
    match routerMap !! ld_from link, routerMap !! ld_to link with
    | Some fromRouter, Some toRouter =>
        let metric : option LinkMetrics := linkMetricsMap !! ld_id link in
        let utilization := metric ≫= lm_aggregateUtilization in
        let label := match metric ≫= lm_label with Some l => Some l | None => ld_label link end in
        let capacity := default None (ui_linkCapacityMap u !! ld_id link) in
        let path := default [pt_of (rd_position fromRouter); pt_of (rd_position toRouter)]
                      (ui_linkPathMap u !! ld_id link) in
        old_drawLink (ui_capacityRange u) path utilization capacity label
    | _, _ => []
    end) (td_links t).

End OldDrawing.

(** ** The sidebar *)

Section OldHud.
Variable numberToString : Q -> string.

(** One item of the earlier link list: the label and the percentage
    inserted as they are. *)
Definition old_link_item (link : LinkMetrics) : string :=
  ("<li><span>" ++ (match lm_label link with Some l => l | None => lm_from link ++ " → " ++ lm_to link end) ++
   "</span><span class=" ++ quoted "metric" ++ ">" ++
   formatPercent numberToString (lm_aggregateUtilization link) ++ "</span></li>")%string.

Definition old_linkList (ranking : list LinkMetrics) : string :=
  match ranking with
  | [] => "<li>No link telemetry yet.</li>"%string
  | _ => String.concat "" (map old_link_item ranking)
  end.

(** The [router.interfaces.map] callback of the earlier [renderHud]:
    display name, rates and error inserted as they are. *)
Definition old_iface_row (toFixed : Q -> nat -> string) (routerMetrics : option RouterMetrics)
    (iface : InterfaceDefinition) : IfaceRow :=
  let ifaceMetrics := routerMetrics ≫= fun rm => rm_interfaces rm !! idef_name iface in
  let utilisation := iface_row_utilisation ifaceMetrics in
  {| row_label := default (idef_name iface) (idef_displayName iface);
     row_bar := renderUtilBar numberToString utilisation;
     row_up := formatThroughput toFixed (option_map im_outBps ifaceMetrics);
     row_down := formatThroughput toFixed (option_map im_inBps ifaceMetrics);
     row_error := if truthy_str (ifaceMetrics ≫= im_error) then default "" (ifaceMetrics ≫= im_error) else "" |}.

(** The [topology.routers.map] callback of the earlier [renderHud]. *)
Definition old_router_card (toFixed : Q -> nat -> string) (metrics : option MetricsPayload)
    (router : RouterDefinition) : RouterCard :=
  let routerMetrics := metrics ≫= fun m => mp_routers m !! rd_id router in
  let status := default error (rm_status <$> routerMetrics) in
  {| card_status := status_string status;
     card_label := rd_label router;
     card_statusLabel := capitalize (status_string status);
     card_rows := map (old_iface_row toFixed routerMetrics) (rd_interfaces router);
     card_error := if truthy_str (routerMetrics ≫= rm_error) then default "" (routerMetrics ≫= rm_error) else "" |}.

(** What the earlier [renderHud] writes into [hud]. *)
Definition old_renderHud_view (toFixed : Q -> nat -> string) (toLocaleTimeString : string -> string) (u : Ui)
    : HudContent :=
  match ui_topology u with
  | None => HudLoading
  | Some t =>
      HudShown {| hv_title := default "TS Weathermap" (td_title t);
                  hv_lastUpdated := match ui_metrics u with
                                    | Some m => toLocaleTimeString (mp_timestamp m)
                                    | None => "Waiting for data…"
                                    end;
                  hv_legend := map (fun b => (b_color b, b_label b)) frontend_UTILIZATION_BUCKETS;
                  hv_linkList := old_linkList (linkRanking (ui_metrics u));
                  hv_routerCards := map (old_router_card toFixed (ui_metrics u)) (td_routers t);
                  hv_layoutActive := ui_layoutMode u;
                  hv_layoutText := if ui_layoutMode u then "Exit Layout Mode" else "Layout Mode";
                  hv_sidebarText := sidebar_text (ui_sidebarVisible u);
                  hv_snippet := if ui_layoutMode u then Some (getLayoutSnippet (ui_topology u)) else None |}
  end.

End OldHud.

(** ** The earlier frontend and the offline renderer size links alike *)

Lemma positive_candidates_pos (values : list (option Q)) :
  List.Forall (fun c => (0 < c)%Q) (positive_candidates values).
Proof.
  induction values as [|[c|] values IH]; cbn [positive_candidates flat_map]; [constructor| |exact IH].
  destruct (Qltb 0 c) eqn:E; [|exact IH]. apply Qltb_iff in E. constructor; assumption.
Qed.

(** The smallest of positive capacities is positive. *)
Lemma min_of_positive (values : list (option Q)) (c : Q) :
  min_of (positive_candidates values) = Some c -> (0 < c)%Q.
Proof.
  pose proof (positive_candidates_pos values) as Hall.
  destruct (positive_candidates values) as [|c0 cs]; [discriminate|]. cbn [min_of].
  intros [= <-]. apply List.Forall_cons_iff in Hall as [H0 Hcs].
  revert c0 H0. induction cs as [|c1 cs IH]; intros c0 H0; [exact H0|].
  apply List.Forall_cons_iff in Hcs as [H1 Hcs]. cbn [fold_left]. apply IH; [exact Hcs|].
  unfold Scale.jsmin. destruct (Qle_bool c0 c1); assumption.
Qed.

Lemma old_interface_capacity_eq (routerMap : gmap string RouterDefinition) (routerId ifaceName : string) :
  old_interface_capacity routerMap routerId ifaceName = getInterfaceCapacity (routerMap !! routerId) ifaceName.
Proof. unfold old_interface_capacity, getInterfaceCapacity. destruct (routerMap !! routerId); reflexivity. Qed.

(** C34: the earlier frontend's [rebuildLinkCapacities] computes, for every
    topology, the capacity map of the offline renderer's
    [computeLinkCapacities] and the range of its capacities: its
    [if (capacity)] test drops nothing, a smallest positive capacity being
    positive.  The earlier frontend and the snapshot drew every link at
    the same width. *)
Theorem old_capacities_like_offline (t : TopologyDefinition) :
  old_rebuildLinkCapacities (Some t) =
    let '(capacities, offline) := computeLinkCapacities (td_routers t) (td_links t) in
    Some (offline, capacity_range capacities).
Proof.
  unfold old_rebuildLinkCapacities, computeLinkCapacities.
  change (frontend_buildRouterMap (td_routers t)) with (buildRouterMap (td_routers t)).
  erewrite fold_left_ext; [reflexivity|].
  intros [caps m] link. cbv beta iota. rewrite !old_interface_capacity_eq.
  unfold link_capacity. destruct (min_of _) as [c|] eqn:E; [|reflexivity].
  apply min_of_positive in E. destruct (Qeq_bool c 0) eqn:Z; [|reflexivity].
  apply Qeq_bool_eq in Z. exfalso. rewrite Z in E. discriminate.
Qed.

(** ** The earlier frontend draws a link as one stroke *)

(** C35: the earlier [drawLink] draws a link of two or more points without
    a label as exactly one stroke of the whole path, from its first point
    to its last, in the colour of the utilisation it is given (the
    aggregate, in [draw]) and at the width of its capacity; it sets that
    style on the context without [save]/[restore], so the style stays on
    the canvas after the link.  The offline renderer and the current
    frontend draw two halves coloured by direction and restore the state
    ([drawLink_two_halves]). *)
Theorem old_drawLink_one_stroke measureText (range : option (Q * Q)) (pts : list Pt)
    (utilization capacity : option Q) (c : Canvas) :
  (2 <= List.length pts)%nat ->
  let st := half_style (utilToColor utilization) (capacityToWidth capacity range) (cv_state c) in
  exists segs,
    run (old_drawLink measureText range pts utilization capacity None) c =
      {| cv_state := st; cv_stack := cv_stack c; cv_path := segs;
         cv_marks := cv_marks c ++ [MStroke st segs] |} /\
    hd SClose segs = SMove (x (hd origin pts)) (y (hd origin pts)) /\
    List.last segs SClose = SLine (x (List.last pts origin)) (y (List.last pts origin)).
Proof.
  intros Hlen. cbv zeta. unfold old_drawLink.
  destruct (Nat.ltb_spec (List.length pts) 2) as [Hlt|_]; [lia|].
  rewrite app_nil_r, frontend_utilToColor_eq, run_app.
  change (frontend_capacityToWidth range capacity) with (capacityToWidth capacity range).
  destruct (run_drawPathStroke pts (run [strokeStyle (utilToColor utilization);
      SetAttr (LineWidth (capacityToWidth capacity range)); SetAttr (LineCap "round");
      SetAttr (LineJoin "round")] c) Hlen) as (segs & E & H1 & H2).
  exists segs. split; [|split; assumption].
  change (frontend_drawPathStroke pts) with (drawPathStroke pts). rewrite E. destruct c. reflexivity.
Qed.

Lemma old_drawLink_one_stroke_witness :
  (2 <= List.length [origin; {| x := 4; y := 0 |}])%nat /\
  let st := half_style (utilToColor (Some 1%Q)) (capacityToWidth None None) (cv_state fresh_canvas) in
  exists segs,
    run (old_drawLink (fun _ => 0) None [origin; {| x := 4; y := 0 |}] (Some 1%Q) None None) fresh_canvas =
      {| cv_state := st; cv_stack := cv_stack fresh_canvas; cv_path := segs;
         cv_marks := cv_marks fresh_canvas ++ [MStroke st segs] |} /\
    hd SClose segs = SMove (x (hd origin [origin; {| x := 4; y := 0 |}])) (y (hd origin [origin; {| x := 4; y := 0 |}])) /\
    List.last segs SClose =
      SLine (x (List.last [origin; {| x := 4; y := 0 |}] origin)) (y (List.last [origin; {| x := 4; y := 0 |}] origin)).
Proof.
  assert (H : (2 <= List.length [origin; {| x := 4; y := 0 |}])%nat) by (simpl; lia).
  split; [exact H | exact (old_drawLink_one_stroke (fun _ => 0) None _ (Some 1%Q) None fresh_canvas H)].
Defined.

(** ** The earlier sidebar does not escape labels *)

(** The earlier link list puts a link's label into the markup as it is;
    the current one puts its escaped form, which holds no [<], [>] or
    quote ([escapeHtml_safe]). *)
Lemma old_link_item_raw (numberToString : Q -> string) (link : LinkMetrics) (label : string) :
  lm_label link = Some label ->
  (exists rest, old_link_item numberToString link = ("<li><span>" ++ label ++ rest)%string) /\
  (exists rest, link_item numberToString link = ("<li><span>" ++ escapeHtml label ++ rest)%string).
Proof. intros E. unfold old_link_item, link_item. rewrite E. split; eexists; reflexivity. Qed.

(** ** Escaping is the only change of the sidebar *)

(** A string [escapeHtml] leaves alone: none of its five characters. *)
Definition plain (s : string) : bool :=
  forallb (fun c => negb (html_special c || Ascii.eqb c "&"%char)) (list_ascii_of_string s).

Definition plain_opt (o : option string) : bool := match o with Some s => plain s | None => true end.

(** The configured texts the sidebar shows are plain. *)
Definition topology_plain (t : TopologyDefinition) : bool :=
  plain_opt (td_title t) &&
  forallb (fun r => plain (rd_label r) &&
                    forallb (fun i => plain (idef_name i) && plain_opt (idef_displayName i)) (rd_interfaces r))
          (td_routers t).

(** The texts of the metrics the sidebar shows are plain. *)
Definition metrics_plain (m : MetricsPayload) : bool :=
  forallb (fun l => plain_opt (lm_label l) && plain (lm_from l) && plain (lm_to l)) (mp_links m) &&
  forallb (fun e => plain_opt (rm_error e.2) &&
                    forallb (fun f => plain_opt (im_error f.2)) (map_to_list (rm_interfaces e.2)))
          (map_to_list (mp_routers m)).

Lemma escapeHtml_plain (s : string) : plain s = true -> escapeHtml s = s.
Proof.
  unfold plain. induction s as [|c s IH]; [reflexivity|]. cbn [list_ascii_of_string forallb escapeHtml].
  intros H. apply andb_prop in H as [Hc Hs]. rewrite (IH Hs).
  destruct (escape_char_cases c) as [[-> _]|[[-> _]|[[-> _]|[[-> _]|[[-> _]|(_ & _ & ->)]]]]];
    try discriminate; reflexivity.
Qed.

Lemma plain_app (a b : string) : plain a = true -> plain b = true -> plain (a ++ b) = true.
Proof. unfold plain. rewrite list_ascii_of_string_app, forallb_app. intros -> ->. reflexivity. Qed.

Section PlainPrinting.
Context (numberToString : Q -> string) (toFixed : Q -> nat -> string) (toLocaleTimeString : string -> string).
Hypothesis number_plain : forall q, plain (numberToString q) = true.
Hypothesis fixed_plain : forall q d, plain (toFixed q d) = true.

Lemma formatPercent_plain (v : option Q) : plain (formatPercent numberToString v) = true.
Proof. destruct v; [apply plain_app; [apply number_plain | reflexivity] | reflexivity]. Qed.

Lemma units_plain (i : nat) : plain (nth i units "") = true.
Proof. do 5 (destruct i as [|i]; [reflexivity|]). destruct i; reflexivity. Qed.

Lemma formatThroughput_plain (bps : option Q) : plain (formatThroughput toFixed bps) = true.
Proof.
  unfold formatThroughput. destruct bps as [b|]; [|reflexivity].
  destruct (Qle_bool b 0); [reflexivity|]. destruct (scale_down _ _ _) as [v i].
  apply plain_app; [apply fixed_plain|]. apply plain_app; [reflexivity | apply units_plain].
Qed.

Lemma error_text_plain (e : option string) :
  plain_opt e = true -> error_text e = (if truthy_str e then default "" e else "").
Proof.
  unfold error_text. destruct e as [s|]; [|reflexivity]. cbn. intros H.
  rewrite escapeHtml_plain by exact H. reflexivity.
Qed.

Lemma link_item_plain (l : LinkMetrics) :
  plain_opt (lm_label l) && plain (lm_from l) && plain (lm_to l) = true ->
  old_link_item numberToString l = link_item numberToString l.
Proof.
  intros H. apply andb_prop in H as [H Hto]. apply andb_prop in H as [Hl Hfrom].
  unfold old_link_item, link_item. cbv zeta.
  rewrite (escapeHtml_plain (formatPercent _ _)) by apply formatPercent_plain.
  destruct (lm_label l) as [s|]; cbn in Hl.
  - rewrite escapeHtml_plain by exact Hl. reflexivity.
  - rewrite escapeHtml_plain; [reflexivity|].
    apply plain_app; [exact Hfrom | apply plain_app; [reflexivity | exact Hto]].
Qed.

Lemma iface_row_plain (rm : option RouterMetrics) (i : InterfaceDefinition) :
  plain (idef_name i) && plain_opt (idef_displayName i) = true ->
  (forall e, (rm ≫= fun r => rm_interfaces r !! idef_name i) ≫= im_error = Some e -> plain e = true) ->
  old_iface_row numberToString toFixed rm i = iface_row numberToString toFixed rm i.
Proof.
  intros Hi He. apply andb_prop in Hi as [Hn Hd]. unfold old_iface_row, iface_row, iface_row_metrics. cbn.
  rewrite !(escapeHtml_plain (formatThroughput _ _)) by apply formatThroughput_plain.
  rewrite error_text_plain.
  - rewrite escapeHtml_plain; [reflexivity|]. destruct (idef_displayName i); [exact Hd | exact Hn].
  - destruct (_ ≫= im_error) as [e|]; [apply He; reflexivity | reflexivity].
Qed.

Lemma router_card_plain (metrics : option MetricsPayload) (r : RouterDefinition) :
  plain (rd_label r) && forallb (fun i => plain (idef_name i) && plain_opt (idef_displayName i)) (rd_interfaces r)
    = true ->
  (forall m rm, metrics = Some m -> mp_routers m !! rd_id r = Some rm ->
     plain_opt (rm_error rm) && forallb (fun f => plain_opt (im_error f.2)) (map_to_list (rm_interfaces rm)) = true) ->
  old_router_card numberToString toFixed metrics r = router_card numberToString toFixed metrics r.
Proof.
  intros Hr Hm. apply andb_prop in Hr as [Hl Hifs]. rewrite forallb_forall in Hifs.
  unfold old_router_card, router_card. cbv zeta.
  set (routerMetrics := metrics ≫= fun m => mp_routers m !! rd_id r).
  assert (Hrm : forall rm, routerMetrics = Some rm ->
            plain_opt (rm_error rm) && forallb (fun f => plain_opt (im_error f.2)) (map_to_list (rm_interfaces rm))
              = true).
  { intros rm E. unfold routerMetrics in E. destruct metrics as [m|]; [|discriminate].
    exact (Hm m rm eq_refl E). }
  rewrite escapeHtml_plain by exact Hl.
  rewrite error_text_plain.
  2: { destruct routerMetrics as [rm|]; [|reflexivity]. cbn.
       pose proof (Hrm rm eq_refl) as Hx. apply andb_prop in Hx as [H _]. exact H. }
  f_equal.
  - destruct (default error _); reflexivity.
  - apply map_ext_in. intros i Hi. apply iface_row_plain; [apply Hifs, Hi|].
    intros e He. destruct routerMetrics as [rm|]; [|discriminate]. cbn in He.
    destruct (rm_interfaces rm !! idef_name i) as [im|] eqn:Ei; [|discriminate]. cbn in He.
    pose proof (Hrm rm eq_refl) as Hx. apply andb_prop in Hx as [_ Hf]. rewrite forallb_forall in Hf.
    assert (Hin : In (idef_name i, im) (map_to_list (rm_interfaces rm))).
    { apply list_elem_of_In, elem_of_map_to_list, Ei. }
    specialize (Hf _ Hin). cbn in Hf. rewrite He in Hf. exact Hf.
Qed.

End PlainPrinting.

Lemma linkRanking_in (m : MetricsPayload) (l : LinkMetrics) : In l (linkRanking (Some m)) -> In l (mp_links m).
Proof.
  intros H. apply (Permutation_in _ (sort_desc_perm aggregate_or_zero (mp_links m))).
  rewrite <- (firstn_skipn 5 (sort_desc aggregate_or_zero (mp_links m))). apply in_or_app. left. exact H.
Qed.

(** C36: on a configuration and metrics whose texts hold none of the five
    characters [escapeHtml] replaces, and with number and time printing
    that produce none of them either, the earlier [renderHud] shows
    exactly the panel of the current one: escaping every interpolated
    text is the only change between the two versions of the sidebar. *)
Theorem old_panel_differs_only_by_escaping (numberToString : Q -> string) (toFixed : Q -> nat -> string)
    (toLocaleTimeString : string -> string) (u : Ui) :
  (forall q, plain (numberToString q) = true) -> (forall q d, plain (toFixed q d) = true) ->
  (forall ts, plain (toLocaleTimeString ts) = true) ->
  (forall t, ui_topology u = Some t -> topology_plain t = true) ->
  (forall m, ui_metrics u = Some m -> metrics_plain m = true) ->
  old_renderHud_view numberToString toFixed toLocaleTimeString u =
    renderHud_view numberToString toFixed toLocaleTimeString u.
Proof.
  intros Hn Hf Hts Ht Hm. unfold old_renderHud_view, renderHud_view.
  destruct (ui_topology u) as [t|] eqn:T; [|reflexivity].
  specialize (Ht t eq_refl). unfold topology_plain in Ht. apply andb_prop in Ht as [Htitle Hrouters].
  rewrite forallb_forall in Hrouters.
  assert (Hcards : forall r, In r (td_routers t) ->
            old_router_card numberToString toFixed (ui_metrics u) r = router_card numberToString toFixed (ui_metrics u) r).
  { intros r Hr. apply router_card_plain; try assumption; [apply Hrouters, Hr|].
    intros m rm E Hrm. specialize (Hm m E). unfold metrics_plain in Hm.
    apply andb_prop in Hm as [_ Hm]. rewrite forallb_forall in Hm.
    apply (Hm (rd_id r, rm)), list_elem_of_In, elem_of_map_to_list, Hrm. }
  f_equal. f_equal.
  - rewrite escapeHtml_plain; [reflexivity|]. destruct (td_title t); [exact Htitle | reflexivity].
  - destruct (ui_metrics u); rewrite escapeHtml_plain; auto.
  - unfold old_linkList, linkList. destruct (linkRanking (ui_metrics u)) as [|l0 ls] eqn:R; [reflexivity|].
    f_equal. apply map_ext_in. intros l Hl. apply link_item_plain; try assumption.
    destruct (ui_metrics u) as [m|]; [|discriminate]. specialize (Hm m eq_refl).
    apply andb_prop in Hm as [Hm _]. rewrite forallb_forall in Hm. apply Hm, linkRanking_in.
    rewrite R. exact Hl.
  - apply map_ext_in, Hcards.
Qed.

Definition ex_plain_router : RouterDefinition :=
  {| rd_id := "r1"; rd_label := "Core"; rd_position := {| px := 0; py := 0 |};
     rd_interfaces := [{| idef_name := "eth0"; idef_displayName := None; idef_maxBandwidth := Some 1000%Q;
                          idef_speedOid := None; idef_speedScale := None |}] |}.

Definition ex_plain_ui : Ui :=
  set_model (ui_init 800 600 1) (Some {| td_title := Some "Backbone"; td_backgroundImage := "/background.png";
                                         td_mapSize := None; td_pollIntervalMs := 5000%Q;
                                         td_routers := [ex_plain_router]; td_links := [] |}) None.

Lemma old_panel_differs_only_by_escaping_witness :
  (forall q : Q, plain "1" = true) /\ (forall (q : Q) (d : nat), plain "1" = true) /\
  (forall ts : string, plain "12:00" = true) /\
  (forall t, ui_topology ex_plain_ui = Some t -> topology_plain t = true) /\
  (forall m, ui_metrics ex_plain_ui = Some m -> metrics_plain m = true) /\
  old_renderHud_view (fun _ => "1") (fun _ _ => "1") (fun _ => "12:00") ex_plain_ui =
    renderHud_view (fun _ => "1") (fun _ _ => "1") (fun _ => "12:00") ex_plain_ui.
Proof.
  assert (H1 : forall q : Q, plain "1" = true) by reflexivity.
  assert (H2 : forall (q : Q) (d : nat), plain "1" = true) by reflexivity.
  assert (H3 : forall ts : string, plain "12:00" = true) by reflexivity.
  assert (H4 : forall t, ui_topology ex_plain_ui = Some t -> topology_plain t = true)
    by (intros t E; injection E as <-; reflexivity).
  assert (H5 : forall m, ui_metrics ex_plain_ui = Some m -> metrics_plain m = true) by discriminate.
  split; [exact H1|]. split; [exact H2|]. split; [exact H3|]. split; [exact H4|]. split; [exact H5|].
  exact (old_panel_differs_only_by_escaping _ _ _ ex_plain_ui H1 H2 H3 H4 H5).
Defined.
